(** * DWH: event-ingestion pipeline and query layer of the marketplace
      data warehouse ([package dwh]).

    A shallow embedding of the projection engine (event handlers, event
    dispatcher, worker loop) and of the query service (filter construction
    for [GetOrders], [GetMatchingOrders], [GetWorkers], [GetDealConditions]),
    followed by the properties established about them.

    Conventions.
    - [big.Int], [uint64], [int64] columns are integers in [Z]; the one place
      where the code does machine arithmetic ([updateProfileStats]) has its
      wrap-around written out.
    - An Ethereum address is a number; [Hex()] is an injective rendering of
      it, so equality of hex strings is equality of the numbers and
      [IsZero()] is comparison with [0].
    - A Go [error] is its message ([err.Error()]); a function returning
      [error] returns [Ok tt] for [nil].
    - The relational store is a record of tables, each a list of rows in
      insertion order; a transaction is a working copy of the store that is
      installed on commit and discarded on rollback. *)

From Stdlib Require Import ZArith List String Ascii Bool Lia.
From Stdlib Require Import DecimalString Sorting.Sorted.
Import ListNotations.

Local Open Scope string_scope.
Local Open Scope list_scope.
Local Open Scope Z_scope.

Set Implicit Arguments.

(* ------------------------------------------------------------------------- *)
(** ** Errors *)

Definition error := string.

(** What a call comes back with: a value, an error, or a run-time panic
    (an index out of range), which unwinds through every caller. *)
Inductive Result (A : Type) : Type :=
| Ok (a : A)
| Err (e : error)
| Panic (msg : string).

Arguments Ok {A} a.
Arguments Err {A} e.
Arguments Panic {A} msg.

Definition bind {A B : Type} (r : Result A) (k : A -> Result B) : Result B :=
  match r with
  | Ok a => k a
  | Err e => Err e
  | Panic m => Panic m
  end.

Notation "x <- c1 ;; c2" := (bind c1 (fun x => c2))
  (at level 61, c1 at next level, right associativity).

(** [errors.Wrap(err, msg)] and [errors.Wrapf]: the message is prefixed. *)
Definition Wrap (e : error) (msg : string) : error :=
  (msg ++ ": " ++ e)%string.

(** [if err != nil { rollback; return errors.Wrap(err, msg) }]. *)
Definition wrapErr {A : Type} (msg : string) (r : Result A) : Result A :=
  match r with
  | Ok a => Ok a
  | Err e => Err (Wrap e msg)
  | Panic m => Panic m
  end.

(** [status.Error(code, msg).Error()]. *)
Definition statusError (code msg : string) : error :=
  ("rpc error: code = " ++ code ++ " desc = " ++ msg)%string.

(** [strings.Contains(s, substr)]. *)
Fixpoint Contains (s substr : string) : bool :=
  if String.prefix substr s then true
  else match s with
       | EmptyString => false
       | String _ rest => Contains rest substr
       end.

Definition Z_to_string (z : Z) : string := NilZero.string_of_int (Z.to_int z).

(** The rendering of an address in a message. *)
Definition Hex (a : Z) : string := ("0x" ++ Z_to_string a)%string.

(* ------------------------------------------------------------------------- *)
(** ** Domain entities (the protobuf messages the package works with) *)

Definition Address := Z.

(** Modelled from the spec: the enumerations of the protobuf package,
    which is not at hand.  Each has an unset member. *)
Inductive OrderType := OrderType_ANY | OrderType_BID | OrderType_ASK.
Inductive OrderStatus :=
| OrderStatus_ORDER_UNKNOWN
| OrderStatus_ORDER_INACTIVE
| OrderStatus_ORDER_ACTIVE.
Inductive DealStatus :=
| DealStatus_DEAL_UNKNOWN
| DealStatus_DEAL_ACCEPTED
| DealStatus_DEAL_CLOSED.
Inductive ChangeRequestStatus :=
| ChangeRequestStatus_REQUEST_UNKNOWN
| ChangeRequestStatus_REQUEST_CREATED
| ChangeRequestStatus_REQUEST_CANCELED
| ChangeRequestStatus_REQUEST_REJECTED
| ChangeRequestStatus_REQUEST_ACCEPTED.
Inductive SortingOrder := SortingOrder_Asc | SortingOrder_Desc.
Inductive CmpOp := CmpOp_EQ | CmpOp_GTE | CmpOp_LTE.

Scheme Equality for OrderType.
Scheme Equality for OrderStatus.
Scheme Equality for DealStatus.
Scheme Equality for ChangeRequestStatus.

(** Modelled from the spec: the wire values of the enumerations, as
    they are written to integer columns.  The unset member is zero, which is
    what the [> 0] tests of the request builders rely on; the properties use
    only that the values are distinct. *)
Definition OrderType_value (t : OrderType) : Z :=
  match t with OrderType_ANY => 0 | OrderType_BID => 1 | OrderType_ASK => 2 end.

Definition OrderStatus_value (s : OrderStatus) : Z :=
  match s with
  | OrderStatus_ORDER_UNKNOWN => 0
  | OrderStatus_ORDER_INACTIVE => 1
  | OrderStatus_ORDER_ACTIVE => 2
  end.

Definition DealStatus_value (s : DealStatus) : Z :=
  match s with
  | DealStatus_DEAL_UNKNOWN => 0
  | DealStatus_DEAL_ACCEPTED => 1
  | DealStatus_DEAL_CLOSED => 2
  end.

Definition ChangeRequestStatus_value (s : ChangeRequestStatus) : Z :=
  match s with
  | ChangeRequestStatus_REQUEST_UNKNOWN => 0
  | ChangeRequestStatus_REQUEST_CREATED => 1
  | ChangeRequestStatus_REQUEST_CANCELED => 2
  | ChangeRequestStatus_REQUEST_REJECTED => 3
  | ChangeRequestStatus_REQUEST_ACCEPTED => 4
  end.

(** Modelled from the spec: [pb.Certificate] (the protobuf package is not at
    hand).  The certificates blob of a profile, an order or a deal is a JSON
    array of certificates; it is carried decoded, as the list it encodes. *)
Record Certificate := {
  Certificate_OwnerID : Address;
  Certificate_Attribute : Z;
  Certificate_IdentityLevel : Z;
  Certificate_Value : string;
  Certificate_ValidatorID : Address
}.

(** Modelled from the spec: [pb.Order] (the protobuf package is not at hand),
    with the fields the handlers and [decodeOrder] use. *)
Record Order := {
  Order_Id : Z;
  Order_DealID : Z;                 (* nil and 0 both read as "unassigned" *)
  Order_OrderType : OrderType;
  Order_OrderStatus : OrderStatus;
  Order_AuthorID : Address;
  Order_CounterpartyID : Address;
  Order_Duration : Z;
  Order_Price : Z;
  Order_Netflags : Z;
  Order_IdentityLevel : Z;
  Order_Blacklist : string;
  Order_Tag : string;
  Order_FrozenSum : Z;
  Order_Benchmarks : list Z
}.

(** Modelled from the spec: [pb.DWHOrder] (the protobuf package is not at
    hand): a row of [Orders], which is also what [decodeOrder] hands back. *)
Record DWHOrder := {
  DWHOrder_Order : Order;
  DWHOrder_CreatedTS : Z;
  DWHOrder_CreatorIdentityLevel : Z;
  DWHOrder_CreatorName : string;
  DWHOrder_CreatorCountry : string;
  DWHOrder_CreatorCertificates : list Certificate
}.

(** Modelled from the spec: [pb.Deal] (the protobuf package is not at hand),
    with the fields the handlers and [decodeDeal] use. *)
Record Deal := {
  Deal_Id : Z;
  Deal_SupplierID : Address;
  Deal_ConsumerID : Address;
  Deal_MasterID : Address;
  Deal_AskID : Z;
  Deal_BidID : Z;
  Deal_Duration : Z;
  Deal_Price : Z;
  Deal_StartTime : Z;
  Deal_EndTime : Z;
  Deal_Status : DealStatus;
  Deal_BlockedBalance : Z;
  Deal_TotalPayout : Z;
  Deal_LastBillTS : Z;
  Deal_Benchmarks : list Z
}.

(** Modelled from the spec: [pb.DWHDeal] (the protobuf package is not at
    hand): a row of [Deals], which is also what [decodeDeal] hands back. *)
Record DWHDeal := {
  DWHDeal_Deal : Deal;
  DWHDeal_Netflags : Z;
  DWHDeal_AskIdentityLevel : Z;
  DWHDeal_BidIdentityLevel : Z;
  DWHDeal_SupplierCertificates : list Certificate;
  DWHDeal_ConsumerCertificates : list Certificate;
  DWHDeal_ActiveChangeRequest : bool
}.

(** Modelled from the spec: [pb.DealCondition] (the protobuf package is not at
    hand): a row of [DealConditions], as [decodeDealCondition] scans it. *)
Record DealCondition := {
  DealCondition_Id : Z;
  DealCondition_SupplierID : Address;
  DealCondition_ConsumerID : Address;
  DealCondition_MasterID : Address;
  DealCondition_Duration : Z;
  DealCondition_Price : Z;
  DealCondition_StartTime : Z;
  DealCondition_EndTime : Z;
  DealCondition_TotalPayout : Z;
  DealCondition_DealID : Z
}.

(** Modelled from the spec: [pb.DealChangeRequest] (the protobuf package is
    not at hand), with the creation timestamp the row carries. *)
Record DealChangeRequest := {
  DealChangeRequest_Id : Z;
  DealChangeRequest_CreatedTS : Z;
  DealChangeRequest_RequestType : OrderType;
  DealChangeRequest_Duration : Z;
  DealChangeRequest_Price : Z;
  DealChangeRequest_Status : ChangeRequestStatus;
  DealChangeRequest_DealID : Z
}.

(** Modelled from the spec: a row of [DealPayments(eventTS, amount,
    dealID)]. *)
Record DealPayment := {
  DealPayment_BillTS : Z;
  DealPayment_PaidAmount : Z;
  DealPayment_DealID : Z
}.

(** Modelled from the spec: [pb.Profile] (the protobuf package is not at
    hand): a row of [Profiles], as [decodeProfile] hands it back. *)
Record Profile := {
  Profile_UserID : Address;
  Profile_IdentityLevel : Z;
  Profile_Name : string;
  Profile_Country : string;
  Profile_IsCorporation : bool;
  Profile_IsProfessional : bool;
  Profile_Certificates : list Certificate;
  Profile_ActiveAsks : Z;
  Profile_ActiveBids : Z
}.

(** Modelled from the spec: [pb.Validator] (the protobuf package is not at
    hand). *)
Record Validator := {
  Validator_Id : Address;
  Validator_Level : Z
}.

(** Modelled from the spec: [pb.DWHWorker] (the protobuf package is not at
    hand): a row of [Workers], as [decodeWorker] scans it. *)
Record DWHWorker := {
  DWHWorker_MasterID : Address;
  DWHWorker_SlaveID : Address;
  DWHWorker_Confirmed : bool
}.

(** Modelled from the spec: a row of [Blacklists], keyed by (adderID,
    addeeID). *)
Record BlacklistEntry := {
  Blacklist_AdderID : Address;
  Blacklist_AddeeID : Address
}.

(* ------------------------------------------------------------------------- *)
(** ** The relational store *)

(** Modelled from the spec: the schema is created by the backend adapter,
    which is not at hand.  There is a table per entity, a [LastKnownBlock]
    singleton and [DealPayments(eventTS, amount, dealID)]; [DealConditions]
    has a synthetic auto-incremented id.  [closed] records that [db.Close()]
    was called ([Stop]); every later statement fails. *)
Record Store := {
  closed : bool;
  Deals : list DWHDeal;
  Orders : list DWHOrder;
  DealConditions : list DealCondition;
  lastDealConditionID : Z;
  DealChangeRequests : list DealChangeRequest;
  DealPayments : list DealPayment;
  Profiles : list Profile;
  Certificates : list Certificate;
  Validators : list Validator;
  Workers : list DWHWorker;
  Blacklists : list BlacklistEntry;
  LastKnownBlock : list Z
}.

Definition emptyStore : Store :=
  {| closed := false; Deals := []; Orders := []; DealConditions := [];
     lastDealConditionID := 0; DealChangeRequests := []; DealPayments := [];
     Profiles := []; Certificates := []; Validators := []; Workers := [];
     Blacklists := []; LastKnownBlock := [] |}.

Definition set_closed (b : bool) (s : Store) : Store :=
  {| closed := b; Deals := Deals s; Orders := Orders s;
     DealConditions := DealConditions s;
     lastDealConditionID := lastDealConditionID s;
     DealChangeRequests := DealChangeRequests s;
     DealPayments := DealPayments s; Profiles := Profiles s;
     Certificates := Certificates s; Validators := Validators s;
     Workers := Workers s; Blacklists := Blacklists s;
     LastKnownBlock := LastKnownBlock s |}.

Definition set_Deals (v : list DWHDeal) (s : Store) : Store :=
  {| closed := closed s; Deals := v; Orders := Orders s;
     DealConditions := DealConditions s;
     lastDealConditionID := lastDealConditionID s;
     DealChangeRequests := DealChangeRequests s;
     DealPayments := DealPayments s; Profiles := Profiles s;
     Certificates := Certificates s; Validators := Validators s;
     Workers := Workers s; Blacklists := Blacklists s;
     LastKnownBlock := LastKnownBlock s |}.

Definition set_Orders (v : list DWHOrder) (s : Store) : Store :=
  {| closed := closed s; Deals := Deals s; Orders := v;
     DealConditions := DealConditions s;
     lastDealConditionID := lastDealConditionID s;
     DealChangeRequests := DealChangeRequests s;
     DealPayments := DealPayments s; Profiles := Profiles s;
     Certificates := Certificates s; Validators := Validators s;
     Workers := Workers s; Blacklists := Blacklists s;
     LastKnownBlock := LastKnownBlock s |}.

Definition set_DealConditions (v : list DealCondition) (next : Z) (s : Store)
    : Store :=
  {| closed := closed s; Deals := Deals s; Orders := Orders s;
     DealConditions := v; lastDealConditionID := next;
     DealChangeRequests := DealChangeRequests s;
     DealPayments := DealPayments s; Profiles := Profiles s;
     Certificates := Certificates s; Validators := Validators s;
     Workers := Workers s; Blacklists := Blacklists s;
     LastKnownBlock := LastKnownBlock s |}.

Definition set_DealChangeRequests (v : list DealChangeRequest) (s : Store)
    : Store :=
  {| closed := closed s; Deals := Deals s; Orders := Orders s;
     DealConditions := DealConditions s;
     lastDealConditionID := lastDealConditionID s;
     DealChangeRequests := v;
     DealPayments := DealPayments s; Profiles := Profiles s;
     Certificates := Certificates s; Validators := Validators s;
     Workers := Workers s; Blacklists := Blacklists s;
     LastKnownBlock := LastKnownBlock s |}.

Definition set_DealPayments (v : list DealPayment) (s : Store) : Store :=
  {| closed := closed s; Deals := Deals s; Orders := Orders s;
     DealConditions := DealConditions s;
     lastDealConditionID := lastDealConditionID s;
     DealChangeRequests := DealChangeRequests s;
     DealPayments := v; Profiles := Profiles s;
     Certificates := Certificates s; Validators := Validators s;
     Workers := Workers s; Blacklists := Blacklists s;
     LastKnownBlock := LastKnownBlock s |}.

Definition set_Profiles (v : list Profile) (s : Store) : Store :=
  {| closed := closed s; Deals := Deals s; Orders := Orders s;
     DealConditions := DealConditions s;
     lastDealConditionID := lastDealConditionID s;
     DealChangeRequests := DealChangeRequests s;
     DealPayments := DealPayments s; Profiles := v;
     Certificates := Certificates s; Validators := Validators s;
     Workers := Workers s; Blacklists := Blacklists s;
     LastKnownBlock := LastKnownBlock s |}.

Definition set_Certificates (v : list Certificate) (s : Store) : Store :=
  {| closed := closed s; Deals := Deals s; Orders := Orders s;
     DealConditions := DealConditions s;
     lastDealConditionID := lastDealConditionID s;
     DealChangeRequests := DealChangeRequests s;
     DealPayments := DealPayments s; Profiles := Profiles s;
     Certificates := v; Validators := Validators s;
     Workers := Workers s; Blacklists := Blacklists s;
     LastKnownBlock := LastKnownBlock s |}.

Definition set_Validators (v : list Validator) (s : Store) : Store :=
  {| closed := closed s; Deals := Deals s; Orders := Orders s;
     DealConditions := DealConditions s;
     lastDealConditionID := lastDealConditionID s;
     DealChangeRequests := DealChangeRequests s;
     DealPayments := DealPayments s; Profiles := Profiles s;
     Certificates := Certificates s; Validators := v;
     Workers := Workers s; Blacklists := Blacklists s;
     LastKnownBlock := LastKnownBlock s |}.

Definition set_Workers (v : list DWHWorker) (s : Store) : Store :=
  {| closed := closed s; Deals := Deals s; Orders := Orders s;
     DealConditions := DealConditions s;
     lastDealConditionID := lastDealConditionID s;
     DealChangeRequests := DealChangeRequests s;
     DealPayments := DealPayments s; Profiles := Profiles s;
     Certificates := Certificates s; Validators := Validators s;
     Workers := v; Blacklists := Blacklists s;
     LastKnownBlock := LastKnownBlock s |}.

Definition set_Blacklists (v : list BlacklistEntry) (s : Store) : Store :=
  {| closed := closed s; Deals := Deals s; Orders := Orders s;
     DealConditions := DealConditions s;
     lastDealConditionID := lastDealConditionID s;
     DealChangeRequests := DealChangeRequests s;
     DealPayments := DealPayments s; Profiles := Profiles s;
     Certificates := Certificates s; Validators := Validators s;
     Workers := Workers s; Blacklists := v;
     LastKnownBlock := LastKnownBlock s |}.

Definition set_LastKnownBlock (v : list Z) (s : Store) : Store :=
  {| closed := closed s; Deals := Deals s; Orders := Orders s;
     DealConditions := DealConditions s;
     lastDealConditionID := lastDealConditionID s;
     DealChangeRequests := DealChangeRequests s;
     DealPayments := DealPayments s; Profiles := Profiles s;
     Certificates := Certificates s; Validators := Validators s;
     Workers := Workers s; Blacklists := Blacklists s;
     LastKnownBlock := v |}.

Definition dbClosed : error := "sql: database is closed".

(** A statement on a closed database fails; otherwise it runs. *)
Definition ifOpen {A : Type} (s : Store) (r : Result A) : Result A :=
  if closed s then Err dbClosed else r.

(** [db.Begin()]: the transaction starts as a copy of the store. *)
Definition Begin (db : Store) : Result Store := ifOpen db (Ok db).

(* ------------------------------------------------------------------------- *)
(** ** Filter/query compiler *)

(** Modelled from the spec: the values a column or a query argument holds
    (the SQL driver is not at hand): integers, text, booleans and the
    certificates blob.  Big integers are persisted as fixed-width zero-padded
    decimal strings, whose lexicographic order is the numeric one; they are
    carried as [VInt], like the addresses and the decimal ids. *)
Inductive SqlValue :=
| VInt (z : Z)
| VText (s : string)
| VBool (b : bool)
| VCerts (cs : list Certificate).

Module sqlop.

(** Modelled from the spec: the operators of a filter: the constants [eq], [gte]
    and [lte] (declared in a file of the package that is not at hand) and the
    netflags operator.  [LIKE] is used by [getProfiles] only and is left
    out. *)
Inductive t :=
| eq                       (* "="  *)
| gte                      (* ">=" *)
| lte                      (* "<=" *)
| netflags (op : CmpOp).   (* bitwise containment on a bitfield *)

End sqlop.

(** Modelled from the spec: the [filter] type, declared in a file of the
    package that is not at hand.  A filter carries a column name, an
    operator, a value, the connective to the next predicate and two bracket
    flags; predicates are emitted in list order. *)
Record Filter := {
  Field : string;
  CmpOperator : sqlop.t;
  Value : SqlValue;
  BoolOperator : string;
  OpenBracket : bool;
  CloseBracket : bool
}.

(** Modelled from the spec: [newFilter], which is not at hand: a filter
    without brackets. *)
Definition newFilter (field : string) (op : sqlop.t) (value : SqlValue)
    (boolOp : string) : Filter :=
  {| Field := field; CmpOperator := op; Value := value;
     BoolOperator := boolOp; OpenBracket := false; CloseBracket := false |}.

(** [f.OpenBracket = true]. *)
Definition withOpenBracket (f : Filter) : Filter :=
  {| Field := Field f; CmpOperator := CmpOperator f; Value := Value f;
     BoolOperator := BoolOperator f; OpenBracket := true;
     CloseBracket := CloseBracket f |}.

(** [f.CloseBracket = true]. *)
Definition withCloseBracket (f : Filter) : Filter :=
  {| Field := Field f; CmpOperator := CmpOperator f; Value := Value f;
     BoolOperator := BoolOperator f; OpenBracket := OpenBracket f;
     CloseBracket := true |}.

(** Modelled from the spec: [newNetflagsFilter], which is not at
    hand: the netflags predicate with the given operator, joined to the next
    predicate by [AND]. *)
Definition newNetflagsFilter (operator : CmpOp) (value : Z) : Filter :=
  newFilter "Netflags" (sqlop.netflags operator) (VInt value) "AND".

(** Modelled from the spec: [getBenchmarkColumn], which is not at
    hand: the dynamically named benchmark column [BenchN]. *)
Definition getBenchmarkColumn (id : Z) : string :=
  ("Bench" ++ Z_to_string id)%string.

(** A sorting option of a request: a column and a direction. *)
Record SortingOption := {
  SortingOption_Field : string;
  SortingOption_Order : SortingOrder
}.

(** Modelled from the spec: [filterSortings], which is not at hand:
    sortings are whitelisted per table, unknown columns are dropped
    silently. *)
Definition filterSortings (sortings : list SortingOption)
    (columns : string -> bool) : list SortingOption :=
  List.filter (fun s => columns (SortingOption_Field s)) sortings.

(** Modelled from the spec: values of different kinds are ordered by kind. *)
Definition rank (v : SqlValue) : Z :=
  match v with VInt _ => 0 | VText _ => 1 | VBool _ => 2 | VCerts _ => 3 end.

(** Modelled from the spec: the order of stored values, numeric on
    integers (hence on padded big integers), lexicographic on text. *)
Definition compareValue (a b : SqlValue) : comparison :=
  match a, b with
  | VInt x, VInt y => Z.compare x y
  | VText x, VText y => String.compare x y
  | VBool x, VBool y =>
      match x, y with
      | false, true => Lt
      | true, false => Gt
      | _, _ => Eq
      end
  | _, _ => Z.compare (rank a) (rank b)
  end.

(** Modelled from the spec: the netflags operator compares bitwise
    containment: [A GTE B] iff [A & B = B], [A LTE B] iff [A & B = A]. *)
Definition netflagsCmp (op : CmpOp) (a b : Z) : bool :=
  match op with
  | CmpOp_GTE => Z.land a b =? b
  | CmpOp_LTE => Z.land a b =? a
  | CmpOp_EQ => a =? b
  end.

(** Modelled from the spec: the truth value of [column op value]. *)
Definition evalOp (op : sqlop.t) (column value : SqlValue) : bool :=
  match op with
  | sqlop.eq => match compareValue column value with Eq => true | _ => false end
  | sqlop.gte => match compareValue column value with Lt => false | _ => true end
  | sqlop.lte => match compareValue column value with Gt => false | _ => true end
  | sqlop.netflags o =>
      match column, value with
      | VInt a, VInt b => netflagsCmp o a b
      | _, _ => false
      end
  end.

(** Modelled from the spec: a table as the compiler sees it: its name, its
    rows in a store, the columns it has and the value a row holds in each. *)
Record Table (R : Type) := {
  tableName : string;
  tableRows : Store -> list R;
  hasColumn : string -> bool;
  column : string -> R -> SqlValue
}.

(** Modelled from the spec: a predicate chain without brackets, each truth
    value paired with the connective to the next one.  [AND] binds tighter
    than [OR]; the connective of the last predicate is not emitted. *)
Fixpoint evalChain (acc : bool) (l : list (bool * string)) : bool :=
  match l with
  | [] => acc
  | (b, op) :: rest =>
      match rest with
      | _ :: _ => if String.eqb op "OR"
                  then (acc && b) || evalChain true rest
                  else evalChain (acc && b) rest
      | [] => acc && b
      end
  end.

(** Modelled from the spec: bracket flags group consecutive predicates; a
    group counts as one predicate whose connective is that of its closing
    filter.  [None] is an unbalanced expression. *)
Fixpoint collapse {R : Type} (col : string -> R -> SqlValue) (r : R)
    (group : option (list (bool * string))) (fs : list Filter)
    : option (list (bool * string)) :=
  match fs with
  | [] => match group with None => Some [] | Some _ => None end
  | f :: rest =>
      let atom := (evalOp (CmpOperator f) (col (Field f) r) (Value f),
                   BoolOperator f) in
      match group with
      | None =>
          if OpenBracket f && negb (CloseBracket f)
          then collapse col r (Some [atom]) rest
          else option_map (cons atom) (collapse col r None rest)
      | Some g =>
          if OpenBracket f then None
          else if CloseBracket f
          then option_map (cons (evalChain true (g ++ [atom]), BoolOperator f))
                          (collapse col r None rest)
          else collapse col r (Some (g ++ [atom])) rest
      end
  end.

(** Modelled from the spec: the [WHERE] expression of a filter list on a
    row. *)
Definition evalWhere {R : Type} (col : string -> R -> SqlValue)
    (fs : list Filter) (r : R) : option bool :=
  option_map (evalChain true) (collapse col r None fs).

(** Modelled from the spec: the connectives are [AND] and [OR]. *)
Definition validConnective (f : Filter) : bool :=
  String.eqb (BoolOperator f) "AND" || String.eqb (BoolOperator f) "OR".

(** Modelled from the spec: every opened bracket is closed, none is nested. *)
Fixpoint balanced (open : bool) (fs : list Filter) : bool :=
  match fs with
  | [] => negb open
  | f :: rest =>
      if open
      then if OpenBracket f then false else balanced (negb (CloseBracket f)) rest
      else if OpenBracket f && negb (CloseBracket f) then balanced true rest
      else if CloseBracket f && negb (OpenBracket f) then false
      else balanced false rest
  end.

(** Modelled from the spec: [ORDER BY]: rows are compared key by key. *)
Fixpoint rowLe {R : Type} (col : string -> R -> SqlValue)
    (sortings : list SortingOption) (a b : R) : bool :=
  match sortings with
  | [] => true
  | s :: rest =>
      let c := compareValue (col (SortingOption_Field s) a)
                            (col (SortingOption_Field s) b) in
      match SortingOption_Order s, c with
      | _, Eq => rowLe col rest a b
      | SortingOrder_Asc, Lt => true
      | SortingOrder_Asc, Gt => false
      | SortingOrder_Desc, Lt => false
      | SortingOrder_Desc, Gt => true
      end
  end.

(** Modelled from the spec: insertion of a row into sorted rows. *)
Fixpoint insertSorted {R : Type} (le : R -> R -> bool) (x : R) (l : list R)
    : list R :=
  match l with
  | [] => [x]
  | y :: rest => if le x y then x :: l else y :: insertSorted le x rest
  end.

(** Modelled from the spec: the rows in the order [ORDER BY] asks for. *)
Definition sortRows {R : Type} (le : R -> R -> bool) (l : list R) : list R :=
  fold_right (insertSorted le) [] l.

(** Modelled from the spec: the [queryOpts] type, which is not at hand: table,
    filters, sortings, offset, limit and whether a count is wanted.  (The
    custom sub-clause and [selectAs] are used by [getProfiles] only and are
    left out.) *)
Record queryOpts (R : Type) := {
  table : Table R;
  filters : list Filter;
  sortings : list SortingOption;
  offset : Z;
  limit : Z;
  withCount : bool
}.

(** Modelled from the spec: [offset] and [limit] are passed through;
    [limit = 0] means no limit. *)
Definition paginate {R : Type} (offset limit : Z) (rows : list R) : list R :=
  let rest := skipn (Z.to_nat offset) rows in
  if limit =? 0 then rest else firstn (Z.to_nat limit) rest.

(** Modelled from the spec: [runQuery], which is not at hand: compile the
    request to [SELECT * FROM table WHERE ... ORDER BY ... LIMIT ... OFFSET
    ...] and run it, with a [COUNT( * )] over the same filter expression when
    [withCount] is set.  A request naming a column the table does not have,
    or whose expression does not parse, fails. *)
Definition runQuery {R : Type} (db : Store) (opts : queryOpts R)
    : Result (list R * Z) :=
  let tbl := table opts in
  if closed db then Err dbClosed
  else if negb (forallb (fun f => hasColumn tbl (Field f)) (filters opts))
  then Err "no such column"
  else if negb (forallb (fun s => hasColumn tbl (SortingOption_Field s))
                        (sortings opts))
  then Err "no such column"
  else if negb (forallb validConnective (filters opts)
                && balanced false (filters opts))
  then Err "syntax error"
  else
    let matching :=
      List.filter
        (fun r => match evalWhere (column tbl) (filters opts) r with
                  | Some b => b
                  | None => false
                  end) (tableRows tbl db) in
    let sorted := sortRows (rowLe (column tbl) (sortings opts)) matching in
    Ok (paginate (offset opts) (limit opts) sorted,
        if withCount opts then Z.of_nat (List.length matching) else 0).

(* ------------------------------------------------------------------------- *)
(** ** Named SQL commands *)

(** Modelled from the spec: the text of the commands in [w.commands] belongs
    to the backend adapter, which is not at hand.  Each command is given the
    effect its name and its arguments in the handlers state, on the tables of
    the data model: inserts append a row and are refused when the key of the
    entity is already present (Deal, Order, DealChangeRequest, Validator: id;
    Profile: userID; Worker: (masterID, slaveID); Blacklist: (adderID,
    addeeID); Certificate: (ownerID, attribute, validatorID); DealPayment:
    eventTS), updates and deletes act on every row the key selects and
    succeed when it selects none. *)
Module commands.

(** Modelled from the spec: the message of the driver for a refused
    insert. *)
Definition constraintFailed (key : string) : error :=
  ("UNIQUE constraint failed: " ++ key)%string.

(** Modelled from the spec: an insert appends the row and is refused
    when the key of the entity is already present. *)
Definition insertUnique {R : Type} (same : R -> R -> bool) (key : string)
    (row : R) (rows : list R) : Result (list R) :=
  if existsb (same row) rows then Err (constraintFailed key)
  else Ok (rows ++ [row]).

(** Modelled from the spec: a delete removes every row the key selects
    and succeeds when it selects none. *)
Definition deleteWhere {R : Type} (sel : R -> bool) (rows : list R) : list R :=
  List.filter (fun r => negb (sel r)) rows.

(** Modelled from the spec: an update rewrites every row the key
    selects and succeeds when it selects none. *)
Definition updateWhere {R : Type} (sel : R -> bool) (upd : R -> R)
    (rows : list R) : list R :=
  map (fun r => if sel r then upd r else r) rows.

(** The key of a Deal row. *)
Definition dealKey (d : DWHDeal) : Z := Deal_Id (DWHDeal_Deal d).
(** The key of an Order row. *)
Definition orderKey (o : DWHOrder) : Z := Order_Id (DWHOrder_Order o).

(** Modelled from the spec: command [insertDeal]; a Deal is keyed by its
    id. *)
Definition insertDeal (row : DWHDeal) (tx : Store) : Result Store :=
  ifOpen tx (
    rows <- insertUnique (fun a b => dealKey a =? dealKey b) "Deals.Id"
              row (Deals tx) ;;
    Ok (set_Deals rows tx)).

(** Modelled from the spec: command [deleteDeal], by id. *)
Definition deleteDeal (id : Z) (tx : Store) : Result Store :=
  ifOpen tx
    (Ok (set_Deals (deleteWhere (fun d => dealKey d =? id) (Deals tx)) tx)).

(** The mutable columns of a Deal row. *)
Definition setDealColumns (duration price startTime endTime : Z)
    (status : DealStatus) (blockedBalance totalPayout lastBillTS : Z)
    (d : DWHDeal) : DWHDeal :=
  let x := DWHDeal_Deal d in
  {| DWHDeal_Deal :=
       {| Deal_Id := Deal_Id x; Deal_SupplierID := Deal_SupplierID x;
          Deal_ConsumerID := Deal_ConsumerID x; Deal_MasterID := Deal_MasterID x;
          Deal_AskID := Deal_AskID x; Deal_BidID := Deal_BidID x;
          Deal_Duration := duration; Deal_Price := price;
          Deal_StartTime := startTime; Deal_EndTime := endTime;
          Deal_Status := status; Deal_BlockedBalance := blockedBalance;
          Deal_TotalPayout := totalPayout; Deal_LastBillTS := lastBillTS;
          Deal_Benchmarks := Deal_Benchmarks x |};
     DWHDeal_Netflags := DWHDeal_Netflags d;
     DWHDeal_AskIdentityLevel := DWHDeal_AskIdentityLevel d;
     DWHDeal_BidIdentityLevel := DWHDeal_BidIdentityLevel d;
     DWHDeal_SupplierCertificates := DWHDeal_SupplierCertificates d;
     DWHDeal_ConsumerCertificates := DWHDeal_ConsumerCertificates d;
     DWHDeal_ActiveChangeRequest := DWHDeal_ActiveChangeRequest d |}.

(** Modelled from the spec: command [updateDeal]: the mutable columns
    (duration, price, times, status, balances, lastBillTS) of the deal with
    the given id. *)
Definition updateDeal (duration price startTime endTime : Z)
    (status : DealStatus) (blockedBalance totalPayout lastBillTS id : Z)
    (tx : Store) : Result Store :=
  ifOpen tx
    (Ok (set_Deals
           (updateWhere (fun d => dealKey d =? id)
              (setDealColumns duration price startTime endTime status
                 blockedBalance totalPayout lastBillTS) (Deals tx)) tx)).

(** The [TotalPayout] column of a Deal row. *)
Definition setDealTotalPayout (totalPayout : Z) (d : DWHDeal) : DWHDeal :=
  let x := DWHDeal_Deal d in
  setDealColumns (Deal_Duration x) (Deal_Price x) (Deal_StartTime x)
    (Deal_EndTime x) (Deal_Status x) (Deal_BlockedBalance x) totalPayout
    (Deal_LastBillTS x) d.

(** Modelled from the spec: command [updateDealPayout]: the total
    payout of the deal with the given id. *)
Definition updateDealPayout (totalPayout id : Z) (tx : Store) : Result Store :=
  ifOpen tx
    (Ok (set_Deals
           (updateWhere (fun d => dealKey d =? id)
              (setDealTotalPayout totalPayout) (Deals tx)) tx)).

(** The certificates blob of the supplier or of the consumer of a Deal row. *)
Definition setDealCertificates (supplier : bool) (certs : list Certificate)
    (d : DWHDeal) : DWHDeal :=
  {| DWHDeal_Deal := DWHDeal_Deal d;
     DWHDeal_Netflags := DWHDeal_Netflags d;
     DWHDeal_AskIdentityLevel := DWHDeal_AskIdentityLevel d;
     DWHDeal_BidIdentityLevel := DWHDeal_BidIdentityLevel d;
     DWHDeal_SupplierCertificates :=
       if supplier then certs else DWHDeal_SupplierCertificates d;
     DWHDeal_ConsumerCertificates :=
       if supplier then DWHDeal_ConsumerCertificates d else certs;
     DWHDeal_ActiveChangeRequest := DWHDeal_ActiveChangeRequest d |}.

(** Modelled from the spec: command [updateDealsSupplier]: the
    supplier certificates of the deals of a supplier. *)
Definition updateDealsSupplier (certs : list Certificate) (userID : Address)
    (tx : Store) : Result Store :=
  ifOpen tx
    (Ok (set_Deals
           (updateWhere
              (fun d => Deal_SupplierID (DWHDeal_Deal d) =? userID)
              (setDealCertificates true certs) (Deals tx)) tx)).

(** Modelled from the spec: command [updateDealsConsumer]: the
    consumer certificates of the deals of a consumer. *)
Definition updateDealsConsumer (certs : list Certificate) (userID : Address)
    (tx : Store) : Result Store :=
  ifOpen tx
    (Ok (set_Deals
           (updateWhere
              (fun d => Deal_ConsumerID (DWHDeal_Deal d) =? userID)
              (setDealCertificates false certs) (Deals tx)) tx)).

(** Modelled from the spec: command [selectDealByID]. *)
Definition selectDealByID (id : Z) (db : Store) : Result (list DWHDeal) :=
  ifOpen db (Ok (List.filter (fun d => dealKey d =? id) (Deals db))).

(** Modelled from the spec: command [insertOrder]; an Order is keyed by
    its id. *)
Definition insertOrder (row : DWHOrder) (tx : Store) : Result Store :=
  ifOpen tx (
    rows <- insertUnique (fun a b => orderKey a =? orderKey b) "Orders.Id"
              row (Orders tx) ;;
    Ok (set_Orders rows tx)).

(** Modelled from the spec: command [deleteOrder], by id. *)
Definition deleteOrder (id : Z) (tx : Store) : Result Store :=
  ifOpen tx
    (Ok (set_Orders (deleteWhere (fun o => orderKey o =? id) (Orders tx)) tx)).

(** The [Status] column of an Order row. *)
Definition setOrderStatus (status : OrderStatus) (o : DWHOrder) : DWHOrder :=
  let x := DWHOrder_Order o in
  {| DWHOrder_Order :=
       {| Order_Id := Order_Id x; Order_DealID := Order_DealID x;
          Order_OrderType := Order_OrderType x; Order_OrderStatus := status;
          Order_AuthorID := Order_AuthorID x;
          Order_CounterpartyID := Order_CounterpartyID x;
          Order_Duration := Order_Duration x; Order_Price := Order_Price x;
          Order_Netflags := Order_Netflags x;
          Order_IdentityLevel := Order_IdentityLevel x;
          Order_Blacklist := Order_Blacklist x; Order_Tag := Order_Tag x;
          Order_FrozenSum := Order_FrozenSum x;
          Order_Benchmarks := Order_Benchmarks x |};
     DWHOrder_CreatedTS := DWHOrder_CreatedTS o;
     DWHOrder_CreatorIdentityLevel := DWHOrder_CreatorIdentityLevel o;
     DWHOrder_CreatorName := DWHOrder_CreatorName o;
     DWHOrder_CreatorCountry := DWHOrder_CreatorCountry o;
     DWHOrder_CreatorCertificates := DWHOrder_CreatorCertificates o |}.

(** Modelled from the spec: command [updateOrderStatus]: the
    status of the order with the given id. *)
Definition updateOrderStatus (status : OrderStatus) (id : Z) (tx : Store)
    : Result Store :=
  ifOpen tx
    (Ok (set_Orders
           (updateWhere (fun o => orderKey o =? id) (setOrderStatus status)
              (Orders tx)) tx)).

(** The profile snapshot of an Order row. *)
Definition setOrderCreator (identityLevel : Z) (name country : string)
    (certs : list Certificate) (o : DWHOrder) : DWHOrder :=
  {| DWHOrder_Order := DWHOrder_Order o;
     DWHOrder_CreatedTS := DWHOrder_CreatedTS o;
     DWHOrder_CreatorIdentityLevel := identityLevel;
     DWHOrder_CreatorName := name;
     DWHOrder_CreatorCountry := country;
     DWHOrder_CreatorCertificates := certs |}.

(** Modelled from the spec: command [updateOrders]: the profile
    snapshot of the orders of an author. *)
Definition updateOrders (identityLevel : Z) (name country : string)
    (certs : list Certificate) (authorID : Address) (tx : Store)
    : Result Store :=
  ifOpen tx
    (Ok (set_Orders
           (updateWhere
              (fun o => Order_AuthorID (DWHOrder_Order o) =? authorID)
              (setOrderCreator identityLevel name country certs)
              (Orders tx)) tx)).

(** Modelled from the spec: command [selectOrderByID]. *)
Definition selectOrderByID (id : Z) (db : Store) : Result (list DWHOrder) :=
  ifOpen db (Ok (List.filter (fun o => orderKey o =? id) (Orders db))).

(** Modelled from the spec: command [insertDealCondition]; the
    id of a DealCondition is synthetic and assigned by the store. *)
Definition insertDealCondition (supplierID consumerID masterID : Address)
    (duration price startTime endTime totalPayout dealID : Z) (tx : Store)
    : Result Store :=
  ifOpen tx
    (let id := lastDealConditionID tx + 1 in
     Ok (set_DealConditions
           (DealConditions tx ++
            [{| DealCondition_Id := id;
                DealCondition_SupplierID := supplierID;
                DealCondition_ConsumerID := consumerID;
                DealCondition_MasterID := masterID;
                DealCondition_Duration := duration;
                DealCondition_Price := price;
                DealCondition_StartTime := startTime;
                DealCondition_EndTime := endTime;
                DealCondition_TotalPayout := totalPayout;
                DealCondition_DealID := dealID |}]) id tx)).

(** The [EndTime] and [TotalPayout] columns of a DealCondition row. *)
Definition setConditionColumns (endTime totalPayout : Z) (c : DealCondition)
    : DealCondition :=
  {| DealCondition_Id := DealCondition_Id c;
     DealCondition_SupplierID := DealCondition_SupplierID c;
     DealCondition_ConsumerID := DealCondition_ConsumerID c;
     DealCondition_MasterID := DealCondition_MasterID c;
     DealCondition_Duration := DealCondition_Duration c;
     DealCondition_Price := DealCondition_Price c;
     DealCondition_StartTime := DealCondition_StartTime c;
     DealCondition_EndTime := endTime;
     DealCondition_TotalPayout := totalPayout;
     DealCondition_DealID := DealCondition_DealID c |}.

(** Modelled from the spec: command
    [updateDealConditionPayout]: the total payout of the condition with the
    given id. *)
Definition updateDealConditionPayout (totalPayout id : Z) (tx : Store)
    : Result Store :=
  ifOpen tx
    (Ok (set_DealConditions
           (updateWhere (fun c => DealCondition_Id c =? id)
              (fun c => setConditionColumns (DealCondition_EndTime c)
                          totalPayout c)
              (DealConditions tx)) (lastDealConditionID tx) tx)).

(** Modelled from the spec: command
    [updateDealConditionEndTime]: the end time of the condition with the
    given id. *)
Definition updateDealConditionEndTime (endTime id : Z) (tx : Store)
    : Result Store :=
  ifOpen tx
    (Ok (set_DealConditions
           (updateWhere (fun c => DealCondition_Id c =? id)
              (fun c => setConditionColumns endTime
                          (DealCondition_TotalPayout c) c)
              (DealConditions tx)) (lastDealConditionID tx) tx)).

(** Modelled from the spec: command
    [insertDealChangeRequest]; a DealChangeRequest is keyed by its id. *)
Definition insertDealChangeRequest (id createdTS : Z) (requestType : OrderType)
    (duration price : Z) (status : ChangeRequestStatus) (dealID : Z)
    (tx : Store) : Result Store :=
  ifOpen tx (
    rows <- insertUnique
              (fun a b => DealChangeRequest_Id a =? DealChangeRequest_Id b)
              "DealChangeRequests.Id"
              {| DealChangeRequest_Id := id;
                 DealChangeRequest_CreatedTS := createdTS;
                 DealChangeRequest_RequestType := requestType;
                 DealChangeRequest_Duration := duration;
                 DealChangeRequest_Price := price;
                 DealChangeRequest_Status := status;
                 DealChangeRequest_DealID := dealID |}
              (DealChangeRequests tx) ;;
    Ok (set_DealChangeRequests rows tx)).

(** Modelled from the spec: command
    [deleteDealChangeRequest], by id. *)
Definition deleteDealChangeRequest (id : Z) (tx : Store) : Result Store :=
  ifOpen tx
    (Ok (set_DealChangeRequests
           (deleteWhere (fun r => DealChangeRequest_Id r =? id)
              (DealChangeRequests tx)) tx)).

(** The [Status] column of a DealChangeRequest row. *)
Definition setChangeRequestStatus (status : ChangeRequestStatus)
    (r : DealChangeRequest) : DealChangeRequest :=
  {| DealChangeRequest_Id := DealChangeRequest_Id r;
     DealChangeRequest_CreatedTS := DealChangeRequest_CreatedTS r;
     DealChangeRequest_RequestType := DealChangeRequest_RequestType r;
     DealChangeRequest_Duration := DealChangeRequest_Duration r;
     DealChangeRequest_Price := DealChangeRequest_Price r;
     DealChangeRequest_Status := status;
     DealChangeRequest_DealID := DealChangeRequest_DealID r |}.

(** Modelled from the spec: command
    [updateDealChangeRequest]: the status of the change request with the
    given id. *)
Definition updateDealChangeRequest (status : ChangeRequestStatus) (id : Z)
    (tx : Store) : Result Store :=
  ifOpen tx
    (Ok (set_DealChangeRequests
           (updateWhere (fun r => DealChangeRequest_Id r =? id)
              (setChangeRequestStatus status) (DealChangeRequests tx)) tx)).

(** A change request of a deal with a given type and status. *)
Definition isChangeRequestOf (dealID : Z) (requestType : OrderType)
    (status : ChangeRequestStatus) (r : DealChangeRequest) : bool :=
  (DealChangeRequest_DealID r =? dealID)
  && OrderType_beq (DealChangeRequest_RequestType r) requestType
  && ChangeRequestStatus_beq (DealChangeRequest_Status r) status.

(** Modelled from the spec: command
    [selectDealChangeRequests]: the change requests of a deal with a given
    type and status. *)
Definition selectDealChangeRequests (dealID : Z) (requestType : OrderType)
    (status : ChangeRequestStatus) (db : Store)
    : Result (list DealChangeRequest) :=
  ifOpen db
    (Ok (List.filter (isChangeRequestOf dealID requestType status)
           (DealChangeRequests db))).

(** Modelled from the spec: command
    [selectDealChangeRequestsByID]: the change requests of a deal. *)
Definition selectDealChangeRequestsByID (dealID : Z) (db : Store)
    : Result (list DealChangeRequest) :=
  ifOpen db
    (Ok (List.filter (fun r => DealChangeRequest_DealID r =? dealID)
           (DealChangeRequests db))).

(** Modelled from the spec: command [insertDealPayment]; a
    DealPayment row is keyed by the event timestamp. *)
Definition insertDealPayment (billTS paidAmount dealID : Z) (tx : Store)
    : Result Store :=
  ifOpen tx (
    rows <- insertUnique
              (fun a b => DealPayment_BillTS a =? DealPayment_BillTS b)
              "DealPayments.BillTS"
              {| DealPayment_BillTS := billTS;
                 DealPayment_PaidAmount := paidAmount;
                 DealPayment_DealID := dealID |}
              (DealPayments tx) ;;
    Ok (set_DealPayments rows tx)).

(** Modelled from the spec: command [insertProfileUserID]: a
    profile with the given certificates blob and counters, the other columns
    empty; a Profile is keyed by its userID. *)
Definition insertProfileUserID (userID : Address) (certs : list Certificate)
    (activeAsks activeBids : Z) (tx : Store) : Result Store :=
  ifOpen tx (
    rows <- insertUnique (fun a b => Profile_UserID a =? Profile_UserID b)
              "Profiles.UserID"
              {| Profile_UserID := userID; Profile_IdentityLevel := 0;
                 Profile_Name := ""; Profile_Country := "";
                 Profile_IsCorporation := false;
                 Profile_IsProfessional := false;
                 Profile_Certificates := certs;
                 Profile_ActiveAsks := activeAsks;
                 Profile_ActiveBids := activeBids |}
              (Profiles tx) ;;
    Ok (set_Profiles rows tx)).

(** A profile with every column empty. *)
Definition emptyProfile : Profile :=
  {| Profile_UserID := 0; Profile_IdentityLevel := 0; Profile_Name := "";
     Profile_Country := ""; Profile_IsCorporation := false;
     Profile_IsProfessional := false; Profile_Certificates := [];
     Profile_ActiveAsks := 0; Profile_ActiveBids := 0 |}.

(** Modelled from the spec: the columns of [Profiles] that command
    [updateProfile] is used on, by name. *)
Definition setProfileColumn (columnName : string) (value : SqlValue)
    (p : Profile) : option Profile :=
  let mk il name country certs asks bids :=
    {| Profile_UserID := Profile_UserID p; Profile_IdentityLevel := il;
       Profile_Name := name; Profile_Country := country;
       Profile_IsCorporation := Profile_IsCorporation p;
       Profile_IsProfessional := Profile_IsProfessional p;
       Profile_Certificates := certs;
       Profile_ActiveAsks := asks; Profile_ActiveBids := bids |} in
  let il := Profile_IdentityLevel p in
  let name := Profile_Name p in
  let country := Profile_Country p in
  let certs := Profile_Certificates p in
  let asks := Profile_ActiveAsks p in
  let bids := Profile_ActiveBids p in
  match value with
  | VInt z =>
      if String.eqb columnName "ActiveAsks"
      then Some (mk il name country certs z bids)
      else if String.eqb columnName "ActiveBids"
      then Some (mk il name country certs asks z)
      else if String.eqb columnName "IdentityLevel"
      then Some (mk z name country certs asks bids)
      else None
  | VText t =>
      if String.eqb columnName "Name"
      then Some (mk il t country certs asks bids)
      else if String.eqb columnName "Country"
      then Some (mk il name t certs asks bids)
      else None
  | VCerts cs =>
      if String.eqb columnName "Certificates"
      then Some (mk il name country cs asks bids)
      else None
  | VBool _ => None
  end.

(** Modelled from the spec: command [updateProfile], [UPDATE Profiles
    SET <column> = ? WHERE UserID = ?], the column name being spliced in with
    [fmt.Sprintf]. *)
Definition updateProfile (columnName : string) (value : SqlValue)
    (userID : Address) (tx : Store) : Result Store :=
  ifOpen tx
    (match setProfileColumn columnName value emptyProfile with
     | None => Err "no such column"
     | Some _ =>
         Ok (set_Profiles
               (updateWhere (fun p => Profile_UserID p =? userID)
                  (fun p => match setProfileColumn columnName value p with
                            | Some p' => p'
                            | None => p
                            end) (Profiles tx)) tx)
     end).

(** Modelled from the spec: command [selectProfileByID]. *)
Definition selectProfileByID (userID : Address) (db : Store)
    : Result (list Profile) :=
  ifOpen db (Ok (List.filter (fun p => Profile_UserID p =? userID) (Profiles db))).

(** Modelled from the spec: command [insertCertificate]; a
    Certificate is keyed by (ownerID, attribute, validatorID). *)
Definition insertCertificate (ownerID : Address) (attribute identityLevel : Z)
    (value : string) (validatorID : Address) (tx : Store) : Result Store :=
  ifOpen tx (
    rows <- insertUnique
              (fun a b =>
                 (Certificate_OwnerID a =? Certificate_OwnerID b)
                 && (Certificate_Attribute a =? Certificate_Attribute b)
                 && (Certificate_ValidatorID a =? Certificate_ValidatorID b))
              "Certificates.OwnerID, Certificates.Attribute, Certificates.ValidatorID"
              {| Certificate_OwnerID := ownerID;
                 Certificate_Attribute := attribute;
                 Certificate_IdentityLevel := identityLevel;
                 Certificate_Value := value;
                 Certificate_ValidatorID := validatorID |}
              (Certificates tx) ;;
    Ok (set_Certificates rows tx)).

(** Modelled from the spec: command [selectCertificates]: the
    certificates of an owner. *)
Definition selectCertificates (ownerID : Address) (tx : Store)
    : Result (list Certificate) :=
  ifOpen tx
    (Ok (List.filter (fun c => Certificate_OwnerID c =? ownerID)
           (Certificates tx))).

(** Modelled from the spec: command [insertValidator]; a Validator
    is keyed by its id. *)
Definition insertValidator (id : Address) (level : Z) (tx : Store)
    : Result Store :=
  ifOpen tx (
    rows <- insertUnique (fun a b => Validator_Id a =? Validator_Id b)
              "Validators.Id"
              {| Validator_Id := id; Validator_Level := level |}
              (Validators tx) ;;
    Ok (set_Validators rows tx)).

(** Modelled from the spec: command [updateValidator]: the level of
    the validator with the given id. *)
Definition updateValidator (level : Z) (id : Address) (tx : Store)
    : Result Store :=
  ifOpen tx
    (Ok (set_Validators
           (updateWhere (fun v => Validator_Id v =? id)
              (fun v => {| Validator_Id := Validator_Id v;
                           Validator_Level := level |})
              (Validators tx)) tx)).

(** The key of a Worker row. *)
Definition isWorker (masterID slaveID : Address) (x : DWHWorker) : bool :=
  (DWHWorker_MasterID x =? masterID) && (DWHWorker_SlaveID x =? slaveID).

(** Modelled from the spec: command [insertWorker]; a Worker is keyed
    by (masterID, slaveID). *)
Definition insertWorker (masterID slaveID : Address) (confirmed : bool)
    (tx : Store) : Result Store :=
  ifOpen tx (
    rows <- insertUnique
              (fun a b => isWorker (DWHWorker_MasterID a) (DWHWorker_SlaveID a) b)
              "Workers.MasterID, Workers.WorkerID"
              {| DWHWorker_MasterID := masterID; DWHWorker_SlaveID := slaveID;
                 DWHWorker_Confirmed := confirmed |}
              (Workers tx) ;;
    Ok (set_Workers rows tx)).

(** Modelled from the spec: command [updateWorker]: the confirmed flag
    of a worker. *)
Definition updateWorker (confirmed : bool) (masterID slaveID : Address)
    (tx : Store) : Result Store :=
  ifOpen tx
    (Ok (set_Workers
           (updateWhere (isWorker masterID slaveID)
              (fun x => {| DWHWorker_MasterID := DWHWorker_MasterID x;
                           DWHWorker_SlaveID := DWHWorker_SlaveID x;
                           DWHWorker_Confirmed := confirmed |})
              (Workers tx)) tx)).

(** Modelled from the spec: command [deleteWorker]. *)
Definition deleteWorker (masterID slaveID : Address) (tx : Store)
    : Result Store :=
  ifOpen tx
    (Ok (set_Workers (deleteWhere (isWorker masterID slaveID) (Workers tx)) tx)).

(** The key of a Blacklist row. *)
Definition isBlacklistEntry (adderID addeeID : Address) (x : BlacklistEntry)
    : bool :=
  (Blacklist_AdderID x =? adderID) && (Blacklist_AddeeID x =? addeeID).

(** Modelled from the spec: command [insertBlacklistEntry]; a
    Blacklist row is keyed by (adderID, addeeID). *)
Definition insertBlacklistEntry (adderID addeeID : Address) (tx : Store)
    : Result Store :=
  ifOpen tx (
    rows <- insertUnique
              (fun a b =>
                 isBlacklistEntry (Blacklist_AdderID a) (Blacklist_AddeeID a) b)
              "Blacklists.AdderID, Blacklists.AddeeID"
              {| Blacklist_AdderID := adderID; Blacklist_AddeeID := addeeID |}
              (Blacklists tx) ;;
    Ok (set_Blacklists rows tx)).

(** Modelled from the spec: command [deleteBlacklistEntry]. *)
Definition deleteBlacklistEntry (removerID removeeID : Address) (tx : Store)
    : Result Store :=
  ifOpen tx
    (Ok (set_Blacklists
           (deleteWhere (isBlacklistEntry removerID removeeID) (Blacklists tx))
           tx)).

(** Modelled from the spec: command [updateLastKnownBlock], on
    the single row of [LastKnownBlock]. *)
Definition updateLastKnownBlock (blockNumber : Z) (tx : Store) : Result Store :=
  ifOpen tx
    (Ok (set_LastKnownBlock (map (fun _ => blockNumber) (LastKnownBlock tx)) tx)).

(** Modelled from the spec: command [insertLastKnownBlock]. *)
Definition insertLastKnownBlock (blockNumber : Z) (tx : Store) : Result Store :=
  ifOpen tx (Ok (set_LastKnownBlock (LastKnownBlock tx ++ [blockNumber]) tx)).

(** Modelled from the spec: command [selectLastKnownBlock]. *)
Definition selectLastKnownBlock (db : Store) : Result (list Z) :=
  ifOpen db (Ok (LastKnownBlock db)).

End commands.

(* ------------------------------------------------------------------------- *)
(** ** Tables, as the query compiler addresses them *)

(** The benchmark a column name stands for, if any. *)
Definition benchIndex (numBenchmarks : nat) (name : string) : option nat :=
  List.find (fun i => String.eqb (getBenchmarkColumn (Z.of_nat i)) name)
            (seq 0 numBenchmarks).

(** Modelled from the spec: the fixed columns of [Orders] (the
    schema is not at hand), named as the filters of the query service and
    the fields [decodeOrder] scans name them. *)
Definition orderBaseColumns : list string :=
  ["Id"; "CreatedTS"; "DealID"; "Type"; "Status"; "AuthorID";
   "CounterpartyID"; "Duration"; "Price"; "Netflags"; "IdentityLevel";
   "Blacklist"; "Tag"; "FrozenSum"; "CreatorIdentityLevel"; "CreatorName";
   "CreatorCountry"; "CreatorCertificates"].

(** Membership of a name in a column list. *)
Definition inColumns (columns : list string) (name : string) : bool :=
  existsb (String.eqb name) columns.

(** Modelled from the spec: [OrderColumnsSet], which is not at hand:
    the fixed columns of [Orders] and [numBenchmarks] benchmark columns. *)
Definition OrderColumnsSet (numBenchmarks : nat) (name : string) : bool :=
  inColumns orderBaseColumns name
  || match benchIndex numBenchmarks name with Some _ => true | None => false end.

(** Modelled from the spec: the value an Order row holds in a column,
    in the order [decodeOrder] scans them. *)
Definition orderColumn (numBenchmarks : nat) (name : string) (o : DWHOrder)
    : SqlValue :=
  let x := DWHOrder_Order o in
  if String.eqb name "Id" then VInt (Order_Id x)
  else if String.eqb name "CreatedTS" then VInt (DWHOrder_CreatedTS o)
  else if String.eqb name "DealID" then VInt (Order_DealID x)
  else if String.eqb name "Type" then VInt (OrderType_value (Order_OrderType x))
  else if String.eqb name "Status"
  then VInt (OrderStatus_value (Order_OrderStatus x))
  else if String.eqb name "AuthorID" then VInt (Order_AuthorID x)
  else if String.eqb name "CounterpartyID" then VInt (Order_CounterpartyID x)
  else if String.eqb name "Duration" then VInt (Order_Duration x)
  else if String.eqb name "Price" then VInt (Order_Price x)
  else if String.eqb name "Netflags" then VInt (Order_Netflags x)
  else if String.eqb name "IdentityLevel" then VInt (Order_IdentityLevel x)
  else if String.eqb name "Blacklist" then VText (Order_Blacklist x)
  else if String.eqb name "Tag" then VText (Order_Tag x)
  else if String.eqb name "FrozenSum" then VInt (Order_FrozenSum x)
  else if String.eqb name "CreatorIdentityLevel"
  then VInt (DWHOrder_CreatorIdentityLevel o)
  else if String.eqb name "CreatorName" then VText (DWHOrder_CreatorName o)
  else if String.eqb name "CreatorCountry" then VText (DWHOrder_CreatorCountry o)
  else if String.eqb name "CreatorCertificates"
  then VCerts (DWHOrder_CreatorCertificates o)
  else match benchIndex numBenchmarks name with
       | Some i => VInt (nth i (Order_Benchmarks x) 0)
       | None => VInt 0
       end.

(** Modelled from the spec: the table [Orders]. *)
Definition OrdersTable (numBenchmarks : nat) : Table DWHOrder :=
  {| tableName := "Orders"; tableRows := Orders;
     hasColumn := OrderColumnsSet numBenchmarks;
     column := orderColumn numBenchmarks |}.

(** Modelled from the spec: the columns of [DealConditions]
    (the schema is not at hand), as [decodeDealCondition] scans them. *)
Definition dealConditionColumns : list string :=
  ["Id"; "SupplierID"; "ConsumerID"; "MasterID"; "Duration"; "Price";
   "StartTime"; "EndTime"; "TotalPayout"; "DealID"].

(** Modelled from the spec: the value a DealCondition row holds
    in a column. *)
Definition dealConditionColumn (name : string) (c : DealCondition) : SqlValue :=
  if String.eqb name "Id" then VInt (DealCondition_Id c)
  else if String.eqb name "SupplierID" then VInt (DealCondition_SupplierID c)
  else if String.eqb name "ConsumerID" then VInt (DealCondition_ConsumerID c)
  else if String.eqb name "MasterID" then VInt (DealCondition_MasterID c)
  else if String.eqb name "Duration" then VInt (DealCondition_Duration c)
  else if String.eqb name "Price" then VInt (DealCondition_Price c)
  else if String.eqb name "StartTime" then VInt (DealCondition_StartTime c)
  else if String.eqb name "EndTime" then VInt (DealCondition_EndTime c)
  else if String.eqb name "TotalPayout" then VInt (DealCondition_TotalPayout c)
  else if String.eqb name "DealID" then VInt (DealCondition_DealID c)
  else VInt 0.

(** Modelled from the spec: the table [DealConditions]. *)
Definition DealConditionsTable : Table DealCondition :=
  {| tableName := "DealConditions"; tableRows := DealConditions;
     hasColumn := inColumns dealConditionColumns;
     column := dealConditionColumn |}.

(** Modelled from the spec: the columns of [Workers] (the schema is
    not at hand): the three [decodeWorker] scans. *)
Definition workerColumns : list string := ["MasterID"; "SlaveID"; "Confirmed"].

(** Modelled from the spec: the value a Worker row holds in a
    column. *)
Definition workerColumn (name : string) (x : DWHWorker) : SqlValue :=
  if String.eqb name "MasterID" then VInt (DWHWorker_MasterID x)
  else if String.eqb name "SlaveID" then VInt (DWHWorker_SlaveID x)
  else if String.eqb name "Confirmed" then VBool (DWHWorker_Confirmed x)
  else VInt 0.

(** Modelled from the spec: the table [Workers]. *)
Definition WorkersTable : Table DWHWorker :=
  {| tableName := "Workers"; tableRows := Workers;
     hasColumn := inColumns workerColumns;
     column := workerColumn |}.

(* ------------------------------------------------------------------------- *)
(** ** The service *)

(** Modelled from the spec: the part of the blockchain API the handlers
    call (the blockchain package is not at hand): the canonical state of an
    entity, or the error of the call. *)
Record Blockchain := {
  GetDealInfo : Z -> Result Deal;
  GetOrderInfo : Z -> Result Order;
  GetDealChangeRequestInfo : Z -> Result DealChangeRequest;
  GetValidator : Address -> Result Validator;
  GetCertificate : Z -> Result Certificate
}.

Record DWH := {
  blockchain : Blockchain;
  db : Store;
  numBenchmarks : nat
}.

Definition withDB (w : DWH) (s : Store) : DWH :=
  {| blockchain := blockchain w; db := s; numBenchmarks := numBenchmarks w |}.

(** Modelled from the spec: the request and reply messages of the query
    service (the protobuf package is not at hand), with the fields the query
    service reads. *)
Record MaxMinUint64 := { MaxMinUint64_Max : Z; MaxMinUint64_Min : Z }.
Record MaxMinBig := { MaxMinBig_Max : option Z; MaxMinBig_Min : option Z }.
Record MaxMinTimestamp := {
  MaxMinTimestamp_Max : option Z;      (* seconds *)
  MaxMinTimestamp_Min : option Z
}.
Record NetflagsFilter := { Netflags_Operator : CmpOp; Netflags_Value : Z }.

Record OrdersRequest := {
  OrdersRequest_DealID : option Z;
  OrdersRequest_Type : OrderType;
  OrdersRequest_AuthorID : option Address;
  OrdersRequest_CounterpartyID : option Address;
  OrdersRequest_Duration : option MaxMinUint64;
  OrdersRequest_Price : option MaxMinBig;
  OrdersRequest_Netflags : option NetflagsFilter;
  OrdersRequest_CreatorIdentityLevel : Z;
  OrdersRequest_CreatedTS : option MaxMinTimestamp;
  OrdersRequest_Benchmarks : option (list (Z * MaxMinUint64));
  OrdersRequest_Sortings : list SortingOption;
  OrdersRequest_Offset : Z;
  OrdersRequest_Limit : Z;
  OrdersRequest_WithCount : bool
}.

Record DWHOrdersReply := {
  DWHOrdersReply_Orders : list DWHOrder;
  DWHOrdersReply_Count : Z
}.

Record MatchingOrdersRequest := {
  MatchingOrdersRequest_Id : Z;
  MatchingOrdersRequest_Offset : Z;
  MatchingOrdersRequest_Limit : Z;
  MatchingOrdersRequest_WithCount : bool
}.

Record DealConditionsRequest := {
  DealConditionsRequest_DealID : Z;
  DealConditionsRequest_Sortings : list SortingOption;
  DealConditionsRequest_Offset : Z;
  DealConditionsRequest_Limit : Z;
  DealConditionsRequest_WithCount : bool
}.

Record DealConditionsReply := {
  DealConditionsReply_Conditions : list DealCondition;
  DealConditionsReply_Count : Z
}.

Record WorkersRequest := {
  WorkersRequest_MasterID : option Address;
  WorkersRequest_Offset : Z;
  WorkersRequest_Limit : Z;
  WorkersRequest_WithCount : bool
}.

Record WorkersReply := {
  WorkersReply_Workers : list DWHWorker;
  WorkersReply_Count : Z
}.

(** [x != nil && !x.IsZero()]. *)
Definition isSet (x : option Z) : bool :=
  match x with
  | Some v => negb (v =? 0)
  | None => false
  end.

Definition unwrap (x : option Z) : Z :=
  match x with Some v => v | None => 0 end.

(** [addBenchmarksConditions].  The map is given as its entries in the order
    the [range] loop visits them. *)
Definition addBenchmarksConditions (benches : list (Z * MaxMinUint64))
    (filters : list Filter) : list Filter :=
  fold_left
    (fun filters entry =>
       let '(benchID, condition) := entry in
       let filters :=
         if MaxMinUint64_Max condition >? 0
         then filters ++ [newFilter (getBenchmarkColumn benchID) sqlop.lte
                            (VInt (MaxMinUint64_Max condition)) "AND"]
         else filters in
       if MaxMinUint64_Min condition >? 0
       then filters ++ [newFilter (getBenchmarkColumn benchID) sqlop.gte
                          (VInt (MaxMinUint64_Max condition)) "AND"]
       else filters)
    benches filters.

(** [getOrderDetails]. *)
Definition getOrderDetails (w : DWH) (request : Z) : Result DWHOrder :=
  match commands.selectOrderByID request (db w) with
  | Err _ => Err (statusError "Internal" "failed to GetOrderDetails")
  | Panic m => Panic m
  | Ok [] => Err (statusError "NotFound" "failed to GetOrderDetails")
  | Ok (row :: _) => Ok row
  end.

(** [getDealDetails]. *)
Definition getDealDetails (w : DWH) (request : Z) : Result DWHDeal :=
  match commands.selectDealByID request (db w) with
  | Err _ => Err (statusError "Internal" "failed to GetDealDetails")
  | Panic m => Panic m
  | Ok [] => Err (statusError "NotFound" "failed to GetDealDetails")
  | Ok (row :: _) => Ok row
  end.

(** [getDealChangeRequests]. *)
Definition getDealChangeRequests (w : DWH) (request : Z)
    : Result (list DealChangeRequest) :=
  match commands.selectDealChangeRequestsByID request (db w) with
  | Err _ => Err (statusError "Internal" "failed to GetDealChangeRequests")
  | Panic m => Panic m
  | Ok rows => Ok rows
  end.

(** [getProfileInfo] reads through [w.db], hence the committed store. *)
Definition getProfileInfo (w : DWH) (request : Address) (logErrors : bool)
    : Result Profile :=
  match commands.selectProfileByID request (db w) with
  | Err _ => Err (statusError "Internal" "failed to GetProfileInfo")
  | Panic m => Panic m
  | Ok [] => Err (statusError "NotFound" "failed to GetProfileInfo")
  | Ok (row :: _) => Ok row
  end.

(** [getProfileInfoTx] reads inside the transaction. *)
Definition getProfileInfoTx (tx : Store) (request : Address) : Result Profile :=
  match commands.selectProfileByID request tx with
  | Err _ => Err (statusError "Internal" "failed to GetProfileInfo")
  | Panic m => Panic m
  | Ok [] => Err (statusError "NotFound" "failed to GetProfileInfo")
  | Ok (row :: _) => Ok row
  end.

(** [getDealConditions]. *)
Definition getDealConditions (w : DWH) (request : DealConditionsRequest)
    : Result DealConditionsReply :=
  let sortings :=
    if (List.length (DealConditionsRequest_Sortings request) <? 1)%nat
    then [{| SortingOption_Field := "Id";
             SortingOption_Order := SortingOrder_Desc |}]
    else DealConditionsRequest_Sortings request in
  let filters : list Filter := [] in
  let filters :=
    filters ++ [newFilter "DealID" sqlop.eq
                  (VInt (DealConditionsRequest_DealID request)) "AND"] in
  match runQuery (db w)
          {| table := DealConditionsTable; filters := filters;
             sortings := sortings;
             offset := DealConditionsRequest_Offset request;
             limit := DealConditionsRequest_Limit request;
             withCount := DealConditionsRequest_WithCount request |} with
  | Err _ => Err (statusError "Internal" "failed to GetDealConditions")
  | Panic m => Panic m
  | Ok (rows, count) =>
      Ok {| DealConditionsReply_Conditions := rows;
            DealConditionsReply_Count := count |}
  end.

(** The filters [getWorkers] builds. *)
Definition getWorkersFilters (request : WorkersRequest) : list Filter :=
  let filters : list Filter := [] in
  if isSet (WorkersRequest_MasterID request)
  then filters ++ [newFilter "Level" sqlop.eq
                     (VInt (unwrap (WorkersRequest_MasterID request))) "AND"]
  else filters.

(** [getWorkers]. *)
Definition getWorkers (w : DWH) (request : WorkersRequest)
    : Result WorkersReply :=
  match runQuery (db w)
          {| table := WorkersTable; filters := getWorkersFilters request;
             sortings := [];
             offset := WorkersRequest_Offset request;
             limit := WorkersRequest_Limit request;
             withCount := WorkersRequest_WithCount request |} with
  | Err _ => Err (statusError "Internal" "failed to GetWorkers")
  | Panic m => Panic m
  | Ok (rows, count) =>
      Ok {| WorkersReply_Workers := rows; WorkersReply_Count := count |}
  end.

(** The filters [getOrders] builds, in the order of the [append] calls. *)
Definition getOrdersFilters (request : OrdersRequest) : list Filter :=
  let filters : list Filter := [] in
  let filters :=
    filters ++ [newFilter "Status" sqlop.eq
                  (VInt (OrderStatus_value OrderStatus_ORDER_ACTIVE)) "AND"] in
  let filters :=
    if isSet (OrdersRequest_DealID request)
    then filters ++ [newFilter "DealID" sqlop.eq
                       (VInt (unwrap (OrdersRequest_DealID request))) "AND"]
    else filters in
  let filters :=
    if OrderType_value (OrdersRequest_Type request) >? 0
    then filters ++ [newFilter "Type" sqlop.eq
                       (VInt (OrderType_value (OrdersRequest_Type request)))
                       "AND"]
    else filters in
  let filters :=
    if isSet (OrdersRequest_AuthorID request)
    then filters ++ [newFilter "AuthorID" sqlop.eq
                       (VInt (unwrap (OrdersRequest_AuthorID request))) "AND"]
    else filters in
  let filters :=
    if isSet (OrdersRequest_CounterpartyID request)
    then filters ++ [newFilter "CounterpartyID" sqlop.eq
                       (VInt (unwrap (OrdersRequest_CounterpartyID request)))
                       "AND"]
    else filters in
  let filters :=
    match OrdersRequest_Duration request with
    | Some duration =>
        let filters :=
          if MaxMinUint64_Max duration >? 0
          then filters ++ [newFilter "Duration" sqlop.lte
                             (VInt (MaxMinUint64_Max duration)) "AND"]
          else filters in
        filters ++ [newFilter "Duration" sqlop.gte
                      (VInt (MaxMinUint64_Min duration)) "AND"]
    | None => filters
    end in
  let filters :=
    match OrdersRequest_Price request with
    | Some price =>
        let filters :=
          match MaxMinBig_Max price with
          | Some m => filters ++ [newFilter "Price" sqlop.lte (VInt m) "AND"]
          | None => filters
          end in
        match MaxMinBig_Min price with
        | Some m => filters ++ [newFilter "Price" sqlop.gte (VInt m) "AND"]
        | None => filters
        end
    | None => filters
    end in
  let filters :=
    match OrdersRequest_Netflags request with
    | Some nf =>
        if Netflags_Value nf >? 0
        then filters ++ [newNetflagsFilter (Netflags_Operator nf)
                           (Netflags_Value nf)]
        else filters
    | None => filters
    end in
  let filters :=
    if OrdersRequest_CreatorIdentityLevel request >? 0
    then filters ++ [newFilter "CreatorIdentityLevel" sqlop.gte
                       (VInt (OrdersRequest_CreatorIdentityLevel request))
                       "AND"]
    else filters in
  let filters :=
    match OrdersRequest_CreatedTS request with
    | Some createdTS =>
        let filters :=
          match MaxMinTimestamp_Max createdTS with
          | Some seconds =>
              if seconds >? 0
              then filters ++ [newFilter "CreatedTS" sqlop.lte (VInt seconds)
                                 "AND"]
              else filters
          | None => filters
          end in
        match MaxMinTimestamp_Min createdTS with
        | Some seconds =>
            if seconds >? 0
            then filters ++ [newFilter "CreatedTS" sqlop.gte (VInt seconds)
                               "AND"]
            else filters
        | None => filters
        end
    | None => filters
    end in
  match OrdersRequest_Benchmarks request with
  | Some benches => addBenchmarksConditions benches filters
  | None => filters
  end.

(** [getOrders]. *)
Definition getOrders (w : DWH) (request : OrdersRequest)
    : Result DWHOrdersReply :=
  match runQuery (db w)
          {| table := OrdersTable (numBenchmarks w);
             filters := getOrdersFilters request;
             sortings := filterSortings (OrdersRequest_Sortings request)
                           (OrderColumnsSet (numBenchmarks w));
             offset := OrdersRequest_Offset request;
             limit := OrdersRequest_Limit request;
             withCount := OrdersRequest_WithCount request |} with
  | Err _ => Err (statusError "Internal" "failed to GetOrders")
  | Panic m => Panic m
  | Ok (rows, count) =>
      Ok {| DWHOrdersReply_Orders := rows; DWHOrdersReply_Count := count |}
  end.

(** [for benchID, benchValue := range values]: the values with their index. *)
Definition indexed (values : list Z) : list (Z * Z) :=
  combine (map Z.of_nat (seq 0 (List.length values))) values.

(** The filters [getMatchingOrders] builds for the order it looked up. *)
Definition getMatchingOrdersFilters (order : DWHOrder) : list Filter :=
  let o := DWHOrder_Order order in
  let isBid := OrderType_beq (Order_OrderType o) OrderType_BID in
  let orderType := if isBid then OrderType_ASK else OrderType_BID in
  let priceOp := if isBid then sqlop.lte else sqlop.gte in
  let durationOp := if isBid then sqlop.gte else sqlop.lte in
  let benchOp := if isBid then sqlop.gte else sqlop.lte in
  let filters : list Filter := [] in
  let filters :=
    filters ++ [newFilter "Type" sqlop.eq (VInt (OrderType_value orderType))
                  "AND"] in
  let filters :=
    filters ++ [newFilter "Status" sqlop.eq
                  (VInt (OrderStatus_value OrderStatus_ORDER_ACTIVE)) "AND"] in
  let filters :=
    filters ++ [newFilter "Price" priceOp (VInt (Order_Price o)) "AND"] in
  let filters :=
    if Order_Duration o >? 0
    then filters ++ [newFilter "Duration" durationOp
                       (VInt (Order_Duration o)) "AND"]
    else filters ++ [newFilter "Duration" sqlop.eq
                       (VInt (Order_Duration o)) "AND"] in
  let filters :=
    if negb (Order_CounterpartyID o =? 0)
    then filters ++ [newFilter "AuthorID" sqlop.eq
                       (VInt (Order_CounterpartyID o)) "AND"]
    else filters in
  let counterpartyFilter :=
    withOpenBracket (newFilter "CounterpartyID" sqlop.eq (VInt 0) "OR") in
  let filters := filters ++ [counterpartyFilter] in
  let counterpartyFilter :=
    withCloseBracket
      (newFilter "CounterpartyID" sqlop.eq (VInt (Order_AuthorID o)) "AND") in
  let filters := filters ++ [counterpartyFilter] in
  let filters :=
    if isBid
    then filters ++ [newNetflagsFilter CmpOp_GTE (Order_Netflags o)]
    else filters ++ [newNetflagsFilter CmpOp_LTE (Order_Netflags o)] in
  let filters :=
    filters ++ [newFilter "IdentityLevel" sqlop.gte
                  (VInt (Order_IdentityLevel o)) "AND"] in
  let filters :=
    filters ++ [newFilter "CreatorIdentityLevel" sqlop.lte
                  (VInt (DWHOrder_CreatorIdentityLevel order)) "AND"] in
  fold_left
    (fun filters entry =>
       let '(benchID, benchValue) := entry in
       filters ++ [newFilter (getBenchmarkColumn benchID) benchOp
                     (VInt benchValue) "AND"])
    (indexed (Order_Benchmarks o)) filters.

Definition getMatchingOrdersSorting (order : DWHOrder) : SortingOrder :=
  if OrderType_beq (Order_OrderType (DWHOrder_Order order)) OrderType_BID
  then SortingOrder_Asc else SortingOrder_Desc.

(** [getMatchingOrders]. *)
Definition getMatchingOrders (w : DWH) (request : MatchingOrdersRequest)
    : Result DWHOrdersReply :=
  match getOrderDetails w (MatchingOrdersRequest_Id request) with
  | Err _ =>
      Err (statusError "Internal"
             "failed to GetMatchingOrders (no matching order)")
  | Panic m => Panic m
  | Ok order =>
      match runQuery (db w)
              {| table := OrdersTable (numBenchmarks w);
                 filters := getMatchingOrdersFilters order;
                 sortings :=
                   [{| SortingOption_Field := "Price";
                       SortingOption_Order := getMatchingOrdersSorting order |}];
                 offset := MatchingOrdersRequest_Offset request;
                 limit := MatchingOrdersRequest_Limit request;
                 withCount := MatchingOrdersRequest_WithCount request |} with
      | Err _ => Err (statusError "Internal" "failed to GetMatchingOrders")
      | Panic m => Panic m
      | Ok (rows, count) =>
          Ok {| DWHOrdersReply_Orders := rows; DWHOrdersReply_Count := count |}
      end
  end.

(* ------------------------------------------------------------------------- *)
(** ** Deals and blacklist queries *)

(** Modelled from the spec: the fixed columns of [Deals] (the schema is not
    at hand), named as the filters of [getDeals] and the fields [decodeDeal]
    scans name them. *)
Definition dealBaseColumns : list string :=
  ["Id"; "SupplierID"; "ConsumerID"; "MasterID"; "AskID"; "BidID";
   "Duration"; "Price"; "StartTime"; "EndTime"; "Status"; "BlockedBalance";
   "TotalPayout"; "LastBillTS"; "Netflags"; "AskIdentityLevel";
   "BidIdentityLevel"; "SupplierCertificates"; "ConsumerCertificates";
   "ActiveChangeRequest"].

(** Modelled from the spec: [DealColumnsSet], which is not at hand: the
    fixed columns of [Deals] and [numBenchmarks] benchmark columns. *)
Definition DealColumnsSet (numBenchmarks : nat) (name : string) : bool :=
  inColumns dealBaseColumns name
  || match benchIndex numBenchmarks name with Some _ => true | None => false end.

(** Modelled from the spec: the value a Deal row holds in a column, in the
    order [decodeDeal] scans them. *)
Definition dealColumn (numBenchmarks : nat) (name : string) (d : DWHDeal)
    : SqlValue :=
  let x := DWHDeal_Deal d in
  if String.eqb name "Id" then VInt (Deal_Id x)
  else if String.eqb name "SupplierID" then VInt (Deal_SupplierID x)
  else if String.eqb name "ConsumerID" then VInt (Deal_ConsumerID x)
  else if String.eqb name "MasterID" then VInt (Deal_MasterID x)
  else if String.eqb name "AskID" then VInt (Deal_AskID x)
  else if String.eqb name "BidID" then VInt (Deal_BidID x)
  else if String.eqb name "Duration" then VInt (Deal_Duration x)
  else if String.eqb name "Price" then VInt (Deal_Price x)
  else if String.eqb name "StartTime" then VInt (Deal_StartTime x)
  else if String.eqb name "EndTime" then VInt (Deal_EndTime x)
  else if String.eqb name "Status" then VInt (DealStatus_value (Deal_Status x))
  else if String.eqb name "BlockedBalance" then VInt (Deal_BlockedBalance x)
  else if String.eqb name "TotalPayout" then VInt (Deal_TotalPayout x)
  else if String.eqb name "LastBillTS" then VInt (Deal_LastBillTS x)
  else if String.eqb name "Netflags" then VInt (DWHDeal_Netflags d)
  else if String.eqb name "AskIdentityLevel"
  then VInt (DWHDeal_AskIdentityLevel d)
  else if String.eqb name "BidIdentityLevel"
  then VInt (DWHDeal_BidIdentityLevel d)
  else if String.eqb name "SupplierCertificates"
  then VCerts (DWHDeal_SupplierCertificates d)
  else if String.eqb name "ConsumerCertificates"
  then VCerts (DWHDeal_ConsumerCertificates d)
  else if String.eqb name "ActiveChangeRequest"
  then VBool (DWHDeal_ActiveChangeRequest d)
  else match benchIndex numBenchmarks name with
       | Some i => VInt (nth i (Deal_Benchmarks x) 0)
       | None => VInt 0
       end.

(** Modelled from the spec: the table [Deals]. *)
Definition DealsTable (numBenchmarks : nat) : Table DWHDeal :=
  {| tableName := "Deals"; tableRows := Deals;
     hasColumn := DealColumnsSet numBenchmarks;
     column := dealColumn numBenchmarks |}.

(** Modelled from the spec: [pb.DealsRequest] and [pb.DWHDealsReply] (the
    protobuf package is not at hand), with the fields [getDeals] reads. *)
Record DealsRequest := {
  DealsRequest_Status : DealStatus;
  DealsRequest_SupplierID : option Address;
  DealsRequest_ConsumerID : option Address;
  DealsRequest_MasterID : option Address;
  DealsRequest_AskID : option Z;
  DealsRequest_BidID : option Z;
  DealsRequest_Duration : option MaxMinUint64;
  DealsRequest_Price : option MaxMinBig;
  DealsRequest_Netflags : option NetflagsFilter;
  DealsRequest_AskIdentityLevel : Z;
  DealsRequest_BidIdentityLevel : Z;
  DealsRequest_Benchmarks : option (list (Z * MaxMinUint64));
  DealsRequest_Sortings : list SortingOption;
  DealsRequest_Offset : Z;
  DealsRequest_Limit : Z;
  DealsRequest_WithCount : bool
}.

Record DWHDealsReply := {
  DWHDealsReply_Deals : list DWHDeal;
  DWHDealsReply_Count : Z
}.

(** The filters [getDeals] builds, in the order of the [append] calls. *)
Definition getDealsFilters (request : DealsRequest) : list Filter :=
  let filters : list Filter := [] in
  let filters :=
    if DealStatus_value (DealsRequest_Status request) >? 0
    then filters ++ [newFilter "Status" sqlop.eq
                       (VInt (DealStatus_value (DealsRequest_Status request)))
                       "AND"]
    else filters in
  let filters :=
    if isSet (DealsRequest_SupplierID request)
    then filters ++ [newFilter "SupplierID" sqlop.eq
                       (VInt (unwrap (DealsRequest_SupplierID request))) "AND"]
    else filters in
  let filters :=
    if isSet (DealsRequest_ConsumerID request)
    then filters ++ [newFilter "ConsumerID" sqlop.eq
                       (VInt (unwrap (DealsRequest_ConsumerID request))) "AND"]
    else filters in
  let filters :=
    if isSet (DealsRequest_MasterID request)
    then filters ++ [newFilter "MasterID" sqlop.eq
                       (VInt (unwrap (DealsRequest_MasterID request))) "AND"]
    else filters in
  let filters :=
    if isSet (DealsRequest_AskID request)
    then filters ++ [newFilter "AskID" sqlop.eq
                       (VInt (unwrap (DealsRequest_AskID request))) "AND"]
    else filters in
  let filters :=
    if isSet (DealsRequest_BidID request)
    then filters ++ [newFilter "BidID" sqlop.eq
                       (VInt (unwrap (DealsRequest_BidID request))) "AND"]
    else filters in
  let filters :=
    match DealsRequest_Duration request with
    | Some duration =>
        let filters :=
          if MaxMinUint64_Max duration >? 0
          then filters ++ [newFilter "Duration" sqlop.lte
                             (VInt (MaxMinUint64_Max duration)) "AND"]
          else filters in
        filters ++ [newFilter "Duration" sqlop.gte
                      (VInt (MaxMinUint64_Min duration)) "AND"]
    | None => filters
    end in
  let filters :=
    match DealsRequest_Price request with
    | Some price =>
        let filters :=
          match MaxMinBig_Max price with
          | Some m => filters ++ [newFilter "Price" sqlop.lte (VInt m) "AND"]
          | None => filters
          end in
        match MaxMinBig_Min price with
        | Some m => filters ++ [newFilter "Price" sqlop.gte (VInt m) "AND"]
        | None => filters
        end
    | None => filters
    end in
  let filters :=
    match DealsRequest_Netflags request with
    | Some nf =>
        if Netflags_Value nf >? 0
        then filters ++ [newNetflagsFilter (Netflags_Operator nf)
                           (Netflags_Value nf)]
        else filters
    | None => filters
    end in
  let filters :=
    if DealsRequest_AskIdentityLevel request >? 0
    then filters ++ [newFilter "AskIdentityLevel" sqlop.gte
                       (VInt (DealsRequest_AskIdentityLevel request)) "AND"]
    else filters in
  let filters :=
    if DealsRequest_BidIdentityLevel request >? 0
    then filters ++ [newFilter "BidIdentityLevel" sqlop.gte
                       (VInt (DealsRequest_BidIdentityLevel request)) "AND"]
    else filters in
  match DealsRequest_Benchmarks request with
  | Some benches => addBenchmarksConditions benches filters
  | None => filters
  end.

(** [getDeals]. *)
Definition getDeals (w : DWH) (request : DealsRequest) : Result DWHDealsReply :=
  match runQuery (db w)
          {| table := DealsTable (numBenchmarks w);
             filters := getDealsFilters request;
             sortings := filterSortings (DealsRequest_Sortings request)
                           (DealColumnsSet (numBenchmarks w));
             offset := DealsRequest_Offset request;
             limit := DealsRequest_Limit request;
             withCount := DealsRequest_WithCount request |} with
  | Err _ => Err (statusError "Internal" "failed to GetDeals")
  | Panic m => Panic m
  | Ok (rows, count) =>
      Ok {| DWHDealsReply_Deals := rows; DWHDealsReply_Count := count |}
  end.

(** Modelled from the spec: the columns of [Blacklists] (the schema is not
    at hand): the two [getBlacklist] scans, the first of which its filter
    names. *)
Definition blacklistColumns : list string := ["AdderID"; "AddeeID"].

(** Modelled from the spec: the value a Blacklist row holds in a column. *)
Definition blacklistColumn (name : string) (x : BlacklistEntry) : SqlValue :=
  if String.eqb name "AdderID" then VInt (Blacklist_AdderID x)
  else if String.eqb name "AddeeID" then VInt (Blacklist_AddeeID x)
  else VInt 0.

(** Modelled from the spec: the table [Blacklists]. *)
Definition BlacklistsTable : Table BlacklistEntry :=
  {| tableName := "Blacklists"; tableRows := Blacklists;
     hasColumn := inColumns blacklistColumns;
     column := blacklistColumn |}.

(** Modelled from the spec: [pb.BlacklistRequest] and [pb.BlacklistReply]
    (the protobuf package is not at hand). *)
Record BlacklistRequest := {
  BlacklistRequest_OwnerID : option Address;
  BlacklistRequest_Offset : Z;
  BlacklistRequest_Limit : Z;
  BlacklistRequest_WithCount : bool
}.

Record BlacklistReply := {
  BlacklistReply_OwnerID : option Address;
  BlacklistReply_Addresses : list Address;
  BlacklistReply_Count : Z
}.

(** The filters [getBlacklist] builds. *)
Definition getBlacklistFilters (request : BlacklistRequest) : list Filter :=
  let filters : list Filter := [] in
  if isSet (BlacklistRequest_OwnerID request)
  then filters ++ [newFilter "AdderID" sqlop.eq
                     (VInt (unwrap (BlacklistRequest_OwnerID request))) "AND"]
  else filters.

(** [getBlacklist]: of every row the addee is kept. *)
Definition getBlacklist (w : DWH) (request : BlacklistRequest)
    : Result BlacklistReply :=
  match runQuery (db w)
          {| table := BlacklistsTable;
             filters := getBlacklistFilters request;
             sortings := [];
             offset := BlacklistRequest_Offset request;
             limit := BlacklistRequest_Limit request;
             withCount := BlacklistRequest_WithCount request |} with
  | Err _ => Err (statusError "Internal" "failed to GetBlacklist")
  | Panic m => Panic m
  | Ok (rows, count) =>
      Ok {| BlacklistReply_OwnerID := BlacklistRequest_OwnerID request;
            BlacklistReply_Addresses := map Blacklist_AddeeID rows;
            BlacklistReply_Count := count |}
  end.

(** [getLastKnownBlockTS].  The column is scanned into a [uint64], which a
    negative integer does not convert to. *)
Definition getLastKnownBlockTS (w : DWH) : Result Z :=
  match commands.selectLastKnownBlock (db w) with
  | Err e => Err (Wrap e "failed to selectLastKnownBlock")
  | Panic m => Panic m
  | Ok [] => Err "selectLastKnownBlock: no entries"
  | Ok (lastKnownBlock :: _) =>
      if lastKnownBlock <? 0
      then Err (Wrap "sql: Scan error on column index 0: invalid syntax"
                  "failed to parse last known block number")
      else Ok lastKnownBlock
  end.

(* ------------------------------------------------------------------------- *)
(** ** Event handlers (projection engine) *)

Section Handlers.

(** Package constants declared outside the files at hand. *)
Variable MaxBenchmark : Z.
Variable CertificateName : Z.
Variable CertificateCountry : Z.

(** [tx.Commit()] on success, [tx.Rollback()] on every error: the working
    copy is installed, or the store is left as it was. *)
Definition commitOrRollback (w : DWH) (r : Result Store) : DWH * Result unit :=
  match r with
  | Ok tx => (withDB w tx, Ok tt)
  | Err e => (w, Err e)
  | Panic m => (w, Panic m)
  end.

(** [checkBenchmarks]. *)
Definition checkBenchmarks (w : DWH) (benches : list Z) : Result unit :=
  if negb (Nat.eqb (List.length benches) (numBenchmarks w))
  then Err ("expected " ++ Z_to_string (Z.of_nat (numBenchmarks w))
            ++ " benchmarks, got "
            ++ Z_to_string (Z.of_nat (List.length benches)))%string
  else match List.find (fun entry => snd entry >=? MaxBenchmark)
                       (indexed benches) with
       | Some (idx, _) =>
           Err ("benchmark " ++ Z_to_string idx ++ " is greater that "
                ++ Z_to_string MaxBenchmark)%string
       | None => Ok tt
       end.

(** Conversion of a [uint64] to [int], and [int] addition. *)
Definition toInt (x : Z) : Z := (x + 2 ^ 63) mod 2 ^ 64 - 2 ^ 63.

(** [updateProfileStats]. *)
Definition updateProfileStats (tx : Store) (orderType : OrderType)
    (authorID : Address) (profile : Profile) (update : Z) : Result Store :=
  r <- (if OrderType_beq orderType OrderType_ASK
        then
          let updateResult := toInt (toInt (Profile_ActiveAsks profile) + update) in
          if updateResult <? 0
          then Err ("updateProfileStats resulted in a negative Asks value (UserID: `"
                    ++ Hex authorID ++ "`)")%string
          else Ok ("ActiveAsks", updateResult)
        else
          let updateResult := toInt (toInt (Profile_ActiveBids profile) + update) in
          if updateResult <? 0
          then Err ("updateProfileStats resulted in a negative Bids value (UserID: `"
                    ++ Hex authorID ++ "`)")%string
          else Ok ("ActiveBids", updateResult)) ;;
  let '(cmd, value) := r in
  wrapErr "failed to updateProfile"
    (commands.updateProfile cmd (VInt value) authorID tx).

Definition dealRow (w : DWH) (deal : Deal) (ask bid : DWHOrder)
    (hasActiveChangeRequests : bool) : DWHDeal :=
  {| DWHDeal_Deal :=
       {| Deal_Id := Deal_Id deal; Deal_SupplierID := Deal_SupplierID deal;
          Deal_ConsumerID := Deal_ConsumerID deal;
          Deal_MasterID := Deal_MasterID deal;
          Deal_AskID := Deal_AskID deal; Deal_BidID := Deal_BidID deal;
          Deal_Duration := Deal_Duration deal; Deal_Price := Deal_Price deal;
          Deal_StartTime := Deal_StartTime deal;
          Deal_EndTime := Deal_EndTime deal;
          Deal_Status := Deal_Status deal;
          Deal_BlockedBalance := Deal_BlockedBalance deal;
          Deal_TotalPayout := Deal_TotalPayout deal;
          Deal_LastBillTS := Deal_LastBillTS deal;
          Deal_Benchmarks := firstn (numBenchmarks w) (Deal_Benchmarks deal) |};
     DWHDeal_Netflags := Order_Netflags (DWHOrder_Order ask);
     DWHDeal_AskIdentityLevel := Order_IdentityLevel (DWHOrder_Order ask);
     DWHDeal_BidIdentityLevel := Order_IdentityLevel (DWHOrder_Order bid);
     DWHDeal_SupplierCertificates := DWHOrder_CreatorCertificates ask;
     DWHDeal_ConsumerCertificates := DWHOrder_CreatorCertificates bid;
     DWHDeal_ActiveChangeRequest := hasActiveChangeRequests |}.

(** [onDealOpened]. *)
Definition onDealOpened (w : DWH) (dealID : Z) : DWH * Result unit :=
  commitOrRollback w (
    deal <- wrapErr "failed to GetDealInfo" (GetDealInfo (blockchain w) dealID) ;;
    ask <- wrapErr "failed to getOrderDetails (Ask)"
             (getOrderDetails w (Deal_AskID deal)) ;;
    bid <- wrapErr "failed to getOrderDetails (Bid)"
             (getOrderDetails w (Deal_BidID deal)) ;;
    let hasActiveChangeRequests :=
      match getDealChangeRequests w (Deal_Id deal) with
      | Ok _ => true
      | _ => false
      end in
    tx <- wrapErr "failed to begin transaction" (Begin (db w)) ;;
    _ <- checkBenchmarks w (Deal_Benchmarks deal) ;;
    tx <- wrapErr "failed to insertDeal"
            (commands.insertDeal
               (dealRow w deal ask bid hasActiveChangeRequests) tx) ;;
    tx <- wrapErr "onDealOpened: failed to insertDealCondition"
            (commands.insertDealCondition (Deal_SupplierID deal)
               (Deal_ConsumerID deal) (Deal_MasterID deal)
               (Deal_Duration deal) (Deal_Price deal) (Deal_StartTime deal)
               0 (Deal_TotalPayout deal) (Deal_Id deal) tx) ;;
    Ok tx).

(** [onDealUpdated]. *)
Definition onDealUpdated (w : DWH) (dealID : Z) : DWH * Result unit :=
  match GetDealInfo (blockchain w) dealID with
  | Err e => (w, Err (Wrap e "failed to GetDealInfo"))
  | Panic m => (w, Panic m)
  | Ok deal =>
      if DealStatus_beq (Deal_Status deal) DealStatus_DEAL_CLOSED
      then
        match Begin (db w) with
        | Err e => (w, Err (Wrap e "failed to begin transaction"))
        | Panic m => (w, Panic m)
        | Ok tx =>
            match commands.deleteDeal (Deal_Id deal) tx with
            | Err _ => (w, Ok tt)
            | Panic m => (w, Panic m)
            | Ok tx =>
                commitOrRollback w (
                  tx <- wrapErr "failed to deleteOrder"
                          (commands.deleteOrder (Deal_AskID deal) tx) ;;
                  tx <- wrapErr "failed to deleteOrder"
                          (commands.deleteOrder (Deal_BidID deal) tx) ;;
                  Ok tx)
            end
        end
      else
        commitOrRollback w
          (wrapErr "failed to insert into Deals"
             (commands.updateDeal (Deal_Duration deal) (Deal_Price deal)
                (Deal_StartTime deal) (Deal_EndTime deal) (Deal_Status deal)
                (Deal_BlockedBalance deal) (Deal_TotalPayout deal)
                (Deal_LastBillTS deal) (Deal_Id deal) (db w)))
  end.

(** [onDealChangeRequestSent]. *)
Definition onDealChangeRequestSent (w : DWH) (eventTS changeRequestID : Z)
    : DWH * Result unit :=
  match GetDealChangeRequestInfo (blockchain w) changeRequestID with
  | Err e => (w, Err e)
  | Panic m => (w, Panic m)
  | Ok changeRequest =>
      if negb (ChangeRequestStatus_beq (DealChangeRequest_Status changeRequest)
                 ChangeRequestStatus_REQUEST_CREATED)
      then (w, Ok tt)
      else
        commitOrRollback w (
          expiredChangeRequests <-
            match commands.selectDealChangeRequests
                    (DealChangeRequest_DealID changeRequest)
                    (DealChangeRequest_RequestType changeRequest)
                    (DealChangeRequest_Status changeRequest) (db w) with
            | Ok rows => Ok rows
            | Err _ =>
                Err "failed to get (possibly) expired DealChangeRequests"
            | Panic m => Panic m
            end ;;
          tx <- wrapErr "failed to begin transaction" (Begin (db w)) ;;
          tx <- fold_left
                  (fun acc expiredChangeRequest =>
                     tx <- acc ;;
                     wrapErr "failed to deleteDealChangeRequest"
                       (commands.deleteDealChangeRequest
                          (DealChangeRequest_Id expiredChangeRequest) tx))
                  expiredChangeRequests (Ok tx) ;;
          tx <- wrapErr "failed to insertDealChangeRequest"
                  (commands.insertDealChangeRequest
                     (DealChangeRequest_Id changeRequest) eventTS
                     (DealChangeRequest_RequestType changeRequest)
                     (DealChangeRequest_Duration changeRequest)
                     (DealChangeRequest_Price changeRequest)
                     (DealChangeRequest_Status changeRequest)
                     (DealChangeRequest_DealID changeRequest) tx) ;;
          Ok tx)
  end.

Definition lastConditionsRequest (dealID : Z) : DealConditionsRequest :=
  {| DealConditionsRequest_DealID := dealID;
     DealConditionsRequest_Sortings := [];
     DealConditionsRequest_Offset := 0;
     DealConditionsRequest_Limit := 0;
     DealConditionsRequest_WithCount := false |}.

(** [updateDealConditionEndTime]; [Conditions[0]] is not guarded. *)
Definition updateDealConditionEndTime (w : DWH) (tx : Store) (dealID eventTS : Z)
    : Result Store :=
  dealConditionsReply <-
    wrapErr "failed to getDealConditions"
      (getDealConditions w (lastConditionsRequest dealID)) ;;
  match DealConditionsReply_Conditions dealConditionsReply with
  | [] => Panic "runtime error: index out of range"
  | dealCondition :: _ =>
      wrapErr "failed to update DealCondition"
        (commands.updateDealConditionEndTime eventTS
           (DealCondition_Id dealCondition) tx)
  end.

(** [onDealChangeRequestUpdated]. *)
Definition onDealChangeRequestUpdated (w : DWH) (eventTS changeRequestID : Z)
    : DWH * Result unit :=
  match GetDealChangeRequestInfo (blockchain w) changeRequestID with
  | Err e => (w, Err e)
  | Panic m => (w, Panic m)
  | Ok changeRequest =>
      let id := DealChangeRequest_Id changeRequest in
      match DealChangeRequest_Status changeRequest with
      | ChangeRequestStatus_REQUEST_REJECTED =>
          commitOrRollback w
            (wrapErr ("failed to update DealChangeRequest " ++ Z_to_string id)
               (commands.updateDealChangeRequest
                  (DealChangeRequest_Status changeRequest) id (db w)))
      | ChangeRequestStatus_REQUEST_ACCEPTED =>
          commitOrRollback w (
            deal <- wrapErr "failed to getDealDetails"
                      (getDealDetails w (DealChangeRequest_DealID changeRequest)) ;;
            let d := DWHDeal_Deal deal in
            tx <- wrapErr "failed to begin transaction" (Begin (db w)) ;;
            tx <- wrapErr "failed to updateDealConditionEndTime"
                    (updateDealConditionEndTime w tx (Deal_Id d) eventTS) ;;
            tx <- wrapErr "failed to insertDealCondition"
                    (commands.insertDealCondition (Deal_SupplierID d)
                       (Deal_ConsumerID d) (Deal_MasterID d)
                       (DealChangeRequest_Duration changeRequest)
                       (DealChangeRequest_Price changeRequest)
                       eventTS 0 0 (Deal_Id d) tx) ;;
            tx <- wrapErr ("failed to delete DealChangeRequest "
                           ++ Z_to_string id)
                    (commands.deleteDealChangeRequest id tx) ;;
            Ok tx)
      | _ =>
          commitOrRollback w
            (wrapErr ("failed to delete DealChangeRequest " ++ Z_to_string id)
               (commands.deleteDealChangeRequest id (db w)))
      end
  end.

(** [updateLastDealConditionPayout]. *)
Definition updateLastDealConditionPayout (tx : Store)
    (dealCondition : DealCondition) (payedAmount : Z) : Result Store :=
  let newTotalPayout := DealCondition_TotalPayout dealCondition + payedAmount in
  wrapErr "failed to updateDealConditionPayout"
    (commands.updateDealConditionPayout newTotalPayout
       (DealCondition_Id dealCondition) tx).

(** [updateDealPayout]; the deal is read through [w.db]. *)
Definition updateDealPayout (w : DWH) (tx : Store) (dealID payedAmount : Z)
    : Result Store :=
  deal <- wrapErr "failed to getDealDetails" (getDealDetails w dealID) ;;
  let newDealTotalPayout := Deal_TotalPayout (DWHDeal_Deal deal) + payedAmount in
  wrapErr "failed to updateDealPayout"
    (commands.updateDealPayout newDealTotalPayout dealID tx).

(** [onBilled]. *)
Definition onBilled (w : DWH) (eventTS dealID payedAmount : Z)
    : DWH * Result unit :=
  commitOrRollback w (
    dealConditionsReply <-
      wrapErr "failed to GetDealConditions (last)"
        (getDealConditions w (lastConditionsRequest dealID)) ;;
    match DealConditionsReply_Conditions dealConditionsReply with
    | [] => Err ("no deal conditions found for deal `"
                 ++ Z_to_string dealID ++ "`")%string
    | lastCondition :: _ =>
        tx <- wrapErr "failed to begin transaction" (Begin (db w)) ;;
        tx <- wrapErr "failed to updateLastDealConditionPayout"
                (updateLastDealConditionPayout tx lastCondition payedAmount) ;;
        tx <- wrapErr "failed to updateDealPayout"
                (updateDealPayout w tx dealID payedAmount) ;;
        tx <- wrapErr "insertDealPayment failed"
                (commands.insertDealPayment eventTS payedAmount dealID tx) ;;
        Ok tx
    end).

Definition orderRow (w : DWH) (eventTS : Z) (order : Order) (profile : Profile)
    : DWHOrder :=
  {| DWHOrder_Order :=
       {| Order_Id := Order_Id order; Order_DealID := Order_DealID order;
          Order_OrderType := Order_OrderType order;
          Order_OrderStatus := Order_OrderStatus order;
          Order_AuthorID := Order_AuthorID order;
          Order_CounterpartyID := Order_CounterpartyID order;
          Order_Duration := Order_Duration order;
          Order_Price := Order_Price order;
          Order_Netflags := Order_Netflags order;
          Order_IdentityLevel := Order_IdentityLevel order;
          Order_Blacklist := Order_Blacklist order;
          Order_Tag := Order_Tag order;
          Order_FrozenSum := Order_FrozenSum order;
          Order_Benchmarks :=
            firstn (numBenchmarks w) (Order_Benchmarks order) |};
     DWHOrder_CreatedTS := eventTS;
     DWHOrder_CreatorIdentityLevel := Profile_IdentityLevel profile;
     DWHOrder_CreatorName := Profile_Name profile;
     DWHOrder_CreatorCountry := Profile_Country profile;
     DWHOrder_CreatorCertificates := Profile_Certificates profile |}.

(** The profile [onOrderPlaced] goes on with after it created the row. *)
Definition newProfile (userID : Address) : Profile :=
  {| Profile_UserID := userID; Profile_IdentityLevel := 0; Profile_Name := "";
     Profile_Country := ""; Profile_IsCorporation := false;
     Profile_IsProfessional := false; Profile_Certificates := [];
     Profile_ActiveAsks := 0; Profile_ActiveBids := 0 |}.

(** [onOrderPlaced]. *)
Definition onOrderPlaced (w : DWH) (eventTS orderID : Z) : DWH * Result unit :=
  commitOrRollback w (
    order <- wrapErr "failed to GetOrderInfo"
               (GetOrderInfo (blockchain w) orderID) ;;
    tx <- wrapErr "failed to begin transaction" (Begin (db w)) ;;
    r <- match getProfileInfo w (Order_AuthorID order) false with
         | Ok profile =>
             tx <- wrapErr "failed to updateProfileStats"
                     (updateProfileStats tx (Order_OrderType order)
                        (Order_AuthorID order) profile 1) ;;
             Ok (tx, profile)
         | Err _ =>
             let '(askOrders, bidOrders) :=
               if OrderType_beq (Order_OrderType order) OrderType_ASK
               then (1, 0) else (0, 1) in
             tx <- wrapErr "failed to insertProfileUserID"
                     (commands.insertProfileUserID (Order_AuthorID order) []
                        askOrders bidOrders tx) ;;
             Ok (tx, newProfile (Order_AuthorID order))
         | Panic m => Panic m
         end ;;
    let '(tx, profile) := r in
    if OrderStatus_beq (Order_OrderStatus order) OrderStatus_ORDER_INACTIVE
       && (Order_DealID order =? 0)
    then Ok tx
    else
      _ <- checkBenchmarks w (Order_Benchmarks order) ;;
      tx <- wrapErr "failed to insertOrder"
              (commands.insertOrder (orderRow w eventTS order profile) tx) ;;
      Ok tx).

(** [onOrderUpdated]. *)
Definition onOrderUpdated (w : DWH) (orderID : Z) : DWH * Result unit :=
  match GetOrderInfo (blockchain w) orderID with
  | Err e => (w, Err (Wrap e "failed to GetOrderInfo"))
  | Panic m => (w, Panic m)
  | Ok order =>
      match Begin (db w) with
      | Err e => (w, Err (Wrap e "failed to begin transaction"))
      | Panic m => (w, Panic m)
      | Ok tx =>
          let updated :=
            if Order_DealID order =? 0
            then match commands.deleteOrder orderID tx with
                 | Ok tx => Ok (Some tx)
                 | Err _ => Ok None
                 | Panic m => Panic m
                 end
            else
              tx <- wrapErr "failed to updateOrderStatus (possibly old log entry)"
                      (commands.updateOrderStatus (Order_OrderStatus order)
                         (Order_Id order) tx) ;;
              Ok (Some tx) in
          match updated with
          | Err e => (w, Err e)
          | Panic m => (w, Panic m)
          | Ok None => (w, Ok tt)
          | Ok (Some tx) =>
              commitOrRollback w (
                profile <-
                  wrapErr ("failed to getProfileInfo (AuthorID: `"
                           ++ Hex (Order_AuthorID order) ++ "`)")
                    (getProfileInfo w (Order_AuthorID order) false) ;;
                tx <- wrapErr ("failed to updateProfileStats (AuthorID: `"
                               ++ Hex (Order_AuthorID order) ++ "`)")
                        (updateProfileStats tx (Order_OrderType order)
                           (Order_AuthorID order) profile (-1)) ;;
                Ok tx)
          end
      end
  end.

(** [onWorkerAnnounced]. *)
Definition onWorkerAnnounced (w : DWH) (masterID slaveID : Address)
    : DWH * Result unit :=
  commitOrRollback w
    (wrapErr "onWorkerAnnounced failed"
       (commands.insertWorker masterID slaveID false (db w))).

(** [onWorkerConfirmed]. *)
Definition onWorkerConfirmed (w : DWH) (masterID slaveID : Address)
    : DWH * Result unit :=
  commitOrRollback w
    (wrapErr "onWorkerConfirmed failed"
       (commands.updateWorker true masterID slaveID (db w))).

(** [onWorkerRemoved]. *)
Definition onWorkerRemoved (w : DWH) (masterID slaveID : Address)
    : DWH * Result unit :=
  commitOrRollback w
    (wrapErr "onWorkerRemoved failed"
       (commands.deleteWorker masterID slaveID (db w))).

(** [onAddedToBlacklist]. *)
Definition onAddedToBlacklist (w : DWH) (adderID addeeID : Address)
    : DWH * Result unit :=
  commitOrRollback w
    (wrapErr "onAddedToBlacklist failed"
       (commands.insertBlacklistEntry adderID addeeID (db w))).

(** [onRemovedFromBlacklist]. *)
Definition onRemovedFromBlacklist (w : DWH) (removerID removeeID : Address)
    : DWH * Result unit :=
  commitOrRollback w
    (wrapErr "onRemovedFromBlacklist failed"
       (commands.deleteBlacklistEntry removerID removeeID (db w))).

(** [onValidatorCreated]. *)
Definition onValidatorCreated (w : DWH) (validatorID : Address)
    : DWH * Result unit :=
  commitOrRollback w (
    validator <- wrapErr ("failed to get validator `" ++ Hex validatorID ++ "`")
                   (GetValidator (blockchain w) validatorID) ;;
    wrapErr "failed to insertValidator"
      (commands.insertValidator (Validator_Id validator)
         (Validator_Level validator) (db w))).

(** [onValidatorDeleted]. *)
Definition onValidatorDeleted (w : DWH) (validatorID : Address)
    : DWH * Result unit :=
  commitOrRollback w (
    validator <- wrapErr ("failed to get validator `" ++ Hex validatorID ++ "`")
                   (GetValidator (blockchain w) validatorID) ;;
    wrapErr "failed to updateValidator"
      (commands.updateValidator (Validator_Level validator)
         (Validator_Id validator) (db w))).

(** [attributeToString] on the two attributes that are profile columns. *)
Definition attributeToString (attribute : Z) : string :=
  if attribute =? CertificateName then "Name"
  else if attribute =? CertificateCountry then "Country"
  else "".

(** [updateProfile] (the method; the command of the same name is
    [commands.updateProfile]). *)
Definition updateProfile (w : DWH) (tx : Store) (certificate : Certificate)
    : Result Store :=
  let ownerID := Certificate_OwnerID certificate in
  let attribute := Certificate_Attribute certificate in
  tx <- match getProfileInfo w ownerID false with
        | Ok _ => Ok tx
        | Err _ =>
            wrapErr "failed to insertProfileUserID"
              (commands.insertProfileUserID ownerID [] 0 0 tx)
        | Panic m => Panic m
        end ;;
  tx <- (if attribute =? CertificateName
         then wrapErr "failed to updateProfileName"
                (commands.updateProfile (attributeToString attribute)
                   (VText (Certificate_Value certificate)) ownerID tx)
         else if attribute =? CertificateCountry
         then wrapErr "failed to updateProfileCountry"
                (commands.updateProfile (attributeToString attribute)
                   (VText (Certificate_Value certificate)) ownerID tx)
         else Ok tx) ;;
  certificates <- wrapErr "failed to getCertificatesByUseID"
                    (commands.selectCertificates ownerID tx) ;;
  let maxIdentityLevel :=
    fold_left
      (fun maxIdentityLevel certificate =>
         if Certificate_IdentityLevel certificate >? maxIdentityLevel
         then Certificate_IdentityLevel certificate
         else maxIdentityLevel)
      certificates 0 in
  tx <- wrapErr "failed to updateProfileCertificates (Certificates)"
          (commands.updateProfile "Certificates" (VCerts certificates)
             ownerID tx) ;;
  wrapErr "failed to updateProfileCertificates (Level)"
    (commands.updateProfile "IdentityLevel" (VInt maxIdentityLevel) ownerID tx).

(** [updateEntitiesByProfile]. *)
Definition updateEntitiesByProfile (tx : Store) (certificate : Certificate)
    : Result Store :=
  profile <- wrapErr "failed to getProfileInfo"
               (getProfileInfoTx tx (Certificate_OwnerID certificate)) ;;
  tx <- wrapErr "failed to updateOrders"
          (commands.updateOrders (Profile_IdentityLevel profile)
             (Profile_Name profile) (Profile_Country profile)
             (Profile_Certificates profile) (Profile_UserID profile) tx) ;;
  tx <- wrapErr "failed to updateDealsSupplier"
          (commands.updateDealsSupplier (Profile_Certificates profile)
             (Profile_UserID profile) tx) ;;
  wrapErr "failed to updateDealsConsumer"
    (commands.updateDealsConsumer (Profile_Certificates profile)
       (Profile_UserID profile) tx).

(** [onCertificateCreated]. *)
Definition onCertificateCreated (w : DWH) (certificateID : Z)
    : DWH * Result unit :=
  commitOrRollback w (
    certificate <- wrapErr "failed to GetCertificate"
                     (GetCertificate (blockchain w) certificateID) ;;
    tx <- wrapErr "failed to begin transaction" (Begin (db w)) ;;
    tx <- wrapErr "failed to insertCertificate"
            (commands.insertCertificate (Certificate_OwnerID certificate)
               (Certificate_Attribute certificate)
               ((Certificate_Attribute certificate / 100) mod 10)
               (Certificate_Value certificate)
               (Certificate_ValidatorID certificate) tx) ;;
    tx <- wrapErr "failed to updateProfile" (updateProfile w tx certificate) ;;
    tx <- wrapErr "failed to updateEntitiesByProfile"
            (updateEntitiesByProfile tx certificate) ;;
    Ok tx).

(** [updateLastKnownBlockTS]. *)
Definition updateLastKnownBlockTS (w : DWH) (blockNumber : Z)
    : DWH * Result unit :=
  commitOrRollback w
    (wrapErr "failed to updateLastKnownBlock"
       (commands.updateLastKnownBlock blockNumber (db w))).

(* ------------------------------------------------------------------------- *)
(** ** Event dispatcher and worker *)

(** Modelled from the spec: the event variants consumed from the chain
    (the blockchain package is not at hand). *)
Inductive EventData :=
| DealOpenedData (ID : Z)
| DealUpdatedData (ID : Z)
| OrderPlacedData (ID : Z)
| OrderUpdatedData (ID : Z)
| DealChangeRequestSentData (ID : Z)
| DealChangeRequestUpdatedData (ID : Z)
| BilledData (DealID PaidAmount : Z)
| WorkerAnnouncedData (MasterID SlaveID : Address)
| WorkerConfirmedData (MasterID SlaveID : Address)
| WorkerRemovedData (MasterID SlaveID : Address)
| AddedToBlacklistData (AdderID AddeeID : Address)
| RemovedFromBlacklistData (RemoverID RemoveeID : Address)
| ValidatorCreatedData (ID : Address)
| ValidatorDeletedData (ID : Address)
| CertificateCreatedData (ID : Z)
| ErrorData (err : error) (Topic : string).

(** Modelled from the spec: an event carries its variant, its block number
    and the block timestamp. *)
Record Event := {
  Event_Data : EventData;
  Event_BlockNumber : Z;
  Event_TS : Z
}.

(** A statement that is executed for its effect only: its error is dropped,
    a panic still unwinds. *)
Definition discardError (r : DWH * Result unit) : DWH * Result unit :=
  match r with
  | (w, Panic m) => (w, Panic m)
  | (w, _) => (w, Ok tt)
  end.

(** [processEvent]. *)
Definition processEvent (w : DWH) (event : Event) : DWH * Result unit :=
  match Event_Data event with
  | DealOpenedData id => onDealOpened w id
  | DealUpdatedData id => onDealUpdated w id
  | OrderPlacedData id => onOrderPlaced w (Event_TS event) id
  | OrderUpdatedData id => onOrderUpdated w id
  | DealChangeRequestSentData id =>
      onDealChangeRequestSent w (Event_TS event) id
  | DealChangeRequestUpdatedData id =>
      onDealChangeRequestUpdated w (Event_TS event) id
  | BilledData dealID paidAmount => onBilled w (Event_TS event) dealID paidAmount
  | WorkerAnnouncedData masterID slaveID => onWorkerAnnounced w masterID slaveID
  | WorkerConfirmedData masterID slaveID => onWorkerConfirmed w masterID slaveID
  | WorkerRemovedData masterID slaveID => onWorkerRemoved w masterID slaveID
  | AddedToBlacklistData adderID addeeID => onAddedToBlacklist w adderID addeeID
  | RemovedFromBlacklistData removerID removeeID =>
      discardError (onRemovedFromBlacklist w removerID removeeID)
  | ValidatorCreatedData id => onValidatorCreated w id
  | ValidatorDeletedData id => onValidatorDeleted w id
  | CertificateCreatedData id => onCertificateCreated w id
  | ErrorData _ _ => (w, Ok tt)
  end.

(** [time.Second], in nanoseconds. *)
Definition Second : Z := 1000000000.

Definition eventRetryTime : Z := Second * 3.
Definition numWorkers : Z := 40.

(** What a worker does that can be observed from outside: calls of
    [processEvent] with what they returned, timers, log lines, and the
    goroutine going down on a panic. *)
Inductive Action :=
| Processed (event : Event) (result : Result unit)
| NewTimer (d : Z)
| Log (level msg : string)
| Crashed (msg : string).

(** The branch a [select] takes between [ctx.Done()] and the other
    channel; when both are ready either may be taken. *)
Inductive Select := CtxDone | TimerC.

Record Step := {
  after : DWH;
  trace : list Action;
  crashed : bool
}.

(** [retryEvent]. *)
Definition retryEvent (w : DWH) (event : Event) (sel : Select) : Step :=
  match sel with
  | CtxDone =>
      {| after := w;
         trace := [NewTimer eventRetryTime;
                   Log "info" "context cancelled while retrying event"];
         crashed := false |}
  | TimerC =>
      let '(w', r) := processEvent w event in
      match r with
      | Ok _ =>
          {| after := w';
             trace := [NewTimer eventRetryTime; Processed event r];
             crashed := false |}
      | Err _ =>
          {| after := w';
             trace := [NewTimer eventRetryTime; Processed event r;
                       Log "warn" "failed to retry processEvent"];
             crashed := false |}
      | Panic m =>
          {| after := w';
             trace := [NewTimer eventRetryTime; Processed event r; Crashed m];
             crashed := true |}
      end
  end.

(** The body of the [case event, ok := <-events] branch of [runEventWorker]
    for a received event; [sel] is the branch the [select] of a retry takes,
    should there be one.  The block number, a [uint64], is converted to
    [int64] for [updateLastKnownBlockTS]. *)
Definition handleEvent (w : DWH) (event : Event) (sel : Select) : Step :=
  let '(w, r0) := updateLastKnownBlockTS w (toInt (Event_BlockNumber event)) in
  let t0 := match r0 with
            | Err _ => [Log "warn" "failed to updateLastKnownBlock"]
            | _ => []
            end in
  let '(w, r) := processEvent w event in
  match r with
  | Err e =>
      if Contains e "constraint"
      then {| after := w; trace := t0 ++ [Processed event r];
              crashed := false |}
      else
        let s := retryEvent w event sel in
        {| after := after s;
           trace := t0 ++ [Processed event r;
                           Log "warn" "failed to processEvent, retrying"]
                    ++ trace s
                    ++ (if crashed s then []
                        else [Log "debug" "processed event"]);
           crashed := crashed s |}
  | Ok _ =>
      {| after := w;
         trace := t0 ++ [Processed event r; Log "debug" "processed event"];
         crashed := false |}
  | Panic m =>
      {| after := w; trace := t0 ++ [Processed event r; Crashed m];
         crashed := true |}
  end.

(** What the [select] at the head of the worker loop yields. *)
Inductive Received :=
| ContextCancelled
| ChannelClosed
| Got (event : Event) (sel : Select).

(** [runEventWorker], on the sequence of things its [select] yields. *)
Fixpoint runEventWorker (w : DWH) (received : list Received)
    : DWH * list Action :=
  match received with
  | [] => (w, [])
  | ContextCancelled :: _ =>
      (w, [Log "info" "context cancelled (watchMarketEvents)"])
  | ChannelClosed :: _ => (w, [Log "info" "events channel closed"])
  | Got event sel :: rest =>
      let s := handleEvent w event sel in
      if crashed s then (after s, trace s)
      else let '(w', t) := runEventWorker (after s) rest in
           (w', trace s ++ t)
  end.

(** The calls of [processEvent] for a given event in a trace. *)
Definition attempts (t : list Action) : list (Result unit) :=
  flat_map (fun a => match a with
                     | Processed _ r => [r]
                     | _ => []
                     end) t.

End Handlers.

(* ------------------------------------------------------------------------- *)
(** ** The block cursor at start-up *)

(** [insertLastKnownBlockTS]; its message is the one of
    [updateLastKnownBlockTS]. *)
Definition insertLastKnownBlockTS (w : DWH) (blockNumber : Z)
    : DWH * Result unit :=
  commitOrRollback w
    (wrapErr "failed to updateLastKnownBlock"
       (commands.insertLastKnownBlock blockNumber (db w))).

(** The head of [watchMarketEvents], up to the call of [GetEvents]: the
    block the events are asked from.  Whatever makes the cursor unreadable,
    a row holding block 0 is inserted and the events are asked from 0. *)
Definition watchMarketEvents_lastKnownBlock (w : DWH) : DWH * Result Z :=
  match getLastKnownBlockTS w with
  | Ok lastKnownBlock => (w, Ok lastKnownBlock)
  | Panic m => (w, Panic m)
  | Err _ =>
      match insertLastKnownBlockTS w 0 with
      | (w', Ok _) => (w', Ok 0)
      | (w', Err e) => (w', Err e)
      | (w', Panic m) => (w', Panic m)
      end
  end.

(* ------------------------------------------------------------------------- *)
(** ** Vocabulary of the properties *)

(** An ACTIVE order of a given type and author. *)
Definition isActiveOrder (t : OrderType) (u : Address) (o : DWHOrder) : bool :=
  (Order_AuthorID (DWHOrder_Order o) =? u)
  && OrderType_beq (Order_OrderType (DWHOrder_Order o)) t
  && OrderStatus_beq (Order_OrderStatus (DWHOrder_Order o)) OrderStatus_ORDER_ACTIVE.

Definition countActive (t : OrderType) (u : Address) (s : Store) : Z :=
  Z.of_nat (List.length (List.filter (isActiveOrder t u) (Orders s))).

(** The counter of a profile that orders of type [t] are counted in. *)
Definition counter (t : OrderType) (p : Profile) : Z :=
  if OrderType_beq t OrderType_ASK then Profile_ActiveAsks p
  else Profile_ActiveBids p.

(** The counter stored for a user; a user without a profile row has none,
    which reads as zero. *)
Definition profileCounter (t : OrderType) (u : Address) (s : Store) : Z :=
  match List.filter (fun p => Profile_UserID p =? u) (Profiles s) with
  | p :: _ => counter t p
  | [] => 0
  end.

(** The counters equal the number of ACTIVE orders, for every profile. *)
Definition countersConsistent (s : Store) : Prop :=
  forall p, In p (Profiles s) ->
    Profile_ActiveAsks p = countActive OrderType_ASK (Profile_UserID p) s
    /\ Profile_ActiveBids p = countActive OrderType_BID (Profile_UserID p) s.

(** Counters hold what [updateProfileStats] and [insertProfileUserID] write:
    non-negative values of an [int]. *)
Definition countersInRange (s : Store) : Prop :=
  forall p, In p (Profiles s) ->
    0 <= Profile_ActiveAsks p < 2 ^ 63 /\ 0 <= Profile_ActiveBids p < 2 ^ 63.

(** Deleting the rows whose id is one of [ids]. *)
Definition withoutIds (ids : list Z) (rows : list DealChangeRequest)
    : list DealChangeRequest :=
  List.filter
    (fun r => negb (existsb (Z.eqb (DealChangeRequest_Id r)) ids)) rows.

Definition changeRequestRow (eventTS : Z) (cr : DealChangeRequest)
    : DealChangeRequest :=
  {| DealChangeRequest_Id := DealChangeRequest_Id cr;
     DealChangeRequest_CreatedTS := eventTS;
     DealChangeRequest_RequestType := DealChangeRequest_RequestType cr;
     DealChangeRequest_Duration := DealChangeRequest_Duration cr;
     DealChangeRequest_Price := DealChangeRequest_Price cr;
     DealChangeRequest_Status := DealChangeRequest_Status cr;
     DealChangeRequest_DealID := DealChangeRequest_DealID cr |}.

(** A profile with the counter for orders of type [t] set to [v]. *)
Definition setCounter (t : OrderType) (v : Z) (p : Profile) : Profile :=
  {| Profile_UserID := Profile_UserID p;
     Profile_IdentityLevel := Profile_IdentityLevel p;
     Profile_Name := Profile_Name p; Profile_Country := Profile_Country p;
     Profile_IsCorporation := Profile_IsCorporation p;
     Profile_IsProfessional := Profile_IsProfessional p;
     Profile_Certificates := Profile_Certificates p;
     Profile_ActiveAsks :=
       if OrderType_beq t OrderType_ASK then v else Profile_ActiveAsks p;
     Profile_ActiveBids :=
       if OrderType_beq t OrderType_ASK then Profile_ActiveBids p else v |}.

(** A filter without brackets whose connective is [AND]. *)
Definition plain (f : Filter) : Prop :=
  BoolOperator f = "AND" /\ OpenBracket f = false /\ CloseBracket f = false.

(** The truth value of a predicate on a row, with its connective. *)
Definition atomOf {R : Type} (col : string -> R -> SqlValue) (r : R)
    (f : Filter) : bool * string :=
  (evalOp (CmpOperator f) (col (Field f) r) (Value f), BoolOperator f).

(** The predicate [Status = ACTIVE]. *)
Definition statusActive : Filter :=
  newFilter "Status" sqlop.eq (VInt (OrderStatus_value OrderStatus_ORDER_ACTIVE)) "AND".

(** A filter list that starts with [Status = ACTIVE] and goes on with plain
    filters. *)
Definition activeFirst (fs : list Filter) : Prop :=
  exists rest, fs = statusActive :: rest /\ Forall plain rest.

(** The conditions of a deal, latest first: what [getDealConditions] reads
    when the request names the deal and nothing else. *)
Definition conditionsOf (dealID : Z) (s : Store) : list DealCondition :=
  sortRows
    (rowLe dealConditionColumn
       [{| SortingOption_Field := "Id";
           SortingOption_Order := SortingOrder_Desc |}])
    (List.filter
       (fun c =>
          match evalWhere dealConditionColumn
                  [newFilter "DealID" sqlop.eq (VInt dealID) "AND"] c with
          | Some b => b
          | None => false
          end) (DealConditions s)).

(** The update a [Billed] event makes to the conditions: the rows with the
    id of the latest condition get its payout plus the amount. *)
Definition billCondition (last : DealCondition) (amount : Z)
    (c : DealCondition) : DealCondition :=
  if DealCondition_Id c =? DealCondition_Id last
  then commands.setConditionColumns (DealCondition_EndTime c)
         (DealCondition_TotalPayout last + amount) c
  else c.

Definition paymentRow (eventTS amount dealID : Z) : DealPayment :=
  {| DealPayment_BillTS := eventTS; DealPayment_PaidAmount := amount;
     DealPayment_DealID := dealID |}.

Definition conditionsReply (conditions : list DealCondition)
    : DealConditionsReply :=
  {| DealConditionsReply_Conditions := conditions;
     DealConditionsReply_Count := 0 |}.

(** The calls of [processEvent] and the timers of a trace, in order. *)
Definition schedule (t : list Action) : list Action :=
  List.filter (fun a => match a with
                        | Processed _ _ | NewTimer _ => true
                        | _ => false
                        end) t.

Definition priceOf (o : DWHOrder) : Z := Order_Price (DWHOrder_Order o).

(** What holds of the transaction a sequence of statements hands back, when
    it hands one back. *)
Definition yields (P : Store -> Prop) (r : Result Store) : Prop :=
  forall tx, r = Ok tx -> P tx.

(** Two stores with the same block cursor, both open or both closed. *)
Definition sameCursor (s s' : Store) : Prop :=
  closed s' = closed s /\ LastKnownBlock s' = LastKnownBlock s.

(** The request for every worker, on one page. *)
Definition allWorkers : WorkersRequest :=
  {| WorkersRequest_MasterID := None; WorkersRequest_Offset := 0;
     WorkersRequest_Limit := 0; WorkersRequest_WithCount := false |}.

(** The request for the whole blacklist of an owner, on one page. *)
Definition blacklistOf (owner : Address) : BlacklistRequest :=
  {| BlacklistRequest_OwnerID := Some owner; BlacklistRequest_Offset := 0;
     BlacklistRequest_Limit := 0; BlacklistRequest_WithCount := false |}.

(** The rows of [Blacklists] a request selects: those of the owner, or all
    of them when the request names no owner. *)
Definition blacklisted (request : BlacklistRequest) (s : Store)
    : list BlacklistEntry :=
  List.filter
    (fun x =>
       if isSet (BlacklistRequest_OwnerID request)
       then Blacklist_AdderID x =? unwrap (BlacklistRequest_OwnerID request)
       else true) (Blacklists s).

(* ------------------------------------------------------------------------- *)
(** ** Sample data *)

Definition sampleOrder (id : Z) (t : OrderType) (st : OrderStatus)
    (author counterparty price duration netflags : Z) : Order :=
  {| Order_Id := id; Order_DealID := 0; Order_OrderType := t;
     Order_OrderStatus := st; Order_AuthorID := author;
     Order_CounterpartyID := counterparty; Order_Duration := duration;
     Order_Price := price; Order_Netflags := netflags;
     Order_IdentityLevel := 1; Order_Blacklist := ""; Order_Tag := "";
     Order_FrozenSum := 0; Order_Benchmarks := [5; 7] |}.

Definition sampleDeal (status : DealStatus) : Deal :=
  {| Deal_Id := 1; Deal_SupplierID := 1; Deal_ConsumerID := 2;
     Deal_MasterID := 1; Deal_AskID := 10; Deal_BidID := 11;
     Deal_Duration := 1000; Deal_Price := 100; Deal_StartTime := 50;
     Deal_EndTime := 0; Deal_Status := status; Deal_BlockedBalance := 0;
     Deal_TotalPayout := 0; Deal_LastBillTS := 0;
     Deal_Benchmarks := [5; 7] |}.

Definition sampleChangeRequest (id : Z) (status : ChangeRequestStatus)
    : DealChangeRequest :=
  {| DealChangeRequest_Id := id; DealChangeRequest_CreatedTS := 0;
     DealChangeRequest_RequestType := OrderType_ASK;
     DealChangeRequest_Duration := 2000; DealChangeRequest_Price := 90;
     DealChangeRequest_Status := status; DealChangeRequest_DealID := 1 |}.

(** A chain with one deal, a few orders and two change requests. *)
Definition sampleChain (dealStatus : DealStatus) : Blockchain :=
  {| GetDealInfo := fun id =>
       if id =? 1 then Ok (sampleDeal dealStatus) else Err "no such deal";
     GetOrderInfo := fun id =>
       if id =? 10
       then Ok (sampleOrder 10 OrderType_ASK OrderStatus_ORDER_ACTIVE 1 0 90 2000 7)
       else if id =? 11
       then Ok (sampleOrder 11 OrderType_BID OrderStatus_ORDER_ACTIVE 2 0 100 1000 3)
       else if id =? 12
       then Ok (sampleOrder 12 OrderType_ASK OrderStatus_ORDER_INACTIVE 1 0 95 1000 3)
       else if id =? 13
       then Ok (sampleOrder 13 OrderType_ASK OrderStatus_ORDER_ACTIVE 3 0 80 1500 3)
       else Err "no such order";
     GetDealChangeRequestInfo := fun id =>
       if id =? 100 then Ok (sampleChangeRequest 100 ChangeRequestStatus_REQUEST_CREATED)
       else if id =? 101 then Ok (sampleChangeRequest 101 ChangeRequestStatus_REQUEST_CREATED)
       else if id =? 102 then Ok (sampleChangeRequest 102 ChangeRequestStatus_REQUEST_REJECTED)
       else Err "no such change request";
     GetValidator := fun _ => Err "no such validator";
     GetCertificate := fun _ => Err "no such certificate" |}.

Definition sampleDWH (dealStatus : DealStatus) : DWH :=
  {| blockchain := sampleChain dealStatus; db := emptyStore;
     numBenchmarks := 2 |}.

Definition sampleEvent (data : EventData) (ts : Z) : Event :=
  {| Event_Data := data; Event_BlockNumber := 1; Event_TS := ts |}.

(** The events are handled one after the other, each with its timestamp. *)
Definition replay (MaxBenchmark CertificateName CertificateCountry : Z)
    (w : DWH) (events : list Event) : DWH :=
  fold_left
    (fun w event =>
       fst (processEvent MaxBenchmark CertificateName CertificateCountry
              w event))
    events w.

(** The sample store after the two orders were placed and the deal opened. *)
Definition sampleOpened : DWH :=
  replay 1000 1102 1303 (sampleDWH DealStatus_DEAL_ACCEPTED)
    [sampleEvent (OrderPlacedData 10) 10;
     sampleEvent (OrderPlacedData 11) 11;
     sampleEvent (OrderPlacedData 13) 12;
     sampleEvent (DealOpenedData 1) 20].

(** The same store when the chain reports the deal CLOSED. *)
Definition sampleClosing : DWH :=
  {| blockchain := sampleChain DealStatus_DEAL_CLOSED; db := db sampleOpened;
     numBenchmarks := 2 |}.

(** The sample store after change request 100 was sent. *)
Definition sampleRequested : DWH :=
  replay 1000 1102 1303 sampleOpened
    [sampleEvent (DealChangeRequestSentData 100) 21].

Definition sampleMatching : MatchingOrdersRequest :=
  {| MatchingOrdersRequest_Id := 11; MatchingOrdersRequest_Offset := 0;
     MatchingOrdersRequest_Limit := 0;
     MatchingOrdersRequest_WithCount := false |}.

Definition sampleOrders : OrdersRequest :=
  {| OrdersRequest_DealID := None; OrdersRequest_Type := OrderType_ASK;
     OrdersRequest_AuthorID := None; OrdersRequest_CounterpartyID := None;
     OrdersRequest_Duration := None; OrdersRequest_Price := None;
     OrdersRequest_Netflags := None; OrdersRequest_CreatorIdentityLevel := 0;
     OrdersRequest_CreatedTS := None;
     OrdersRequest_Benchmarks :=
       Some [(0, {| MaxMinUint64_Max := 10; MaxMinUint64_Min := 0 |})];
     OrdersRequest_Sortings := []; OrdersRequest_Offset := 0;
     OrdersRequest_Limit := 0; OrdersRequest_WithCount := true |}.

(** The sample store after an INACTIVE unassigned order was placed. *)
Definition sampleInactivePlaced : DWH :=
  fst (onOrderPlaced 1000 sampleOpened 40 12).

(** An event whose chain call fails: the chain has no order 99. *)
Definition sampleFailing : Event := sampleEvent (OrderUpdatedData 99) 50.

(** The row of the BID order 11 in the sample store. *)
Definition sampleBid : DWHOrder :=
  orderRow (sampleDWH DealStatus_DEAL_ACCEPTED) 11
    (sampleOrder 11 OrderType_BID OrderStatus_ORDER_ACTIVE 2 0 100 1000 3) (newProfile 2).

(** A service whose database was closed by [Stop]. *)
Definition sampleStopped : DWH :=
  withDB (sampleDWH DealStatus_DEAL_ACCEPTED) (set_closed true emptyStore).

(** The sample store after the two orders of the deal were placed, before
    the deal is opened. *)
Definition samplePlaced : DWH :=
  replay 1000 1102 1303 (sampleDWH DealStatus_DEAL_ACCEPTED)
    [sampleEvent (OrderPlacedData 10) 10;
     sampleEvent (OrderPlacedData 11) 11].

Definition sampleValidator : Validator :=
  {| Validator_Id := 7; Validator_Level := 3 |}.

(** A certificate of user 1 for the attribute 1102, issued by validator 7. *)
Definition sampleCertificate : Certificate :=
  {| Certificate_OwnerID := 1; Certificate_Attribute := 1102;
     Certificate_IdentityLevel := 0; Certificate_Value := "Alice";
     Certificate_ValidatorID := 7 |}.

(** The sample chain some time later: change request 100 was ACCEPTED,
    validator 7 and certificate 500 exist. *)
Definition sampleLaterChain : Blockchain :=
  {| GetDealInfo := GetDealInfo (sampleChain DealStatus_DEAL_ACCEPTED);
     GetOrderInfo := GetOrderInfo (sampleChain DealStatus_DEAL_ACCEPTED);
     GetDealChangeRequestInfo := fun id =>
       if id =? 100
       then Ok (sampleChangeRequest 100 ChangeRequestStatus_REQUEST_ACCEPTED)
       else Err "no such change request";
     GetValidator := fun id =>
       if id =? 7 then Ok sampleValidator else Err "no such validator";
     GetCertificate := fun id =>
       if id =? 500 then Ok sampleCertificate
       else Err "no such certificate" |}.

(** The sample store after change request 100 was sent, on the later
    chain. *)
Definition sampleLater : DWH :=
  {| blockchain := sampleLaterChain; db := db sampleRequested;
     numBenchmarks := 2 |}.

(** The same store without its DealConditions rows. *)
Definition sampleUnconditioned : DWH :=
  withDB sampleLater
    (set_DealConditions [] (lastDealConditionID (db sampleRequested))
       (db sampleRequested)).

(** The sample store after the indexer read its cursor for the first
    time. *)
Definition sampleStarted : DWH :=
  fst (watchMarketEvents_lastKnownBlock sampleOpened).

(** The condition the sample deal is opened with. *)
Definition sampleCondition : DealCondition :=
  {| DealCondition_Id := 1; DealCondition_SupplierID := 1;
     DealCondition_ConsumerID := 2; DealCondition_MasterID := 1;
     DealCondition_Duration := 1000; DealCondition_Price := 100;
     DealCondition_StartTime := 50; DealCondition_EndTime := 0;
     DealCondition_TotalPayout := 0; DealCondition_DealID := 1 |}.

(** Deal 1 as the chain reports it after it was billed. *)
Definition sampleBilledDeal : Deal :=
  {| Deal_Id := 1; Deal_SupplierID := 1; Deal_ConsumerID := 2;
     Deal_MasterID := 1; Deal_AskID := 10; Deal_BidID := 11;
     Deal_Duration := 1000; Deal_Price := 100; Deal_StartTime := 50;
     Deal_EndTime := 0; Deal_Status := DealStatus_DEAL_ACCEPTED;
     Deal_BlockedBalance := 70; Deal_TotalPayout := 30; Deal_LastBillTS := 60;
     Deal_Benchmarks := [5; 7] |}.

(** Order 10 as the chain reports it once it is assigned to deal 1. *)
Definition sampleAssignedOrder : Order :=
  {| Order_Id := 10; Order_DealID := 1; Order_OrderType := OrderType_ASK;
     Order_OrderStatus := OrderStatus_ORDER_INACTIVE; Order_AuthorID := 1;
     Order_CounterpartyID := 0; Order_Duration := 2000; Order_Price := 90;
     Order_Netflags := 7; Order_IdentityLevel := 1; Order_Blacklist := "";
     Order_Tag := ""; Order_FrozenSum := 0; Order_Benchmarks := [5; 7] |}.

(** The sample chain after the deal was billed, order 10 assigned to it and
    change request 100 REJECTED. *)
Definition sampleBilledChain : Blockchain :=
  {| GetDealInfo := fun id =>
       if id =? 1 then Ok sampleBilledDeal else Err "no such deal";
     GetOrderInfo := fun id =>
       if id =? 10 then Ok sampleAssignedOrder
       else GetOrderInfo (sampleChain DealStatus_DEAL_ACCEPTED) id;
     GetDealChangeRequestInfo := fun id =>
       if id =? 100
       then Ok (sampleChangeRequest 100 ChangeRequestStatus_REQUEST_REJECTED)
       else Err "no such change request";
     GetValidator := fun _ => Err "no such validator";
     GetCertificate := fun _ => Err "no such certificate" |}.

(** The sample store after change request 100 was sent, on that chain. *)
Definition sampleBilling : DWH :=
  {| blockchain := sampleBilledChain; db := db sampleRequested;
     numBenchmarks := 2 |}.

(** An event of block 2^63, the first block number that does not fit an
    [int64]; the chain has no order 99. *)
Definition sampleFarBlock : Event :=
  {| Event_Data := OrderUpdatedData 99; Event_BlockNumber := 2 ^ 63;
     Event_TS := 50 |}.

(** The later store after validator 7 was created. *)
Definition sampleValidated : DWH := fst (onValidatorCreated sampleLater 7).

(** The request for the deals of supplier 1 that last between 500 and
    2000. *)
Definition sampleDeals : DealsRequest :=
  {| DealsRequest_Status := DealStatus_DEAL_ACCEPTED;
     DealsRequest_SupplierID := Some 1; DealsRequest_ConsumerID := None;
     DealsRequest_MasterID := None; DealsRequest_AskID := None;
     DealsRequest_BidID := None;
     DealsRequest_Duration :=
       Some {| MaxMinUint64_Max := 2000; MaxMinUint64_Min := 500 |};
     DealsRequest_Price := None; DealsRequest_Netflags := None;
     DealsRequest_AskIdentityLevel := 0; DealsRequest_BidIdentityLevel := 0;
     DealsRequest_Benchmarks := None; DealsRequest_Sortings := [];
     DealsRequest_Offset := 0; DealsRequest_Limit := 0;
     DealsRequest_WithCount := false |}.

(** The request for the ASK orders of author 3 that cost at most 85. *)
Definition sampleAsks : OrdersRequest :=
  {| OrdersRequest_DealID := None; OrdersRequest_Type := OrderType_ASK;
     OrdersRequest_AuthorID := Some 3; OrdersRequest_CounterpartyID := None;
     OrdersRequest_Duration := None;
     OrdersRequest_Price :=
       Some {| MaxMinBig_Max := Some 85; MaxMinBig_Min := None |};
     OrdersRequest_Netflags := None; OrdersRequest_CreatorIdentityLevel := 0;
     OrdersRequest_CreatedTS := None; OrdersRequest_Benchmarks := None;
     OrdersRequest_Sortings := []; OrdersRequest_Offset := 0;
     OrdersRequest_Limit := 0; OrdersRequest_WithCount := false |}.

(* ------------------------------------------------------------------------- *)
(** * Properties *)

(** ** Generic facts about results, lists and the store *)

Lemma wrapErr_Ok : forall (A : Type) (msg : string) (r : Result A) (a : A),
  wrapErr msg r = Ok a -> r = Ok a.
Proof. intros A msg [x | e | m] a H; simpl in H; congruence. Qed.

Lemma bind_Ok : forall (A B : Type) (r : Result A) (k : A -> Result B) (b : B),
  bind r k = Ok b -> exists a, r = Ok a /\ k a = Ok b.
Proof.
  intros A B [a | e | m] k b H; simpl in H; try discriminate.
  exists a; split; [reflexivity | exact H].
Qed.

Lemma ifOpen_open : forall (A : Type) (s : Store) (r : Result A),
  closed s = false -> ifOpen s r = r.
Proof. intros A s r H; unfold ifOpen; rewrite H; reflexivity. Qed.

(** Statements run on an open database. *)
Ltac run_open H := unfold ifOpen; repeat (simpl; rewrite H); simpl.

Lemma Begin_open : forall s, closed s = false -> Begin s = Ok s.
Proof. intros s H; unfold Begin; apply ifOpen_open; exact H. Qed.

Lemma Begin_Ok : forall s tx, Begin s = Ok tx -> tx = s /\ closed s = false.
Proof.
  intros s tx; unfold Begin, ifOpen; destruct (closed s); intro H;
    [discriminate | injection H as <-; auto].
Qed.

Lemma filter_negb_In : forall (A : Type) (sel : A -> bool) (l : list A) (x : A),
  In x (List.filter (fun r => negb (sel r)) l) -> sel x = false.
Proof.
  intros A sel l x H; apply filter_In in H; destruct H as [_ H].
  destruct (sel x); [discriminate | reflexivity].
Qed.

Lemma filter_map_commute :
  forall (A : Type) (sel : A -> bool) (f : A -> A) (l : list A),
    (forall x, sel (f x) = sel x) ->
    List.filter sel (map f l) = map f (List.filter sel l).
Proof.
  intros A sel f l H; induction l as [| a l IH]; simpl; [reflexivity |].
  rewrite H; destruct (sel a); simpl; rewrite IH; reflexivity.
Qed.

(* ------------------------------------------------------------------------- *)
(** ** Benchmark conditions of a query request *)

(** What one entry of the benchmark map contributes when both bounds are
    set: both predicates carry [condition.Max]. *)
Lemma addBenchmarksConditions_entry :
  forall benchID condition filters,
    MaxMinUint64_Max condition > 0 ->
    MaxMinUint64_Min condition > 0 ->
    addBenchmarksConditions [(benchID, condition)] filters =
    filters ++ [newFilter (getBenchmarkColumn benchID) sqlop.lte
                  (VInt (MaxMinUint64_Max condition)) "AND";
                newFilter (getBenchmarkColumn benchID) sqlop.gte
                  (VInt (MaxMinUint64_Max condition)) "AND"].
Proof.
  intros benchID condition filters Hmax Hmin.
  unfold addBenchmarksConditions; simpl.
  assert (Hmax' : (MaxMinUint64_Max condition >? 0) = true)
    by (apply Z.gtb_lt; lia).
  assert (Hmin' : (MaxMinUint64_Min condition >? 0) = true)
    by (apply Z.gtb_lt; lia).
  rewrite Hmax', Hmin', <- app_assoc; reflexivity.
Qed.

(** C2 (defect in the code).  For a benchmark entry with [Min > 0] the query
    layer should add a [>=] predicate with value [condition.Min] on the
    column [BenchN]; the code passes [condition.Max] instead.  On the entry
    [0 -> {Min: 5, Max: 10}] the filters are [Bench0 <= 10] and
    [Bench0 >= 10]: the lower bound 5 never reaches the query. *)
Theorem addBenchmarksConditions_gte_carries_Max :
  addBenchmarksConditions
    [(0, {| MaxMinUint64_Max := 10; MaxMinUint64_Min := 5 |})] [] =
  [newFilter "Bench0" sqlop.lte (VInt 10) "AND";
   newFilter "Bench0" sqlop.gte (VInt 10) "AND"].
Proof. reflexivity. Qed.

(* ------------------------------------------------------------------------- *)
(** ** Workers query *)

Lemma getWorkersFilters_master :
  forall masterID off lim cnt,
    masterID <> 0 ->
    getWorkersFilters
      {| WorkersRequest_MasterID := Some masterID; WorkersRequest_Offset := off;
         WorkersRequest_Limit := lim; WorkersRequest_WithCount := cnt |} =
    [newFilter "Level" sqlop.eq (VInt masterID) "AND"].
Proof.
  intros masterID off lim cnt H; unfold getWorkersFilters; simpl.
  apply Z.eqb_neq in H; rewrite H; reflexivity.
Qed.

(** C3 (defect in the code).  A [GetWorkers] request with a non-zero
    [MasterID] should filter the [Workers] table on the [MasterID] column;
    the code names the column [Level], which [Workers] does not have.  For
    [MasterID = 1] the only filter is [Level = 1], and the query is refused
    instead of returning the workers of that master. *)
Theorem getWorkers_filters_on_Level :
  let request :=
    {| WorkersRequest_MasterID := Some 1; WorkersRequest_Offset := 0;
       WorkersRequest_Limit := 0; WorkersRequest_WithCount := false |} in
  getWorkersFilters request = [newFilter "Level" sqlop.eq (VInt 1) "AND"]
  /\ hasColumn WorkersTable "Level" = false
  /\ getWorkers sampleOpened request
     = Err (statusError "Internal" "failed to GetWorkers").
Proof. repeat split; vm_compute; reflexivity. Qed.

(* ------------------------------------------------------------------------- *)
(** ** Closing a deal *)

(** An update rewrites the selected rows where they stand and leaves the
    other rows as they are. *)
Lemma updateWhere_Forall2 :
  forall (R : Type) (sel : R -> bool) (upd : R -> R) (P : R -> R -> Prop)
         (rows : list R),
    (forall r, P r (if sel r then upd r else r)) ->
    Forall2 P rows (commands.updateWhere sel upd rows).
Proof.
  intros R sel upd P rows H; unfold commands.updateWhere.
  induction rows as [| r rows IH]; simpl; constructor; [apply H | exact IH].
Qed.

(** C5.  Handling a [DealUpdated] event whose fetched deal is CLOSED removes
    the Deal row with that id and the Order rows of its ask and bid, so that
    afterwards no Deal row has the id and no Order row has the ask or the bid
    id; for any other status the mutable columns of the Deal row are updated
    instead: row by row, a Deal row with the id of the fetched deal holds the
    duration, price, start and end time, status, blocked balance, total
    payout and last bill time of the fetched deal and keeps its other
    columns, and every other row is as it was.  (The database is open and the
    chain call succeeds.) *)
Theorem onDealUpdated_closed_purges :
  forall (w : DWH) (dealID : Z) (deal : Deal),
    GetDealInfo (blockchain w) dealID = Ok deal ->
    closed (db w) = false ->
    (Deal_Status deal = DealStatus_DEAL_CLOSED ->
     exists w',
       onDealUpdated w dealID = (w', Ok tt)
       /\ Deals (db w')
          = commands.deleteWhere (fun d => commands.dealKey d =? Deal_Id deal)
              (Deals (db w))
       /\ Orders (db w')
          = commands.deleteWhere (fun o => commands.orderKey o =? Deal_BidID deal)
              (commands.deleteWhere
                 (fun o => commands.orderKey o =? Deal_AskID deal)
                 (Orders (db w)))
       /\ (forall d, In d (Deals (db w')) -> commands.dealKey d <> Deal_Id deal)
       /\ (forall o, In o (Orders (db w')) ->
             commands.orderKey o <> Deal_AskID deal
             /\ commands.orderKey o <> Deal_BidID deal))
    /\ (Deal_Status deal <> DealStatus_DEAL_CLOSED ->
        exists w',
          onDealUpdated w dealID = (w', Ok tt)
          /\ Deals (db w')
             = commands.updateWhere
                 (fun d => commands.dealKey d =? Deal_Id deal)
                 (commands.setDealColumns (Deal_Duration deal) (Deal_Price deal)
                    (Deal_StartTime deal) (Deal_EndTime deal) (Deal_Status deal)
                    (Deal_BlockedBalance deal) (Deal_TotalPayout deal)
                    (Deal_LastBillTS deal))
                 (Deals (db w))
          /\ Orders (db w') = Orders (db w)
          /\ Forall2
               (fun d d' =>
                  if commands.dealKey d =? Deal_Id deal
                  then
                    let x := DWHDeal_Deal d in
                    let x' := DWHDeal_Deal d' in
                    Deal_Duration x' = Deal_Duration deal
                    /\ Deal_Price x' = Deal_Price deal
                    /\ Deal_StartTime x' = Deal_StartTime deal
                    /\ Deal_EndTime x' = Deal_EndTime deal
                    /\ Deal_Status x' = Deal_Status deal
                    /\ Deal_BlockedBalance x' = Deal_BlockedBalance deal
                    /\ Deal_TotalPayout x' = Deal_TotalPayout deal
                    /\ Deal_LastBillTS x' = Deal_LastBillTS deal
                    /\ Deal_Id x' = Deal_Id x
                    /\ Deal_SupplierID x' = Deal_SupplierID x
                    /\ Deal_ConsumerID x' = Deal_ConsumerID x
                    /\ Deal_MasterID x' = Deal_MasterID x
                    /\ Deal_AskID x' = Deal_AskID x
                    /\ Deal_BidID x' = Deal_BidID x
                    /\ Deal_Benchmarks x' = Deal_Benchmarks x
                    /\ DWHDeal_Netflags d' = DWHDeal_Netflags d
                    /\ DWHDeal_AskIdentityLevel d' = DWHDeal_AskIdentityLevel d
                    /\ DWHDeal_BidIdentityLevel d' = DWHDeal_BidIdentityLevel d
                    /\ DWHDeal_SupplierCertificates d'
                       = DWHDeal_SupplierCertificates d
                    /\ DWHDeal_ConsumerCertificates d'
                       = DWHDeal_ConsumerCertificates d
                    /\ DWHDeal_ActiveChangeRequest d'
                       = DWHDeal_ActiveChangeRequest d
                  else d' = d)
               (Deals (db w)) (Deals (db w'))).
Proof.
  intros w dealID deal Hfetch Hopen; split; intro Hstatus.
  - eexists; unfold onDealUpdated; rewrite Hfetch, Hstatus; simpl.
    rewrite (Begin_open _ Hopen).
    unfold commands.deleteDeal, commands.deleteOrder.
    run_open Hopen.
    split; [reflexivity |]. simpl.
    split; [reflexivity |]. split; [reflexivity |]. split.
    + intros d Hd; apply filter_negb_In in Hd; apply Z.eqb_neq; exact Hd.
    + intros o Ho; split; apply Z.eqb_neq.
      * apply filter_In in Ho; destruct Ho as [Ho _].
        apply filter_negb_In in Ho; exact Ho.
      * apply filter_negb_In in Ho; exact Ho.
  - eexists; unfold onDealUpdated; rewrite Hfetch.
    assert (Hb : DealStatus_beq (Deal_Status deal) DealStatus_DEAL_CLOSED = false).
    { destruct (Deal_Status deal); try reflexivity; congruence. }
    rewrite Hb; unfold commands.updateDeal; run_open Hopen.
    split; [reflexivity |]. split; [reflexivity |]. split; [reflexivity |].
    cbn [db withDB Deals set_Deals].
    apply updateWhere_Forall2; intro d.
    destruct (commands.dealKey d =? Deal_Id deal);
      [cbn; repeat split; reflexivity | reflexivity].
Qed.

(* ------------------------------------------------------------------------- *)
(** ** Change requests *)

Lemma OrderType_beq_refl : forall t, OrderType_beq t t = true.
Proof. destruct t; reflexivity. Qed.

Lemma ChangeRequestStatus_beq_eq :
  forall a b, ChangeRequestStatus_beq a b = true <-> a = b.
Proof.
  intros a b; split; [| intros ->; destruct b; reflexivity].
  destruct a, b; simpl; congruence.
Qed.

Lemma filter_none : forall (A : Type) (sel : A -> bool) (l : list A),
  (forall x, In x l -> sel x = false) -> List.filter sel l = [].
Proof.
  intros A sel l; induction l as [| a l IH]; intro H; simpl; [reflexivity |].
  rewrite (H a (or_introl eq_refl)); apply IH; intros x Hx; apply H; right;
    exact Hx.
Qed.

Lemma withoutIds_nil : forall rows, withoutIds [] rows = rows.
Proof.
  intro rows; unfold withoutIds; induction rows as [| r rows IH]; simpl;
    [reflexivity | f_equal; exact IH].
Qed.

Lemma withoutIds_cons : forall id ids rows,
  withoutIds ids
    (commands.deleteWhere (fun r => DealChangeRequest_Id r =? id) rows)
  = withoutIds (id :: ids) rows.
Proof.
  intros id ids rows; unfold withoutIds, commands.deleteWhere.
  induction rows as [| r rows IH]; simpl; [reflexivity |].
  destruct (DealChangeRequest_Id r =? id); simpl; rewrite IH; reflexivity.
Qed.

(** The loop over the expired change requests deletes the rows carrying
    their ids, and nothing else. *)
Lemma delete_expired :
  forall (msg : string) (expired : list DealChangeRequest) (tx : Store),
    closed tx = false ->
    fold_left
      (fun acc expiredChangeRequest =>
         tx <- acc ;;
         wrapErr msg
           (commands.deleteDealChangeRequest
              (DealChangeRequest_Id expiredChangeRequest) tx))
      expired (Ok tx)
    = Ok (set_DealChangeRequests
            (withoutIds (map DealChangeRequest_Id expired)
               (DealChangeRequests tx)) tx).
Proof.
  intros msg expired; induction expired as [| x xs IH]; intros tx Hopen.
  - simpl; rewrite withoutIds_nil; destruct tx; reflexivity.
  - simpl; unfold commands.deleteDealChangeRequest at 2; run_open Hopen.
    rewrite IH by exact Hopen; simpl.
    rewrite withoutIds_cons; reflexivity.
Qed.

(** C4.  Handling a [DealChangeRequestSent] event whose fetched change
    request is CREATED deletes every CREATED change request stored for the
    same (dealID, requestType) and then inserts the new one, so that
    afterwards exactly one CREATED row exists for the pair, the new one; if
    the fetched status is not CREATED the event is ignored and the store is
    unchanged.  (The insert is accepted when no row that is left carries the
    id of the new request.) *)
Theorem onDealChangeRequestSent_supersedes :
  forall (w : DWH) (eventTS changeRequestID : Z) (cr : DealChangeRequest),
    GetDealChangeRequestInfo (blockchain w) changeRequestID = Ok cr ->
    (DealChangeRequest_Status cr <> ChangeRequestStatus_REQUEST_CREATED ->
     onDealChangeRequestSent w eventTS changeRequestID = (w, Ok tt))
    /\ (DealChangeRequest_Status cr = ChangeRequestStatus_REQUEST_CREATED ->
        closed (db w) = false ->
        let created :=
          commands.isChangeRequestOf (DealChangeRequest_DealID cr)
            (DealChangeRequest_RequestType cr) ChangeRequestStatus_REQUEST_CREATED in
        let expired := List.filter created (DealChangeRequests (db w)) in
        let kept :=
          withoutIds (map DealChangeRequest_Id expired)
            (DealChangeRequests (db w)) in
        existsb (fun r => DealChangeRequest_Id cr =? DealChangeRequest_Id r)
          kept = false ->
        exists w',
          onDealChangeRequestSent w eventTS changeRequestID = (w', Ok tt)
          /\ DealChangeRequests (db w') = kept ++ [changeRequestRow eventTS cr]
          /\ List.filter created (DealChangeRequests (db w'))
             = [changeRequestRow eventTS cr]).
Proof.
  intros w eventTS changeRequestID cr Hfetch; split.
  - intro Hstatus; unfold onDealChangeRequestSent; rewrite Hfetch.
    destruct (ChangeRequestStatus_beq (DealChangeRequest_Status cr)
                ChangeRequestStatus_REQUEST_CREATED) eqn:Hb; [| reflexivity].
    apply ChangeRequestStatus_beq_eq in Hb; contradiction.
  - intros Hstatus Hopen created expired kept Hfresh.
    assert (Hnone : List.filter created kept = []).
    { apply filter_none; intros r Hr; subst kept; unfold withoutIds in Hr.
      apply filter_In in Hr; destruct Hr as [Hin Hid].
      destruct (created r) eqn:Hc; [| reflexivity].
      assert (Hex : existsb (Z.eqb (DealChangeRequest_Id r))
                      (map DealChangeRequest_Id expired) = true).
      { apply existsb_exists; exists (DealChangeRequest_Id r); split.
        - apply in_map; subst expired; apply filter_In; auto.
        - apply Z.eqb_refl. }
      rewrite Hex in Hid; discriminate. }
    eexists; unfold onDealChangeRequestSent; rewrite Hfetch, Hstatus; simpl.
    unfold commands.selectDealChangeRequests; run_open Hopen.
    rewrite (Begin_open _ Hopen); simpl.
    rewrite delete_expired by exact Hopen; simpl.
    unfold commands.insertDealChangeRequest, commands.insertUnique.
    run_open Hopen.
    fold created; fold expired; fold kept.
    change (existsb _ kept)
      with (existsb (fun r => DealChangeRequest_Id cr =? DealChangeRequest_Id r)
              kept).
    rewrite Hfresh; simpl.
    split; [reflexivity |]; simpl; split.
    + unfold changeRequestRow; rewrite Hstatus; reflexivity.
    + rewrite filter_app, Hnone; simpl.
      unfold created at 1, commands.isChangeRequestOf; simpl.
      rewrite Z.eqb_refl, OrderType_beq_refl; simpl.
      unfold changeRequestRow; rewrite Hstatus; reflexivity.
Qed.

(* ------------------------------------------------------------------------- *)
(** ** Profile counters *)

Lemma commitOrRollback_Ok : forall (w w' : DWH) (r : Result Store),
  commitOrRollback w r = (w', Ok tt) -> exists tx, r = Ok tx /\ w' = withDB w tx.
Proof.
  intros w w' [tx | e | m] H; simpl in H; try discriminate.
  exists tx; split; [reflexivity | congruence].
Qed.

Ltac pow2 :=
  change (2 ^ 63) with 9223372036854775808 in *;
  change (2 ^ 64) with 18446744073709551616 in *.

Lemma toInt_small : forall x, 0 <= x < 2 ^ 63 -> toInt x = x.
Proof.
  intros x H; unfold toInt; pow2; rewrite Z.mod_small by lia; lia.
Qed.

Lemma toInt_lt : forall y, toInt y < 2 ^ 63.
Proof.
  intro y; unfold toInt; pow2.
  pose proof (Z.mod_pos_bound (y + 9223372036854775808) 18446744073709551616).
  lia.
Qed.

(** Adding or subtracting one on a counter in range either leaves the
    non-negative range of [int] or yields the sum. *)
Lemma toInt_step : forall x d,
  0 <= x < 2 ^ 63 ->
  -1 <= d <= 1 ->
  (toInt (toInt x + d) <? 0) = false ->
  toInt (toInt x + d) = x + d.
Proof.
  intros x d H Hd Hnn; rewrite (toInt_small H) in *.
  apply Z.ltb_ge in Hnn; unfold toInt in *; pow2.
  destruct (Z.eq_dec (x + d) 9223372036854775808) as [E | E].
  - rewrite E in Hnn; vm_compute in Hnn; contradiction Hnn; reflexivity.
  - rewrite Z.mod_small by lia; lia.
Qed.

Lemma updateWhere_filter :
  forall (A : Type) (sel : A -> bool) (upd : A -> A) (l : list A),
    (forall p, sel (upd p) = sel p) ->
    List.filter sel (commands.updateWhere sel upd l)
    = map upd (List.filter sel l).
Proof.
  intros A sel upd l H; unfold commands.updateWhere.
  induction l as [| a l IH]; simpl; [reflexivity |].
  destruct (sel a) eqn:Ha.
  - rewrite H, Ha; simpl; rewrite IH; reflexivity.
  - rewrite Ha; exact IH.
Qed.

(** [updateProfileStats] with [+1] or [-1] on a profile whose counters are
    in range: the counter of every row of the user becomes the one that was
    read, plus the update, and nothing else changes. *)
Lemma updateProfileStats_step :
  forall (tx tx' : Store) (t : OrderType) (u : Address) (p : Profile) (d : Z),
    closed tx = false ->
    0 <= counter t p < 2 ^ 63 ->
    -1 <= d <= 1 ->
    updateProfileStats tx t u p d = Ok tx' ->
    0 <= counter t p + d < 2 ^ 63
    /\ tx' = set_Profiles
               (commands.updateWhere (fun q => Profile_UserID q =? u)
                  (setCounter t (counter t p + d)) (Profiles tx)) tx.
Proof.
  intros tx tx' t u p d Hopen Hrange Hd H.
  unfold updateProfileStats, counter in *.
  destruct (OrderType_beq t OrderType_ASK) eqn:Ht.
  - destruct (toInt (toInt (Profile_ActiveAsks p) + d) <? 0) eqn:Hneg;
      [discriminate |].
    pose proof (toInt_step Hrange Hd Hneg) as Hsum.
    rewrite Hsum in H, Hneg; simpl in H.
    apply wrapErr_Ok in H; unfold commands.updateProfile in H.
    rewrite ifOpen_open in H by exact Hopen; simpl in H.
    apply Z.ltb_ge in Hneg; split;
      [split; [exact Hneg | rewrite <- Hsum; apply toInt_lt] |].
    injection H as <-; unfold setCounter; rewrite Ht; reflexivity.
  - destruct (toInt (toInt (Profile_ActiveBids p) + d) <? 0) eqn:Hneg;
      [discriminate |].
    pose proof (toInt_step Hrange Hd Hneg) as Hsum.
    rewrite Hsum in H, Hneg; simpl in H.
    apply wrapErr_Ok in H; unfold commands.updateProfile in H.
    rewrite ifOpen_open in H by exact Hopen; simpl in H.
    apply Z.ltb_ge in Hneg; split;
      [split; [exact Hneg | rewrite <- Hsum; apply toInt_lt] |].
    injection H as <-; unfold setCounter; rewrite Ht; reflexivity.
Qed.

Lemma insertProfileUserID_Ok :
  forall (tx tx' : Store) (u : Address) (certs : list Certificate) (a b : Z),
    commands.insertProfileUserID u certs a b tx = Ok tx' ->
    closed tx = false
    /\ tx' = set_Profiles
               (Profiles tx ++
                [{| Profile_UserID := u; Profile_IdentityLevel := 0;
                    Profile_Name := ""; Profile_Country := "";
                    Profile_IsCorporation := false;
                    Profile_IsProfessional := false;
                    Profile_Certificates := certs;
                    Profile_ActiveAsks := a; Profile_ActiveBids := b |}]) tx.
Proof.
  intros tx tx' u certs a b H.
  unfold commands.insertProfileUserID, ifOpen, commands.insertUnique in H.
  destruct (closed tx); [discriminate |].
  destruct (existsb _ (Profiles tx)); simpl in H; [discriminate |].
  injection H as <-; auto.
Qed.

Lemma insertOrder_Ok : forall (tx tx' : Store) (row : DWHOrder),
  commands.insertOrder row tx = Ok tx' ->
  tx' = set_Orders (Orders tx ++ [row]) tx.
Proof.
  intros tx tx' row H.
  unfold commands.insertOrder, ifOpen, commands.insertUnique in H.
  destruct (closed tx); [discriminate |].
  destruct (existsb _ (Orders tx)); simpl in H; [discriminate |].
  injection H as <-; reflexivity.
Qed.

Lemma countActive_snoc : forall t u (s : Store) (rows : list DWHOrder) row,
  Orders s = rows ++ [row] ->
  countActive t u s
  = Z.of_nat (List.length (List.filter (isActiveOrder t u) rows))
    + (if isActiveOrder t u row then 1 else 0).
Proof.
  intros t u s rows row H; unfold countActive; rewrite H, filter_app.
  rewrite length_app, Nat2Z.inj_add; simpl.
  destruct (isActiveOrder t u row); reflexivity.
Qed.

(** C1 (as the code has it).  Handling an [OrderPlaced] event that succeeds
    adds exactly one to the author's counter for the type of the order
    ([activeAsks] for an ASK, [activeBids] otherwise), a missing Profile
    being created with that counter at one, whatever the fetched status;
    the number of ACTIVE Order rows of that author and type grows by one
    only when the fetched order is ACTIVE.  So the equation between counter
    and count is kept by an ACTIVE order, and an INACTIVE unassigned order,
    for which no Order row is inserted, leaves the counter one further
    above the count.  (The counters of the store hold values the code
    writes, non-negative and within [int].) *)
Theorem onOrderPlaced_counts :
  forall (MaxBenchmark : Z) (w w' : DWH) (eventTS orderID : Z) (order : Order),
    GetOrderInfo (blockchain w) orderID = Ok order ->
    countersInRange (db w) ->
    onOrderPlaced MaxBenchmark w eventTS orderID = (w', Ok tt) ->
    let u := Order_AuthorID order in
    let t := Order_OrderType order in
    profileCounter t u (db w') = profileCounter t u (db w) + 1
    /\ countActive t u (db w')
       = countActive t u (db w)
         + (if OrderStatus_beq (Order_OrderStatus order) OrderStatus_ORDER_ACTIVE
            then 1 else 0)
    /\ (Order_OrderStatus order = OrderStatus_ORDER_INACTIVE ->
        Order_DealID order = 0 ->
        Orders (db w') = Orders (db w)
        /\ profileCounter t u (db w') - countActive t u (db w')
           = profileCounter t u (db w) - countActive t u (db w) + 1).
Proof.
  intros MB w w' eventTS orderID order Hfetch Hrange H u t.
  apply commitOrRollback_Ok in H; destruct H as [txf [H ->]].
  unfold onOrderPlaced in H; rewrite Hfetch in H; simpl in H.
  apply bind_Ok in H; destruct H as [tx [Hbegin H]].
  apply wrapErr_Ok in Hbegin; apply Begin_Ok in Hbegin.
  destruct Hbegin as [-> Hopen].
  apply bind_Ok in H; destruct H as [[tx1 profile] [Hprof H]].
  assert (Hstage : Orders tx1 = Orders (db w)
                   /\ profileCounter t u tx1 = profileCounter t u (db w) + 1).
  { unfold getProfileInfo, commands.selectProfileByID in Hprof.
    rewrite ifOpen_open in Hprof by exact Hopen.
    fold u in Hprof; fold t in Hprof.
    destruct (List.filter (fun p => Profile_UserID p =? u) (Profiles (db w)))
      as [| p ps] eqn:Hsel.
    - destruct (OrderType_beq t OrderType_ASK) eqn:Ht;
        apply bind_Ok in Hprof; destruct Hprof as [tx2 [Hins Hret]];
        injection Hret as <- <-; apply wrapErr_Ok in Hins;
        apply insertProfileUserID_Ok in Hins; destruct Hins as [_ ->];
        (split; [reflexivity |]);
        unfold profileCounter; simpl; rewrite filter_app, Hsel; simpl;
        rewrite Z.eqb_refl; simpl; unfold counter; rewrite Ht; reflexivity.
    - apply bind_Ok in Hprof; destruct Hprof as [tx2 [Hupd Hret]].
      injection Hret as <- <-; apply wrapErr_Ok in Hupd.
      apply updateProfileStats_step in Hupd; [| exact Hopen | | lia].
      + destruct Hupd as [_ ->]; split; [reflexivity |].
        unfold profileCounter; simpl.
        rewrite updateWhere_filter by (intro; reflexivity).
        rewrite Hsel; simpl.
        unfold counter, setCounter; simpl.
        destruct (OrderType_beq t OrderType_ASK); reflexivity.
      + assert (Hin : In p (Profiles (db w))).
        { assert (Hp : In p (p :: ps)) by (left; reflexivity).
          rewrite <- Hsel in Hp; apply filter_In in Hp; tauto. }
        destruct (Hrange p Hin) as [Ha Hb]; unfold counter.
        destruct (OrderType_beq t OrderType_ASK); assumption. }
  destruct Hstage as [Horders Hcounter].
  fold u in H; fold t in H.
  destruct (OrderStatus_beq (Order_OrderStatus order) OrderStatus_ORDER_INACTIVE
            && (Order_DealID order =? 0)) eqn:Hskip.
  - injection H as <-; simpl.
    assert (Hcount : countActive t u tx1 = countActive t u (db w))
      by (unfold countActive; rewrite Horders; reflexivity).
    apply andb_prop in Hskip; destruct Hskip as [Hst _].
    assert (Hact : OrderStatus_beq (Order_OrderStatus order) OrderStatus_ORDER_ACTIVE
                   = false)
      by (destruct (Order_OrderStatus order); simpl in *; congruence).
    rewrite Hact, Hcount, Hcounter.
    repeat split; try assumption; lia.
  - apply bind_Ok in H; destruct H as [[] [_ H]].
    apply bind_Ok in H; destruct H as [tx3 [Hins H]].
    injection H as <-; apply wrapErr_Ok in Hins.
    apply insertOrder_Ok in Hins; subst tx3; simpl.
    split; [exact Hcounter |]; split.
    + erewrite countActive_snoc by (simpl; reflexivity).
      unfold countActive; rewrite Horders; f_equal.
      unfold isActiveOrder; simpl; fold u; fold t.
      rewrite Z.eqb_refl, OrderType_beq_refl; reflexivity.
    + intros Hst Hd; rewrite Hst, Hd in Hskip; discriminate.
Qed.

(** Handling an [OrderUpdated] event that succeeds subtracts one from the
    author's counter for the type of the order: the counterpart of the
    increment of [onOrderPlaced]. *)
Lemma onOrderUpdated_counts :
  forall (w w' : DWH) (orderID : Z) (order : Order),
    GetOrderInfo (blockchain w) orderID = Ok order ->
    countersInRange (db w) ->
    onOrderUpdated w orderID = (w', Ok tt) ->
    profileCounter (Order_OrderType order) (Order_AuthorID order) (db w')
    = profileCounter (Order_OrderType order) (Order_AuthorID order) (db w) - 1.
Proof.
  intros w w' orderID order Hfetch Hrange H.
  unfold onOrderUpdated in H; rewrite Hfetch in H.
  destruct (closed (db w)) eqn:Hopen;
    unfold Begin, ifOpen in H; rewrite Hopen in H; [discriminate |].
  set (u := Order_AuthorID order) in *; set (t := Order_OrderType order) in *.
  assert (Hstage : exists tx1,
            closed tx1 = false /\ Profiles tx1 = Profiles (db w)
            /\ commitOrRollback w (
                 profile <-
                   wrapErr ("failed to getProfileInfo (AuthorID: `"
                            ++ Hex u ++ "`)")
                     (getProfileInfo w u false) ;;
                 tx <- wrapErr ("failed to updateProfileStats (AuthorID: `"
                                ++ Hex u ++ "`)")
                         (updateProfileStats tx1 t u profile (-1)) ;;
                 Ok tx) = (w', Ok tt)).
  { destruct (Order_DealID order =? 0).
    - unfold commands.deleteOrder, ifOpen in H; rewrite Hopen in H.
      eexists; split; [| split; [| exact H]]; [exact Hopen | reflexivity].
    - unfold commands.updateOrderStatus, ifOpen in H; rewrite Hopen in H.
      eexists; split; [| split; [| exact H]]; [exact Hopen | reflexivity]. }
  clear H; destruct Hstage as [tx1 [Hopen1 [Hprofiles H]]].
  apply commitOrRollback_Ok in H; destruct H as [txf [H ->]].
  apply bind_Ok in H; destruct H as [p [Hprof H]].
  apply wrapErr_Ok in Hprof.
  unfold getProfileInfo, commands.selectProfileByID in Hprof.
  rewrite ifOpen_open in Hprof by exact Hopen.
  destruct (List.filter (fun q => Profile_UserID q =? u) (Profiles (db w)))
    as [| p0 ps] eqn:Hsel; [discriminate |].
  injection Hprof as ->.
  apply bind_Ok in H; destruct H as [tx2 [Hupd H]]; injection H as <-.
  apply wrapErr_Ok in Hupd.
  apply updateProfileStats_step in Hupd; [| exact Hopen1 | | lia].
  - destruct Hupd as [_ ->]; unfold profileCounter; simpl.
    rewrite Hprofiles, updateWhere_filter by (intro; reflexivity).
    rewrite Hsel; simpl; unfold counter, setCounter; simpl.
    destruct (OrderType_beq t OrderType_ASK); lia.
  - assert (Hin : In p (Profiles (db w))).
    { assert (Hp : In p (p :: ps)) by (left; reflexivity).
      rewrite <- Hsel in Hp; apply filter_In in Hp; tauto. }
    destruct (Hrange p Hin) as [Ha Hb]; unfold counter.
    destruct (OrderType_beq t OrderType_ASK); assumption.
Qed.

(* ------------------------------------------------------------------------- *)
(** ** The query compiler *)

Section Sorting.

Variable R : Type.
Variable le : R -> R -> bool.

Lemma In_insertSorted : forall (x y : R) (l : list R),
  In y (insertSorted le x l) <-> y = x \/ In y l.
Proof.
  intros x y l; induction l as [| a l IH]; simpl.
  - intuition congruence.
  - destruct (le x a); simpl; rewrite ?IH; intuition congruence.
Qed.

(** Sorting keeps the rows. *)
Lemma In_sortRows : forall (y : R) (l : list R),
  In y (sortRows le l) <-> In y l.
Proof.
  intros y l; induction l as [| a l IH]; simpl; [tauto |].
  rewrite In_insertSorted, IH; intuition congruence.
Qed.

Hypothesis le_total : forall a b, le a b = true \/ le b a = true.
Hypothesis le_trans : forall a b c,
  le a b = true -> le b c = true -> le a c = true.

Lemma insertSorted_sorted : forall (x : R) (l : list R),
  StronglySorted (fun a b => le a b = true) l ->
  StronglySorted (fun a b => le a b = true) (insertSorted le x l).
Proof.
  intros x l H; induction H as [| a l Hl IH Ha]; simpl.
  - constructor; constructor.
  - destruct (le x a) eqn:Hxa.
    + constructor; [constructor; assumption |].
      constructor; [exact Hxa |].
      apply Forall_forall; intros b Hb.
      apply le_trans with a; [exact Hxa |].
      rewrite Forall_forall in Ha; apply Ha; exact Hb.
    + constructor; [exact IH |].
      apply Forall_forall; intros b Hb; apply In_insertSorted in Hb.
      destruct Hb as [-> | Hb].
      * destruct (le_total a x) as [H1 | H1]; congruence.
      * rewrite Forall_forall in Ha; apply Ha; exact Hb.
Qed.

(** Sorting by a total preorder yields a sorted list. *)
Lemma sortRows_sorted : forall l : list R,
  StronglySorted (fun a b => le a b = true) (sortRows le l).
Proof.
  induction l as [| a l IH]; simpl; [constructor |].
  apply insertSorted_sorted; exact IH.
Qed.

End Sorting.

Section Lists.

Variable R : Type.

Lemma In_skipn : forall (n : nat) (l : list R) (x : R),
  In x (skipn n l) -> In x l.
Proof.
  induction n as [| n IH]; intros [| a l] x H; simpl in *; auto.
Qed.

Lemma In_firstn : forall (n : nat) (l : list R) (x : R),
  In x (firstn n l) -> In x l.
Proof.
  induction n as [| n IH]; intros [| a l] x H; simpl in *; try tauto.
  destruct H as [H | H]; [left; exact H | right; apply IH; exact H].
Qed.

(** A page of the rows holds rows of the list only. *)
Lemma In_paginate : forall (off lim : Z) (l : list R) (x : R),
  In x (paginate off lim l) -> In x l.
Proof.
  intros off lim l x; unfold paginate; destruct (lim =? 0); intro H.
  - eapply In_skipn; exact H.
  - eapply In_skipn, In_firstn; exact H.
Qed.

Variable rel : R -> R -> Prop.

Lemma sorted_skipn : forall (n : nat) (l : list R),
  StronglySorted rel l -> StronglySorted rel (skipn n l).
Proof.
  induction n as [| n IH]; intros l H; simpl; [exact H |].
  destruct H; [constructor | apply IH; assumption].
Qed.

Lemma sorted_firstn : forall (n : nat) (l : list R),
  StronglySorted rel l -> StronglySorted rel (firstn n l).
Proof.
  induction n as [| n IH]; intros l H; simpl; [constructor |].
  destruct H as [| a l Hl Ha]; constructor.
  - apply IH; exact Hl.
  - apply Forall_forall; intros b Hb; apply In_firstn in Hb.
    rewrite Forall_forall in Ha; apply Ha; exact Hb.
Qed.

(** A page of a sorted list is sorted. *)
Lemma sorted_paginate : forall (off lim : Z) (l : list R),
  StronglySorted rel l -> StronglySorted rel (paginate off lim l).
Proof.
  intros off lim l H; unfold paginate; destruct (lim =? 0).
  - apply sorted_skipn; exact H.
  - apply sorted_firstn, sorted_skipn; exact H.
Qed.

End Lists.

(** What a successful query returns. *)
Lemma runQuery_Ok :
  forall (R : Type) (db : Store) (opts : queryOpts R) (rows : list R) (n : Z),
    runQuery db opts = Ok (rows, n) ->
    closed db = false
    /\ rows = paginate (offset opts) (limit opts)
               (sortRows (rowLe (column (table opts)) (sortings opts))
                  (List.filter
                     (fun r =>
                        match evalWhere (column (table opts)) (filters opts) r
                        with
                        | Some b => b
                        | None => false
                        end) (tableRows (table opts) db))).
Proof.
  intros R db opts rows n H; unfold runQuery in H.
  destruct (closed db); [discriminate |].
  destruct (negb (forallb _ (filters opts))); [discriminate |].
  destruct (negb (forallb _ (sortings opts))); [discriminate |].
  destruct (negb _); [discriminate |].
  injection H as <- _; auto.
Qed.

(** Every returned row is a row of the table that passes the filters. *)
Lemma runQuery_In :
  forall (R : Type) (db : Store) (opts : queryOpts R) (rows : list R) (n : Z)
         (r : R),
    runQuery db opts = Ok (rows, n) ->
    In r rows ->
    In r (tableRows (table opts) db)
    /\ evalWhere (column (table opts)) (filters opts) r = Some true.
Proof.
  intros R db opts rows n r H Hin.
  apply runQuery_Ok in H; destruct H as [_ ->].
  apply In_paginate, In_sortRows, filter_In in Hin.
  destruct Hin as [Hin Hw]; split; [exact Hin |].
  destruct (evalWhere _ _ r) as [[|] |]; congruence.
Qed.

Lemma forallb_map : forall (A B : Type) (f : B -> bool) (g : A -> B)
    (l : list A),
  forallb f (map g l) = forallb (fun x => f (g x)) l.
Proof.
  intros A B f g l; induction l as [| a l IH]; simpl; congruence.
Qed.

Section Where.

Variable R : Type.
Variable col : string -> R -> SqlValue.
Variable r : R.

Lemma collapse_plain : forall (pre rest : list Filter),
  Forall plain pre ->
  collapse col r None (pre ++ rest)
  = option_map (app (map (atomOf col r) pre)) (collapse col r None rest).
Proof.
  intros pre rest H; induction H as [| f pre [_ [Ho _]] _ IH]; simpl.
  - destruct (collapse col r None rest); reflexivity.
  - rewrite Ho; simpl; rewrite IH.
    destruct (collapse col r None rest); reflexivity.
Qed.

(** A bracketed pair of predicates counts as one predicate. *)
Lemma collapse_pair : forall (f1 f2 : Filter) (rest : list Filter),
  OpenBracket f1 = true -> CloseBracket f1 = false ->
  OpenBracket f2 = false -> CloseBracket f2 = true ->
  collapse col r None (f1 :: f2 :: rest)
  = option_map
      (cons (evalChain true [atomOf col r f1; atomOf col r f2],
             BoolOperator f2))
      (collapse col r None rest).
Proof.
  intros f1 f2 rest H1 H2 H3 H4; simpl; rewrite H1, H2, H3, H4; reflexivity.
Qed.

Lemma evalChain_AND : forall (l : list (bool * string)) (acc : bool),
  Forall (fun it => snd it = "AND") l ->
  evalChain acc l = acc && forallb fst l.
Proof.
  induction l as [| [b op] l IH]; intros acc H; simpl.
  - rewrite andb_true_r; reflexivity.
  - inversion H as [| x y Hop Hl]; subst; simpl in Hop; subst op.
    destruct l as [| it l'].
    + simpl; rewrite andb_true_r; reflexivity.
    + change (String.eqb "AND" "OR") with false; cbv iota.
      rewrite IH by exact Hl; rewrite andb_assoc; reflexivity.
Qed.

(** A list of plain filters is the conjunction of its predicates. *)
Lemma evalWhere_plain : forall fs : list Filter,
  Forall plain fs ->
  evalWhere col fs r
  = Some (forallb (fun f => fst (atomOf col r f)) fs).
Proof.
  intros fs H; unfold evalWhere.
  rewrite <- (app_nil_r fs) at 1; rewrite collapse_plain by exact H; simpl.
  rewrite app_nil_r, evalChain_AND.
  - simpl; rewrite forallb_map; reflexivity.
  - apply Forall_forall; intros it Hit; apply in_map_iff in Hit.
    destruct Hit as [f [<- Hf]]; rewrite Forall_forall in H.
    destruct (H f Hf) as [Hop _]; exact Hop.
Qed.

(** Plain filters around one bracketed pair: the conjunction of the
    predicates, the pair counting as the disjunction of its two. *)
Lemma evalWhere_pair :
  forall (pre post : list Filter) (f1 f2 : Filter),
    Forall plain pre -> Forall plain post ->
    OpenBracket f1 = true -> CloseBracket f1 = false ->
    BoolOperator f1 = "OR" ->
    OpenBracket f2 = false -> CloseBracket f2 = true ->
    BoolOperator f2 = "AND" ->
    evalWhere col (pre ++ f1 :: f2 :: post) r
    = Some (forallb (fun f => fst (atomOf col r f)) pre
            && (fst (atomOf col r f1) || fst (atomOf col r f2))
            && forallb (fun f => fst (atomOf col r f)) post).
Proof.
  intros pre post f1 f2 Hpre Hpost Ho1 Hc1 Hb1 Ho2 Hc2 Hb2; unfold evalWhere.
  rewrite collapse_plain by exact Hpre.
  rewrite collapse_pair by assumption.
  rewrite <- (app_nil_r post) at 1; rewrite collapse_plain by exact Hpost.
  simpl; rewrite app_nil_r, evalChain_AND.
  - rewrite Hb1; simpl.
    rewrite forallb_app; simpl; rewrite !forallb_map; simpl.
    rewrite andb_assoc; reflexivity.
  - apply Forall_app; split; [| constructor].
    + apply Forall_forall; intros it Hit; apply in_map_iff in Hit.
      destruct Hit as [f [<- Hf]]; rewrite Forall_forall in Hpre.
      destruct (Hpre f Hf) as [Hop _]; exact Hop.
    + exact Hb2.
    + apply Forall_forall; intros it Hit; apply in_map_iff in Hit.
      destruct Hit as [f [<- Hf]]; rewrite Forall_forall in Hpost.
      destruct (Hpost f Hf) as [Hop _]; exact Hop.
Qed.

End Where.

(* ------------------------------------------------------------------------- *)
(** ** Orders query *)

Lemma evalOp_eq_VInt : forall a b : Z,
  evalOp sqlop.eq (VInt a) (VInt b) = true -> a = b.
Proof.
  intros a b; unfold evalOp, compareValue; destruct (a ?= b) eqn:H;
    try discriminate.
  intros _; apply Z.compare_eq; exact H.
Qed.

Lemma evalOp_lte_VInt : forall a b : Z,
  evalOp sqlop.lte (VInt a) (VInt b) = true -> a <= b.
Proof.
  intros a b; unfold evalOp, compareValue.
  destruct (Z.compare_spec a b); intro; try discriminate; lia.
Qed.

Lemma evalOp_gte_VInt : forall a b : Z,
  evalOp sqlop.gte (VInt a) (VInt b) = true -> a >= b.
Proof.
  intros a b; unfold evalOp, compareValue.
  destruct (Z.compare_spec a b); intro; try discriminate; lia.
Qed.

Lemma OrderStatus_value_inj : forall a b,
  OrderStatus_value a = OrderStatus_value b -> a = b.
Proof. destruct a, b; simpl; congruence. Qed.

Lemma OrderType_value_inj : forall a b,
  OrderType_value a = OrderType_value b -> a = b.
Proof. destruct a, b; simpl; congruence. Qed.

Lemma activeFirst_snoc : forall (fs : list Filter) (f : Filter),
  activeFirst fs -> plain f -> activeFirst (fs ++ [f]).
Proof.
  intros fs f [rest [-> Hrest]] Hf; exists (rest ++ [f]); split;
    [reflexivity |].
  apply Forall_app; split; [exact Hrest | constructor; [exact Hf | constructor]].
Qed.

Lemma activeFirst_plain : forall fs, activeFirst fs -> Forall plain fs.
Proof.
  intros fs [rest [-> Hrest]]; constructor; [| exact Hrest].
  repeat split; reflexivity.
Qed.

Lemma activeFirst_addBenchmarksConditions : forall benches fs,
  activeFirst fs -> activeFirst (addBenchmarksConditions benches fs).
Proof.
  unfold addBenchmarksConditions.
  induction benches as [| [benchID condition] benches IH]; intros fs H; simpl;
    [exact H |].
  apply IH.
  destruct (MaxMinUint64_Max condition >? 0);
    destruct (MaxMinUint64_Min condition >? 0);
    repeat (apply activeFirst_snoc; [| repeat split; reflexivity]); exact H.
Qed.

(** One step of the construction: what is appended to the filters [E] built
    so far keeps the shape. *)
Ltac filters_layer E :=
  cut (activeFirst E);
  [ generalize E;
    let fs := fresh "fs" in
    let Hfs := fresh "Hfs" in
    intros fs Hfs;
    repeat match goal with
           | |- activeFirst (addBenchmarksConditions _ _) =>
               apply activeFirst_addBenchmarksConditions
           | |- activeFirst (_ ++ [_]) =>
               apply activeFirst_snoc; [| repeat split; reflexivity]
           | |- activeFirst (match ?o with _ => _ end) => destruct o
           | |- activeFirst _ => exact Hfs
           end
  | ].

(** The filters of [getOrders] start with [Status = ACTIVE]; every filter
    is joined to the next by [AND], none is bracketed. *)
Lemma getOrdersFilters_activeFirst : forall request : OrdersRequest,
  activeFirst (getOrdersFilters request).
Proof.
  intro request; unfold getOrdersFilters; cbv zeta.
  repeat match goal with
         | |- activeFirst (match _ with Some _ => _ | None => ?E end) =>
             filters_layer E
         | |- activeFirst (if _ then _ else ?E) => filters_layer E
         end.
  exists []; split; [reflexivity | constructor].
Qed.

(** C10.  The reply of [GetOrders] holds ACTIVE orders only: the filter list
    starts with the equality [Status = ACTIVE], whatever the request, and
    every request-derived filter that follows is a further conjunct, so an
    INACTIVE order is never returned. *)
Theorem getOrders_only_active :
  forall (w : DWH) (request : OrdersRequest) (reply : DWHOrdersReply),
    getOrders w request = Ok reply ->
    (exists rest,
       getOrdersFilters request
       = newFilter "Status" sqlop.eq (VInt (OrderStatus_value OrderStatus_ORDER_ACTIVE))
           "AND" :: rest
       /\ Forall plain rest)
    /\ forall o,
         In o (DWHOrdersReply_Orders reply) ->
         In o (Orders (db w))
         /\ Order_OrderStatus (DWHOrder_Order o) = OrderStatus_ORDER_ACTIVE.
Proof.
  intros w request reply H.
  pose proof (getOrdersFilters_activeFirst request) as Hshape.
  split; [exact Hshape |]; intros o Ho.
  unfold getOrders in H.
  destruct (runQuery _ _) as [[rows n] | e | m] eqn:Hq; try discriminate.
  injection H as <-; simpl in Ho.
  destruct (runQuery_In _ _ o Hq Ho) as [Hin Hw]; simpl in Hin, Hw.
  split; [exact Hin |].
  rewrite evalWhere_plain in Hw by (apply activeFirst_plain; exact Hshape).
  destruct Hshape as [rest [Heq _]]; rewrite Heq in Hw; simpl in Hw.
  injection Hw as Hw; apply andb_prop in Hw; destruct Hw as [Hw _].
  apply OrderStatus_value_inj, evalOp_eq_VInt; exact Hw.
Qed.

(* ------------------------------------------------------------------------- *)
(** ** Matching orders *)

(** The loop over the benchmarks of the order appends one filter each. *)
Lemma fold_left_benchmarks :
  forall (op : sqlop.t) (l : list (Z * Z)) (init : list Filter),
    fold_left
      (fun filters entry =>
         let '(benchID, benchValue) := entry in
         filters ++ [newFilter (getBenchmarkColumn benchID) op
                       (VInt benchValue) "AND"]) l init
    = init ++ map (fun entry =>
                     newFilter (getBenchmarkColumn (fst entry)) op
                       (VInt (snd entry)) "AND") l.
Proof.
  intros op l; induction l as [| [a b] l IH]; intro init; simpl.
  - rewrite app_nil_r; reflexivity.
  - rewrite IH, <- app_assoc; reflexivity.
Qed.

Lemma Forall_plain_map :
  forall (A : Type) (g : A -> Filter) (l : list A),
    (forall a, plain (g a)) -> Forall plain (map g l).
Proof.
  intros A g l H; induction l as [| a l IH]; simpl; constructor; auto.
Qed.

Lemma evalOp_netflags : forall (op : CmpOp) (a b : Z),
  evalOp (sqlop.netflags op) (VInt a) (VInt b) = true ->
  match op with
  | CmpOp_GTE => Z.land a b = b
  | CmpOp_LTE => Z.land a b = a
  | CmpOp_EQ => a = b
  end.
Proof.
  intros op a b; simpl; unfold netflagsCmp; destruct op; intro H;
    apply Z.eqb_eq; exact H.
Qed.

(** The filters of [getMatchingOrders]: plain filters among which the ones
    on type, status, price, duration and (when the counterparty is set)
    author, then the bracketed pair on the counterparty, then plain filters
    among which the one on netflags. *)
Lemma getMatchingOrdersFilters_shape : forall order : DWHOrder,
  let o := DWHOrder_Order order in
  let isBid := OrderType_beq (Order_OrderType o) OrderType_BID in
  exists pre post,
    getMatchingOrdersFilters order
    = pre
      ++ withOpenBracket (newFilter "CounterpartyID" sqlop.eq (VInt 0) "OR")
      :: withCloseBracket
           (newFilter "CounterpartyID" sqlop.eq (VInt (Order_AuthorID o)) "AND")
      :: post
    /\ Forall plain pre /\ Forall plain post
    /\ In (newFilter "Type" sqlop.eq
             (VInt (OrderType_value
                      (if isBid then OrderType_ASK else OrderType_BID)))
             "AND") pre
    /\ In statusActive pre
    /\ In (newFilter "Price" (if isBid then sqlop.lte else sqlop.gte)
             (VInt (Order_Price o)) "AND") pre
    /\ In (newFilter "Duration"
             (if Order_Duration o >? 0
              then if isBid then sqlop.gte else sqlop.lte
              else sqlop.eq)
             (VInt (Order_Duration o)) "AND") pre
    /\ (Order_CounterpartyID o <> 0 ->
        In (newFilter "AuthorID" sqlop.eq (VInt (Order_CounterpartyID o)) "AND")
           pre)
    /\ In (newNetflagsFilter (if isBid then CmpOp_GTE else CmpOp_LTE)
             (Order_Netflags o)) post.
Proof.
  intros order o isBid; unfold getMatchingOrdersFilters; cbv zeta.
  fold o; fold isBid.
  rewrite fold_left_benchmarks.
  assert (Hbench : forall l : list (Z * Z),
            Forall plain
              (map (fun entry : Z * Z =>
                      newFilter (getBenchmarkColumn (fst entry))
                        (if isBid then sqlop.gte else sqlop.lte)
                        (VInt (snd entry)) "AND") l)).
  { intro l; apply Forall_plain_map; intros [a b]; repeat split; reflexivity. }
  clearbody isBid.
  destruct (Order_CounterpartyID o =? 0) eqn:Hcp;
    destruct (Order_Duration o >? 0); destruct isBid; cbn [negb app];
    [ eexists [_; _; _; _], _ | eexists [_; _; _; _], _
    | eexists [_; _; _; _], _ | eexists [_; _; _; _], _
    | eexists [_; _; _; _; _], _ | eexists [_; _; _; _; _], _
    | eexists [_; _; _; _; _], _ | eexists [_; _; _; _; _], _ ];
    (split; [reflexivity |]);
    (split; [repeat constructor |]);
    (split; [repeat (constructor; [repeat split; reflexivity |]);
             apply Hbench |]);
    (split; [left; reflexivity |]);
    (split; [right; left; reflexivity |]);
    (split; [right; right; left; reflexivity |]);
    (split; [do 3 right; left; reflexivity |]);
    (split; [| left; reflexivity]);
    intro Hne;
    first [ apply Z.eqb_eq in Hcp; contradiction
          | do 4 right; left; reflexivity ].
Qed.

Lemma forallb_In : forall (A : Type) (f : A -> bool) (l : list A) (x : A),
  forallb f l = true -> In x l -> f x = true.
Proof. intros A f l x H Hx; rewrite forallb_forall in H; auto. Qed.

Lemma rowLe_price :
  forall (nb : nat) (order : SortingOrder) (a b : DWHOrder),
    rowLe (orderColumn nb)
      [{| SortingOption_Field := "Price"; SortingOption_Order := order |}] a b
    = match order with
      | SortingOrder_Asc => priceOf a <=? priceOf b
      | SortingOrder_Desc => priceOf b <=? priceOf a
      end.
Proof.
  intros nb order a b; unfold priceOf.
  cbn [rowLe SortingOption_Field SortingOption_Order].
  change (orderColumn nb "Price" a) with (VInt (Order_Price (DWHOrder_Order a))).
  change (orderColumn nb "Price" b) with (VInt (Order_Price (DWHOrder_Order b))).
  unfold compareValue.
  destruct (Z.compare_spec (Order_Price (DWHOrder_Order a))
              (Order_Price (DWHOrder_Order b)));
    destruct order; cbv iota beta; symmetry;
    first [apply Z.leb_le; lia | apply Z.leb_gt; lia].
Qed.

Lemma sorted_weaken :
  forall (A : Type) (P Q : A -> A -> Prop) (l : list A),
    (forall a b, P a b -> Q a b) -> StronglySorted P l -> StronglySorted Q l.
Proof.
  intros A P Q l H Hs; induction Hs as [| a l Hl IH Ha]; constructor;
    [exact IH |].
  apply Forall_forall; intros b Hb; rewrite Forall_forall in Ha; auto.
Qed.

(** C9.  [GetMatchingOrders(O)] returns only orders of the opposite type,
    with ACTIVE status, whose price is at most that of [O] when [O] is a BID
    and at least that of [O] otherwise, whose duration is compatible (at
    least, resp. at most, that of [O]; equal to it when [O] has duration 0),
    whose netflags contain those of [O] for a BID and are contained in them
    otherwise, whose author is the counterparty of [O] when that is set,
    whose counterparty is the zero address or the author of [O]; and the
    reply is ordered by price, ascending for a BID, descending otherwise. *)
Theorem getMatchingOrders_sound :
  forall (w : DWH) (request : MatchingOrdersRequest) (reply : DWHOrdersReply)
         (order : DWHOrder),
    getOrderDetails w (MatchingOrdersRequest_Id request) = Ok order ->
    getMatchingOrders w request = Ok reply ->
    let o := DWHOrder_Order order in
    let isBid := OrderType_beq (Order_OrderType o) OrderType_BID in
    (forall c, In c (DWHOrdersReply_Orders reply) ->
       let x := DWHOrder_Order c in
       In c (Orders (db w))
       /\ Order_OrderType x = (if isBid then OrderType_ASK else OrderType_BID)
       /\ Order_OrderStatus x = OrderStatus_ORDER_ACTIVE
       /\ (if isBid then Order_Price x <= Order_Price o
           else Order_Price x >= Order_Price o)
       /\ (if Order_Duration o >? 0
           then if isBid then Order_Duration x >= Order_Duration o
                else Order_Duration x <= Order_Duration o
           else Order_Duration x = Order_Duration o)
       /\ (if isBid
           then Z.land (Order_Netflags x) (Order_Netflags o) = Order_Netflags o
           else Z.land (Order_Netflags x) (Order_Netflags o) = Order_Netflags x)
       /\ (Order_CounterpartyID o <> 0 ->
           Order_AuthorID x = Order_CounterpartyID o)
       /\ (Order_CounterpartyID x = 0
           \/ Order_CounterpartyID x = Order_AuthorID o))
    /\ StronglySorted
         (fun a b => if isBid then priceOf a <= priceOf b
                     else priceOf a >= priceOf b)
         (DWHOrdersReply_Orders reply).
Proof.
  intros w request reply order Hdet H o isBid.
  unfold getMatchingOrders in H; rewrite Hdet in H.
  destruct (runQuery _ _) as [[rows n] | e | m] eqn:Hq; try discriminate.
  injection H as <-; cbn [DWHOrdersReply_Orders]; split.
  - intros c Hc; set (x := DWHOrder_Order c).
    destruct (runQuery_In _ _ c Hq Hc) as [Hin Hw].
    cbn [table filters column tableRows OrdersTable] in Hin, Hw.
    split; [exact Hin |].
    destruct (getMatchingOrdersFilters_shape order)
      as [pre [post [Heq [Hpre [Hpost [HT [HS [HP [HD [HA HN]]]]]]]]]].
    fold o in Heq, HT, HP, HD, HA, HN; fold isBid in HT, HP, HD, HN.
    rewrite Heq, evalWhere_pair in Hw by (assumption || reflexivity).
    injection Hw as Hw.
    apply andb_prop in Hw; destruct Hw as [Hw Hposts].
    apply andb_prop in Hw; destruct Hw as [Hpres Hcp].
    pose proof (forallb_In _ _ _ Hpres HT) as HT'.
    pose proof (forallb_In _ _ _ Hpres HS) as HS'.
    pose proof (forallb_In _ _ _ Hpres HP) as HP'.
    pose proof (forallb_In _ _ _ Hpres HD) as HD'.
    pose proof (forallb_In _ _ _ Hposts HN) as HN'.
    assert (HA' : Order_CounterpartyID o <> 0 ->
                  fst (atomOf (orderColumn (numBenchmarks w)) c
                         (newFilter "AuthorID" sqlop.eq
                            (VInt (Order_CounterpartyID o)) "AND")) = true)
      by (intro Hne; exact (forallb_In _ _ _ Hpres (HA Hne))).
    clear Hpres Hposts HT HS HP HD HN HA Heq Hpre Hpost pre post Hq Hc Hdet.
    unfold atomOf, statusActive, newNetflagsFilter in *.
    cbn [fst Field CmpOperator Value newFilter withOpenBracket
         withCloseBracket] in *.
    change (orderColumn (numBenchmarks w) "Type" c)
      with (VInt (OrderType_value (Order_OrderType x))) in HT'.
    change (orderColumn (numBenchmarks w) "Status" c)
      with (VInt (OrderStatus_value (Order_OrderStatus x))) in HS'.
    change (orderColumn (numBenchmarks w) "Price" c)
      with (VInt (Order_Price x)) in HP'.
    change (orderColumn (numBenchmarks w) "Duration" c)
      with (VInt (Order_Duration x)) in HD'.
    change (orderColumn (numBenchmarks w) "Netflags" c)
      with (VInt (Order_Netflags x)) in HN'.
    change (orderColumn (numBenchmarks w) "AuthorID" c)
      with (VInt (Order_AuthorID x)) in HA'.
    change (orderColumn (numBenchmarks w) "CounterpartyID" c)
      with (VInt (Order_CounterpartyID x)) in Hcp.
    apply evalOp_eq_VInt, OrderType_value_inj in HT'.
    apply evalOp_eq_VInt, OrderStatus_value_inj in HS'.
    split; [exact HT' |]. split; [exact HS' |].
    clearbody isBid.
    split.
    { destruct isBid; [apply evalOp_lte_VInt | apply evalOp_gte_VInt];
        exact HP'. }
    split.
    { destruct (Order_Duration o >? 0);
        [destruct isBid; [apply evalOp_gte_VInt | apply evalOp_lte_VInt]
        | apply evalOp_eq_VInt]; exact HD'. }
    split.
    { destruct isBid; apply evalOp_netflags in HN'; exact HN'. }
    split.
    { intro Hne; apply evalOp_eq_VInt, HA', Hne. }
    apply orb_prop in Hcp; destruct Hcp as [Hcp | Hcp];
      apply evalOp_eq_VInt in Hcp; [left | right]; exact Hcp.
  - apply runQuery_Ok in Hq; destruct Hq as [_ ->].
    cbn [table sortings column offset limit filters tableRows OrdersTable].
    apply sorted_paginate.
    eapply sorted_weaken; cycle 1.
    + apply sortRows_sorted.
      * intros a b; rewrite !rowLe_price.
        destruct (getMatchingOrdersSorting order);
          destruct (Z.le_ge_cases (priceOf a) (priceOf b));
          [left | right | right | left]; apply Z.leb_le; lia.
      * intros a b c; rewrite !rowLe_price.
        destruct (getMatchingOrdersSorting order); intros H1 H2;
          apply Z.leb_le in H1; apply Z.leb_le in H2; apply Z.leb_le; lia.
    + intros a b Hab; cbv beta in Hab; rewrite rowLe_price in Hab.
      unfold getMatchingOrdersSorting in Hab; fold o in Hab; fold isBid in Hab.
      destruct isBid; apply Z.leb_le in Hab; lia.
Qed.

(* ------------------------------------------------------------------------- *)
(** ** Billing *)

Lemma insertSorted_map :
  forall (A : Type) (le : A -> A -> bool) (f : A -> A) (x : A) (l : list A),
    (forall a b, le (f a) (f b) = le a b) ->
    insertSorted le (f x) (map f l) = map f (insertSorted le x l).
Proof.
  intros A le f x l H; induction l as [| a l IH]; simpl; [reflexivity |].
  rewrite H; destruct (le x a); simpl; [reflexivity | rewrite IH; reflexivity].
Qed.

(** Sorting commutes with an update that leaves the sort keys alone. *)
Lemma sortRows_map :
  forall (A : Type) (le : A -> A -> bool) (f : A -> A) (l : list A),
    (forall a b, le (f a) (f b) = le a b) ->
    sortRows le (map f l) = map f (sortRows le l).
Proof.
  intros A le f l H; unfold sortRows; induction l as [| a l IH]; simpl;
    [reflexivity |].
  rewrite IH, insertSorted_map by exact H; reflexivity.
Qed.

Lemma billCondition_keys : forall last amount c,
  DealCondition_Id (billCondition last amount c) = DealCondition_Id c
  /\ DealCondition_DealID (billCondition last amount c)
     = DealCondition_DealID c.
Proof.
  intros last amount c; unfold billCondition.
  destruct (DealCondition_Id c =? DealCondition_Id last); split; reflexivity.
Qed.

(** The conditions read for a deal after the update are the updated
    conditions read before. *)
Lemma conditionsOf_billed : forall dealID last amount (s : Store) next,
  conditionsOf dealID
    (set_DealConditions (map (billCondition last amount) (DealConditions s))
       next s)
  = map (billCondition last amount) (conditionsOf dealID s).
Proof.
  intros dealID last amount s next; unfold conditionsOf; simpl.
  rewrite filter_map_commute, sortRows_map; [reflexivity | |].
  - intros a b; unfold rowLe, dealConditionColumn; simpl.
    destruct (billCondition_keys last amount a) as [-> _].
    destruct (billCondition_keys last amount b) as [-> _]; reflexivity.
  - intro c; unfold evalWhere, dealConditionColumn; simpl.
    destruct (billCondition_keys last amount c) as [_ ->]; reflexivity.
Qed.

Lemma getDealConditions_open : forall (w : DWH) (dealID : Z),
  closed (db w) = false ->
  getDealConditions w (lastConditionsRequest dealID)
  = Ok (conditionsReply (conditionsOf dealID (db w))).
Proof.
  intros w dealID Hopen; unfold getDealConditions, runQuery; simpl.
  rewrite Hopen; reflexivity.
Qed.

Lemma getDealConditions_Ok :
  forall (w : DWH) (dealID : Z) (reply : DealConditionsReply),
    getDealConditions w (lastConditionsRequest dealID) = Ok reply ->
    closed (db w) = false
    /\ reply = conditionsReply (conditionsOf dealID (db w)).
Proof.
  intros w dealID reply H; destruct (closed (db w)) eqn:Hopen.
  - unfold getDealConditions, runQuery in H; simpl in H.
    rewrite Hopen in H; discriminate.
  - rewrite getDealConditions_open in H by exact Hopen.
    injection H as <-; auto.
Qed.

Lemma In_conditionsOf : forall dealID (s : Store) c,
  In c (conditionsOf dealID s)
  <-> In c (DealConditions s) /\ DealCondition_DealID c = dealID.
Proof.
  intros dealID s c; unfold conditionsOf.
  rewrite In_sortRows, filter_In.
  assert (Hw : evalWhere dealConditionColumn
                 [newFilter "DealID" sqlop.eq (VInt dealID) "AND"] c
               = Some (evalOp sqlop.eq (VInt (DealCondition_DealID c))
                         (VInt dealID)))
    by (unfold evalWhere; simpl; reflexivity).
  rewrite Hw; split; intros [Hin H]; split; try exact Hin.
  - apply evalOp_eq_VInt; exact H.
  - subst dealID; unfold evalOp, compareValue; rewrite Z.compare_refl;
      reflexivity.
Qed.

(** The first of the conditions read for a deal has the greatest id. *)
Lemma conditionsOf_latest : forall dealID (s : Store) last rest c,
  conditionsOf dealID s = last :: rest ->
  In c (DealConditions s) -> DealCondition_DealID c = dealID ->
  DealCondition_Id c <= DealCondition_Id last.
Proof.
  intros dealID s last rest c Heq Hin Hd.
  assert (Hc : In c (last :: rest))
    by (rewrite <- Heq; apply In_conditionsOf; auto).
  assert (Hle : forall a b,
            rowLe dealConditionColumn
              [{| SortingOption_Field := "Id";
                  SortingOption_Order := SortingOrder_Desc |}] a b
            = (DealCondition_Id b <=? DealCondition_Id a)).
  { intros a b; unfold rowLe, dealConditionColumn, compareValue; simpl.
    destruct (Z.compare_spec (DealCondition_Id a) (DealCondition_Id b));
      symmetry; first [apply Z.leb_le; lia | apply Z.leb_gt; lia]. }
  assert (Hs : StronglySorted
                 (fun a b =>
                    rowLe dealConditionColumn
                      [{| SortingOption_Field := "Id";
                          SortingOption_Order := SortingOrder_Desc |}] a b
                    = true) (last :: rest)).
  { rewrite <- Heq; unfold conditionsOf; apply sortRows_sorted.
    - intros a b; rewrite !Hle.
      destruct (Z.le_ge_cases (DealCondition_Id a) (DealCondition_Id b));
        [right | left]; apply Z.leb_le; lia.
    - intros a b d; rewrite !Hle; intros H1 H2.
      apply Z.leb_le in H1; apply Z.leb_le in H2; apply Z.leb_le; lia. }
  destruct Hc as [<- | Hc]; [lia |].
  inversion Hs as [| x l _ Hall]; subst.
  rewrite Forall_forall in Hall; specialize (Hall c Hc).
  rewrite Hle in Hall; apply Z.leb_le; exact Hall.
Qed.

Lemma conditionsOf_ext : forall dealID (s1 s2 : Store),
  DealConditions s1 = DealConditions s2 ->
  conditionsOf dealID s1 = conditionsOf dealID s2.
Proof. intros dealID s1 s2 H; unfold conditionsOf; rewrite H; reflexivity. Qed.

Lemma getDealDetails_Ok : forall (w : DWH) (dealID : Z) (deal : DWHDeal),
  getDealDetails w dealID = Ok deal ->
  closed (db w) = false
  /\ exists more,
       List.filter (fun d => commands.dealKey d =? dealID) (Deals (db w))
       = deal :: more.
Proof.
  intros w dealID deal H; unfold getDealDetails, commands.selectDealByID in H.
  unfold ifOpen in H; destruct (closed (db w)); [discriminate |].
  split; [reflexivity |].
  destruct (List.filter _ (Deals (db w))) as [| d more]; [discriminate |].
  injection H as ->; exists more; reflexivity.
Qed.

(** One [Billed] event, on a store where the deal and a condition of it
    exist and the timestamp is not yet a key of [DealPayments]. *)
Lemma onBilled_step :
  forall (w : DWH) (eventTS dealID amount : Z) (last : DealCondition)
         (rest : list DealCondition) (n : Z) (deal : DWHDeal),
    getDealConditions w (lastConditionsRequest dealID)
    = Ok {| DealConditionsReply_Conditions := last :: rest;
            DealConditionsReply_Count := n |} ->
    getDealDetails w dealID = Ok deal ->
    existsb (fun p => eventTS =? DealPayment_BillTS p) (DealPayments (db w))
    = false ->
    exists w',
      onBilled w eventTS dealID amount = (w', Ok tt)
      /\ DealConditions (db w')
         = map (billCondition last amount) (DealConditions (db w))
      /\ Deals (db w')
         = commands.updateWhere (fun d => commands.dealKey d =? dealID)
             (commands.setDealTotalPayout
                (Deal_TotalPayout (DWHDeal_Deal deal) + amount))
             (Deals (db w))
      /\ DealPayments (db w')
         = DealPayments (db w) ++ [paymentRow eventTS amount dealID]
      /\ getDealConditions w' (lastConditionsRequest dealID)
         = Ok (conditionsReply
                 (commands.setConditionColumns (DealCondition_EndTime last)
                    (DealCondition_TotalPayout last + amount) last
                  :: map (billCondition last amount) rest))
      /\ getDealDetails w' dealID
         = Ok (commands.setDealTotalPayout
                 (Deal_TotalPayout (DWHDeal_Deal deal) + amount) deal).
Proof.
  intros w eventTS dealID amount last rest n deal Hconds Hdeal Hfresh.
  apply getDealConditions_Ok in Hconds; destruct Hconds as [Hopen Hreply].
  injection Hreply as Hc _.
  pose proof (getDealDetails_Ok _ _ Hdeal) as [_ [more Hmore]].
  eexists; split; [| split; [| split; [| split; [| split]]]].
  - unfold onBilled; rewrite getDealConditions_open by exact Hopen.
    cbn [wrapErr bind conditionsReply DealConditionsReply_Conditions].
    rewrite <- Hc; rewrite (Begin_open _ Hopen); cbn [bind wrapErr].
    unfold updateLastDealConditionPayout, commands.updateDealConditionPayout.
    rewrite ifOpen_open by exact Hopen; cbn [bind wrapErr].
    unfold updateDealPayout; rewrite Hdeal; cbn [bind wrapErr].
    unfold commands.updateDealPayout.
    rewrite ifOpen_open by exact Hopen; cbn [bind wrapErr].
    unfold commands.insertDealPayment, commands.insertUnique.
    rewrite ifOpen_open by exact Hopen.
    cbn [DealPayments set_Deals set_DealConditions DealPayment_BillTS].
    rewrite Hfresh; cbn [bind wrapErr commitOrRollback]; reflexivity.
  - reflexivity.
  - reflexivity.
  - reflexivity.
  - rewrite getDealConditions_open by exact Hopen; do 2 f_equal.
    etransitivity;
      [ apply (@conditionsOf_ext dealID _
                 (set_DealConditions
                    (map (billCondition last amount) (DealConditions (db w)))
                    (lastDealConditionID (db w)) (db w)));
        reflexivity |].
    rewrite conditionsOf_billed, <- Hc; simpl.
    unfold billCondition at 1; rewrite Z.eqb_refl; reflexivity.
  - unfold getDealDetails, commands.selectDealByID.
    rewrite ifOpen_open by exact Hopen.
    cbn [db withDB Deals set_DealPayments set_Deals].
    rewrite updateWhere_filter by (intro; reflexivity).
    cbn [Deals set_DealConditions]; rewrite Hmore; reflexivity.
Qed.

(** C6.  Handling a [Billed(eventTS, dealID, amount)] event adds [amount] to
    the [totalPayout] of the latest DealCondition of the deal (the one with
    the greatest id), adds [amount] to the [totalPayout] of the Deal row and
    inserts one DealPayments row keyed by [eventTS].  Hence three [Billed]
    events of the same amount on a deal with one DealCondition raise both
    totals by three times the amount (30 for amount 10 from zero) and leave
    three more DealPayments rows.  (The deal row and a condition of the deal
    exist, and the timestamps are not yet keys of [DealPayments].) *)
Theorem onBilled_accrues :
  (forall (w : DWH) (eventTS dealID amount : Z) (last : DealCondition)
          (rest : list DealCondition) (n : Z) (deal : DWHDeal),
      getDealConditions w (lastConditionsRequest dealID)
      = Ok {| DealConditionsReply_Conditions := last :: rest;
              DealConditionsReply_Count := n |} ->
      getDealDetails w dealID = Ok deal ->
      existsb (fun p => eventTS =? DealPayment_BillTS p) (DealPayments (db w))
      = false ->
      (In last (DealConditions (db w))
       /\ DealCondition_DealID last = dealID
       /\ forall c, In c (DealConditions (db w)) ->
                    DealCondition_DealID c = dealID ->
                    DealCondition_Id c <= DealCondition_Id last)
      /\ exists w',
           onBilled w eventTS dealID amount = (w', Ok tt)
           /\ DealConditions (db w')
              = map (billCondition last amount) (DealConditions (db w))
           /\ billCondition last amount last
              = commands.setConditionColumns (DealCondition_EndTime last)
                  (DealCondition_TotalPayout last + amount) last
           /\ getDealDetails w' dealID
              = Ok (commands.setDealTotalPayout
                      (Deal_TotalPayout (DWHDeal_Deal deal) + amount) deal)
           /\ DealPayments (db w')
              = DealPayments (db w) ++ [paymentRow eventTS amount dealID])
  /\ (forall (w : DWH) (ts1 ts2 ts3 dealID amount : Z) (c : DealCondition)
             (n : Z) (deal : DWHDeal),
         getDealConditions w (lastConditionsRequest dealID)
         = Ok {| DealConditionsReply_Conditions := [c];
                 DealConditionsReply_Count := n |} ->
         getDealDetails w dealID = Ok deal ->
         existsb (fun p => existsb (Z.eqb (DealPayment_BillTS p))
                             [ts1; ts2; ts3]) (DealPayments (db w)) = false ->
         ts1 <> ts2 -> ts1 <> ts3 -> ts2 <> ts3 ->
         exists w1 w2 w3 c3 deal3,
           onBilled w ts1 dealID amount = (w1, Ok tt)
           /\ onBilled w1 ts2 dealID amount = (w2, Ok tt)
           /\ onBilled w2 ts3 dealID amount = (w3, Ok tt)
           /\ getDealConditions w3 (lastConditionsRequest dealID)
              = Ok (conditionsReply [c3])
           /\ DealCondition_TotalPayout c3
              = DealCondition_TotalPayout c + 3 * amount
           /\ getDealDetails w3 dealID = Ok deal3
           /\ Deal_TotalPayout (DWHDeal_Deal deal3)
              = Deal_TotalPayout (DWHDeal_Deal deal) + 3 * amount
           /\ DealPayments (db w3)
              = DealPayments (db w)
                ++ [paymentRow ts1 amount dealID; paymentRow ts2 amount dealID;
                    paymentRow ts3 amount dealID]).
Proof.
  split.
  - intros w eventTS dealID amount last rest n deal Hconds Hdeal Hfresh.
    pose proof (getDealConditions_Ok _ _ Hconds) as [_ Hreply].
    injection Hreply as Hc _; symmetry in Hc.
    assert (Hlast : In last (conditionsOf dealID (db w)))
      by (rewrite Hc; left; reflexivity).
    apply In_conditionsOf in Hlast; destruct Hlast as [Hin Hd].
    split.
    { split; [exact Hin |]; split; [exact Hd |].
      intros c; apply (conditionsOf_latest _ _ Hc). }
    destruct (@onBilled_step _ _ _ amount _ _ _ _ Hconds Hdeal Hfresh)
      as [w' [Hrun [Hcs [_ [Hps [_ Hdeal']]]]]].
    exists w'; repeat split; try assumption.
    unfold billCondition; rewrite Z.eqb_refl; reflexivity.
  - intros w ts1 ts2 ts3 dealID amount c n deal Hconds Hdeal Hfresh H12 H13 H23.
    assert (Hf : forall ts, In ts [ts1; ts2; ts3] ->
              existsb (fun p => ts =? DealPayment_BillTS p)
                (DealPayments (db w)) = false).
    { intros ts Hts.
      destruct (existsb (fun p => ts =? DealPayment_BillTS p)
                  (DealPayments (db w))) eqn:He; [| reflexivity].
      apply existsb_exists in He; destruct He as [p [Hp Heq]].
      apply Z.eqb_eq in Heq; subst ts.
      assert (Hex : existsb
                      (fun p => existsb (Z.eqb (DealPayment_BillTS p))
                                  [ts1; ts2; ts3]) (DealPayments (db w))
                    = true).
      { apply existsb_exists; exists p; split; [exact Hp |].
        apply existsb_exists; exists (DealPayment_BillTS p); split;
          [exact Hts | apply Z.eqb_refl]. }
      congruence. }
    destruct (@onBilled_step _ _ _ amount _ _ _ _ Hconds Hdeal
                (Hf ts1 (or_introl eq_refl)))
      as [w1 [Hrun1 [_ [_ [Hps1 [Hconds1 Hdeal1]]]]]].
    assert (Hfresh2 : existsb (fun p => ts2 =? DealPayment_BillTS p)
                        (DealPayments (db w1)) = false).
    { rewrite Hps1, existsb_app, (Hf ts2) by (simpl; tauto); simpl.
      rewrite orb_false_r; apply Z.eqb_neq; congruence. }
    destruct (@onBilled_step _ _ _ amount _ _ _ _ Hconds1 Hdeal1 Hfresh2)
      as [w2 [Hrun2 [_ [_ [Hps2 [Hconds2 Hdeal2]]]]]].
    assert (Hfresh3 : existsb (fun p => ts3 =? DealPayment_BillTS p)
                        (DealPayments (db w2)) = false).
    { rewrite Hps2, Hps1, !existsb_app, (Hf ts3) by (simpl; tauto); simpl.
      rewrite !orb_false_r; apply orb_false_iff; split; apply Z.eqb_neq;
        congruence. }
    destruct (@onBilled_step _ _ _ amount _ _ _ _ Hconds2 Hdeal2 Hfresh3)
      as [w3 [Hrun3 [_ [_ [Hps3 [Hconds3 Hdeal3]]]]]].
    exists w1, w2, w3; eexists; eexists.
    split; [exact Hrun1 |]. split; [exact Hrun2 |]. split; [exact Hrun3 |].
    split; [exact Hconds3 |].
    split; [unfold commands.setConditionColumns;
            cbn [DealCondition_TotalPayout]; lia |].
    split; [exact Hdeal3 |].
    split; [unfold commands.setDealTotalPayout, commands.setDealColumns;
            cbn [DWHDeal_Deal Deal_TotalPayout]; lia |].
    rewrite Hps3, Hps2, Hps1, <- !app_assoc; reflexivity.
Qed.

(* ------------------------------------------------------------------------- *)
(** ** Dispatch and retry *)

Section Dispatch.

Variables MaxBenchmark CertificateName CertificateCountry : Z.

Local Abbreviation process :=
  (processEvent MaxBenchmark CertificateName CertificateCountry).
Local Abbreviation handle :=
  (handleEvent MaxBenchmark CertificateName CertificateCountry).

(** Every variant but two is dispatched with [return handler(...)]:
    [RemovedFromBlacklist] calls its handler without returning what it
    returns, [ErrorData] has no handler. *)
Lemma processEvent_dispatch : forall (w : DWH) (event : Event),
  process w event
  = match Event_Data event with
    | DealOpenedData id => onDealOpened MaxBenchmark w id
    | DealUpdatedData id => onDealUpdated w id
    | OrderPlacedData id => onOrderPlaced MaxBenchmark w (Event_TS event) id
    | OrderUpdatedData id => onOrderUpdated w id
    | DealChangeRequestSentData id =>
        onDealChangeRequestSent w (Event_TS event) id
    | DealChangeRequestUpdatedData id =>
        onDealChangeRequestUpdated w (Event_TS event) id
    | BilledData dealID paidAmount =>
        onBilled w (Event_TS event) dealID paidAmount
    | WorkerAnnouncedData masterID slaveID =>
        onWorkerAnnounced w masterID slaveID
    | WorkerConfirmedData masterID slaveID =>
        onWorkerConfirmed w masterID slaveID
    | WorkerRemovedData masterID slaveID => onWorkerRemoved w masterID slaveID
    | AddedToBlacklistData adderID addeeID =>
        onAddedToBlacklist w adderID addeeID
    | RemovedFromBlacklistData removerID removeeID =>
        (fst (onRemovedFromBlacklist w removerID removeeID),
         match snd (onRemovedFromBlacklist w removerID removeeID) with
         | Panic m => Panic m
         | _ => Ok tt
         end)
    | ValidatorCreatedData id => onValidatorCreated w id
    | ValidatorDeletedData id => onValidatorDeleted w id
    | CertificateCreatedData id =>
        onCertificateCreated CertificateName CertificateCountry w id
    | ErrorData _ _ => (w, Ok tt)
    end.
Proof.
  intros w event; unfold processEvent.
  destruct (Event_Data event); try reflexivity.
  unfold discardError.
  destruct (onRemovedFromBlacklist w RemoverID RemoveeID) as [w' [[] | e | m]];
    reflexivity.
Qed.

(** No error of [onRemovedFromBlacklist] reaches the worker. *)
Lemma processEvent_RemovedFromBlacklist_no_error :
  forall (w : DWH) (event : Event) (removerID removeeID : Address) (e : error),
    Event_Data event = RemovedFromBlacklistData removerID removeeID ->
    snd (process w event) <> Err e.
Proof.
  intros w event removerID removeeID e H.
  rewrite processEvent_dispatch, H; simpl.
  destruct (snd (onRemovedFromBlacklist w removerID removeeID)); discriminate.
Qed.

Lemma schedule_app : forall t1 t2,
  schedule (t1 ++ t2) = schedule t1 ++ schedule t2.
Proof. intros t1 t2; unfold schedule; apply filter_app. Qed.

(** C7 (as the code has it).  For every event for which [processEvent]
    returns an error: if the message contains "constraint" the worker drops
    the event at once, with no timer and no second call; otherwise it
    arms a timer of [eventRetryTime], three seconds, and, when the timer
    fires, calls [processEvent] once more and never a third time, a
    failure of that call being logged; when the service context is
    cancelled during the wait there is no second call at all. *)
Theorem handleEvent_retry_policy :
  forall (w w1 : DWH) (event : Event) (sel : Select) (e : error),
    process (fst (updateLastKnownBlockTS w (toInt (Event_BlockNumber event))))
      event
    = (w1, Err e) ->
    eventRetryTime = 3 * 1000000000
    /\ (Contains e "constraint" = true ->
        schedule (trace (handle w event sel)) = [Processed event (Err e)]
        /\ after (handle w event sel) = w1)
    /\ (Contains e "constraint" = false ->
        match sel with
        | CtxDone =>
            schedule (trace (handle w event sel))
            = [Processed event (Err e); NewTimer eventRetryTime]
            /\ after (handle w event sel) = w1
        | TimerC =>
            schedule (trace (handle w event sel))
            = [Processed event (Err e); NewTimer eventRetryTime;
               Processed event (snd (process w1 event))]
            /\ after (handle w event sel) = fst (process w1 event)
            /\ (forall e2, snd (process w1 event) = Err e2 ->
                In (Log "warn" "failed to retry processEvent")
                   (trace (handle w event sel)))
        end).
Proof.
  intros w w1 event sel e H; split; [reflexivity |].
  unfold handleEvent.
  destruct (updateLastKnownBlockTS w (toInt (Event_BlockNumber event)))
    as [w0 r0].
  simpl in H; rewrite H.
  assert (Ht0 : schedule match r0 with
                         | Err _ => [Log "warn" "failed to updateLastKnownBlock"]
                         | _ => []
                         end = [])
    by (destruct r0; reflexivity).
  split; intro Hc; rewrite Hc.
  - cbn [trace after]; rewrite schedule_app, Ht0; split; reflexivity.
  - destruct sel.
    + cbn [retryEvent trace after crashed].
      rewrite schedule_app, Ht0; split; reflexivity.
    + unfold retryEvent.
      destruct (process w1 event) as [w2 [[] | e2 | m]];
        cbn [trace after crashed fst snd];
        rewrite schedule_app, Ht0;
        (split; [reflexivity |]); (split; [reflexivity |]);
        intros e3 He3; try discriminate.
      apply in_or_app; right; simpl; tauto.
Qed.

End Dispatch.

(** C8 (defect in the code).  [processEvent] should return to the worker the
    error of the handler of every variant; the [RemovedFromBlacklist] case
    calls its handler without [return], so the error is lost.  On a service
    whose database was closed, [onRemovedFromBlacklist] fails and
    [processEvent] returns [nil] for the same event. *)
Theorem processEvent_loses_RemovedFromBlacklist_error :
  snd (onRemovedFromBlacklist sampleStopped 1 2)
  = Err "onRemovedFromBlacklist failed: sql: database is closed"
  /\ snd (processEvent 1000 1102 1303 sampleStopped
            (sampleEvent (RemovedFromBlacklistData 1 2) 0))
     = Ok tt.
Proof. split; vm_compute; reflexivity. Qed.

(* ------------------------------------------------------------------------- *)
(** ** The properties on the sample data *)

(** C1, as stated, fails: on an empty store, an [OrderPlaced] event whose
    fetched order is an INACTIVE unassigned ASK of user 1 is handled without
    error, inserts no Order row and leaves a Profile with [activeAsks = 1],
    although user 1 has no ACTIVE ASK order. *)
Lemma counters_break_on_inactive_order :
  countersConsistent (db (sampleDWH DealStatus_DEAL_ACCEPTED))
  /\ snd (onOrderPlaced 1000 (sampleDWH DealStatus_DEAL_ACCEPTED) 5 12) = Ok tt
  /\ Orders (db (fst (onOrderPlaced 1000 (sampleDWH DealStatus_DEAL_ACCEPTED) 5 12))) = []
  /\ map Profile_ActiveAsks
       (Profiles (db (fst (onOrderPlaced 1000 (sampleDWH DealStatus_DEAL_ACCEPTED) 5 12))))
     = [1]
  /\ ~ countersConsistent
         (db (fst (onOrderPlaced 1000 (sampleDWH DealStatus_DEAL_ACCEPTED) 5 12))).
Proof.
  split; [intros p [] |].
  split; [vm_compute; reflexivity |].
  split; [vm_compute; reflexivity |].
  split; [vm_compute; reflexivity |].
  intro H.
  destruct (H (setCounter OrderType_ASK 1 (newProfile 1))) as [Hasks _].
  - vm_compute; left; reflexivity.
  - vm_compute in Hasks; discriminate.
Qed.

Ltac in_range :=
  let p := fresh "p" in
  let Hp := fresh "Hp" in
  intros p Hp; vm_compute in Hp;
  repeat (destruct Hp as [<- | Hp];
          [vm_compute; repeat split; (discriminate || reflexivity) |]);
  destruct Hp.

Lemma onOrderPlaced_counts_witness :
  profileCounter OrderType_ASK 1 (db sampleInactivePlaced)
  = profileCounter OrderType_ASK 1 (db sampleOpened) + 1
  /\ countActive OrderType_ASK 1 (db sampleInactivePlaced)
     = countActive OrderType_ASK 1 (db sampleOpened)
  /\ Orders (db sampleInactivePlaced) = Orders (db sampleOpened).
Proof.
  assert (Hfetch : GetOrderInfo (blockchain sampleOpened) 12
                   = Ok (sampleOrder 12 OrderType_ASK OrderStatus_ORDER_INACTIVE 1 0 95
                           1000 3))
    by (vm_compute; reflexivity).
  assert (Hrange : countersInRange (db sampleOpened)) by in_range.
  assert (Hrun : onOrderPlaced 1000 sampleOpened 40 12
                 = (sampleInactivePlaced, Ok tt))
    by (vm_compute; reflexivity).
  destruct (@onOrderPlaced_counts 1000 sampleOpened sampleInactivePlaced 40 12
              _ Hfetch Hrange Hrun) as [H1 [H2 H3]].
  split; [exact H1 |]. split.
  - etransitivity; [exact H2 | vm_compute; reflexivity].
  - apply H3; reflexivity.
Defined.

Lemma onDealChangeRequestSent_supersedes_witness :
  map DealChangeRequest_Id (DealChangeRequests (db sampleRequested)) = [100]
  /\ exists w',
       onDealChangeRequestSent sampleRequested 22 101 = (w', Ok tt)
       /\ map DealChangeRequest_Id (DealChangeRequests (db w')) = [101].
Proof.
  split; [vm_compute; reflexivity |].
  assert (Hfetch : GetDealChangeRequestInfo (blockchain sampleRequested) 101
                   = Ok (sampleChangeRequest 101 ChangeRequestStatus_REQUEST_CREATED))
    by (vm_compute; reflexivity).
  assert (Hopen : closed (db sampleRequested) = false)
    by (vm_compute; reflexivity).
  destruct (proj2 (@onDealChangeRequestSent_supersedes sampleRequested 22 101
                     _ Hfetch) eq_refl Hopen)
    as [w' [H1 [H2 _]]]; [vm_compute; reflexivity |].
  exists w'; split; [exact H1 | rewrite H2; vm_compute; reflexivity].
Defined.

Lemma onDealUpdated_closed_purges_witness :
  (exists w',
     onDealUpdated sampleClosing 1 = (w', Ok tt)
     /\ Deals (db w') = []
     /\ map commands.orderKey (Orders (db sampleClosing)) = [10; 11; 13]
     /\ map commands.orderKey (Orders (db w')) = [13])
  /\ exists w' d',
       onDealUpdated sampleBilling 1 = (w', Ok tt)
       /\ map (fun d => Deal_TotalPayout (DWHDeal_Deal d))
            (Deals (db sampleBilling)) = [0]
       /\ Deals (db w') = [d']
       /\ Deal_TotalPayout (DWHDeal_Deal d') = 30
       /\ Deal_BlockedBalance (DWHDeal_Deal d') = 70
       /\ Deal_LastBillTS (DWHDeal_Deal d') = 60
       /\ Deal_SupplierID (DWHDeal_Deal d') = 1.
Proof.
  split.
  - assert (Hfetch : GetDealInfo (blockchain sampleClosing) 1
                     = Ok (sampleDeal DealStatus_DEAL_CLOSED))
      by (vm_compute; reflexivity).
    assert (Hopen : closed (db sampleClosing) = false)
      by (vm_compute; reflexivity).
    destruct (proj1 (@onDealUpdated_closed_purges sampleClosing 1 _ Hfetch
                       Hopen) eq_refl) as [w' [H1 [H2 [H3 _]]]].
    exists w'; split; [exact H1 |].
    rewrite H2, H3; repeat split; vm_compute; reflexivity.
  - assert (Hfetch : GetDealInfo (blockchain sampleBilling) 1
                     = Ok sampleBilledDeal)
      by (vm_compute; reflexivity).
    assert (Hopen : closed (db sampleBilling) = false)
      by (vm_compute; reflexivity).
    assert (Hrows : exists d, Deals (db sampleBilling) = [d]
                              /\ commands.dealKey d = 1
                              /\ Deal_SupplierID (DWHDeal_Deal d) = 1)
      by (eexists; split; [vm_compute; reflexivity | split; reflexivity]).
    destruct Hrows as [d [Hrows [Hkey Hsup]]].
    destruct (proj2 (@onDealUpdated_closed_purges sampleBilling 1 _ Hfetch
                       Hopen)) as [w' [H1 [_ [_ H4]]]]; [discriminate |].
    rewrite Hrows in H4.
    inversion H4 as [| d0 d' l0 l' Hd Hl]; subst.
    inversion Hl; subst.
    rewrite Hkey in Hd; cbn in Hd.
    destruct Hd as [_ [_ [_ [_ [_ [Hb [Ht [Hbill [_ [Hs _]]]]]]]]]].
    exists w', d'; split; [exact H1 |].
    split; [vm_compute; reflexivity |]. split; [symmetry; assumption |].
    split; [exact Ht |]. split; [exact Hb |]. split; [exact Hbill |].
    rewrite Hs; exact Hsup.
Defined.

Lemma onBilled_accrues_witness :
  exists w1 w2 w3 c3 deal3,
    onBilled sampleOpened 30 1 10 = (w1, Ok tt)
    /\ onBilled w1 31 1 10 = (w2, Ok tt)
    /\ onBilled w2 32 1 10 = (w3, Ok tt)
    /\ getDealConditions w3 (lastConditionsRequest 1)
       = Ok (conditionsReply [c3])
    /\ DealCondition_TotalPayout c3 = 30
    /\ getDealDetails w3 1 = Ok deal3
    /\ Deal_TotalPayout (DWHDeal_Deal deal3) = 30
    /\ List.length (DealPayments (db w3)) = 3%nat.
Proof.
  assert (Hconds : exists c,
            getDealConditions sampleOpened (lastConditionsRequest 1)
            = Ok {| DealConditionsReply_Conditions := [c];
                    DealConditionsReply_Count := 0 |}
            /\ DealCondition_TotalPayout c = 0)
    by (eexists; split; [lazy; reflexivity | reflexivity]).
  destruct Hconds as [c [Hconds Hzero]].
  assert (Hdeal : exists deal,
            getDealDetails sampleOpened 1 = Ok deal
            /\ Deal_TotalPayout (DWHDeal_Deal deal) = 0)
    by (eexists; split; [lazy; reflexivity | reflexivity]).
  destruct Hdeal as [deal [Hdeal Hzero']].
  assert (Hfresh : existsb
                     (fun p => existsb (Z.eqb (DealPayment_BillTS p))
                                 [30; 31; 32])
                     (DealPayments (db sampleOpened)) = false)
    by (vm_compute; reflexivity).
  destruct (proj2 onBilled_accrues sampleOpened 30 31 32 1 10 c 0 deal
              Hconds Hdeal Hfresh)
    as [w1 [w2 [w3 [c3 [deal3 [R1 [R2 [R3 [Hc [Hp [Hd [Hq Hrows]]]]]]]]]]]];
    try discriminate.
  exists w1, w2, w3, c3, deal3.
  repeat (split; [assumption |]).
  split; [rewrite Hp, Hzero; reflexivity |].
  split; [exact Hd |].
  split; [rewrite Hq, Hzero'; reflexivity |].
  rewrite Hrows, length_app; vm_compute; reflexivity.
Defined.

(** C7, as stated, fails: the chain call of the sample event fails with a
    message that does not mention a constraint, and when the context is
    cancelled during the wait the worker has called [processEvent] once
    only: the event is not retried. *)
Lemma retry_skipped_when_cancelled :
  snd (processEvent 1000 1102 1303
         (fst (updateLastKnownBlockTS (sampleDWH DealStatus_DEAL_ACCEPTED) 1))
         sampleFailing)
  = Err "failed to GetOrderInfo: no such order"
  /\ Contains "failed to GetOrderInfo: no such order" "constraint" = false
  /\ attempts
       (trace (handleEvent 1000 1102 1303 (sampleDWH DealStatus_DEAL_ACCEPTED)
                 sampleFailing CtxDone))
     = [Err "failed to GetOrderInfo: no such order"].
Proof. repeat split; vm_compute; reflexivity. Qed.

Lemma handleEvent_retry_policy_witness :
  schedule
    (trace (handleEvent 1000 1102 1303 (sampleDWH DealStatus_DEAL_ACCEPTED)
              sampleFailing TimerC))
  = [Processed sampleFailing (Err "failed to GetOrderInfo: no such order");
     NewTimer 3000000000;
     Processed sampleFailing (Err "failed to GetOrderInfo: no such order")].
Proof.
  assert (H : processEvent 1000 1102 1303
                (fst (updateLastKnownBlockTS (sampleDWH DealStatus_DEAL_ACCEPTED)
                        (toInt (Event_BlockNumber sampleFailing))))
                sampleFailing
              = (fst (updateLastKnownBlockTS (sampleDWH DealStatus_DEAL_ACCEPTED) 1),
                 Err "failed to GetOrderInfo: no such order"))
    by (vm_compute; reflexivity).
  assert (Hc : Contains "failed to GetOrderInfo: no such order" "constraint"
               = false)
    by (vm_compute; reflexivity).
  destruct (@handleEvent_retry_policy 1000 1102 1303 _ _ _ TimerC _ H)
    as [_ [_ H2]].
  destruct (H2 Hc) as [Hs _].
  etransitivity; [exact Hs | vm_compute; reflexivity].
Defined.

Lemma getMatchingOrders_sound_witness :
  exists reply,
    getMatchingOrders sampleOpened sampleMatching = Ok reply
    /\ map commands.orderKey (DWHOrdersReply_Orders reply) = [13; 10]
    /\ (forall c, In c (DWHOrdersReply_Orders reply) ->
          Order_OrderType (DWHOrder_Order c) = OrderType_ASK
          /\ Order_Price (DWHOrder_Order c) <= 100
          /\ Order_Duration (DWHOrder_Order c) >= 1000)
    /\ StronglySorted (fun a b => priceOf a <= priceOf b)
         (DWHOrdersReply_Orders reply).
Proof.
  assert (Hdet : getOrderDetails sampleOpened
                   (MatchingOrdersRequest_Id sampleMatching) = Ok sampleBid)
    by (vm_compute; reflexivity).
  assert (Hrun : exists reply,
            getMatchingOrders sampleOpened sampleMatching = Ok reply
            /\ map commands.orderKey (DWHOrdersReply_Orders reply) = [13; 10])
    by (eexists; split; [lazy; reflexivity | reflexivity]).
  destruct Hrun as [reply [Hrun Hids]].
  destruct (@getMatchingOrders_sound sampleOpened sampleMatching reply sampleBid
              Hdet Hrun) as [H1 H2].
  exists reply; split; [exact Hrun |]. split; [exact Hids |]. split.
  - intros c Hc; destruct (H1 c Hc) as [_ [Ht [_ [Hp [Hd _]]]]].
    split; [exact Ht |]. split; [exact Hp | exact Hd].
  - exact H2.
Defined.

Lemma getOrders_only_active_witness :
  exists reply,
    getOrders sampleOpened sampleOrders = Ok reply
    /\ map commands.orderKey (DWHOrdersReply_Orders reply) = [10; 13]
    /\ forall o, In o (DWHOrdersReply_Orders reply) ->
         Order_OrderStatus (DWHOrder_Order o) = OrderStatus_ORDER_ACTIVE.
Proof.
  assert (Hrun : exists reply,
            getOrders sampleOpened sampleOrders = Ok reply
            /\ map commands.orderKey (DWHOrdersReply_Orders reply) = [10; 13])
    by (eexists; split; [lazy; reflexivity | reflexivity]).
  destruct Hrun as [reply [Hrun Hids]].
  destruct (@getOrders_only_active sampleOpened sampleOrders reply Hrun)
    as [_ H].
  exists reply; split; [exact Hrun |]. split; [exact Hids |].
  intros o Ho; destruct (H o Ho) as [_ Hs]; exact Hs.
Defined.

(** The [OrderUpdated] event of the INACTIVE unassigned order takes the
    counter back: after both events the counters equal the counts again. *)
Example counters_rebalanced_by_OrderUpdated :
  countersConsistent
    (db (replay 1000 1102 1303 (sampleDWH DealStatus_DEAL_ACCEPTED)
           [sampleEvent (OrderPlacedData 12) 5;
            sampleEvent (OrderUpdatedData 12) 6])).
Proof.
  intros p Hp; vm_compute in Hp; destruct Hp as [<- | []].
  split; vm_compute; reflexivity.
Qed.

(** A replayed [OrderPlaced] event is refused by the key of [Orders]; the
    message mentions the constraint, the worker drops the event after one
    call and the store is as before. *)
Example duplicate_order_is_dropped :
  snd (processEvent 1000 1102 1303 sampleOpened
         (sampleEvent (OrderPlacedData 10) 60))
  = Err "failed to insertOrder: UNIQUE constraint failed: Orders.Id"
  /\ schedule
       (trace (handleEvent 1000 1102 1303 sampleOpened
                 (sampleEvent (OrderPlacedData 10) 60) TimerC))
     = [Processed (sampleEvent (OrderPlacedData 10) 60)
          (Err "failed to insertOrder: UNIQUE constraint failed: Orders.Id")]
  /\ db (after (handleEvent 1000 1102 1303 sampleOpened
                  (sampleEvent (OrderPlacedData 10) 60) TimerC))
     = db sampleOpened.
Proof. repeat split; vm_compute; reflexivity. Qed.

(* ------------------------------------------------------------------------- *)
(** ** Statements and their effect *)

(** A statement that succeeded ran on an open database and had the effect of
    its command. *)
Ltac cmd_inv H :=
  unfold commands.insertDeal, commands.deleteDeal, commands.updateDeal,
    commands.updateDealPayout, commands.updateDealsSupplier,
    commands.updateDealsConsumer, commands.insertOrder, commands.deleteOrder,
    commands.updateOrderStatus, commands.updateOrders,
    commands.insertDealCondition, commands.updateDealConditionPayout,
    commands.updateDealConditionEndTime, commands.insertDealChangeRequest,
    commands.deleteDealChangeRequest, commands.updateDealChangeRequest,
    commands.insertDealPayment, commands.insertProfileUserID,
    commands.insertCertificate, commands.insertValidator,
    commands.updateValidator, commands.insertWorker, commands.updateWorker,
    commands.deleteWorker, commands.insertBlacklistEntry,
    commands.deleteBlacklistEntry, commands.updateLastKnownBlock,
    commands.insertLastKnownBlock, ifOpen, commands.insertUnique in H;
  match type of H with
  | (if closed ?tx then _ else _) = Ok _ =>
      first [ match goal with
              | Hc : closed tx = false |- _ => rewrite Hc in H
              end
            | let Hopen := fresh "Hopen" in
              destruct (closed tx) eqn:Hopen; [discriminate H |] ]
  end;
  try match type of H with
      | bind (if ?c then _ else _) _ = Ok _ =>
          let Hfresh := fresh "Hfresh" in
          destruct c eqn:Hfresh; [discriminate H |]
      end;
  cbn [bind] in H;
  injection H as H.

(* ------------------------------------------------------------------------- *)
(** ** Benchmarks of an order or a deal *)

Lemma find_indexed_none :
  forall (bound : Z) (l : list Z) (start : nat),
    List.find (fun entry : Z * Z => snd entry >=? bound)
      (combine (map Z.of_nat (seq start (List.length l))) l) = None
    <-> Forall (fun bench => bench < bound) l.
Proof.
  intros bound l; induction l as [| b l IH]; intro start; simpl.
  - split; [constructor | reflexivity].
  - destruct (b >=? bound) eqn:Hb.
    + split; [discriminate |].
      intro H; inversion H; subst; apply Z.geb_le in Hb; lia.
    + rewrite IH; split; intro H.
      * constructor; [| exact H].
        destruct (Z.geb_spec b bound); [discriminate | lia].
      * inversion H; assumption.
Qed.

(** Accepted benchmarks are as many as the market has. *)
Lemma checkBenchmarks_length :
  forall (MaxBenchmark : Z) (w : DWH) (benches : list Z),
    checkBenchmarks MaxBenchmark w benches = Ok tt ->
    List.length benches = numBenchmarks w.
Proof.
  intros MB w benches; unfold checkBenchmarks.
  destruct (Nat.eqb_spec (List.length benches) (numBenchmarks w)) as [E | E];
    simpl; [intros _; exact E | discriminate].
Qed.

(** X1.  [checkBenchmarks] accepts exactly the lists that hold as many values
    as the market has benchmarks, every value below [MaxBenchmark]. *)
Theorem checkBenchmarks_accepts :
  forall (MaxBenchmark : Z) (w : DWH) (benches : list Z),
    checkBenchmarks MaxBenchmark w benches = Ok tt
    <-> List.length benches = numBenchmarks w
        /\ Forall (fun bench => bench < MaxBenchmark) benches.
Proof.
  intros MB w benches; unfold checkBenchmarks, indexed.
  destruct (Nat.eqb_spec (List.length benches) (numBenchmarks w)) as [E | E];
    simpl.
  - rewrite <- (find_indexed_none MB benches 0).
    destruct (List.find _ _) as [[idx v] |]; split;
      try tauto; try discriminate.
    intros [_ H]; discriminate.
  - split; [discriminate | tauto].
Qed.

(* ------------------------------------------------------------------------- *)
(** ** Opening a deal *)

(** X2.  A [DealOpened] event that is handled without error appends one Deal
    row and one DealCondition row and leaves the orders alone.  The Deal row
    holds the deal as the chain reports it, all its benchmarks included, the
    netflags and the identity level of the indexed ask, the identity level
    of the indexed bid, the certificates of the creator of the ask on the
    supplier side and those of the creator of the bid on the consumer side;
    its change-request flag is set whether or not the deal has a change
    request.  The condition starts at the start time of the deal, is
    open-ended (end time 0) and carries the duration, price and payout of the
    deal. *)
Theorem onDealOpened_inserts :
  forall (MaxBenchmark : Z) (w w' : DWH) (dealID : Z) (deal : Deal),
    GetDealInfo (blockchain w) dealID = Ok deal ->
    onDealOpened MaxBenchmark w dealID = (w', Ok tt) ->
    exists ask bid row,
      getOrderDetails w (Deal_AskID deal) = Ok ask
      /\ getOrderDetails w (Deal_BidID deal) = Ok bid
      /\ Deals (db w') = Deals (db w) ++ [row]
      /\ row = dealRow w deal ask bid true
      /\ DWHDeal_Deal row = deal
      /\ DWHDeal_Netflags row = Order_Netflags (DWHOrder_Order ask)
      /\ DWHDeal_AskIdentityLevel row
         = Order_IdentityLevel (DWHOrder_Order ask)
      /\ DWHDeal_BidIdentityLevel row
         = Order_IdentityLevel (DWHOrder_Order bid)
      /\ DWHDeal_SupplierCertificates row = DWHOrder_CreatorCertificates ask
      /\ DWHDeal_ConsumerCertificates row = DWHOrder_CreatorCertificates bid
      /\ DWHDeal_ActiveChangeRequest row = true
      /\ DealConditions (db w')
         = DealConditions (db w)
           ++ [{| DealCondition_Id := lastDealConditionID (db w) + 1;
                  DealCondition_SupplierID := Deal_SupplierID deal;
                  DealCondition_ConsumerID := Deal_ConsumerID deal;
                  DealCondition_MasterID := Deal_MasterID deal;
                  DealCondition_Duration := Deal_Duration deal;
                  DealCondition_Price := Deal_Price deal;
                  DealCondition_StartTime := Deal_StartTime deal;
                  DealCondition_EndTime := 0;
                  DealCondition_TotalPayout := Deal_TotalPayout deal;
                  DealCondition_DealID := Deal_Id deal |}]
      /\ Orders (db w') = Orders (db w).
Proof.
  intros MB w w' dealID deal Hfetch H.
  apply commitOrRollback_Ok in H; destruct H as [txf [H ->]].
  rewrite Hfetch in H; cbn [wrapErr bind] in H.
  apply bind_Ok in H; destruct H as [ask [Hask H]]; apply wrapErr_Ok in Hask.
  apply bind_Ok in H; destruct H as [bid [Hbid H]]; apply wrapErr_Ok in Hbid.
  apply bind_Ok in H; destruct H as [tx [Hbegin H]].
  apply wrapErr_Ok in Hbegin; apply Begin_Ok in Hbegin.
  destruct Hbegin as [-> Hopen].
  apply bind_Ok in H; destruct H as [[] [Hcheck H]].
  apply bind_Ok in H; destruct H as [tx1 [Hdeal H]]; apply wrapErr_Ok in Hdeal.
  apply bind_Ok in H; destruct H as [tx2 [Hcond H]]; apply wrapErr_Ok in Hcond.
  injection H as <-.
  assert (Hflag : match getDealChangeRequests w (Deal_Id deal) with
                  | Ok _ => true
                  | _ => false
                  end = true).
  { unfold getDealChangeRequests, commands.selectDealChangeRequestsByID.
    rewrite ifOpen_open by exact Hopen; reflexivity. }
  rewrite Hflag in Hdeal.
  cmd_inv Hdeal; cmd_inv Hcond; subst tx2 tx1.
  exists ask, bid, (dealRow w deal ask bid true).
  split; [exact Hask |]. split; [exact Hbid |].
  split; [reflexivity |]. split; [reflexivity |].
  split; [| repeat split; reflexivity].
  apply checkBenchmarks_length in Hcheck.
  cbn [dealRow DWHDeal_Deal].
  rewrite <- Hcheck, firstn_all; destruct deal; reflexivity.
Qed.

(** An order that is not indexed is reported as not found. *)
Lemma getOrderDetails_missing : forall (w : DWH) (id : Z),
  closed (db w) = false ->
  (forall o, In o (Orders (db w)) -> commands.orderKey o <> id) ->
  getOrderDetails w id
  = Err (statusError "NotFound" "failed to GetOrderDetails").
Proof.
  intros w id Hopen Hnone; unfold getOrderDetails, commands.selectOrderByID.
  rewrite ifOpen_open by exact Hopen.
  destruct (List.filter _ (Orders (db w))) as [| o rest] eqn:Hsel;
    [reflexivity |].
  assert (Hin : In o (o :: rest)) by (left; reflexivity).
  rewrite <- Hsel in Hin; apply filter_In in Hin; destruct Hin as [Hin Hk].
  apply Z.eqb_eq in Hk; destruct (Hnone o Hin Hk).
Qed.

(** On an open database a lookup finds the order or reports it missing. *)
Lemma getOrderDetails_open : forall (w : DWH) (id : Z),
  closed (db w) = false ->
  (exists row, getOrderDetails w id = Ok row)
  \/ getOrderDetails w id
     = Err (statusError "NotFound" "failed to GetOrderDetails").
Proof.
  intros w id Hopen; unfold getOrderDetails, commands.selectOrderByID.
  rewrite ifOpen_open by exact Hopen.
  destruct (List.filter _ (Orders (db w))) as [| o rest];
    [right; reflexivity | left; exists o; reflexivity].
Qed.

(** What [onDealOpened] returns when an order of the deal is not indexed. *)
Lemma onDealOpened_missing_order :
  forall (MaxBenchmark : Z) (w : DWH) (dealID : Z) (deal : Deal),
    GetDealInfo (blockchain w) dealID = Ok deal ->
    closed (db w) = false ->
    (forall o, In o (Orders (db w)) -> commands.orderKey o <> Deal_AskID deal)
    \/ (forall o, In o (Orders (db w)) ->
          commands.orderKey o <> Deal_BidID deal) ->
    exists e,
      onDealOpened MaxBenchmark w dealID = (w, Err e)
      /\ Contains e "constraint" = false.
Proof.
  intros MB w dealID deal Hfetch Hopen Hmissing.
  unfold onDealOpened; rewrite Hfetch; cbn [wrapErr bind].
  destruct (getOrderDetails_open w (Deal_AskID deal) Hopen) as [[ask Hask] | Hask].
  - destruct Hmissing as [Hnone | Hnone].
    + rewrite (getOrderDetails_missing _ Hopen Hnone) in Hask; discriminate.
    + rewrite Hask, (getOrderDetails_missing _ Hopen Hnone); cbn.
      eexists; split; [reflexivity | vm_compute; reflexivity].
  - rewrite Hask; cbn.
    eexists; split; [reflexivity | vm_compute; reflexivity].
Qed.

(** A retry arms its timer first, whatever happens next. *)
Lemma retryEvent_arms_timer :
  forall (MaxBenchmark CertificateName CertificateCountry : Z) (w : DWH)
         (event : Event) (sel : Select),
    In (NewTimer eventRetryTime)
       (trace (retryEvent MaxBenchmark CertificateName CertificateCountry
                 w event sel)).
Proof.
  intros MB CN CC w event sel; unfold retryEvent.
  destruct sel; [left; reflexivity |].
  destruct (processEvent MB CN CC w event) as [w2 [[] | e2 | m]];
    left; reflexivity.
Qed.

(** X3.  A [DealOpened] event that arrives before the [OrderPlaced] event of
    its ask or of its bid is not applied: [onDealOpened] fails on the lookup
    of the order and writes nothing, and since the message does not mention
    a constraint the worker arms the retry timer for the event. *)
Theorem onDealOpened_waits_for_orders :
  forall (MaxBenchmark CertificateName CertificateCountry : Z) (w : DWH)
         (dealID blockNumber ts : Z) (deal : Deal) (sel : Select),
    GetDealInfo (blockchain w) dealID = Ok deal ->
    closed (db w) = false ->
    (forall o, In o (Orders (db w)) -> commands.orderKey o <> Deal_AskID deal)
    \/ (forall o, In o (Orders (db w)) ->
          commands.orderKey o <> Deal_BidID deal) ->
    exists e,
      onDealOpened MaxBenchmark w dealID = (w, Err e)
      /\ Contains e "constraint" = false
      /\ In (NewTimer eventRetryTime)
           (trace (handleEvent MaxBenchmark CertificateName CertificateCountry
                     w {| Event_Data := DealOpenedData dealID;
                          Event_BlockNumber := blockNumber;
                          Event_TS := ts |} sel)).
Proof.
  intros MB CN CC w dealID bn ts deal sel Hfetch Hopen Hmissing.
  destruct (onDealOpened_missing_order MB w dealID Hfetch Hopen Hmissing)
    as [e [He Hc]].
  exists e; split; [exact He |]. split; [exact Hc |].
  unfold handleEvent, updateLastKnownBlockTS, commands.updateLastKnownBlock.
  rewrite ifOpen_open by exact Hopen.
  cbn [wrapErr commitOrRollback Event_BlockNumber].
  set (w0 := withDB w _).
  destruct (onDealOpened_missing_order MB w0 dealID Hfetch Hopen Hmissing)
    as [e0 [He0 Hc0]].
  unfold processEvent; cbn [Event_Data]; rewrite He0, Hc0.
  pose proof (retryEvent_arms_timer MB CN CC w0
                {| Event_Data := DealOpenedData dealID;
                   Event_BlockNumber := bn; Event_TS := ts |} sel) as Htimer.
  cbn [trace]; rewrite !in_app_iff; tauto.
Qed.

(* ------------------------------------------------------------------------- *)
(** ** Transactions *)

(** What is not committed is rolled back. *)
Lemma commitOrRollback_rollback :
  forall (w w' : DWH) (r : Result Store) (res : Result unit),
    commitOrRollback w r = (w', res) -> res <> Ok tt -> w' = w.
Proof.
  intros w w' [tx | e | m] res H Hres; simpl in H; injection H as <- <-;
    [contradiction Hres |..]; reflexivity.
Qed.

Ltac atomic :=
  repeat match goal with
         | H : commitOrRollback _ _ = (_, _) |- _ =>
             eapply commitOrRollback_rollback; eassumption
         | H : (_, _) = (_, _) |- _ =>
             injection H as <- <-; first [reflexivity | congruence]
         | H : match ?x with _ => _ end = (_, _) |- _ => destruct x eqn:?
         end.

(** X4.  An event is applied as a whole or not at all: whenever
    [processEvent] returns an error, or a handler panics, the database is
    exactly as it was before the event. *)
Theorem processEvent_atomic :
  forall (MaxBenchmark CertificateName CertificateCountry : Z) (w w' : DWH)
         (event : Event) (r : Result unit),
    processEvent MaxBenchmark CertificateName CertificateCountry w event
    = (w', r) ->
    r <> Ok tt ->
    w' = w.
Proof.
  intros MB CN CC w w' event r H Hr; unfold processEvent in H.
  destruct (Event_Data event);
    unfold onDealOpened, onDealUpdated, onOrderPlaced, onOrderUpdated,
      onDealChangeRequestSent, onDealChangeRequestUpdated, onBilled,
      onWorkerAnnounced, onWorkerConfirmed, onWorkerRemoved,
      onAddedToBlacklist, onValidatorCreated, onValidatorDeleted,
      onCertificateCreated in H;
    cbv zeta in H; try solve [atomic].
  unfold discardError in H.
  destruct (onRemovedFromBlacklist w RemoverID RemoveeID) as [w1 r1] eqn:H1.
  unfold onRemovedFromBlacklist in H1.
  destruct r1; injection H as <- <-; try congruence.
  eapply commitOrRollback_rollback; [exact H1 | discriminate].
Qed.

(* ------------------------------------------------------------------------- *)
(** ** Resolving a change request *)

(** X5.  A [DealChangeRequestUpdated] event whose change request is fetched
    as ACCEPTED, for an indexed deal with at least one condition, closes the
    latest condition of the deal (the one with the greatest id) at the event
    timestamp: row by row, a condition with that id gets the event timestamp
    as its end time and keeps its other columns, every other condition is as
    it was.  The event appends a condition that starts at the event timestamp
    with the duration and the price of the change request, end time 0 and
    payout 0, and deletes the change request.  The Deal row itself is not
    touched. *)
Theorem onDealChangeRequestUpdated_accepted :
  forall (w : DWH) (eventTS changeRequestID : Z) (cr : DealChangeRequest)
         (deal : DWHDeal) (last : DealCondition) (rest : list DealCondition)
         (n : Z),
    GetDealChangeRequestInfo (blockchain w) changeRequestID = Ok cr ->
    DealChangeRequest_Status cr = ChangeRequestStatus_REQUEST_ACCEPTED ->
    getDealDetails w (DealChangeRequest_DealID cr) = Ok deal ->
    getDealConditions w (lastConditionsRequest (Deal_Id (DWHDeal_Deal deal)))
    = Ok {| DealConditionsReply_Conditions := last :: rest;
            DealConditionsReply_Count := n |} ->
    exists w',
      onDealChangeRequestUpdated w eventTS changeRequestID = (w', Ok tt)
      /\ DealConditions (db w')
         = commands.updateWhere
             (fun c => DealCondition_Id c =? DealCondition_Id last)
             (fun c => commands.setConditionColumns eventTS
                         (DealCondition_TotalPayout c) c)
             (DealConditions (db w))
           ++ [{| DealCondition_Id := lastDealConditionID (db w) + 1;
                  DealCondition_SupplierID := Deal_SupplierID (DWHDeal_Deal deal);
                  DealCondition_ConsumerID := Deal_ConsumerID (DWHDeal_Deal deal);
                  DealCondition_MasterID := Deal_MasterID (DWHDeal_Deal deal);
                  DealCondition_Duration := DealChangeRequest_Duration cr;
                  DealCondition_Price := DealChangeRequest_Price cr;
                  DealCondition_StartTime := eventTS;
                  DealCondition_EndTime := 0;
                  DealCondition_TotalPayout := 0;
                  DealCondition_DealID := Deal_Id (DWHDeal_Deal deal) |}]
      /\ DealChangeRequests (db w')
         = commands.deleteWhere
             (fun r => DealChangeRequest_Id r =? DealChangeRequest_Id cr)
             (DealChangeRequests (db w))
      /\ Deals (db w') = Deals (db w)
      /\ (forall c, In c (DealConditions (db w)) ->
            DealCondition_DealID c = Deal_Id (DWHDeal_Deal deal) ->
            DealCondition_Id c <= DealCondition_Id last)
      /\ In last (DealConditions (db w))
      /\ Forall2
           (fun c c' =>
              if DealCondition_Id c =? DealCondition_Id last
              then DealCondition_EndTime c' = eventTS
                   /\ DealCondition_Id c' = DealCondition_Id c
                   /\ DealCondition_SupplierID c' = DealCondition_SupplierID c
                   /\ DealCondition_ConsumerID c' = DealCondition_ConsumerID c
                   /\ DealCondition_MasterID c' = DealCondition_MasterID c
                   /\ DealCondition_Duration c' = DealCondition_Duration c
                   /\ DealCondition_Price c' = DealCondition_Price c
                   /\ DealCondition_StartTime c' = DealCondition_StartTime c
                   /\ DealCondition_TotalPayout c'
                      = DealCondition_TotalPayout c
                   /\ DealCondition_DealID c' = DealCondition_DealID c
              else c' = c)
           (DealConditions (db w)) (removelast (DealConditions (db w'))).
Proof.
  intros w eventTS changeRequestID cr deal last rest n Hfetch Hst Hdeal Hconds.
  destruct (getDealConditions_Ok _ _ Hconds) as [Hopen Hreply].
  unfold onDealChangeRequestUpdated; rewrite Hfetch, Hst, Hdeal.
  cbn [wrapErr bind]; rewrite (Begin_open _ Hopen); cbn [wrapErr bind].
  unfold updateDealConditionEndTime; rewrite Hconds.
  cbn [wrapErr bind DealConditionsReply_Conditions].
  unfold commands.updateDealConditionEndTime, commands.insertDealCondition,
    commands.deleteDealChangeRequest.
  run_open Hopen.
  eexists; split; [reflexivity |]. cbn.
  repeat (split; [reflexivity |]).
  injection Hreply as Hreply _.
  split; [| split].
  - intros c Hin Hd.
    eapply conditionsOf_latest; [symmetry; exact Hreply | exact Hin | exact Hd].
  - assert (Hin : In last (conditionsOf (Deal_Id (DWHDeal_Deal deal)) (db w)))
      by (rewrite <- Hreply; left; reflexivity).
    apply In_conditionsOf in Hin; exact (proj1 Hin).
  - rewrite removelast_last.
    apply updateWhere_Forall2; intro c.
    destruct (DealCondition_Id c =? DealCondition_Id last);
      [cbn; repeat split; reflexivity | reflexivity].
Qed.

(** The conditions read for a deal that has none. *)
Lemma conditionsOf_none : forall (dealID : Z) (s : Store),
  (forall c, In c (DealConditions s) -> DealCondition_DealID c <> dealID) ->
  conditionsOf dealID s = [].
Proof.
  intros dealID s Hnone.
  destruct (conditionsOf dealID s) as [| c rest] eqn:Heq; [reflexivity |].
  assert (Hin : In c (conditionsOf dealID s))
    by (rewrite Heq; left; reflexivity).
  apply In_conditionsOf in Hin; destruct Hin as [Hin Hd].
  destruct (Hnone c Hin Hd).
Qed.

(** X6.  The same event for an indexed deal that has no condition row takes
    the handler down: [updateDealConditionEndTime] indexes the first of the
    conditions it read without looking at their number, and the panic leaves
    the store as it was. *)
Theorem onDealChangeRequestUpdated_without_conditions :
  forall (w : DWH) (eventTS changeRequestID : Z) (cr : DealChangeRequest)
         (deal : DWHDeal),
    GetDealChangeRequestInfo (blockchain w) changeRequestID = Ok cr ->
    DealChangeRequest_Status cr = ChangeRequestStatus_REQUEST_ACCEPTED ->
    getDealDetails w (DealChangeRequest_DealID cr) = Ok deal ->
    (forall c, In c (DealConditions (db w)) ->
       DealCondition_DealID c <> Deal_Id (DWHDeal_Deal deal)) ->
    exists m,
      onDealChangeRequestUpdated w eventTS changeRequestID = (w, Panic m).
Proof.
  intros w eventTS changeRequestID cr deal Hfetch Hst Hdeal Hnone.
  destruct (getDealDetails_Ok _ _ Hdeal) as [Hopen _].
  unfold onDealChangeRequestUpdated; rewrite Hfetch, Hst, Hdeal.
  cbn [wrapErr bind]; rewrite (Begin_open _ Hopen); cbn [wrapErr bind].
  unfold updateDealConditionEndTime.
  rewrite (getDealConditions_open _ _ Hopen), (@conditionsOf_none _ _ Hnone).
  cbn; eexists; reflexivity.
Qed.

(** X7.  A [DealChangeRequestUpdated] event whose change request is fetched
    with a status other than ACCEPTED touches the change requests only.  For
    REJECTED, row by row, a row with the id of the change request has status
    REJECTED afterwards and keeps its other columns, and every other row is
    as it was; for every other status the rows with that id are deleted and
    the other rows stay. *)
Theorem onDealChangeRequestUpdated_resolves :
  forall (w : DWH) (eventTS changeRequestID : Z) (cr : DealChangeRequest),
    GetDealChangeRequestInfo (blockchain w) changeRequestID = Ok cr ->
    closed (db w) = false ->
    DealChangeRequest_Status cr <> ChangeRequestStatus_REQUEST_ACCEPTED ->
    exists w',
      onDealChangeRequestUpdated w eventTS changeRequestID = (w', Ok tt)
      /\ DealChangeRequests (db w')
         = (if ChangeRequestStatus_beq (DealChangeRequest_Status cr)
                 ChangeRequestStatus_REQUEST_REJECTED
            then commands.updateWhere
                   (fun r => DealChangeRequest_Id r =? DealChangeRequest_Id cr)
                   (commands.setChangeRequestStatus
                      ChangeRequestStatus_REQUEST_REJECTED)
                   (DealChangeRequests (db w))
            else commands.deleteWhere
                   (fun r => DealChangeRequest_Id r =? DealChangeRequest_Id cr)
                   (DealChangeRequests (db w)))
      /\ DealConditions (db w') = DealConditions (db w)
      /\ Deals (db w') = Deals (db w)
      /\ (DealChangeRequest_Status cr = ChangeRequestStatus_REQUEST_REJECTED ->
          map DealChangeRequest_Id (DealChangeRequests (db w'))
          = map DealChangeRequest_Id (DealChangeRequests (db w)))
      /\ (DealChangeRequest_Status cr <> ChangeRequestStatus_REQUEST_REJECTED ->
          forall r, In r (DealChangeRequests (db w')) ->
            DealChangeRequest_Id r <> DealChangeRequest_Id cr)
      /\ (DealChangeRequest_Status cr = ChangeRequestStatus_REQUEST_REJECTED ->
          Forall2
            (fun r r' =>
               if DealChangeRequest_Id r =? DealChangeRequest_Id cr
               then DealChangeRequest_Status r'
                    = ChangeRequestStatus_REQUEST_REJECTED
                    /\ DealChangeRequest_Id r' = DealChangeRequest_Id r
                    /\ DealChangeRequest_CreatedTS r'
                       = DealChangeRequest_CreatedTS r
                    /\ DealChangeRequest_RequestType r'
                       = DealChangeRequest_RequestType r
                    /\ DealChangeRequest_Duration r'
                       = DealChangeRequest_Duration r
                    /\ DealChangeRequest_Price r' = DealChangeRequest_Price r
                    /\ DealChangeRequest_DealID r'
                       = DealChangeRequest_DealID r
               else r' = r)
            (DealChangeRequests (db w)) (DealChangeRequests (db w')))
      /\ (DealChangeRequest_Status cr <> ChangeRequestStatus_REQUEST_REJECTED ->
          forall r, In r (DealChangeRequests (db w')) <->
            In r (DealChangeRequests (db w))
            /\ DealChangeRequest_Id r <> DealChangeRequest_Id cr).
Proof.
  intros w eventTS changeRequestID cr Hfetch Hopen Hst.
  unfold onDealChangeRequestUpdated; rewrite Hfetch.
  unfold commands.updateDealChangeRequest, commands.deleteDealChangeRequest.
  destruct (DealChangeRequest_Status cr) eqn:Hs; try congruence;
    run_open Hopen; eexists; (split; [reflexivity |]); cbn;
    repeat (split; [reflexivity |]).
  all: repeat match goal with |- _ /\ _ => split end.
  all: intro Hcase; try congruence.
  all: first
         [ unfold commands.updateWhere; rewrite map_map;
           apply map_ext; intro r;
           destruct (DealChangeRequest_Id r =? DealChangeRequest_Id cr);
           reflexivity
         | apply updateWhere_Forall2; intro r;
           destruct (DealChangeRequest_Id r =? DealChangeRequest_Id cr);
           [cbn; repeat split; reflexivity | reflexivity]
         | intros r Hr; apply filter_negb_In in Hr; apply Z.eqb_neq;
           exact Hr
         | intro r; unfold commands.deleteWhere; rewrite filter_In;
           rewrite negb_true_iff, Z.eqb_neq; reflexivity ].
Qed.

(* ------------------------------------------------------------------------- *)
(** ** Billing a deal without conditions *)

(** X8.  A [Billed] event for a deal that has no condition row is refused
    with the message naming the deal, before a transaction is begun: no
    payout is added and no payment row is written. *)
Theorem onBilled_without_conditions :
  forall (w : DWH) (eventTS dealID payedAmount : Z),
    closed (db w) = false ->
    (forall c, In c (DealConditions (db w)) ->
       DealCondition_DealID c <> dealID) ->
    onBilled w eventTS dealID payedAmount
    = (w, Err ("no deal conditions found for deal `"
               ++ Z_to_string dealID ++ "`")%string).
Proof.
  intros w eventTS dealID payedAmount Hopen Hnone; unfold onBilled.
  rewrite (getDealConditions_open _ _ Hopen), (@conditionsOf_none _ _ Hnone).
  reflexivity.
Qed.

(* ------------------------------------------------------------------------- *)
(** ** Updating an order *)

(** The counter of a user is read off the first profile row of the user. *)
Lemma profileCounter_found : forall (t : OrderType) (u : Address) (w : DWH)
    (p : Profile),
  getProfileInfo w u false = Ok p ->
  closed (db w) = false
  /\ In p (Profiles (db w))
  /\ Profile_UserID p = u
  /\ profileCounter t u (db w) = counter t p.
Proof.
  intros t u w p H; unfold getProfileInfo, commands.selectProfileByID in H.
  unfold ifOpen in H; destruct (closed (db w)); [discriminate |].
  split; [reflexivity |]; unfold profileCounter.
  destruct (List.filter _ (Profiles (db w))) as [| q qs] eqn:Hsel;
    [discriminate |].
  injection H as ->.
  assert (Hin : In p (p :: qs)) by (left; reflexivity).
  rewrite <- Hsel in Hin; apply filter_In in Hin; destruct Hin as [Hin Hu].
  apply Z.eqb_eq in Hu; auto.
Qed.

(** X9.  An [OrderUpdated] event that is handled without error deletes the
    Order rows with the id of the event when the fetched order is not
    assigned to a deal, the other rows staying; otherwise, row by row, a row
    with the id of the fetched order gets the status of the fetched order
    and keeps its other columns (its deal id included), and every other row
    is as it was.  In both cases the counter of the author for the type of
    the order goes down by one. *)
Theorem onOrderUpdated_effect :
  forall (w w' : DWH) (orderID : Z) (order : Order),
    GetOrderInfo (blockchain w) orderID = Ok order ->
    countersInRange (db w) ->
    onOrderUpdated w orderID = (w', Ok tt) ->
    Orders (db w')
    = (if Order_DealID order =? 0
       then commands.deleteWhere (fun o => commands.orderKey o =? orderID)
              (Orders (db w))
       else commands.updateWhere
              (fun o => commands.orderKey o =? Order_Id order)
              (commands.setOrderStatus (Order_OrderStatus order))
              (Orders (db w)))
    /\ profileCounter (Order_OrderType order) (Order_AuthorID order) (db w')
       = profileCounter (Order_OrderType order) (Order_AuthorID order) (db w)
         - 1
    /\ (Order_DealID order = 0 ->
        forall o, In o (Orders (db w')) <->
          In o (Orders (db w)) /\ commands.orderKey o <> orderID)
    /\ (Order_DealID order <> 0 ->
        Forall2
          (fun o o' =>
             if commands.orderKey o =? Order_Id order
             then
               let x := DWHOrder_Order o in
               let x' := DWHOrder_Order o' in
               Order_OrderStatus x' = Order_OrderStatus order
               /\ Order_Id x' = Order_Id x
               /\ Order_DealID x' = Order_DealID x
               /\ Order_OrderType x' = Order_OrderType x
               /\ Order_AuthorID x' = Order_AuthorID x
               /\ Order_CounterpartyID x' = Order_CounterpartyID x
               /\ Order_Duration x' = Order_Duration x
               /\ Order_Price x' = Order_Price x
               /\ Order_Netflags x' = Order_Netflags x
               /\ Order_IdentityLevel x' = Order_IdentityLevel x
               /\ Order_Blacklist x' = Order_Blacklist x
               /\ Order_Tag x' = Order_Tag x
               /\ Order_FrozenSum x' = Order_FrozenSum x
               /\ Order_Benchmarks x' = Order_Benchmarks x
               /\ DWHOrder_CreatedTS o' = DWHOrder_CreatedTS o
               /\ DWHOrder_CreatorIdentityLevel o'
                  = DWHOrder_CreatorIdentityLevel o
               /\ DWHOrder_CreatorName o' = DWHOrder_CreatorName o
               /\ DWHOrder_CreatorCountry o' = DWHOrder_CreatorCountry o
               /\ DWHOrder_CreatorCertificates o'
                  = DWHOrder_CreatorCertificates o
             else o' = o)
          (Orders (db w)) (Orders (db w'))).
Proof.
  intros w w' orderID order Hfetch Hrange H.
  assert (Heq : Orders (db w')
                = (if Order_DealID order =? 0
                   then commands.deleteWhere
                          (fun o => commands.orderKey o =? orderID)
                          (Orders (db w))
                   else commands.updateWhere
                          (fun o => commands.orderKey o =? Order_Id order)
                          (commands.setOrderStatus (Order_OrderStatus order))
                          (Orders (db w))));
    [| split; [exact Heq |];
       split; [exact (onOrderUpdated_counts _ _ Hfetch Hrange H) |];
       rewrite Heq; split; intro Hd;
       [ apply Z.eqb_eq in Hd; rewrite Hd; intro o;
         unfold commands.deleteWhere; rewrite filter_In;
         rewrite negb_true_iff, Z.eqb_neq; reflexivity
       | apply Z.eqb_neq in Hd; rewrite Hd;
         apply updateWhere_Forall2; intro o;
         destruct (commands.orderKey o =? Order_Id order);
         [cbn; repeat split; reflexivity | reflexivity] ] ].
  unfold onOrderUpdated in H; rewrite Hfetch in H.
  destruct (closed (db w)) eqn:Hopen;
    unfold Begin, ifOpen in H; rewrite Hopen in H; [discriminate |].
  unfold commands.deleteOrder, commands.updateOrderStatus, ifOpen in H.
  rewrite Hopen in H; cbn [wrapErr bind] in H.
  destruct (Order_DealID order =? 0);
    apply commitOrRollback_Ok in H; destruct H as [txf [H ->]];
    apply bind_Ok in H; destruct H as [p [_ H]];
    apply bind_Ok in H; destruct H as [tx2 [Hupd H]]; injection H as <-;
    apply wrapErr_Ok in Hupd; unfold updateProfileStats in Hupd;
    apply bind_Ok in Hupd; destruct Hupd as [[cmd value] [_ Hupd]];
    apply wrapErr_Ok in Hupd; unfold commands.updateProfile, ifOpen in Hupd;
    cbn [closed set_Orders] in Hupd; rewrite Hopen in Hupd;
    destruct (commands.setProfileColumn cmd (VInt value) commands.emptyProfile);
    try discriminate; injection Hupd as <-; reflexivity.
Qed.

(** X10.  An [OrderUpdated] event for an author whose counter for the type of
    the order reads zero (the user has no profile, or a profile with no
    order of the type counted) is refused, and the Order row is neither
    deleted nor updated. *)
Theorem onOrderUpdated_refused :
  forall (w : DWH) (orderID : Z) (order : Order),
    GetOrderInfo (blockchain w) orderID = Ok order ->
    closed (db w) = false ->
    profileCounter (Order_OrderType order) (Order_AuthorID order) (db w) = 0 ->
    exists e, onOrderUpdated w orderID = (w, Err e).
Proof.
  intros w orderID order Hfetch Hopen Hzero.
  unfold onOrderUpdated; rewrite Hfetch, (Begin_open _ Hopen).
  unfold commands.deleteOrder, commands.updateOrderStatus, ifOpen.
  rewrite Hopen; cbn [wrapErr bind].
  assert (Hstats : forall tx,
            exists e,
              (profile <-
                 wrapErr ("failed to getProfileInfo (AuthorID: `"
                          ++ Hex (Order_AuthorID order) ++ "`)")
                   (getProfileInfo w (Order_AuthorID order) false) ;;
               tx <- wrapErr ("failed to updateProfileStats (AuthorID: `"
                              ++ Hex (Order_AuthorID order) ++ "`)")
                       (updateProfileStats tx (Order_OrderType order)
                          (Order_AuthorID order) profile (-1)) ;;
               Ok tx) = Err e).
  { intro tx.
    destruct (getProfileInfo w (Order_AuthorID order) false) as [p | e | m]
      eqn:Hprof.
    - destruct (@profileCounter_found (Order_OrderType order) _ _ _ Hprof)
        as [_ [_ [_ Hc]]].
      rewrite Hzero in Hc; cbn [wrapErr bind].
      unfold updateProfileStats, counter in *.
      destruct (OrderType_beq (Order_OrderType order) OrderType_ASK);
        rewrite <- Hc; cbn; eexists; reflexivity.
    - cbn; eexists; reflexivity.
    - unfold getProfileInfo, commands.selectProfileByID in Hprof.
      rewrite ifOpen_open in Hprof by exact Hopen.
      destruct (List.filter _ (Profiles (db w))); discriminate. }
  destruct (Order_DealID order =? 0);
    match goal with
    | |- context [commitOrRollback w (bind _ (fun profile => bind (wrapErr _ (updateProfileStats ?tx _ _ _ _)) _))] =>
        destruct (Hstats tx) as [e He]
    end;
    exists e; rewrite He; reflexivity.
Qed.

(* ------------------------------------------------------------------------- *)
(** ** What every event keeps *)

Section Preserved.

Variables MaxBenchmark CertificateName CertificateCountry : Z.

(** A property of the store that the statements on the tables other than
    [Profiles] and [LastKnownBlock] do not disturb, and that the statements
    on [Profiles] keep when they write what the handlers have them write. *)
Variable P : Store -> Prop.

Hypothesis P_Deals : forall v s, P s -> P (set_Deals v s).
Hypothesis P_Orders : forall v s, P s -> P (set_Orders v s).
Hypothesis P_DealConditions :
  forall v n s, P s -> P (set_DealConditions v n s).
Hypothesis P_DealChangeRequests :
  forall v s, P s -> P (set_DealChangeRequests v s).
Hypothesis P_DealPayments : forall v s, P s -> P (set_DealPayments v s).
Hypothesis P_Certificates : forall v s, P s -> P (set_Certificates v s).
Hypothesis P_Validators : forall v s, P s -> P (set_Validators v s).
Hypothesis P_Workers : forall v s, P s -> P (set_Workers v s).
Hypothesis P_Blacklists : forall v s, P s -> P (set_Blacklists v s).
Hypothesis P_insertProfile :
  forall u certs a b tx,
    0 <= a <= 1 -> 0 <= b <= 1 -> P tx ->
    yields P (commands.insertProfileUserID u certs a b tx).
Hypothesis P_updateProfileStats :
  forall tx t u p d, P tx -> yields P (updateProfileStats tx t u p d).
Hypothesis P_updateProfile_text :
  forall col t u tx, P tx -> yields P (commands.updateProfile col (VText t) u tx).
Hypothesis P_updateProfile_certs :
  forall col cs u tx,
    P tx -> yields P (commands.updateProfile col (VCerts cs) u tx).
Hypothesis P_updateProfile_level :
  forall z u tx,
    P tx -> yields P (commands.updateProfile "IdentityLevel" (VInt z) u tx).

Lemma yields_Ok : forall tx, P tx -> yields P (Ok tx).
Proof. intros tx H tx' E; injection E as <-; exact H. Qed.

Lemma yields_wrapErr : forall msg r, yields P r -> yields P (wrapErr msg r).
Proof. intros msg r H tx E; apply wrapErr_Ok in E; apply H; exact E. Qed.

Lemma yields_Begin : forall s, P s -> yields P (Begin s).
Proof. intros s H tx E; apply Begin_Ok in E; destruct E as [-> _]; exact H. Qed.

Lemma yields_bind_store : forall (r : Result Store) (k : Store -> Result Store),
  yields P r -> (forall tx, P tx -> yields P (k tx)) -> yields P (bind r k).
Proof.
  intros r k Hr Hk tx E; apply bind_Ok in E; destruct E as [a [Ha E]].
  exact (Hk a (Hr a Ha) tx E).
Qed.

Lemma yields_bind_any :
  forall (A : Type) (r : Result A) (k : A -> Result Store),
    (forall a, yields P (k a)) -> yields P (bind r k).
Proof.
  intros A r k Hk tx E; apply bind_Ok in E; destruct E as [a [_ E]].
  exact (Hk a tx E).
Qed.

Lemma commit_keeps : forall (w : DWH) (r : Result Store),
  P (db w) -> yields P r -> P (db (fst (commitOrRollback w r))).
Proof.
  intros w [tx | e | m] Hw Hr; simpl; [apply Hr; reflexivity | exact Hw ..].
Qed.

Ltac keeps_cmd :=
  let tx' := fresh "tx'" in
  let Hc := fresh "Hc" in
  intros tx' Hc; cmd_inv Hc; subst tx'; eauto.

Ltac keeps :=
  repeat first
    [ assumption
    | apply yields_Ok
    | apply yields_wrapErr
    | apply yields_Begin
    | apply P_updateProfileStats
    | apply P_updateProfile_text
    | apply P_updateProfile_certs
    | apply P_updateProfile_level
    | apply P_insertProfile; [lia | lia |]
    | apply yields_bind_store; [| intros ? ?]
    | apply yields_bind_any; intros ?
    | progress cbv zeta
    | match goal with
      | |- yields _ (Err _) => intros ? ?; discriminate
      | |- yields _ (Panic _) => intros ? ?; discriminate
      | |- yields _ (match ?x with _ => _ end) => destruct x
      | |- yields _ _ => keeps_cmd
      end ].

Lemma yields_bind_pair :
  forall (B : Type) (r : Result (Store * B)) (k : Store * B -> Result Store),
    (forall tx b, r = Ok (tx, b) -> P tx) ->
    (forall tx b, P tx -> yields P (k (tx, b))) ->
    yields P (bind r k).
Proof.
  intros B r k Hr Hk tx E; apply bind_Ok in E; destruct E as [[a b] [Ha E]].
  exact (Hk a b (Hr a b Ha) tx E).
Qed.

(** The loop of [onDealChangeRequestSent] over the expired requests. *)
Lemma yields_deleteExpired :
  forall (expired : list DealChangeRequest) (acc : Result Store),
    yields P acc ->
    yields P
      (fold_left
         (fun acc expiredChangeRequest =>
            tx <- acc ;;
            wrapErr "failed to deleteDealChangeRequest"
              (commands.deleteDealChangeRequest
                 (DealChangeRequest_Id expiredChangeRequest) tx))
         expired acc).
Proof.
  induction expired as [| x expired IH]; intros acc Hacc; simpl;
    [exact Hacc |].
  apply IH; keeps.
Qed.

Lemma onDealOpened_keeps : forall w dealID,
  P (db w) -> P (db (fst (onDealOpened MaxBenchmark w dealID))).
Proof.
  intros w dealID Hw; unfold onDealOpened; apply commit_keeps; [exact Hw |].
  keeps.
Qed.

Lemma onDealUpdated_keeps : forall w dealID,
  P (db w) -> P (db (fst (onDealUpdated w dealID))).
Proof.
  intros w dealID Hw; unfold onDealUpdated.
  destruct (GetDealInfo (blockchain w) dealID) as [deal | e | m];
    [| exact Hw ..].
  destruct (DealStatus_beq (Deal_Status deal) DealStatus_DEAL_CLOSED).
  - destruct (Begin (db w)) as [tx | e | m] eqn:Hbegin; [| exact Hw ..].
    apply Begin_Ok in Hbegin; destruct Hbegin as [-> _].
    destruct (commands.deleteDeal (Deal_Id deal) (db w)) as [tx | e | m]
      eqn:Hdel; [| exact Hw ..].
    assert (Htx : P tx) by (revert tx Hdel; change (yields P (commands.deleteDeal (Deal_Id deal) (db w))); keeps).
    apply commit_keeps; [exact Hw |]; keeps.
  - apply commit_keeps; [exact Hw |]; keeps.
Qed.

Lemma onDealChangeRequestSent_keeps : forall w eventTS changeRequestID,
  P (db w) -> P (db (fst (onDealChangeRequestSent w eventTS changeRequestID))).
Proof.
  intros w eventTS changeRequestID Hw; unfold onDealChangeRequestSent.
  destruct (GetDealChangeRequestInfo (blockchain w) changeRequestID)
    as [cr | e | m]; [| exact Hw ..].
  destruct (negb _); [exact Hw |].
  apply commit_keeps; [exact Hw |].
  apply yields_bind_any; intros expired.
  apply yields_bind_store; [keeps |]; intros tx Htx.
  apply yields_bind_store; [apply yields_deleteExpired; keeps |].
  intros tx1 Htx1; keeps.
Qed.

Lemma onDealChangeRequestUpdated_keeps : forall w eventTS changeRequestID,
  P (db w)
  -> P (db (fst (onDealChangeRequestUpdated w eventTS changeRequestID))).
Proof.
  intros w eventTS changeRequestID Hw; unfold onDealChangeRequestUpdated.
  destruct (GetDealChangeRequestInfo (blockchain w) changeRequestID)
    as [cr | e | m]; [| exact Hw ..].
  cbv zeta; destruct (DealChangeRequest_Status cr);
    (apply commit_keeps; [exact Hw |]); keeps.
Qed.

Lemma onBilled_keeps : forall w eventTS dealID payedAmount,
  P (db w) -> P (db (fst (onBilled w eventTS dealID payedAmount))).
Proof.
  intros w eventTS dealID payedAmount Hw; unfold onBilled.
  apply commit_keeps; [exact Hw |].
  unfold updateLastDealConditionPayout, updateDealPayout; keeps.
Qed.

Lemma onOrderPlaced_keeps : forall w eventTS orderID,
  P (db w) -> P (db (fst (onOrderPlaced MaxBenchmark w eventTS orderID))).
Proof.
  intros w eventTS orderID Hw; unfold onOrderPlaced.
  apply commit_keeps; [exact Hw |].
  apply yields_bind_any; intros order.
  apply yields_bind_store; [keeps |]; intros tx Htx.
  apply yields_bind_pair.
  - intros tx1 profile H.
    destruct (getProfileInfo w (Order_AuthorID order) false) as [p | e | m];
      [| | discriminate].
    + apply bind_Ok in H; destruct H as [tx2 [H2 H]]; injection H as <- _.
      revert tx2 H2; apply yields_wrapErr, P_updateProfileStats; exact Htx.
    + destruct (OrderType_beq (Order_OrderType order) OrderType_ASK);
        apply bind_Ok in H; destruct H as [tx2 [H2 H]]; injection H as <- _;
        revert tx2 H2; apply yields_wrapErr, P_insertProfile;
        first [lia | exact Htx].
  - intros tx1 profile Htx1; keeps.
Qed.

Lemma onOrderUpdated_keeps : forall w orderID,
  P (db w) -> P (db (fst (onOrderUpdated w orderID))).
Proof.
  intros w orderID Hw; unfold onOrderUpdated.
  destruct (GetOrderInfo (blockchain w) orderID) as [order | e | m];
    [| exact Hw ..].
  destruct (Begin (db w)) as [tx | e | m] eqn:Hbegin; [| exact Hw ..].
  apply Begin_Ok in Hbegin; destruct Hbegin as [-> _]; cbv zeta.
  match goal with
  | |- P (db (fst (match ?u with _ => _ end))) =>
      assert (Hu : forall tx, u = Ok (Some tx) -> P tx);
      [| destruct u as [[tx |] | e | m]; [| exact Hw ..] ]
  end.
  - intros tx H; destruct (Order_DealID order =? 0).
    + destruct (commands.deleteOrder orderID (db w)) as [tx1 | e | m] eqn:Hdel;
        try discriminate.
      injection H as <-; revert tx1 Hdel.
      change (yields P (commands.deleteOrder orderID (db w))); keeps.
    + apply bind_Ok in H; destruct H as [tx1 [H1 H]]; injection H as <-.
      revert tx1 H1; keeps.
  - apply commit_keeps; [exact Hw |].
    specialize (Hu tx eq_refl); keeps.
Qed.

Lemma updateProfile_keeps : forall w tx certificate,
  P tx
  -> yields P (updateProfile CertificateName CertificateCountry w tx certificate).
Proof.
  intros w tx certificate Htx; unfold updateProfile; cbv zeta.
  apply yields_bind_store.
  - destruct (getProfileInfo w (Certificate_OwnerID certificate) false); keeps.
  - intros tx1 Htx1; apply yields_bind_store.
    + destruct (Certificate_Attribute certificate =? CertificateName);
        [keeps |].
      destruct (Certificate_Attribute certificate =? CertificateCountry); keeps.
    + intros tx2 Htx2; keeps.
Qed.

Lemma updateEntitiesByProfile_keeps : forall tx certificate,
  P tx -> yields P (updateEntitiesByProfile tx certificate).
Proof. intros tx certificate Htx; unfold updateEntitiesByProfile; keeps. Qed.

Lemma onCertificateCreated_keeps : forall w certificateID,
  P (db w)
  -> P (db (fst (onCertificateCreated CertificateName CertificateCountry
                   w certificateID))).
Proof.
  intros w certificateID Hw; unfold onCertificateCreated.
  apply commit_keeps; [exact Hw |].
  apply yields_bind_any; intros certificate.
  apply yields_bind_store; [keeps |]; intros tx Htx.
  apply yields_bind_store; [keeps |]; intros tx1 Htx1.
  apply yields_bind_store;
    [apply yields_wrapErr, updateProfile_keeps; exact Htx1 |].
  intros tx2 Htx2.
  apply yields_bind_store;
    [apply yields_wrapErr, updateEntitiesByProfile_keeps; exact Htx2 |].
  intros tx3 Htx3; keeps.
Qed.

(** Whatever the event and however it is handled, the property holds of
    the store afterwards. *)
Lemma processEvent_keeps : forall (w : DWH) (event : Event),
  P (db w)
  -> P (db (fst (processEvent MaxBenchmark CertificateName CertificateCountry
                   w event))).
Proof.
  intros w event Hw; unfold processEvent.
  destruct (Event_Data event);
    first [ apply onDealOpened_keeps | apply onDealUpdated_keeps
          | apply onOrderPlaced_keeps | apply onOrderUpdated_keeps
          | apply onDealChangeRequestSent_keeps
          | apply onDealChangeRequestUpdated_keeps | apply onBilled_keeps
          | apply onCertificateCreated_keeps | idtac ];
    try exact Hw;
    unfold onWorkerAnnounced, onWorkerConfirmed, onWorkerRemoved,
      onAddedToBlacklist, onRemovedFromBlacklist, onValidatorCreated,
      onValidatorDeleted, discardError;
    try (apply commit_keeps; [exact Hw |]; keeps).
  destruct (commitOrRollback w _) as [w1 r1] eqn:Hc.
  assert (Hw1 : P (db w1)).
  { change w1 with (fst (w1, r1)); rewrite <- Hc.
    apply commit_keeps; [exact Hw |]; keeps. }
  destruct r1; exact Hw1.
Qed.

End Preserved.

(** What the command [updateProfile] does when it is accepted. *)
Lemma commands_updateProfile_Ok :
  forall (columnName : string) (value : SqlValue) (u : Address)
         (tx tx' : Store),
    commands.updateProfile columnName value u tx = Ok tx' ->
    closed tx = false
    /\ tx' = set_Profiles
               (commands.updateWhere (fun p => Profile_UserID p =? u)
                  (fun p =>
                     match commands.setProfileColumn columnName value p with
                     | Some p' => p'
                     | None => p
                     end) (Profiles tx)) tx.
Proof.
  intros columnName value u tx tx' H; unfold commands.updateProfile, ifOpen in H.
  destruct (closed tx); [discriminate |].
  destruct (commands.setProfileColumn columnName value commands.emptyProfile);
    [| discriminate].
  injection H as <-; auto.
Qed.

(** The statements that write the counters, as [updateProfileStats] issues
    them. *)
Lemma updateProfileStats_Ok :
  forall (tx tx' : Store) (t : OrderType) (u : Address) (p : Profile) (d : Z),
    updateProfileStats tx t u p d = Ok tx' ->
    exists v,
      0 <= v < 2 ^ 63
      /\ tx' = set_Profiles
                 (commands.updateWhere (fun q => Profile_UserID q =? u)
                    (setCounter t v) (Profiles tx)) tx.
Proof.
  intros tx tx' t u p d H; unfold updateProfileStats in H.
  apply bind_Ok in H; destruct H as [[cmd value] [Hv H]].
  apply wrapErr_Ok, commands_updateProfile_Ok in H; destruct H as [_ ->].
  destruct (OrderType_beq t OrderType_ASK) eqn:Ht;
    match type of Hv with
    | (if ?c then _ else _) = _ => destruct c eqn:Hneg; [discriminate |]
    end;
    injection Hv as <- <-; apply Z.ltb_ge in Hneg;
    (eexists; split; [split; [exact Hneg | apply toInt_lt] |]);
    unfold setCounter; rewrite Ht; reflexivity.
Qed.

Lemma sameCursor_refl : forall s, sameCursor s s.
Proof. intro s; split; reflexivity. Qed.

(** No handler moves the block cursor, none closes the database. *)
Lemma processEvent_cursor :
  forall (MaxBenchmark CertificateName CertificateCountry : Z) (w : DWH)
         (event : Event),
    sameCursor (db w)
      (db (fst (processEvent MaxBenchmark CertificateName CertificateCountry
                  w event))).
Proof.
  intros MB CN CC w event.
  apply processEvent_keeps; try (intros; assumption);
    try (intros until s; intros [H1 H2]; split; assumption);
    try apply sameCursor_refl.
  - intros u certs a b tx _ _ [H1 H2] tx' H.
    apply insertProfileUserID_Ok in H; destruct H as [_ ->]; split; assumption.
  - intros tx t u p d [H1 H2] tx' H.
    apply updateProfileStats_Ok in H; destruct H as [v [_ ->]];
      split; assumption.
  - intros col t u tx [H1 H2] tx' H.
    apply commands_updateProfile_Ok in H; destruct H as [_ ->];
      split; assumption.
  - intros col cs u tx [H1 H2] tx' H.
    apply commands_updateProfile_Ok in H; destruct H as [_ ->];
      split; assumption.
  - intros z u tx [H1 H2] tx' H.
    apply commands_updateProfile_Ok in H; destruct H as [_ ->];
      split; assumption.
Qed.

(* ------------------------------------------------------------------------- *)
(** ** The block cursor *)

(** The conversion of a [uint64] to [int64]. *)
Lemma toInt_uint64 : forall x,
  0 <= x < 2 ^ 64 ->
  toInt x = if x <? 2 ^ 63 then x else x - 2 ^ 64.
Proof.
  intros x H; destruct (Z.ltb_spec x (2 ^ 63)) as [Hlt | Hge].
  - apply toInt_small; lia.
  - unfold toInt; pow2.
    replace (x + 9223372036854775808)
      with (x - 9223372036854775808 + 1 * 18446744073709551616) by lia.
    rewrite Z.mod_add by lia; rewrite Z.mod_small by lia; lia.
Qed.

(** The cursor after an event was handled. *)
Lemma handleEvent_cursor :
  forall (MaxBenchmark CertificateName CertificateCountry : Z) (w : DWH)
         (event : Event) (sel : Select),
    closed (db w) = false ->
    closed (db (after (handleEvent MaxBenchmark CertificateName
                         CertificateCountry w event sel))) = false
    /\ LastKnownBlock
         (db (after (handleEvent MaxBenchmark CertificateName
                       CertificateCountry w event sel)))
       = map (fun _ => toInt (Event_BlockNumber event))
           (LastKnownBlock (db w)).
Proof.
  intros MB CN CC w event sel Hopen.
  unfold handleEvent, updateLastKnownBlockTS, commands.updateLastKnownBlock.
  rewrite ifOpen_open by exact Hopen; cbn [wrapErr commitOrRollback].
  set (w0 := withDB w _).
  assert (H0 : closed (db w0) = false
               /\ LastKnownBlock (db w0)
                  = map (fun _ => toInt (Event_BlockNumber event))
                      (LastKnownBlock (db w)))
    by (split; [exact Hopen | reflexivity]).
  clearbody w0.
  pose proof (processEvent_cursor MB CN CC w0 event) as [Hc1 Hb1].
  destruct (processEvent MB CN CC w0 event) as [w1 r1]; cbn [fst] in Hc1, Hb1.
  assert (H1 : closed (db w1) = false
               /\ LastKnownBlock (db w1)
                  = map (fun _ => toInt (Event_BlockNumber event))
                      (LastKnownBlock (db w)))
    by (destruct H0 as [<- <-]; auto).
  destruct r1 as [[] | e | m]; cbn [after]; try exact H1.
  destruct (Contains e "constraint"); cbn [after]; [exact H1 |].
  unfold retryEvent; destruct sel; cbn [after]; [exact H1 |].
  pose proof (processEvent_cursor MB CN CC w1 event) as [Hc2 Hb2].
  destruct (processEvent MB CN CC w1 event) as [w2 r2]; cbn [fst] in Hc2, Hb2.
  destruct H1 as [<- <-]; destruct r2; cbn [after]; auto.
Qed.

(** X11.  On an open database, for every event it receives the worker first
    moves the block cursor to the block of the event, converted from
    [uint64] to [int64], and nothing it does for the event moves it again:
    after the event was handled every row of [LastKnownBlock] holds that
    number, whether the event was applied, dropped on a constraint, retried
    or failed for good.  The number is the block number of the event when
    that is below 2^63; a block number from 2^63 on is stored as the negative
    number it wraps to, the block number less 2^64. *)
Theorem handleEvent_advances_cursor :
  forall (MaxBenchmark CertificateName CertificateCountry : Z) (w : DWH)
         (event : Event) (sel : Select),
    closed (db w) = false ->
    0 <= Event_BlockNumber event < 2 ^ 64 ->
    LastKnownBlock
      (db (after (handleEvent MaxBenchmark CertificateName
                    CertificateCountry w event sel)))
    = map (fun _ => if Event_BlockNumber event <? 2 ^ 63
                    then Event_BlockNumber event
                    else Event_BlockNumber event - 2 ^ 64)
        (LastKnownBlock (db w)).
Proof.
  intros MB CN CC w event sel Hopen Hrange.
  rewrite <- (toInt_uint64 Hrange).
  exact (proj2 (handleEvent_cursor MB CN CC w event sel Hopen)).
Qed.

(** What [watchMarketEvents] reads from a cursor that is there. *)
Lemma getLastKnownBlockTS_cursor : forall (w : DWH) (block : Z) (more : list Z),
  closed (db w) = false ->
  LastKnownBlock (db w) = block :: more ->
  0 <= block ->
  getLastKnownBlockTS w = Ok block.
Proof.
  intros w block more Hopen Hrows Hpos.
  unfold getLastKnownBlockTS, commands.selectLastKnownBlock.
  rewrite ifOpen_open, Hrows by exact Hopen.
  destruct (Z.ltb_spec block 0); [lia | reflexivity].
Qed.

(** A negative cursor is not read. *)
Lemma getLastKnownBlockTS_negative :
  forall (w : DWH) (block : Z) (more : list Z),
    closed (db w) = false ->
    LastKnownBlock (db w) = block :: more ->
    block < 0 ->
    getLastKnownBlockTS w
    = Err (Wrap "sql: Scan error on column index 0: invalid syntax"
             "failed to parse last known block number").
Proof.
  intros w block more Hopen Hrows Hneg.
  unfold getLastKnownBlockTS, commands.selectLastKnownBlock.
  rewrite ifOpen_open, Hrows by exact Hopen.
  destruct (Z.ltb_spec block 0); [reflexivity | lia].
Qed.

(** After start-up the database is open and the cursor has a row. *)
Lemma watchMarketEvents_lastKnownBlock_Ok :
  forall (w w0 : DWH) (start : Z),
    watchMarketEvents_lastKnownBlock w = (w0, Ok start) ->
    closed (db w0) = false
    /\ LastKnownBlock (db w0) <> []
    /\ (LastKnownBlock (db w) = [] ->
        start = 0 /\ LastKnownBlock (db w0) = [0]).
Proof.
  intros w w0 start H; unfold watchMarketEvents_lastKnownBlock in H.
  unfold getLastKnownBlockTS, commands.selectLastKnownBlock, ifOpen in H.
  unfold insertLastKnownBlockTS, commands.insertLastKnownBlock, ifOpen in H.
  destruct (closed (db w)) eqn:Hopen; cbn in H; [discriminate |].
  destruct (LastKnownBlock (db w)) as [| block more] eqn:Hrows; cbn in H.
  - injection H as <- <-; cbn; rewrite ?Hrows.
    repeat split; [exact Hopen | discriminate].
  - destruct (block <? 0); injection H as <- <-; cbn; rewrite ?Hrows;
      (split; [exact Hopen |]); split; discriminate.
Qed.

(** X12.  The indexer resumes from the block of the last event a worker
    received, as long as block numbers stay below 2^63.
    [watchMarketEvents] starts from block 0, which it inserts, when the
    cursor has no row; once a worker has handled an event with a block number
    below 2^63, whatever became of the event, the next start asks the events
    from the block of that event and leaves the store alone.  After an event
    with a block number from 2^63 on, the cursor is negative and is not read
    again: the next start fails to parse it, inserts a further row holding 0
    and asks the events from block 0. *)
Theorem cursor_resumes_from_last_event :
  forall (MaxBenchmark CertificateName CertificateCountry : Z) (w w0 : DWH)
         (start : Z) (event : Event) (sel : Select),
    watchMarketEvents_lastKnownBlock w = (w0, Ok start) ->
    0 <= Event_BlockNumber event < 2 ^ 64 ->
    let w1 := after (handleEvent MaxBenchmark CertificateName
                       CertificateCountry w0 event sel) in
    (LastKnownBlock (db w) = [] ->
     start = 0 /\ LastKnownBlock (db w0) = [0])
    /\ (Event_BlockNumber event < 2 ^ 63 ->
        watchMarketEvents_lastKnownBlock w1
        = (w1, Ok (Event_BlockNumber event)))
    /\ (2 ^ 63 <= Event_BlockNumber event ->
        getLastKnownBlockTS w1
        = Err (Wrap "sql: Scan error on column index 0: invalid syntax"
                 "failed to parse last known block number")
        /\ exists w2,
             watchMarketEvents_lastKnownBlock w1 = (w2, Ok 0)
             /\ LastKnownBlock (db w2) = LastKnownBlock (db w1) ++ [0]
             /\ Forall (fun block => block = Event_BlockNumber event - 2 ^ 64)
                  (LastKnownBlock (db w1))).
Proof.
  intros MB CN CC w w0 start event sel Hstart Hrange w1.
  destruct (watchMarketEvents_lastKnownBlock_Ok _ Hstart)
    as [Hopen [Hrows Hfresh]].
  split; [exact Hfresh |].
  destruct (handleEvent_cursor MB CN CC w0 event sel Hopen) as [Hopen1 Hrows1].
  fold w1 in Hopen1, Hrows1.
  rewrite (toInt_uint64 Hrange) in Hrows1.
  destruct (LastKnownBlock (db w0)) as [| block more]; [congruence |].
  cbn [map] in Hrows1.
  split; intro Hb.
  - apply Z.ltb_lt in Hb; rewrite Hb in Hrows1.
    unfold watchMarketEvents_lastKnownBlock.
    rewrite (getLastKnownBlockTS_cursor _ Hopen1 Hrows1 (proj1 Hrange)).
    reflexivity.
  - assert (Hb' : (Event_BlockNumber event <? 2 ^ 63) = false)
      by (apply Z.ltb_ge; exact Hb).
    rewrite Hb' in Hrows1.
    assert (Hneg : Event_BlockNumber event - 2 ^ 64 < 0) by lia.
    pose proof (getLastKnownBlockTS_negative _ Hopen1 Hrows1 Hneg) as Hget.
    split; [exact Hget |].
    unfold watchMarketEvents_lastKnownBlock; rewrite Hget.
    unfold insertLastKnownBlockTS, commands.insertLastKnownBlock.
    rewrite ifOpen_open by exact Hopen1.
    cbn [wrapErr commitOrRollback].
    eexists; split; [reflexivity |]. split; [reflexivity |].
    rewrite Hrows1; constructor; [reflexivity |].
    apply Forall_forall; intros b Hin; apply in_map_iff in Hin.
    destruct Hin as [_ [<- _]]; reflexivity.
Qed.

(* ------------------------------------------------------------------------- *)
(** ** The range of the counters *)

Lemma countersInRange_set_Profiles :
  forall (rows : list Profile) (s : Store),
    (forall p, In p rows ->
       0 <= Profile_ActiveAsks p < 2 ^ 63 /\ 0 <= Profile_ActiveBids p < 2 ^ 63) ->
    countersInRange (set_Profiles rows s).
Proof. intros rows s H p Hp; apply H; exact Hp. Qed.

Lemma countersInRange_update :
  forall (sel : Profile -> bool) (upd : Profile -> Profile) (s : Store),
    countersInRange s ->
    (forall p, In p (Profiles s) ->
       0 <= Profile_ActiveAsks (upd p) < 2 ^ 63
       /\ 0 <= Profile_ActiveBids (upd p) < 2 ^ 63) ->
    countersInRange
      (set_Profiles (commands.updateWhere sel upd (Profiles s)) s).
Proof.
  intros sel upd s Hs Hupd; apply countersInRange_set_Profiles.
  intros p Hp; unfold commands.updateWhere in Hp; apply in_map_iff in Hp.
  destruct Hp as [q [<- Hq]].
  destruct (sel q); [apply Hupd | apply Hs]; exact Hq.
Qed.

(** Every event keeps the counters within the non-negative range of
    [int]. *)
Lemma processEvent_countersInRange :
  forall (MaxBenchmark CertificateName CertificateCountry : Z) (w : DWH)
         (event : Event),
    countersInRange (db w) ->
    countersInRange
      (db (fst (processEvent MaxBenchmark CertificateName CertificateCountry
                  w event))).
Proof.
  intros MB CN CC w event.
  apply processEvent_keeps; try (intros until s; intro H; exact H).
  - intros u certs a b tx Ha Hb Htx tx' H.
    apply insertProfileUserID_Ok in H; destruct H as [_ ->].
    apply countersInRange_set_Profiles; intros p Hp.
    apply in_app_or in Hp; destruct Hp as [Hp | [<- | []]];
      [apply Htx; exact Hp |].
    cbn; pow2; lia.
  - intros tx t u p d Htx tx' H.
    apply updateProfileStats_Ok in H; destruct H as [v [Hv ->]].
    apply countersInRange_update; [exact Htx |].
    intros q Hq; destruct (Htx q Hq) as [Ha Hb].
    unfold setCounter; cbn.
    destruct (OrderType_beq t OrderType_ASK); auto.
  - intros col t u tx Htx tx' H.
    apply commands_updateProfile_Ok in H; destruct H as [_ ->].
    apply countersInRange_update; [exact Htx |].
    intros q Hq; unfold commands.setProfileColumn.
    destruct (String.eqb col "Name"); [exact (Htx q Hq) |].
    destruct (String.eqb col "Country"); exact (Htx q Hq).
  - intros col cs u tx Htx tx' H.
    apply commands_updateProfile_Ok in H; destruct H as [_ ->].
    apply countersInRange_update; [exact Htx |].
    intros q Hq; unfold commands.setProfileColumn.
    destruct (String.eqb col "Certificates"); exact (Htx q Hq).
  - intros z u tx Htx tx' H.
    apply commands_updateProfile_Ok in H; destruct H as [_ ->].
    apply countersInRange_update; [exact Htx |].
    intros q Hq; exact (Htx q Hq).
Qed.

(** X13.  The counters of the profiles never leave the non-negative range of
    [int]: starting from a store where they are in range (an empty store,
    for one), they are in range after any sequence of events, whatever the
    chain reports for them and whether they are applied or fail. *)
Theorem replay_keeps_counters_in_range :
  forall (MaxBenchmark CertificateName CertificateCountry : Z)
         (events : list Event) (w : DWH),
    countersInRange (db w) ->
    countersInRange
      (db (replay MaxBenchmark CertificateName CertificateCountry w events)).
Proof.
  intros MB CN CC events; unfold replay.
  induction events as [| event events IH]; intros w Hw; simpl; [exact Hw |].
  apply IH, processEvent_countersInRange; exact Hw.
Qed.

(* ------------------------------------------------------------------------- *)
(** ** Queries without sortings *)

(** Without sort keys the rows stay in the order of the table. *)
Lemma sortRows_unsorted :
  forall (R : Type) (col : string -> R -> SqlValue) (l : list R),
    sortRows (rowLe col []) l = l.
Proof.
  intros R col l; unfold sortRows; induction l as [| a l IH];
    cbn [fold_right]; [reflexivity |].
  rewrite IH; destruct l; reflexivity.
Qed.

Lemma filter_all : forall (A : Type) (l : list A),
  List.filter (fun _ => true) l = l.
Proof.
  intros A l; induction l as [| a l IH]; simpl; [| rewrite IH]; reflexivity.
Qed.

Lemma updateWhere_none :
  forall (A : Type) (sel : A -> bool) (upd : A -> A) (l : list A),
    (forall x, In x l -> sel x = false) ->
    commands.updateWhere sel upd l = l.
Proof.
  intros A sel upd l H; unfold commands.updateWhere.
  induction l as [| a l IH]; simpl; [reflexivity |].
  rewrite (H a) by (left; reflexivity).
  rewrite IH by (intros x Hx; apply H; right; exact Hx); reflexivity.
Qed.

Lemma deleteWhere_none :
  forall (A : Type) (sel : A -> bool) (l : list A),
    (forall x, In x l -> sel x = false) ->
    commands.deleteWhere sel l = l.
Proof.
  intros A sel l H; unfold commands.deleteWhere.
  induction l as [| a l IH]; simpl; [reflexivity |].
  rewrite (H a) by (left; reflexivity); simpl.
  rewrite IH by (intros x Hx; apply H; right; exact Hx); reflexivity.
Qed.

Lemma existsb_none :
  forall (A : Type) (sel : A -> bool) (l : list A),
    (forall x, In x l -> sel x = false) -> existsb sel l = false.
Proof.
  intros A sel l H; induction l as [| a l IH]; simpl; [reflexivity |].
  rewrite (H a) by (left; reflexivity).
  apply IH; intros x Hx; apply H; right; exact Hx.
Qed.

(* ------------------------------------------------------------------------- *)
(** ** Workers *)

(** A query without filters, sort keys and page bounds returns the table. *)
Lemma runQuery_table :
  forall (R : Type) (s : Store) (tbl : Table R),
    closed s = false ->
    runQuery s {| table := tbl; filters := []; sortings := []; offset := 0;
                  limit := 0; withCount := false |}
    = Ok (tableRows tbl s, 0).
Proof.
  intros R s tbl Hopen; unfold runQuery.
  cbn [table filters sortings offset limit withCount forallb negb andb
       balanced].
  rewrite Hopen, sortRows_unsorted.
  cbn [evalWhere collapse option_map evalChain].
  rewrite filter_all; reflexivity.
Qed.

(** The workers, as [getWorkers] lists them when no master is asked for. *)
Lemma getWorkers_all : forall w : DWH,
  closed (db w) = false ->
  getWorkers w allWorkers
  = Ok {| WorkersReply_Workers := Workers (db w); WorkersReply_Count := 0 |}.
Proof.
  intros w Hopen; unfold getWorkers.
  change (getWorkersFilters allWorkers) with (@nil Filter).
  cbn [allWorkers WorkersRequest_Offset WorkersRequest_Limit
       WorkersRequest_WithCount].
  rewrite runQuery_table by exact Hopen; reflexivity.
Qed.

(** X14.  The life of a worker, on an open database.  Announcing a pair
    (master, slave) that is not indexed appends its row, unconfirmed;
    confirming the pair sets the
    flag of that row and of no other; removing it deletes the row, and the
    table is as before the announcement.  [getWorkers] without a master
    lists the rows in this order. *)
Theorem worker_lifecycle :
  forall (w : DWH) (masterID slaveID : Address),
    closed (db w) = false ->
    (forall x, In x (Workers (db w)) ->
       commands.isWorker masterID slaveID x = false) ->
    exists w1 w2 w3,
      onWorkerAnnounced w masterID slaveID = (w1, Ok tt)
      /\ getWorkers w1 allWorkers
         = Ok {| WorkersReply_Workers :=
                   Workers (db w)
                   ++ [{| DWHWorker_MasterID := masterID;
                          DWHWorker_SlaveID := slaveID;
                          DWHWorker_Confirmed := false |}];
                 WorkersReply_Count := 0 |}
      /\ onWorkerConfirmed w1 masterID slaveID = (w2, Ok tt)
      /\ getWorkers w2 allWorkers
         = Ok {| WorkersReply_Workers :=
                   Workers (db w)
                   ++ [{| DWHWorker_MasterID := masterID;
                          DWHWorker_SlaveID := slaveID;
                          DWHWorker_Confirmed := true |}];
                 WorkersReply_Count := 0 |}
      /\ onWorkerRemoved w2 masterID slaveID = (w3, Ok tt)
      /\ Workers (db w3) = Workers (db w).
Proof.
  intros w m s Hopen Hnew.
  unfold onWorkerAnnounced, onWorkerConfirmed, onWorkerRemoved.
  unfold commands.insertWorker, commands.insertUnique.
  rewrite ifOpen_open by exact Hopen.
  rewrite existsb_none by (intros x Hx; cbn; apply Hnew; exact Hx).
  cbn [bind wrapErr commitOrRollback].
  eexists; eexists; eexists.
  split; [reflexivity |].
  split; [rewrite getWorkers_all by exact Hopen; reflexivity |].
  unfold commands.updateWorker; rewrite ifOpen_open by exact Hopen.
  cbn [bind wrapErr commitOrRollback].
  split; [reflexivity |].
  assert (Hself : commands.isWorker m s
                    {| DWHWorker_MasterID := m; DWHWorker_SlaveID := s;
                       DWHWorker_Confirmed := false |} = true)
    by (unfold commands.isWorker; cbn; rewrite !Z.eqb_refl; reflexivity).
  split.
  - rewrite getWorkers_all by exact Hopen; cbn [db withDB Workers set_Workers].
    unfold commands.updateWhere; rewrite map_app.
    fold (commands.updateWhere (commands.isWorker m s)
            (fun x => {| DWHWorker_MasterID := DWHWorker_MasterID x;
                         DWHWorker_SlaveID := DWHWorker_SlaveID x;
                         DWHWorker_Confirmed := true |}) (Workers (db w))).
    rewrite updateWhere_none by exact Hnew.
    cbn [map]; rewrite Hself; reflexivity.
  - unfold commands.deleteWorker; rewrite ifOpen_open by exact Hopen.
    cbn [bind wrapErr commitOrRollback].
    split; [reflexivity |].
    cbn [db withDB Workers set_Workers].
    unfold commands.updateWhere, commands.deleteWhere.
    rewrite map_app, filter_app.
    fold (commands.updateWhere (commands.isWorker m s)
            (fun x => {| DWHWorker_MasterID := DWHWorker_MasterID x;
                         DWHWorker_SlaveID := DWHWorker_SlaveID x;
                         DWHWorker_Confirmed := true |}) (Workers (db w))).
    rewrite updateWhere_none by exact Hnew.
    fold (commands.deleteWhere (commands.isWorker m s) (Workers (db w))).
    rewrite deleteWhere_none by exact Hnew.
    cbn [map]; rewrite Hself; cbn.
    unfold commands.isWorker; cbn; rewrite !Z.eqb_refl; cbn.
    apply app_nil_r.
Qed.

(* ------------------------------------------------------------------------- *)
(** ** Blacklists *)

(** The filter of [getBlacklist] on a row. *)
Lemma evalWhere_AdderID : forall (owner : Address) (x : BlacklistEntry),
  evalWhere blacklistColumn [newFilter "AdderID" sqlop.eq (VInt owner) "AND"] x
  = Some (Blacklist_AdderID x =? owner).
Proof.
  intros owner x; unfold evalWhere; cbn.
  rewrite Z.eqb_compare; reflexivity.
Qed.

(** X15.  On an open database [getBlacklist] answers with the addees of the
    rows whose adder is the owner of the request, or of all rows when the
    request names no owner (nil or the zero address), in the order of the
    table and cut to the page asked for; the count is the number of these
    rows before the cut when it is asked for, and zero otherwise. *)
Theorem getBlacklist_lists_addees :
  forall (w : DWH) (request : BlacklistRequest),
    closed (db w) = false ->
    getBlacklist w request
    = Ok {| BlacklistReply_OwnerID := BlacklistRequest_OwnerID request;
            BlacklistReply_Addresses :=
              map Blacklist_AddeeID
                (paginate (BlacklistRequest_Offset request)
                   (BlacklistRequest_Limit request)
                   (blacklisted request (db w)));
            BlacklistReply_Count :=
              if BlacklistRequest_WithCount request
              then Z.of_nat (List.length (blacklisted request (db w)))
              else 0 |}.
Proof.
  intros w request Hopen; unfold getBlacklist, runQuery, blacklisted.
  cbn [table filters sortings offset limit withCount forallb negb].
  rewrite Hopen, sortRows_unsorted; unfold getBlacklistFilters.
  destruct (isSet (BlacklistRequest_OwnerID request)).
  - cbn [app forallb hasColumn BlacklistsTable Field newFilter column
         tableRows].
    change (inColumns blacklistColumns "AdderID") with true.
    cbn [andb negb validConnective BoolOperator balanced OpenBracket
         CloseBracket].
    change (String.eqb "AND" "AND") with true; cbn [orb andb negb].
    rewrite (filter_ext _ (fun x => Blacklist_AdderID x
                                    =? unwrap (BlacklistRequest_OwnerID request)))
      by (intro x; rewrite evalWhere_AdderID; reflexivity).
    reflexivity.
  - cbn [forallb negb andb balanced column tableRows BlacklistsTable
         evalWhere collapse option_map evalChain].
    reflexivity.
Qed.

(** The blacklist of an owner, on one page. *)
Lemma getBlacklist_of : forall (w : DWH) (owner : Address),
  closed (db w) = false ->
  owner <> 0 ->
  exists reply,
    getBlacklist w (blacklistOf owner) = Ok reply
    /\ BlacklistReply_Addresses reply
       = map Blacklist_AddeeID
           (List.filter (fun x => Blacklist_AdderID x =? owner)
              (Blacklists (db w))).
Proof.
  intros w owner Hopen Howner; unfold getBlacklist, runQuery.
  cbn [table filters sortings offset limit withCount forallb negb
       blacklistOf BlacklistRequest_OwnerID BlacklistRequest_Offset
       BlacklistRequest_Limit BlacklistRequest_WithCount].
  rewrite Hopen, sortRows_unsorted; unfold getBlacklistFilters.
  cbn [isSet unwrap blacklistOf BlacklistRequest_OwnerID].
  apply Z.eqb_neq in Howner; rewrite Howner.
  cbn [app forallb hasColumn BlacklistsTable Field newFilter column
       tableRows negb].
  change (inColumns blacklistColumns "AdderID") with true.
  cbn [andb negb validConnective BoolOperator balanced OpenBracket
       CloseBracket].
  change (String.eqb "AND" "AND") with true; cbn [orb andb negb].
  rewrite (filter_ext _ (fun x => Blacklist_AdderID x =? owner))
    by (intro x; rewrite evalWhere_AdderID; reflexivity).
  eexists; split; reflexivity.
Qed.

(** X16.  Adding to a blacklist and removing from it, as [getBlacklist]
    shows them: once [AddedToBlacklist(adder, addee)] is handled the addee is
    listed for the adder; once [RemovedFromBlacklist] is handled for the
    same pair the addee is listed no more, and the other addees of the adder
    are listed as before. *)
Theorem blacklist_add_remove :
  forall (w w1 : DWH) (adderID addeeID : Address),
    adderID <> 0 ->
    onAddedToBlacklist w adderID addeeID = (w1, Ok tt) ->
    exists r1 w2 r2,
      getBlacklist w1 (blacklistOf adderID) = Ok r1
      /\ In addeeID (BlacklistReply_Addresses r1)
      /\ onRemovedFromBlacklist w1 adderID addeeID = (w2, Ok tt)
      /\ getBlacklist w2 (blacklistOf adderID) = Ok r2
      /\ (forall x, In x (BlacklistReply_Addresses r2)
                    <-> In x (BlacklistReply_Addresses r1) /\ x <> addeeID).
Proof.
  intros w w1 adder addee Hadder H.
  apply commitOrRollback_Ok in H; destruct H as [tx [H ->]].
  apply wrapErr_Ok in H; cmd_inv H; subst tx.
  set (row := {| Blacklist_AdderID := adder; Blacklist_AddeeID := addee |}).
  set (w1 := withDB w _).
  assert (Hopen1 : closed (db w1) = false) by exact Hopen.
  destruct (getBlacklist_of w1 Hopen1 Hadder) as [r1 [Hr1 Ha1]].
  unfold onRemovedFromBlacklist, commands.deleteBlacklistEntry.
  rewrite ifOpen_open by exact Hopen1; cbn [wrapErr commitOrRollback].
  set (w2 := withDB w1 _).
  assert (Hopen2 : closed (db w2) = false) by exact Hopen.
  destruct (getBlacklist_of w2 Hopen2 Hadder) as [r2 [Hr2 Ha2]].
  exists r1, w2, r2.
  split; [exact Hr1 |]. split.
  - rewrite Ha1; apply in_map_iff; exists row; split; [reflexivity |].
    apply filter_In; split.
    + subst w1; cbn; apply in_or_app; right; left; reflexivity.
    + apply Z.eqb_refl.
  - split; [reflexivity |]. split; [exact Hr2 |].
    intro x; rewrite Ha1, Ha2; subst w2; cbn [db withDB Blacklists set_Blacklists].
    unfold commands.deleteWhere; rewrite !in_map_iff; split.
    + intros [e [<- He]]; apply filter_In in He; destruct He as [He Hown].
      apply filter_In in He; destruct He as [He Hkey]; split.
      * exists e; split; [reflexivity |]; apply filter_In; auto.
      * intro Heq; unfold commands.isBlacklistEntry in Hkey.
        rewrite Hown, Heq, Z.eqb_refl in Hkey; discriminate.
    + intros [[e [<- He]] Hne]; apply filter_In in He; destruct He as [He Hown].
      exists e; split; [reflexivity |]; apply filter_In; split; [| exact Hown].
      apply filter_In; split; [exact He |].
      unfold commands.isBlacklistEntry; rewrite Hown; cbn.
      apply Z.eqb_neq in Hne; rewrite Hne; reflexivity.
Qed.

(* ------------------------------------------------------------------------- *)
(** ** Validators *)

(** X17.  A [ValidatorDeleted] event deletes nothing: the rows of
    [Validators] are the same validators in the same order, the rows of the
    fetched validator carry the level the chain reports for it, and every
    other row is as it was. *)
Theorem onValidatorDeleted_keeps_row :
  forall (w w' : DWH) (validatorID : Address) (validator : Validator),
    GetValidator (blockchain w) validatorID = Ok validator ->
    onValidatorDeleted w validatorID = (w', Ok tt) ->
    map Validator_Id (Validators (db w'))
    = map Validator_Id (Validators (db w))
    /\ (forall v, In v (Validators (db w')) ->
          Validator_Id v = Validator_Id validator ->
          Validator_Level v = Validator_Level validator)
    /\ (forall v, In v (Validators (db w')) ->
          Validator_Id v <> Validator_Id validator ->
          In v (Validators (db w))).
Proof.
  intros w w' validatorID validator Hfetch H.
  apply commitOrRollback_Ok in H; destruct H as [tx [H ->]].
  rewrite Hfetch in H; cbn [wrapErr bind] in H.
  apply wrapErr_Ok in H; cmd_inv H; subst tx.
  cbn [db withDB Validators set_Validators]; unfold commands.updateWhere.
  split; [| split].
  - rewrite map_map; apply map_ext; intro v.
    destruct (Validator_Id v =? Validator_Id validator); reflexivity.
  - intros v Hv Hid; apply in_map_iff in Hv; destruct Hv as [x [<- Hx]].
    destruct (Validator_Id x =? Validator_Id validator) eqn:Hsel;
      [reflexivity |].
    apply Z.eqb_neq in Hsel; contradiction.
  - intros v Hv Hid; apply in_map_iff in Hv; destruct Hv as [x [<- Hx]].
    destruct (Validator_Id x =? Validator_Id validator) eqn:Hsel;
      [| exact Hx].
    apply Z.eqb_eq in Hsel; cbn in Hid; contradiction.
Qed.

(* ------------------------------------------------------------------------- *)
(** ** Conditions of a deal *)

Lemma rowLe_Id_desc : forall a b : DealCondition,
  rowLe dealConditionColumn
    [{| SortingOption_Field := "Id"; SortingOption_Order := SortingOrder_Desc |}]
    a b
  = (DealCondition_Id b <=? DealCondition_Id a).
Proof.
  intros a b; unfold rowLe, dealConditionColumn, compareValue; simpl.
  destruct (Z.compare_spec (DealCondition_Id a) (DealCondition_Id b));
    symmetry; first [apply Z.leb_le; lia | apply Z.leb_gt; lia].
Qed.

(** X18.  [getDealConditions] answers with conditions of the deal of the
    request only, and when the request gives no sorting the conditions come
    latest first, by descending id, whatever page is asked for. *)
Theorem getDealConditions_of_deal :
  forall (w : DWH) (request : DealConditionsRequest)
         (reply : DealConditionsReply),
    getDealConditions w request = Ok reply ->
    (forall c, In c (DealConditionsReply_Conditions reply) ->
       In c (DealConditions (db w))
       /\ DealCondition_DealID c = DealConditionsRequest_DealID request)
    /\ (DealConditionsRequest_Sortings request = [] ->
        StronglySorted (fun a b => DealCondition_Id b <= DealCondition_Id a)
          (DealConditionsReply_Conditions reply)).
Proof.
  intros w request reply H; unfold getDealConditions in H; cbv zeta in H.
  destruct (runQuery _ _) as [[rows n] | e | m] eqn:Hq; try discriminate.
  injection H as <-; cbn [DealConditionsReply_Conditions]; split.
  - intros c Hc; destruct (runQuery_In _ _ c Hq Hc) as [Hin Hw].
    split; [exact Hin |].
    unfold evalWhere in Hw; cbn [filters collapse option_map evalChain column
      table DealConditionsTable OpenBracket CloseBracket newFilter andb negb
      app CmpOperator Field Value BoolOperator] in Hw.
    injection Hw as Hw.
    change (dealConditionColumn "DealID" c)
      with (VInt (DealCondition_DealID c)) in Hw.
    apply evalOp_eq_VInt in Hw; exact Hw.
  - intro Hs; rewrite Hs in Hq; cbn [List.length Nat.ltb Nat.leb] in Hq.
    apply runQuery_Ok in Hq; destruct Hq as [_ ->].
    cbn [offset limit sortings table column DealConditionsTable filters].
    apply sorted_paginate.
    eapply sorted_weaken; cycle 1.
    + apply sortRows_sorted.
      * intros a b; rewrite !rowLe_Id_desc.
        destruct (Z.le_ge_cases (DealCondition_Id a) (DealCondition_Id b));
          [right | left]; apply Z.leb_le; lia.
      * intros a b d; rewrite !rowLe_Id_desc; intros H1 H2.
        apply Z.leb_le in H1; apply Z.leb_le in H2; apply Z.leb_le; lia.
    + intros a b Hab; cbv beta in Hab.
      change (SortingOption_Field _) with "Id" in Hab.
      rewrite rowLe_Id_desc in Hab; apply Z.leb_le; exact Hab.
Qed.

(* ------------------------------------------------------------------------- *)
(** ** Placing an order *)

(** The profile the new Order row is stamped with: the one read before the
    event, or the empty one that was just created. *)
Lemma onOrderPlaced_profile :
  forall (w : DWH) (order : Order) (tx tx1 : Store) (profile : Profile),
    closed tx = false ->
    match getProfileInfo w (Order_AuthorID order) false with
    | Ok profile =>
        tx <- wrapErr "failed to updateProfileStats"
                (updateProfileStats tx (Order_OrderType order)
                   (Order_AuthorID order) profile 1) ;;
        Ok (tx, profile)
    | Err _ =>
        let '(askOrders, bidOrders) :=
          if OrderType_beq (Order_OrderType order) OrderType_ASK
          then (1, 0) else (0, 1) in
        tx <- wrapErr "failed to insertProfileUserID"
                (commands.insertProfileUserID (Order_AuthorID order) []
                   askOrders bidOrders tx) ;;
        Ok (tx, newProfile (Order_AuthorID order))
    | Panic m => Panic m
    end = Ok (tx1, profile) ->
    closed tx1 = false
    /\ Orders tx1 = Orders tx
    /\ profile = match getProfileInfo w (Order_AuthorID order) false with
                 | Ok p => p
                 | _ => newProfile (Order_AuthorID order)
                 end.
Proof.
  intros w order tx tx1 profile Hopen H.
  destruct (getProfileInfo w (Order_AuthorID order) false) as [p | e | m];
    [| | discriminate].
  - apply bind_Ok in H; destruct H as [tx2 [H2 H]]; injection H as <- <-.
    apply wrapErr_Ok, updateProfileStats_Ok in H2.
    destruct H2 as [v [_ ->]]; auto.
  - destruct (OrderType_beq (Order_OrderType order) OrderType_ASK);
      apply bind_Ok in H; destruct H as [tx2 [H2 H]]; injection H as <- <-;
      apply wrapErr_Ok, insertProfileUserID_Ok in H2; destruct H2 as [_ ->];
      auto.
Qed.

(** A row inserted under a fresh key is the one row found under it. *)
Lemma filter_fresh_key :
  forall (A : Type) (key : A -> Z) (k : Z) (l : list A) (x : A),
    existsb (fun b => k =? key b) l = false -> key x = k ->
    List.filter (fun o => key o =? k) (l ++ [x]) = [x].
Proof.
  intros A key k l x Hnone Hx; rewrite filter_app; simpl.
  rewrite Hx, Z.eqb_refl.
  replace (List.filter (fun o => key o =? k) l) with (@nil A); [reflexivity |].
  symmetry; induction l as [| a l IH]; simpl in *; [reflexivity |].
  apply orb_false_elim in Hnone; destruct Hnone as [Ha Hl].
  rewrite Z.eqb_sym, Ha; apply IH; exact Hl.
Qed.

(** X19.  An [OrderPlaced] event that is handled without error either skips
    the order (it is INACTIVE and not assigned to a deal, and [Orders] is
    left as it was) or appends one Order row that [getOrderDetails] finds
    under the id of the order from then on: the row holds the order as the
    chain reports it, benchmarks included, the timestamp of the event as its
    creation time, and the identity level, name, country and certificates
    of the profile the author had before the event (empty when the author
    had none). *)
Theorem onOrderPlaced_indexes_order :
  forall (MaxBenchmark : Z) (w w' : DWH) (eventTS orderID : Z) (order : Order),
    GetOrderInfo (blockchain w) orderID = Ok order ->
    onOrderPlaced MaxBenchmark w eventTS orderID = (w', Ok tt) ->
    (Order_OrderStatus order = OrderStatus_ORDER_INACTIVE
     /\ Order_DealID order = 0
     /\ Orders (db w') = Orders (db w))
    \/ exists row,
         Orders (db w') = Orders (db w) ++ [row]
         /\ getOrderDetails w' (Order_Id order) = Ok row
         /\ DWHOrder_Order row = order
         /\ DWHOrder_CreatedTS row = eventTS
         /\ let profile :=
              match getProfileInfo w (Order_AuthorID order) false with
              | Ok p => p
              | _ => newProfile (Order_AuthorID order)
              end in
            DWHOrder_CreatorIdentityLevel row = Profile_IdentityLevel profile
            /\ DWHOrder_CreatorName row = Profile_Name profile
            /\ DWHOrder_CreatorCountry row = Profile_Country profile
            /\ DWHOrder_CreatorCertificates row = Profile_Certificates profile.
Proof.
  intros MB w w' eventTS orderID order Hfetch H.
  apply commitOrRollback_Ok in H; destruct H as [txf [H ->]].
  unfold onOrderPlaced in H; rewrite Hfetch in H; cbn [wrapErr bind] in H.
  apply bind_Ok in H; destruct H as [tx [Hbegin H]].
  apply wrapErr_Ok, Begin_Ok in Hbegin; destruct Hbegin as [-> Hopen].
  apply bind_Ok in H; destruct H as [[tx1 profile] [Hprof H]].
  apply (@onOrderPlaced_profile w order _ _ _ Hopen) in Hprof.
  destruct Hprof as [Hopen1 [Horders Hprofile]].
  destruct (OrderStatus_beq (Order_OrderStatus order) OrderStatus_ORDER_INACTIVE
            && (Order_DealID order =? 0)) eqn:Hskip.
  - left; injection H as <-.
    apply andb_prop in Hskip; destruct Hskip as [Hst Hd].
    apply Z.eqb_eq in Hd.
    split; [destruct (Order_OrderStatus order); (reflexivity || discriminate) |].
    split; [exact Hd | exact Horders].
  - right.
    apply bind_Ok in H; destruct H as [[] [Hcheck H]].
    apply bind_Ok in H; destruct H as [tx2 [Hins H]]; injection H as <-.
    apply wrapErr_Ok in Hins; cmd_inv Hins; subst tx2.
    exists (orderRow w eventTS order profile).
    cbn [db withDB Orders set_Orders]; rewrite Horders.
    split; [reflexivity |]. split.
    + unfold getOrderDetails, commands.selectOrderByID, ifOpen.
      cbn [db withDB Orders set_Orders closed].
      match goal with Hc : closed tx1 = false |- _ => rewrite Hc end.
      rewrite (filter_fresh_key commands.orderKey);
        [reflexivity | | reflexivity].
      rewrite <- Horders; exact Hfresh.
    + split.
      * apply checkBenchmarks_length in Hcheck.
        unfold orderRow; cbn [DWHOrder_Order].
        rewrite <- Hcheck, firstn_all; destruct order; reflexivity.
      * split; [reflexivity |].
        cbv zeta; rewrite <- Hprofile; repeat split.
Qed.

(* ------------------------------------------------------------------------- *)
(** ** The worker loop *)

Lemma attempts_app : forall t1 t2,
  attempts (t1 ++ t2) = (attempts t1 ++ attempts t2)%list.
Proof. intros t1 t2; unfold attempts; apply flat_map_app. Qed.

(** One received event costs at most two calls of [processEvent]. *)
Lemma handleEvent_attempts :
  forall (MaxBenchmark CertificateName CertificateCountry : Z) (w : DWH)
         (event : Event) (sel : Select),
    (1 <= List.length
            (attempts (trace (handleEvent MaxBenchmark CertificateName
                                CertificateCountry w event sel))) <= 2)%nat.
Proof.
  intros MB CN CC w event sel; unfold handleEvent.
  destruct (updateLastKnownBlockTS w (toInt (Event_BlockNumber event)))
    as [w0 r0].
  assert (Ht0 : attempts match r0 with
                         | Err _ => [Log "warn" "failed to updateLastKnownBlock"]
                         | _ => []
                         end = [])
    by (destruct r0; reflexivity).
  destruct (processEvent MB CN CC w0 event) as [w1 [[] | e | m]];
    cbn [trace]; rewrite ?attempts_app, ?Ht0; try (cbn; lia).
  destruct (Contains e "constraint"); cbn [trace];
    rewrite ?attempts_app, ?Ht0; [cbn; lia |].
  unfold retryEvent; destruct sel; [cbn; lia |].
  destruct (processEvent MB CN CC w1 event) as [w2 [[] | e2 | m2]];
    cbn; lia.
Qed.

(** X20.  A worker calls [processEvent] at most twice for every event it
    receives, and it handles no event it receives after the context was
    cancelled or the channel was closed: over any run the number of calls
    is at most twice the number of events received. *)
Theorem runEventWorker_attempts_bound :
  forall (MaxBenchmark CertificateName CertificateCountry : Z)
         (received : list Received) (w : DWH),
    (List.length
       (attempts (snd (runEventWorker MaxBenchmark CertificateName
                         CertificateCountry w received)))
     <= 2 * List.length
              (List.filter (fun r => match r with
                                     | Got _ _ => true
                                     | _ => false
                                     end) received))%nat
    /\ attempts (snd (runEventWorker MaxBenchmark CertificateName
                        CertificateCountry w (ContextCancelled :: received)))
       = []
    /\ attempts (snd (runEventWorker MaxBenchmark CertificateName
                        CertificateCountry w (ChannelClosed :: received)))
       = [].
Proof.
  intros MB CN CC received w; split; [| split; reflexivity].
  revert w; induction received as [| [| | event sel] received IH]; intro w;
    cbn [runEventWorker List.filter]; try (cbn; lia).
  pose proof (handleEvent_attempts MB CN CC w event sel) as Hone.
  destruct (crashed (handleEvent MB CN CC w event sel)).
  - cbn [snd List.length]; lia.
  - specialize (IH (after (handleEvent MB CN CC w event sel))).
    destruct (runEventWorker MB CN CC _ received) as [w' t].
    cbn [snd] in *; rewrite attempts_app, length_app; cbn [List.length]; lia.
Qed.

(* ------------------------------------------------------------------------- *)
(** ** Certificates *)

Lemma updateWhere_In :
  forall (A : Type) (sel : A -> bool) (upd : A -> A) (l : list A) (y : A),
    In y (commands.updateWhere sel upd l) ->
    exists x, In x l /\ y = (if sel x then upd x else x).
Proof.
  intros A sel upd l y H; unfold commands.updateWhere in H.
  apply in_map_iff in H; destruct H as [x [<- Hx]]; exists x; auto.
Qed.

(** The greatest identity level of a list of certificates, as the loop of
    [updateProfile] computes it. *)
Lemma maxIdentityLevel_bound :
  forall (certificates : list Certificate) (init : Z),
    let m := fold_left
               (fun maxIdentityLevel certificate =>
                  if Certificate_IdentityLevel certificate >? maxIdentityLevel
                  then Certificate_IdentityLevel certificate
                  else maxIdentityLevel) certificates init in
    init <= m
    /\ (forall c, In c certificates -> Certificate_IdentityLevel c <= m)
    /\ (m = init
        \/ exists c, In c certificates /\ Certificate_IdentityLevel c = m).
Proof.
  induction certificates as [| a l IH]; intro init; cbn [fold_left].
  - split; [lia |]. split; [intros c [] | left; reflexivity].
  - set (init' := if Certificate_IdentityLevel a >? init
                  then Certificate_IdentityLevel a else init).
    destruct (IH init') as [H1 [H2 H3]].
    assert (Hinit : init <= init' /\ Certificate_IdentityLevel a <= init'
                    /\ (init' = init \/ init' = Certificate_IdentityLevel a)).
    { subst init'; destruct (Z.gtb_spec (Certificate_IdentityLevel a) init);
        lia. }
    split; [lia |]. split.
    + intros c [<- | Hc]; [lia | apply H2; exact Hc].
    + destruct H3 as [H3 | [c [Hc H3]]].
      * destruct Hinit as [_ [_ [Hi | Hi]]]; [left; lia |].
        right; exists a; split; [left; reflexivity | lia].
      * right; exists c; split; [right; exact Hc | exact H3].
Qed.

(** A column of a profile is set whoever the profile belongs to. *)
Lemma setProfileColumn_Some :
  forall (columnName : string) (value : SqlValue) (q q' p : Profile),
    commands.setProfileColumn columnName value q = Some q' ->
    exists p',
      commands.setProfileColumn columnName value p = Some p'
      /\ Profile_UserID p' = Profile_UserID p.
Proof.
  intros columnName value q q' p H; unfold commands.setProfileColumn in *.
  destruct value as [z | t | b | cs]; try discriminate;
    repeat match goal with
           | |- context [if ?c then _ else _] => destruct c
           end;
    try discriminate; eexists; split; reflexivity.
Qed.

(** The command [updateProfile] on the first profile row of the user. *)
Lemma commands_updateProfile_head :
  forall (columnName : string) (value : SqlValue) (u : Address)
         (tx tx' : Store) (p : Profile) (rest : list Profile),
    commands.updateProfile columnName value u tx = Ok tx' ->
    List.filter (fun q => Profile_UserID q =? u) (Profiles tx) = p :: rest ->
    exists p' rest',
      commands.setProfileColumn columnName value p = Some p'
      /\ List.filter (fun q => Profile_UserID q =? u) (Profiles tx')
         = p' :: rest'
      /\ closed tx' = false
      /\ Certificates tx' = Certificates tx
      /\ Orders tx' = Orders tx
      /\ Deals tx' = Deals tx.
Proof.
  intros columnName value u tx tx' p rest H Hsel.
  assert (Hcol : exists q', commands.setProfileColumn columnName value
                              commands.emptyProfile = Some q').
  { unfold commands.updateProfile, ifOpen in H.
    destruct (closed tx); [discriminate |].
    destruct (commands.setProfileColumn columnName value commands.emptyProfile)
      as [q' |]; [exists q'; reflexivity | discriminate]. }
  destruct Hcol as [q' Hcol].
  apply commands_updateProfile_Ok in H; destruct H as [Hopen ->].
  destruct (setProfileColumn_Some _ _ _ p Hcol) as [p' [Hp' Hu]].
  exists p'; eexists; split; [exact Hp' |].
  cbn [Profiles set_Profiles closed Certificates Orders Deals].
  split; [| auto].
  rewrite updateWhere_filter, Hsel; [cbn [map]; rewrite Hp'; reflexivity |].
  intro q; destruct (setProfileColumn_Some _ _ _ q Hcol) as [q1 [Hq1 Hq]].
  rewrite Hq1, Hq; reflexivity.
Qed.

(** What [updateProfile] leaves behind: a profile row of the owner that
    holds the certificates of the owner, their greatest identity level and,
    for a name or country certificate, its value. *)
Lemma updateProfile_Ok :
  forall (CertificateName CertificateCountry : Z) (w : DWH) (tx tx5 : Store)
         (certificate : Certificate),
    Profiles tx = Profiles (db w) ->
    updateProfile CertificateName CertificateCountry w tx certificate = Ok tx5 ->
    let u := Certificate_OwnerID certificate in
    let mine := List.filter (fun c => Certificate_OwnerID c =? u)
                  (Certificates tx) in
    closed tx5 = false
    /\ Certificates tx5 = Certificates tx
    /\ Orders tx5 = Orders tx
    /\ Deals tx5 = Deals tx
    /\ exists p rest,
         List.filter (fun q => Profile_UserID q =? u) (Profiles tx5) = p :: rest
         /\ Profile_Certificates p = mine
         /\ Profile_IdentityLevel p
            = fold_left
                (fun maxIdentityLevel certificate =>
                   if Certificate_IdentityLevel certificate >? maxIdentityLevel
                   then Certificate_IdentityLevel certificate
                   else maxIdentityLevel) mine 0
         /\ (Certificate_Attribute certificate = CertificateName ->
             Profile_Name p = Certificate_Value certificate)
         /\ (Certificate_Attribute certificate = CertificateCountry ->
             CertificateCountry <> CertificateName ->
             Profile_Country p = Certificate_Value certificate).
Proof.
  intros CN CC w tx tx5 cert Hprofiles H u mine.
  unfold updateProfile in H; cbv zeta in H; fold u in H.
  apply bind_Ok in H; destruct H as [tx2 [H2 H]].
  apply bind_Ok in H; destruct H as [tx3 [H3 H]].
  apply bind_Ok in H; destruct H as [certs [Hcerts H]].
  apply bind_Ok in H; destruct H as [tx4 [H4 H5]].
  apply wrapErr_Ok in H4, H5, Hcerts.
  set (sel := fun q : Profile => Profile_UserID q =? u) in *.
  assert (F2 : exists p2 rest2,
            List.filter sel (Profiles tx2) = p2 :: rest2
            /\ Certificates tx2 = Certificates tx
            /\ Orders tx2 = Orders tx /\ Deals tx2 = Deals tx).
  { destruct (getProfileInfo w u false) as [p | e | m] eqn:Hg;
      [| | discriminate].
    - injection H2 as <-.
      unfold getProfileInfo, commands.selectProfileByID, ifOpen in Hg.
      destruct (closed (db w)); [discriminate |].
      rewrite <- Hprofiles in Hg; fold sel in Hg.
      destruct (List.filter sel (Profiles tx)) as [| p2 rest2];
        [discriminate |].
      exists p2, rest2; auto.
    - apply wrapErr_Ok, insertProfileUserID_Ok in H2; destruct H2 as [_ ->].
      cbn [Profiles set_Profiles Certificates Orders Deals].
      rewrite filter_app; cbn [List.filter]; unfold sel at 2.
      cbn [Profile_UserID]; rewrite Z.eqb_refl.
      destruct (List.filter sel (Profiles tx)) as [| p2 rest2];
        eexists; eexists; (split; [reflexivity | auto]). }
  destruct F2 as [p2 [rest2 [Hsel2 [Hc2 [Ho2 Hd2]]]]].
  assert (F3 : exists p3 rest3,
            List.filter sel (Profiles tx3) = p3 :: rest3
            /\ Certificates tx3 = Certificates tx
            /\ Orders tx3 = Orders tx /\ Deals tx3 = Deals tx
            /\ closed tx3 = false
            /\ (Certificate_Attribute cert = CN ->
                Profile_Name p3 = Certificate_Value cert)
            /\ (Certificate_Attribute cert = CC -> CC <> CN ->
                Profile_Country p3 = Certificate_Value cert)).
  { destruct (commands_updateProfile_Ok _ _ _ _ H4) as [Hopen3 _].
    unfold attributeToString in H3.
    destruct (Z.eqb_spec (Certificate_Attribute cert) CN) as [En | En].
    - apply wrapErr_Ok in H3.
      destruct (commands_updateProfile_head _ _ _ _ H3 Hsel2)
        as [p3 [rest3 [Hset [Hsel3 [_ [Hc3 [Ho3 Hd3]]]]]]].
      exists p3, rest3; split; [exact Hsel3 |].
      cbn in Hset; injection Hset as <-.
      repeat split; try congruence; intros; reflexivity.
    - destruct (Z.eqb_spec (Certificate_Attribute cert) CC) as [Ec | Ec].
      + apply wrapErr_Ok in H3.
        destruct (commands_updateProfile_head _ _ _ _ H3 Hsel2)
          as [p3 [rest3 [Hset [Hsel3 [_ [Hc3 [Ho3 Hd3]]]]]]].
        exists p3, rest3; split; [exact Hsel3 |].
        cbn in Hset; injection Hset as <-.
        repeat split; try congruence; intros; reflexivity.
      + injection H3 as <-; exists p2, rest2; split; [exact Hsel2 |].
        repeat split; congruence. }
  destruct F3 as [p3 [rest3 [Hsel3 [Hc3 [Ho3 [Hd3 [Hopen3 [Hname Hcountry]]]]]]]].
  unfold commands.selectCertificates in Hcerts.
  rewrite ifOpen_open in Hcerts by exact Hopen3.
  injection Hcerts as <-; rewrite Hc3 in *; fold mine in H4, H5.
  destruct (commands_updateProfile_head _ _ _ _ H4 Hsel3)
    as [p4 [rest4 [Hset4 [Hsel4 [_ [Hc4 [Ho4 Hd4]]]]]]].
  destruct (commands_updateProfile_head _ _ _ _ H5 Hsel4)
    as [p5 [rest5 [Hset5 [Hsel5 [Hopen5 [Hc5 [Ho5 Hd5]]]]]]].
  split; [exact Hopen5 |].
  repeat (split; [congruence |]).
  exists p5, rest5; split; [exact Hsel5 |].
  cbn in Hset4; injection Hset4 as <-.
  cbn in Hset5; injection Hset5 as <-.
  cbn; auto.
Qed.

(** X21.  A [CertificateCreated] event that is handled without error appends
    the certificate, with the identity level read off its attribute, the
    hundreds digit, and brings the profile of the owner up to date: the
    profile exists, its certificates are the certificates of the owner, its
    identity level is the greatest of theirs (zero at least), and its name
    or country is the value of the certificate when the attribute says so.
    The same profile is copied to where it is cached: every order of the
    owner carries its identity level, name, country and certificates, and
    every deal carries its certificates on the side where the owner is the
    supplier or the consumer. *)
Theorem onCertificateCreated_refreshes_profile :
  forall (CertificateName CertificateCountry : Z) (w w' : DWH)
         (certificateID : Z) (certificate : Certificate),
    GetCertificate (blockchain w) certificateID = Ok certificate ->
    onCertificateCreated CertificateName CertificateCountry w certificateID
    = (w', Ok tt) ->
    let u := Certificate_OwnerID certificate in
    let mine := List.filter (fun c => Certificate_OwnerID c =? u)
                  (Certificates (db w')) in
    Certificates (db w')
    = Certificates (db w)
      ++ [{| Certificate_OwnerID := u;
             Certificate_Attribute := Certificate_Attribute certificate;
             Certificate_IdentityLevel :=
               (Certificate_Attribute certificate / 100) mod 10;
             Certificate_Value := Certificate_Value certificate;
             Certificate_ValidatorID := Certificate_ValidatorID certificate |}]
    /\ exists profile,
         getProfileInfo w' u false = Ok profile
         /\ Profile_Certificates profile = mine
         /\ 0 <= Profile_IdentityLevel profile
         /\ (forall c, In c mine ->
               Certificate_IdentityLevel c <= Profile_IdentityLevel profile)
         /\ (Profile_IdentityLevel profile = 0
             \/ exists c, In c mine
                  /\ Certificate_IdentityLevel c = Profile_IdentityLevel profile)
         /\ (Certificate_Attribute certificate = CertificateName ->
             Profile_Name profile = Certificate_Value certificate)
         /\ (Certificate_Attribute certificate = CertificateCountry ->
             CertificateCountry <> CertificateName ->
             Profile_Country profile = Certificate_Value certificate)
         /\ (forall o, In o (Orders (db w')) ->
               Order_AuthorID (DWHOrder_Order o) = u ->
               DWHOrder_CreatorIdentityLevel o = Profile_IdentityLevel profile
               /\ DWHOrder_CreatorName o = Profile_Name profile
               /\ DWHOrder_CreatorCountry o = Profile_Country profile
               /\ DWHOrder_CreatorCertificates o = Profile_Certificates profile)
         /\ (forall d, In d (Deals (db w')) ->
               (Deal_SupplierID (DWHDeal_Deal d) = u ->
                DWHDeal_SupplierCertificates d = Profile_Certificates profile)
               /\ (Deal_ConsumerID (DWHDeal_Deal d) = u ->
                   DWHDeal_ConsumerCertificates d
                   = Profile_Certificates profile)).
Proof.
  intros CN CC w w' certificateID cert Hfetch H u mine; subst u mine.
  apply commitOrRollback_Ok in H; destruct H as [txf [H Hw']].
  rewrite Hfetch in H; cbn [wrapErr bind] in H.
  apply bind_Ok in H; destruct H as [tx [Hbegin H]].
  apply wrapErr_Ok, Begin_Ok in Hbegin; destruct Hbegin as [-> Hopen].
  apply bind_Ok in H; destruct H as [tx1 [Hins H]].
  apply wrapErr_Ok in Hins; cmd_inv Hins.
  apply bind_Ok in H; destruct H as [tx5 [Hprofile H]].
  apply wrapErr_Ok in Hprofile.
  apply bind_Ok in H; destruct H as [tx8 [Hentities H]].
  apply wrapErr_Ok in Hentities; injection H as <-.
  apply updateProfile_Ok in Hprofile; [| subst tx1; reflexivity].
  destruct Hprofile
    as [Hopen5 [Hc5 [Ho5 [Hd5 [p [rest [Hsel [Hcerts [Hlevel [Hname Hcountry]]]]]]]]]].
  unfold updateEntitiesByProfile in Hentities.
  apply bind_Ok in Hentities; destruct Hentities as [profile [Hp Hentities]].
  apply bind_Ok in Hentities; destruct Hentities as [tx6 [H6 Hentities]].
  apply bind_Ok in Hentities; destruct Hentities as [tx7 [H7 H8]].
  apply wrapErr_Ok in Hp, H6, H7, H8.
  unfold getProfileInfoTx, commands.selectProfileByID in Hp.
  rewrite ifOpen_open, Hsel in Hp by exact Hopen5; injection Hp as <-.
  assert (Hu : Profile_UserID p = Certificate_OwnerID cert).
  { assert (Hin : In p (p :: rest)) by (left; reflexivity).
    rewrite <- Hsel in Hin; apply filter_In in Hin.
    apply Z.eqb_eq; tauto. }
  rewrite Hu in H6, H7, H8.
  cmd_inv H6; cmd_inv H7; cmd_inv H8; subst tx6 tx7 tx8 w'.
  cbn [db withDB Certificates Orders Deals Profiles set_Orders set_Deals
       closed] in *.
  rewrite <- Hc5 in Hcerts, Hlevel.
  split; [rewrite Hc5, <- Hins; reflexivity |].
  exists p; split.
  { unfold getProfileInfo, commands.selectProfileByID, ifOpen.
    cbn [db withDB Certificates Orders Deals Profiles set_Orders set_Deals
         closed].
    rewrite Hopen5, Hsel; reflexivity. }
  split; [exact Hcerts |].
  destruct (maxIdentityLevel_bound
              (List.filter
                 (fun c => Certificate_OwnerID c =? Certificate_OwnerID cert)
                 (Certificates tx5)) 0) as [Hzero [Hmax Hattained]].
  cbv zeta in Hzero, Hmax, Hattained; rewrite <- Hlevel in *.
  repeat (split; [assumption |]); split.
  - intros o Ho Hauthor; apply updateWhere_In in Ho.
    destruct Ho as [x [_ ->]].
    destruct (Order_AuthorID (DWHOrder_Order x) =? Certificate_OwnerID cert)
      eqn:Hx; [repeat split |].
    apply Z.eqb_neq in Hx; contradiction.
  - intros d Hd; apply updateWhere_In in Hd; destruct Hd as [x [Hx ->]].
    apply updateWhere_In in Hx; destruct Hx as [y [_ ->]].
    destruct (Deal_SupplierID (DWHDeal_Deal y) =? Certificate_OwnerID cert)
      eqn:Hs;
      cbn [commands.setDealCertificates DWHDeal_Deal];
      destruct (Deal_ConsumerID (DWHDeal_Deal y) =? Certificate_OwnerID cert)
        eqn:Hcn;
      cbn [commands.setDealCertificates DWHDeal_Deal
           DWHDeal_SupplierCertificates DWHDeal_ConsumerCertificates];
      split; intro Heq; try reflexivity;
      first [ apply Z.eqb_neq in Hs; contradiction
            | apply Z.eqb_neq in Hcn; contradiction ].
Qed.

(* ------------------------------------------------------------------------- *)
(** ** Filters built from a request *)

Lemma Forall_plain_snoc : forall (fs : list Filter) (f : Filter),
  Forall plain fs -> plain f -> Forall plain (fs ++ [f]).
Proof.
  intros fs f Hfs Hf; apply Forall_app; split;
    [exact Hfs | constructor; [exact Hf | constructor]].
Qed.

Lemma Forall_plain_addBenchmarksConditions : forall benches fs,
  Forall plain fs -> Forall plain (addBenchmarksConditions benches fs).
Proof.
  unfold addBenchmarksConditions.
  induction benches as [| [benchID condition] benches IH]; intros fs H; simpl;
    [exact H |].
  apply IH.
  destruct (MaxMinUint64_Max condition >? 0);
    destruct (MaxMinUint64_Min condition >? 0);
    repeat (apply Forall_plain_snoc; [| repeat split; reflexivity]); exact H.
Qed.

Lemma In_addBenchmarksConditions : forall benches fs (f : Filter),
  In f fs -> In f (addBenchmarksConditions benches fs).
Proof.
  unfold addBenchmarksConditions.
  induction benches as [| [benchID condition] benches IH]; intros fs f H; simpl;
    [exact H |].
  apply IH.
  destruct (MaxMinUint64_Max condition >? 0);
    destruct (MaxMinUint64_Min condition >? 0);
    repeat (apply in_or_app; left); exact H.
Qed.

(** The filters are built in steps, each appending to the filters built so
    far. *)
Lemma filters_step :
  forall (Q : list Filter -> Prop) (V : list Filter)
         (B : list Filter -> list Filter),
    Q V -> (forall fs, Q fs -> Q (B fs)) -> Q (let filters := V in B filters).
Proof. intros Q V B HV HB; exact (HB V HV). Qed.

Lemma filters_skip :
  forall (Q : list Filter -> Prop) (V : list Filter)
         (B : list Filter -> list Filter),
    (forall fs, Q (B fs)) -> Q (let filters := V in B filters).
Proof. intros Q V B HB; exact (HB V). Qed.

(** A step keeps the filters plain. *)
Ltac plain_step :=
  repeat match goal with
         | |- Forall plain [] => constructor
         | |- Forall plain (addBenchmarksConditions _ _) =>
             apply Forall_plain_addBenchmarksConditions
         | |- Forall plain (_ ++ [_]) =>
             apply Forall_plain_snoc; [| repeat split; reflexivity]
         | |- Forall plain (let _ := _ in _) => cbv zeta
         | |- Forall plain (match ?o with _ => _ end) => destruct o
         | |- Forall plain _ => assumption
         end.

Ltac plain_steps :=
  lazymatch goal with
  | |- ?Q (let filters := ?V in @?B filters) =>
      apply (@filters_step Q V B);
      [ solve [plain_step]
      | let fs := fresh "fs" in
        let Hfs := fresh "Hfs" in
        intros fs Hfs; cbv beta; plain_steps ]
  | |- _ => solve [plain_step]
  end.

(** A step keeps the filters that are there. *)
Ltac in_step :=
  repeat match goal with
         | |- In _ (addBenchmarksConditions _ _) =>
             apply In_addBenchmarksConditions
         | |- In _ (_ ++ [_]) => apply in_or_app; left
         | |- In _ (let _ := _ in _) => cbv zeta
         | |- In _ (match ?o with _ => _ end) => destruct o
         | |- In _ _ => assumption
         end.

Ltac in_last := apply in_or_app; right; left; reflexivity.

(** The step that appends the filter is looked for from the first one on;
    [here] proves the membership at that step, and every later step keeps
    it. *)
Ltac in_steps here :=
  lazymatch goal with
  | |- ?Q (let filters := ?V in @?B filters) =>
      tryif assert (Q V) by first [solve [in_step] | solve [here]]
      then (apply (@filters_step Q V B);
            [ assumption
            | let fs := fresh "fs" in
              let Hfs := fresh "Hfs" in
              intros fs Hfs; cbv beta; in_steps here ])
      else (apply (@filters_skip Q V B);
            let fs := fresh "fs" in
            intros fs; cbv beta; in_steps here)
  | |- _ => first [solve [in_step] | solve [here]]
  end.

Lemma getDealsFilters_plain : forall request : DealsRequest,
  Forall plain (getDealsFilters request).
Proof. intro request; cbv delta [getDealsFilters]; cbv beta; plain_steps. Qed.

Lemma DealStatus_value_inj : forall a b,
  DealStatus_value a = DealStatus_value b -> a = b.
Proof. destruct a, b; simpl; congruence. Qed.

Lemma isSet_Some : forall (x : option Z) (v : Z),
  x = Some v -> v <> 0 -> isSet x = true /\ unwrap x = v.
Proof.
  intros x v -> Hv; simpl; split; [| reflexivity].
  apply Z.eqb_neq in Hv; rewrite Hv; reflexivity.
Qed.

(** The filters [getDeals] builds from the fields that are set. *)
Lemma getDealsFilters_complete : forall request : DealsRequest,
  let has := fun f => In f (getDealsFilters request) in
  ((DealStatus_value (DealsRequest_Status request) >? 0) = true ->
   has (newFilter "Status" sqlop.eq
          (VInt (DealStatus_value (DealsRequest_Status request))) "AND"))
  /\ (isSet (DealsRequest_SupplierID request) = true ->
      has (newFilter "SupplierID" sqlop.eq
             (VInt (unwrap (DealsRequest_SupplierID request))) "AND"))
  /\ (isSet (DealsRequest_ConsumerID request) = true ->
      has (newFilter "ConsumerID" sqlop.eq
             (VInt (unwrap (DealsRequest_ConsumerID request))) "AND"))
  /\ (isSet (DealsRequest_MasterID request) = true ->
      has (newFilter "MasterID" sqlop.eq
             (VInt (unwrap (DealsRequest_MasterID request))) "AND"))
  /\ (isSet (DealsRequest_AskID request) = true ->
      has (newFilter "AskID" sqlop.eq
             (VInt (unwrap (DealsRequest_AskID request))) "AND"))
  /\ (isSet (DealsRequest_BidID request) = true ->
      has (newFilter "BidID" sqlop.eq
             (VInt (unwrap (DealsRequest_BidID request))) "AND"))
  /\ (forall duration,
        DealsRequest_Duration request = Some duration ->
        has (newFilter "Duration" sqlop.gte
               (VInt (MaxMinUint64_Min duration)) "AND")
        /\ ((MaxMinUint64_Max duration >? 0) = true ->
            has (newFilter "Duration" sqlop.lte
                   (VInt (MaxMinUint64_Max duration)) "AND")))
  /\ (forall price,
        DealsRequest_Price request = Some price ->
        (forall m, MaxMinBig_Max price = Some m ->
                   has (newFilter "Price" sqlop.lte (VInt m) "AND"))
        /\ (forall m, MaxMinBig_Min price = Some m ->
                      has (newFilter "Price" sqlop.gte (VInt m) "AND")))
  /\ (forall nf,
        DealsRequest_Netflags request = Some nf ->
        (Netflags_Value nf >? 0) = true ->
        has (newNetflagsFilter (Netflags_Operator nf) (Netflags_Value nf)))
  /\ ((DealsRequest_AskIdentityLevel request >? 0) = true ->
      has (newFilter "AskIdentityLevel" sqlop.gte
             (VInt (DealsRequest_AskIdentityLevel request)) "AND"))
  /\ ((DealsRequest_BidIdentityLevel request >? 0) = true ->
      has (newFilter "BidIdentityLevel" sqlop.gte
             (VInt (DealsRequest_BidIdentityLevel request)) "AND")).
Proof.
  intros request has; subst has; cbv beta.
  repeat match goal with |- _ /\ _ => split end.
  - intro H; cbv delta [getDealsFilters]; cbv beta.
    in_steps ltac:(rewrite H; in_last).
  - intro H; cbv delta [getDealsFilters]; cbv beta.
    in_steps ltac:(rewrite H; in_last).
  - intro H; cbv delta [getDealsFilters]; cbv beta.
    in_steps ltac:(rewrite H; in_last).
  - intro H; cbv delta [getDealsFilters]; cbv beta.
    in_steps ltac:(rewrite H; in_last).
  - intro H; cbv delta [getDealsFilters]; cbv beta.
    in_steps ltac:(rewrite H; in_last).
  - intro H; cbv delta [getDealsFilters]; cbv beta.
    in_steps ltac:(rewrite H; in_last).
  - intros duration H; split; [| intro Hmax];
      cbv delta [getDealsFilters]; cbv beta.
    + in_steps ltac:(rewrite H; cbv zeta; in_last).
    + in_steps ltac:(rewrite H; cbv zeta; rewrite Hmax;
                     apply in_or_app; left; in_last).
  - intros price H; split; intros m Hm;
      cbv delta [getDealsFilters]; cbv beta.
    + in_steps ltac:(rewrite H; cbv zeta; rewrite Hm;
                     destruct (MaxMinBig_Min price);
                     [apply in_or_app; left |]; in_last).
    + in_steps ltac:(rewrite H; cbv zeta; rewrite Hm; in_last).
  - intros nf H Hv; cbv delta [getDealsFilters]; cbv beta.
    in_steps ltac:(rewrite H, Hv; in_last).
  - intro H; cbv delta [getDealsFilters]; cbv beta.
    in_steps ltac:(rewrite H; in_last).
  - intro H; cbv delta [getDealsFilters]; cbv beta.
    in_steps ltac:(rewrite H; in_last).
Qed.

(** X22.  Every deal [getDeals] returns is an indexed deal that meets each
    field set in the request: the status when it is not the zero value, the
    supplier, consumer, master, ask and bid when given and non-zero, a
    duration not below [Duration.Min] (and not above [Duration.Max] when that
    is positive), a price within the given bounds, the netflags relation,
    and identity levels not below the positive ones asked for. *)
Theorem getDeals_sound :
  forall (w : DWH) (request : DealsRequest) (reply : DWHDealsReply)
         (d : DWHDeal),
    getDeals w request = Ok reply ->
    In d (DWHDealsReply_Deals reply) ->
    let x := DWHDeal_Deal d in
    In d (Deals (db w))
    /\ (DealsRequest_Status request <> DealStatus_DEAL_UNKNOWN ->
        Deal_Status x = DealsRequest_Status request)
    /\ (forall a, DealsRequest_SupplierID request = Some a -> a <> 0 ->
                  Deal_SupplierID x = a)
    /\ (forall a, DealsRequest_ConsumerID request = Some a -> a <> 0 ->
                  Deal_ConsumerID x = a)
    /\ (forall a, DealsRequest_MasterID request = Some a -> a <> 0 ->
                  Deal_MasterID x = a)
    /\ (forall i, DealsRequest_AskID request = Some i -> i <> 0 ->
                  Deal_AskID x = i)
    /\ (forall i, DealsRequest_BidID request = Some i -> i <> 0 ->
                  Deal_BidID x = i)
    /\ (forall duration,
          DealsRequest_Duration request = Some duration ->
          Deal_Duration x >= MaxMinUint64_Min duration
          /\ (MaxMinUint64_Max duration > 0 ->
              Deal_Duration x <= MaxMinUint64_Max duration))
    /\ (forall price,
          DealsRequest_Price request = Some price ->
          (forall m, MaxMinBig_Max price = Some m -> Deal_Price x <= m)
          /\ (forall m, MaxMinBig_Min price = Some m -> Deal_Price x >= m))
    /\ (forall nf,
          DealsRequest_Netflags request = Some nf ->
          Netflags_Value nf > 0 ->
          match Netflags_Operator nf with
          | CmpOp_GTE =>
              Z.land (DWHDeal_Netflags d) (Netflags_Value nf)
              = Netflags_Value nf
          | CmpOp_LTE =>
              Z.land (DWHDeal_Netflags d) (Netflags_Value nf)
              = DWHDeal_Netflags d
          | CmpOp_EQ => DWHDeal_Netflags d = Netflags_Value nf
          end)
    /\ (DealsRequest_AskIdentityLevel request > 0 ->
        DWHDeal_AskIdentityLevel d >= DealsRequest_AskIdentityLevel request)
    /\ (DealsRequest_BidIdentityLevel request > 0 ->
        DWHDeal_BidIdentityLevel d >= DealsRequest_BidIdentityLevel request).
Proof.
  intros w request reply d H Hd x.
  unfold getDeals in H.
  destruct (runQuery _ _) as [[rows n] | e | m] eqn:Hq; try discriminate.
  injection H as <-; cbn [DWHDealsReply_Deals] in Hd.
  destruct (runQuery_In _ _ d Hq Hd) as [Hin Hw].
  cbn [table filters column tableRows DealsTable] in Hin, Hw.
  split; [exact Hin |].
  rewrite evalWhere_plain in Hw by apply getDealsFilters_plain.
  injection Hw as Hw.
  pose proof (fun f => @forallb_In _ _ _ f Hw) as Hall; clear Hw Hq Hd Hin.
  destruct (getDealsFilters_complete request)
    as [HS [HSu [HCo [HMa [HAs [HBi [HDu [HPr [HNf [HAl HBl]]]]]]]]]].
  cbv beta in HS, HSu, HCo, HMa, HAs, HBi, HDu, HPr, HNf, HAl, HBl.
  assert (Hgt : forall z : Z, z > 0 -> (z >? 0) = true)
    by (intros z Hz; apply Z.gtb_lt; lia).
  repeat match goal with |- _ /\ _ => split end.
  - intro Hne.
    assert (Hpos : (DealStatus_value (DealsRequest_Status request) >? 0) = true)
      by (destruct (DealsRequest_Status request);
          [contradiction | reflexivity | reflexivity]).
    apply DealStatus_value_inj, evalOp_eq_VInt. exact (Hall _ (HS Hpos)).
  - intros a Ha Hne; destruct (isSet_Some Ha Hne) as [Hset Hun].
    rewrite <- Hun; apply evalOp_eq_VInt; exact (Hall _ (HSu Hset)).
  - intros a Ha Hne; destruct (isSet_Some Ha Hne) as [Hset Hun].
    rewrite <- Hun; apply evalOp_eq_VInt; exact (Hall _ (HCo Hset)).
  - intros a Ha Hne; destruct (isSet_Some Ha Hne) as [Hset Hun].
    rewrite <- Hun; apply evalOp_eq_VInt; exact (Hall _ (HMa Hset)).
  - intros a Ha Hne; destruct (isSet_Some Ha Hne) as [Hset Hun].
    rewrite <- Hun; apply evalOp_eq_VInt; exact (Hall _ (HAs Hset)).
  - intros a Ha Hne; destruct (isSet_Some Ha Hne) as [Hset Hun].
    rewrite <- Hun; apply evalOp_eq_VInt; exact (Hall _ (HBi Hset)).
  - intros duration Hdur; destruct (HDu _ Hdur) as [Hmin Hmax]; split.
    + apply evalOp_gte_VInt; exact (Hall _ Hmin).
    + intro Hpos; apply evalOp_lte_VInt; exact (Hall _ (Hmax (Hgt _ Hpos))).
  - intros price Hprice; destruct (HPr _ Hprice) as [Hmax Hmin]; split;
      intros m Hm.
    + apply evalOp_lte_VInt; exact (Hall _ (Hmax _ Hm)).
    + apply evalOp_gte_VInt; exact (Hall _ (Hmin _ Hm)).
  - intros nf Hnf Hpos.
    exact (evalOp_netflags _ _ _ (Hall _ (HNf _ Hnf (Hgt _ Hpos)))).
  - intro Hpos; apply evalOp_gte_VInt; exact (Hall _ (HAl (Hgt _ Hpos))).
  - intro Hpos; apply evalOp_gte_VInt; exact (Hall _ (HBl (Hgt _ Hpos))).
Qed.

(** The filters [getOrders] builds from the fields that are set. *)
Lemma getOrdersFilters_complete : forall request : OrdersRequest,
  let has := fun f => In f (getOrdersFilters request) in
  (isSet (OrdersRequest_DealID request) = true ->
   has (newFilter "DealID" sqlop.eq
          (VInt (unwrap (OrdersRequest_DealID request))) "AND"))
  /\ ((OrderType_value (OrdersRequest_Type request) >? 0) = true ->
      has (newFilter "Type" sqlop.eq
             (VInt (OrderType_value (OrdersRequest_Type request))) "AND"))
  /\ (isSet (OrdersRequest_AuthorID request) = true ->
      has (newFilter "AuthorID" sqlop.eq
             (VInt (unwrap (OrdersRequest_AuthorID request))) "AND"))
  /\ (isSet (OrdersRequest_CounterpartyID request) = true ->
      has (newFilter "CounterpartyID" sqlop.eq
             (VInt (unwrap (OrdersRequest_CounterpartyID request))) "AND"))
  /\ (forall duration,
        OrdersRequest_Duration request = Some duration ->
        has (newFilter "Duration" sqlop.gte
               (VInt (MaxMinUint64_Min duration)) "AND")
        /\ ((MaxMinUint64_Max duration >? 0) = true ->
            has (newFilter "Duration" sqlop.lte
                   (VInt (MaxMinUint64_Max duration)) "AND")))
  /\ (forall price,
        OrdersRequest_Price request = Some price ->
        (forall m, MaxMinBig_Max price = Some m ->
                   has (newFilter "Price" sqlop.lte (VInt m) "AND"))
        /\ (forall m, MaxMinBig_Min price = Some m ->
                      has (newFilter "Price" sqlop.gte (VInt m) "AND")))
  /\ (forall nf,
        OrdersRequest_Netflags request = Some nf ->
        (Netflags_Value nf >? 0) = true ->
        has (newNetflagsFilter (Netflags_Operator nf) (Netflags_Value nf)))
  /\ ((OrdersRequest_CreatorIdentityLevel request >? 0) = true ->
      has (newFilter "CreatorIdentityLevel" sqlop.gte
             (VInt (OrdersRequest_CreatorIdentityLevel request)) "AND"))
  /\ (forall createdTS,
        OrdersRequest_CreatedTS request = Some createdTS ->
        (forall seconds, MaxMinTimestamp_Max createdTS = Some seconds ->
                         (seconds >? 0) = true ->
                         has (newFilter "CreatedTS" sqlop.lte (VInt seconds)
                                "AND"))
        /\ (forall seconds, MaxMinTimestamp_Min createdTS = Some seconds ->
                            (seconds >? 0) = true ->
                            has (newFilter "CreatedTS" sqlop.gte (VInt seconds)
                                   "AND"))).
Proof.
  intros request has; subst has; cbv beta.
  repeat match goal with |- _ /\ _ => split end.
  - intro H; cbv delta [getOrdersFilters]; cbv beta.
    in_steps ltac:(rewrite H; in_last).
  - intro H; cbv delta [getOrdersFilters]; cbv beta.
    in_steps ltac:(rewrite H; in_last).
  - intro H; cbv delta [getOrdersFilters]; cbv beta.
    in_steps ltac:(rewrite H; in_last).
  - intro H; cbv delta [getOrdersFilters]; cbv beta.
    in_steps ltac:(rewrite H; in_last).
  - intros duration H; split; [| intro Hmax];
      cbv delta [getOrdersFilters]; cbv beta.
    + in_steps ltac:(rewrite H; cbv zeta; in_last).
    + in_steps ltac:(rewrite H; cbv zeta; rewrite Hmax;
                     apply in_or_app; left; in_last).
  - intros price H; split; intros m Hm;
      cbv delta [getOrdersFilters]; cbv beta.
    + in_steps ltac:(rewrite H; cbv zeta; rewrite Hm;
                     destruct (MaxMinBig_Min price);
                     [apply in_or_app; left |]; in_last).
    + in_steps ltac:(rewrite H; cbv zeta; rewrite Hm; in_last).
  - intros nf H Hv; cbv delta [getOrdersFilters]; cbv beta.
    in_steps ltac:(rewrite H, Hv; in_last).
  - intro H; cbv delta [getOrdersFilters]; cbv beta.
    in_steps ltac:(rewrite H; in_last).
  - intros createdTS H; split; intros seconds Hs Hpos;
      cbv delta [getOrdersFilters]; cbv beta.
    + in_steps ltac:(rewrite H; cbv zeta; rewrite Hs, Hpos;
                     destruct (MaxMinTimestamp_Min createdTS) as [s |];
                     [destruct (s >? 0); [apply in_or_app; left |] |];
                     in_last).
    + in_steps ltac:(rewrite H; cbv zeta; rewrite Hs, Hpos; in_last).
Qed.

(** X23.  Every order [getOrders] returns is an indexed order that meets
    each field set in the request: the deal, author and counterparty when
    given and non-zero, the type when it is not the zero value, a duration not
    below [Duration.Min] (and not above [Duration.Max] when that is
    positive), a price and a creation time within the given bounds, the
    netflags relation, and a creator identity level not below the positive
    one asked for. *)
Theorem getOrders_sound :
  forall (w : DWH) (request : OrdersRequest) (reply : DWHOrdersReply)
         (o : DWHOrder),
    getOrders w request = Ok reply ->
    In o (DWHOrdersReply_Orders reply) ->
    let x := DWHOrder_Order o in
    In o (Orders (db w))
    /\ (forall i, OrdersRequest_DealID request = Some i -> i <> 0 ->
                  Order_DealID x = i)
    /\ (OrdersRequest_Type request <> OrderType_ANY ->
        Order_OrderType x = OrdersRequest_Type request)
    /\ (forall a, OrdersRequest_AuthorID request = Some a -> a <> 0 ->
                  Order_AuthorID x = a)
    /\ (forall a, OrdersRequest_CounterpartyID request = Some a -> a <> 0 ->
                  Order_CounterpartyID x = a)
    /\ (forall duration,
          OrdersRequest_Duration request = Some duration ->
          Order_Duration x >= MaxMinUint64_Min duration
          /\ (MaxMinUint64_Max duration > 0 ->
              Order_Duration x <= MaxMinUint64_Max duration))
    /\ (forall price,
          OrdersRequest_Price request = Some price ->
          (forall m, MaxMinBig_Max price = Some m -> Order_Price x <= m)
          /\ (forall m, MaxMinBig_Min price = Some m -> Order_Price x >= m))
    /\ (forall nf,
          OrdersRequest_Netflags request = Some nf ->
          Netflags_Value nf > 0 ->
          match Netflags_Operator nf with
          | CmpOp_GTE =>
              Z.land (Order_Netflags x) (Netflags_Value nf) = Netflags_Value nf
          | CmpOp_LTE =>
              Z.land (Order_Netflags x) (Netflags_Value nf) = Order_Netflags x
          | CmpOp_EQ => Order_Netflags x = Netflags_Value nf
          end)
    /\ (OrdersRequest_CreatorIdentityLevel request > 0 ->
        DWHOrder_CreatorIdentityLevel o
        >= OrdersRequest_CreatorIdentityLevel request)
    /\ (forall createdTS,
          OrdersRequest_CreatedTS request = Some createdTS ->
          (forall seconds, MaxMinTimestamp_Max createdTS = Some seconds ->
                           seconds > 0 -> DWHOrder_CreatedTS o <= seconds)
          /\ (forall seconds, MaxMinTimestamp_Min createdTS = Some seconds ->
                              seconds > 0 -> DWHOrder_CreatedTS o >= seconds)).
Proof.
  intros w request reply o H Ho x.
  unfold getOrders in H.
  destruct (runQuery _ _) as [[rows n] | e | m] eqn:Hq; try discriminate.
  injection H as <-; cbn [DWHOrdersReply_Orders] in Ho.
  destruct (runQuery_In _ _ o Hq Ho) as [Hin Hw].
  cbn [table filters column tableRows OrdersTable] in Hin, Hw.
  split; [exact Hin |].
  rewrite evalWhere_plain in Hw
    by apply activeFirst_plain, getOrdersFilters_activeFirst.
  injection Hw as Hw.
  pose proof (fun f => @forallb_In _ _ _ f Hw) as Hall; clear Hw Hq Ho Hin.
  destruct (getOrdersFilters_complete request)
    as [HDe [HTy [HAu [HCp [HDu [HPr [HNf [HLv HTs]]]]]]]].
  cbv beta in HDe, HTy, HAu, HCp, HDu, HPr, HNf, HLv, HTs.
  assert (Hgt : forall z : Z, z > 0 -> (z >? 0) = true)
    by (intros z Hz; apply Z.gtb_lt; lia).
  repeat match goal with |- _ /\ _ => split end.
  - intros a Ha Hne; destruct (isSet_Some Ha Hne) as [Hset Hun].
    rewrite <- Hun; apply evalOp_eq_VInt; exact (Hall _ (HDe Hset)).
  - intro Hne.
    assert (Hpos : (OrderType_value (OrdersRequest_Type request) >? 0) = true)
      by (destruct (OrdersRequest_Type request);
          [contradiction | reflexivity | reflexivity]).
    apply OrderType_value_inj, evalOp_eq_VInt. exact (Hall _ (HTy Hpos)).
  - intros a Ha Hne; destruct (isSet_Some Ha Hne) as [Hset Hun].
    rewrite <- Hun; apply evalOp_eq_VInt; exact (Hall _ (HAu Hset)).
  - intros a Ha Hne; destruct (isSet_Some Ha Hne) as [Hset Hun].
    rewrite <- Hun; apply evalOp_eq_VInt; exact (Hall _ (HCp Hset)).
  - intros duration Hdur; destruct (HDu _ Hdur) as [Hmin Hmax]; split.
    + apply evalOp_gte_VInt; exact (Hall _ Hmin).
    + intro Hpos; apply evalOp_lte_VInt; exact (Hall _ (Hmax (Hgt _ Hpos))).
  - intros price Hprice; destruct (HPr _ Hprice) as [Hmax Hmin]; split;
      intros m Hm.
    + apply evalOp_lte_VInt; exact (Hall _ (Hmax _ Hm)).
    + apply evalOp_gte_VInt; exact (Hall _ (Hmin _ Hm)).
  - intros nf Hnf Hpos.
    exact (evalOp_netflags _ _ _ (Hall _ (HNf _ Hnf (Hgt _ Hpos)))).
  - intro Hpos; apply evalOp_gte_VInt; exact (Hall _ (HLv (Hgt _ Hpos))).
  - intros createdTS Hts; destruct (HTs _ Hts) as [Hmax Hmin]; split;
      intros seconds Hs Hpos.
    + apply evalOp_lte_VInt; exact (Hall _ (Hmax _ Hs (Hgt _ Hpos))).
    + apply evalOp_gte_VInt; exact (Hall _ (Hmin _ Hs (Hgt _ Hpos))).
Qed.

(* ------------------------------------------------------------------------- *)
(** ** The further properties on the sample data *)

Lemma onDealOpened_inserts_witness :
  exists row,
    Deals (db (fst (onDealOpened 1000 samplePlaced 1))) = [row]
    /\ DWHDeal_Deal row = sampleDeal DealStatus_DEAL_ACCEPTED
    /\ DWHDeal_Netflags row = 7
    /\ DWHDeal_AskIdentityLevel row = 1
    /\ DWHDeal_ActiveChangeRequest row = true
    /\ DealChangeRequests (db samplePlaced) = []
    /\ map DealCondition_Id
         (DealConditions (db (fst (onDealOpened 1000 samplePlaced 1)))) = [1].
Proof.
  assert (Hfetch : GetDealInfo (blockchain samplePlaced) 1
                   = Ok (sampleDeal DealStatus_DEAL_ACCEPTED))
    by (vm_compute; reflexivity).
  assert (Hrun : onDealOpened 1000 samplePlaced 1
                 = (fst (onDealOpened 1000 samplePlaced 1), Ok tt))
    by (vm_compute; reflexivity).
  assert (Hask : exists a,
            getOrderDetails samplePlaced 10 = Ok a
            /\ Order_Netflags (DWHOrder_Order a) = 7
            /\ Order_IdentityLevel (DWHOrder_Order a) = 1)
    by (eexists; split; [lazy; reflexivity | split; reflexivity]).
  destruct Hask as [a [Hask [Hflags Hlevel]]].
  destruct (@onDealOpened_inserts 1000 samplePlaced _ 1 _ Hfetch Hrun)
    as [ask [bid [row [Hask' [_ [Hdeals [_ [Hdeal [Hnet [Hlev [_ [_ [_
         [Hflag [Hconds _]]]]]]]]]]]]]]].
  change (Deal_AskID (sampleDeal DealStatus_DEAL_ACCEPTED)) with 10 in Hask'.
  rewrite Hask in Hask'; injection Hask' as <-.
  exists row; split; [rewrite Hdeals; reflexivity |].
  split; [exact Hdeal |].
  split; [rewrite Hnet; exact Hflags |].
  split; [rewrite Hlev; exact Hlevel |].
  split; [exact Hflag |].
  split; [vm_compute; reflexivity |].
  rewrite Hconds; vm_compute; reflexivity.
Defined.

Lemma onDealOpened_waits_for_orders_witness :
  exists e,
    onDealOpened 1000 (sampleDWH DealStatus_DEAL_ACCEPTED) 1
    = (sampleDWH DealStatus_DEAL_ACCEPTED, Err e)
    /\ Contains e "constraint" = false
    /\ In (NewTimer eventRetryTime)
         (trace (handleEvent 1000 1102 1303
                   (sampleDWH DealStatus_DEAL_ACCEPTED)
                   (sampleEvent (DealOpenedData 1) 20) TimerC)).
Proof.
  apply (@onDealOpened_waits_for_orders 1000 1102 1303
           (sampleDWH DealStatus_DEAL_ACCEPTED) 1 1 20
           (sampleDeal DealStatus_DEAL_ACCEPTED) TimerC).
  - vm_compute; reflexivity.
  - vm_compute; reflexivity.
  - left; intros o Ho; vm_compute in Ho; destruct Ho.
Defined.

Lemma processEvent_atomic_witness :
  fst (processEvent 1000 1102 1303 sampleOpened sampleFailing) = sampleOpened.
Proof.
  apply (@processEvent_atomic 1000 1102 1303 sampleOpened _ sampleFailing
           (snd (processEvent 1000 1102 1303 sampleOpened sampleFailing))).
  - apply surjective_pairing.
  - vm_compute; discriminate.
Defined.

Lemma onDealChangeRequestUpdated_accepted_witness :
  exists w',
    onDealChangeRequestUpdated sampleLater 40 100 = (w', Ok tt)
    /\ map DealChangeRequest_Id (DealChangeRequests (db sampleLater)) = [100]
    /\ DealChangeRequests (db w') = []
    /\ map DealCondition_EndTime (DealConditions (db sampleLater)) = [0]
    /\ map DealCondition_EndTime (DealConditions (db w')) = [40; 0]
    /\ map DealCondition_StartTime (DealConditions (db w')) = [50; 40]
    /\ map DealCondition_Price (DealConditions (db w')) = [100; 90].
Proof.
  assert (Hfetch : GetDealChangeRequestInfo (blockchain sampleLater) 100
                   = Ok (sampleChangeRequest 100
                           ChangeRequestStatus_REQUEST_ACCEPTED))
    by (vm_compute; reflexivity).
  assert (Hdeal : exists deal,
            getDealDetails sampleLater 1 = Ok deal
            /\ Deal_Id (DWHDeal_Deal deal) = 1)
    by (eexists; split; [lazy; reflexivity | reflexivity]).
  destruct Hdeal as [deal [Hdeal Hid]].
  assert (Hconds : getDealConditions sampleLater (lastConditionsRequest 1)
                   = Ok {| DealConditionsReply_Conditions := [sampleCondition];
                           DealConditionsReply_Count := 0 |})
    by (vm_compute; reflexivity).
  rewrite <- Hid in Hconds.
  destruct (@onDealChangeRequestUpdated_accepted sampleLater 40 100 _ deal
              sampleCondition [] 0 Hfetch eq_refl Hdeal Hconds)
    as [w' [H1 [H2 [H3 _]]]].
  exists w'; split; [exact H1 |].
  split; [vm_compute; reflexivity |].
  split; [rewrite H3; vm_compute; reflexivity |].
  split; [vm_compute; reflexivity |].
  rewrite H2; repeat split; vm_compute; reflexivity.
Defined.

Lemma onDealChangeRequestUpdated_without_conditions_witness :
  exists m,
    onDealChangeRequestUpdated sampleUnconditioned 40 100
    = (sampleUnconditioned, Panic m).
Proof.
  assert (Hdeal : exists deal, getDealDetails sampleUnconditioned 1 = Ok deal)
    by (eexists; lazy; reflexivity).
  destruct Hdeal as [deal Hdeal].
  apply (@onDealChangeRequestUpdated_without_conditions sampleUnconditioned 40
           100 (sampleChangeRequest 100 ChangeRequestStatus_REQUEST_ACCEPTED)
           deal).
  - vm_compute; reflexivity.
  - reflexivity.
  - exact Hdeal.
  - intros c Hc; vm_compute in Hc; destruct Hc.
Defined.

Lemma onDealChangeRequestUpdated_resolves_witness :
  exists w',
    onDealChangeRequestUpdated sampleBilling 40 100 = (w', Ok tt)
    /\ map DealChangeRequest_Status (DealChangeRequests (db sampleBilling))
       = [ChangeRequestStatus_REQUEST_CREATED]
    /\ map DealChangeRequest_Id (DealChangeRequests (db w')) = [100]
    /\ map DealChangeRequest_Status (DealChangeRequests (db w'))
       = [ChangeRequestStatus_REQUEST_REJECTED]
    /\ DealConditions (db w') = DealConditions (db sampleBilling).
Proof.
  assert (Hfetch : GetDealChangeRequestInfo (blockchain sampleBilling) 100
                   = Ok (sampleChangeRequest 100
                           ChangeRequestStatus_REQUEST_REJECTED))
    by (vm_compute; reflexivity).
  assert (Hopen : closed (db sampleBilling) = false)
    by (vm_compute; reflexivity).
  destruct (@onDealChangeRequestUpdated_resolves sampleBilling 40 100 _
              Hfetch Hopen)
    as [w' [H1 [H2 [H3 _]]]]; [discriminate |].
  exists w'; split; [exact H1 |].
  split; [vm_compute; reflexivity |].
  split; [rewrite H2; vm_compute; reflexivity |].
  split; [rewrite H2; vm_compute; reflexivity | exact H3].
Defined.

Lemma onBilled_without_conditions_witness :
  onBilled (sampleDWH DealStatus_DEAL_ACCEPTED) 30 1 10
  = (sampleDWH DealStatus_DEAL_ACCEPTED,
     Err "no deal conditions found for deal `1`").
Proof.
  apply (@onBilled_without_conditions (sampleDWH DealStatus_DEAL_ACCEPTED)
           30 1 10).
  - vm_compute; reflexivity.
  - intros c Hc; vm_compute in Hc; destruct Hc.
Defined.

Lemma onOrderUpdated_effect_witness :
  (map commands.orderKey (Orders (db sampleOpened)) = [10; 11; 13]
   /\ map commands.orderKey (Orders (db (fst (onOrderUpdated sampleOpened 10))))
      = [11; 13]
   /\ profileCounter OrderType_ASK 1 (db sampleOpened) = 1
   /\ profileCounter OrderType_ASK 1
        (db (fst (onOrderUpdated sampleOpened 10))) = 0)
  /\ (map (fun o => Order_OrderStatus (DWHOrder_Order o))
         (Orders (db sampleBilling))
       = [OrderStatus_ORDER_ACTIVE; OrderStatus_ORDER_ACTIVE;
          OrderStatus_ORDER_ACTIVE]
      /\ map (fun o => Order_OrderStatus (DWHOrder_Order o))
           (Orders (db (fst (onOrderUpdated sampleBilling 10))))
         = [OrderStatus_ORDER_INACTIVE; OrderStatus_ORDER_ACTIVE;
            OrderStatus_ORDER_ACTIVE]
      /\ map (fun o => Order_DealID (DWHOrder_Order o))
           (Orders (db (fst (onOrderUpdated sampleBilling 10))))
         = [0; 0; 0]).
Proof.
  split.
  - assert (Hfetch : GetOrderInfo (blockchain sampleOpened) 10
                     = Ok (sampleOrder 10 OrderType_ASK
                             OrderStatus_ORDER_ACTIVE 1 0 90 2000 7))
      by (vm_compute; reflexivity).
    assert (Hrange : countersInRange (db sampleOpened)) by in_range.
    assert (Hrun : onOrderUpdated sampleOpened 10
                   = (fst (onOrderUpdated sampleOpened 10), Ok tt))
      by (vm_compute; reflexivity).
    destruct (@onOrderUpdated_effect sampleOpened _ 10 _ Hfetch Hrange Hrun)
      as [H1 [H2 _]].
    split; [vm_compute; reflexivity |].
    split; [rewrite H1; vm_compute; reflexivity |].
    split; [vm_compute; reflexivity |].
    etransitivity; [exact H2 | vm_compute; reflexivity].
  - assert (Hfetch : GetOrderInfo (blockchain sampleBilling) 10
                     = Ok sampleAssignedOrder)
      by (vm_compute; reflexivity).
    assert (Hrange : countersInRange (db sampleBilling)) by in_range.
    assert (Hrun : onOrderUpdated sampleBilling 10
                   = (fst (onOrderUpdated sampleBilling 10), Ok tt))
      by (vm_compute; reflexivity).
    destruct (@onOrderUpdated_effect sampleBilling _ 10 _ Hfetch Hrange Hrun)
      as [H1 _].
    split; [vm_compute; reflexivity |].
    rewrite H1; split; vm_compute; reflexivity.
Defined.

Lemma onOrderUpdated_refused_witness :
  exists e,
    onOrderUpdated (sampleDWH DealStatus_DEAL_ACCEPTED) 12
    = (sampleDWH DealStatus_DEAL_ACCEPTED, Err e).
Proof.
  apply (@onOrderUpdated_refused (sampleDWH DealStatus_DEAL_ACCEPTED) 12
           (sampleOrder 12 OrderType_ASK OrderStatus_ORDER_INACTIVE 1 0 95
              1000 3)); vm_compute; reflexivity.
Defined.

Lemma handleEvent_advances_cursor_witness :
  LastKnownBlock (db sampleStarted) = [0]
  /\ LastKnownBlock
       (db (after (handleEvent 1000 1102 1303 sampleStarted sampleFailing
                     TimerC)))
     = [1]
  /\ LastKnownBlock
       (db (after (handleEvent 1000 1102 1303 sampleStarted sampleFarBlock
                     TimerC)))
     = [- 2 ^ 63].
Proof.
  assert (Hopen : closed (db sampleStarted) = false)
    by (vm_compute; reflexivity).
  assert (Hnear : 0 <= Event_BlockNumber sampleFailing < 2 ^ 64)
    by (vm_compute; split; [discriminate | reflexivity]).
  assert (Hfar : 0 <= Event_BlockNumber sampleFarBlock < 2 ^ 64)
    by (vm_compute; split; [discriminate | reflexivity]).
  split; [vm_compute; reflexivity |]. split.
  - rewrite (@handleEvent_advances_cursor 1000 1102 1303 sampleStarted
               sampleFailing TimerC Hopen Hnear).
    vm_compute; reflexivity.
  - rewrite (@handleEvent_advances_cursor 1000 1102 1303 sampleStarted
               sampleFarBlock TimerC Hopen Hfar).
    vm_compute; reflexivity.
Defined.

Lemma cursor_resumes_from_last_event_witness :
  LastKnownBlock (db sampleStarted) = [0]
  /\ watchMarketEvents_lastKnownBlock
       (after (handleEvent 1000 1102 1303 sampleStarted sampleFailing TimerC))
     = (after (handleEvent 1000 1102 1303 sampleStarted sampleFailing TimerC),
        Ok 1)
  /\ exists w2,
       watchMarketEvents_lastKnownBlock
         (after (handleEvent 1000 1102 1303 sampleStarted sampleFarBlock
                   TimerC))
       = (w2, Ok 0)
       /\ LastKnownBlock (db w2) = [- 2 ^ 63; 0].
Proof.
  assert (Hstart : watchMarketEvents_lastKnownBlock sampleOpened
                   = (sampleStarted, Ok 0))
    by (vm_compute; reflexivity).
  assert (Hnear : 0 <= Event_BlockNumber sampleFailing < 2 ^ 64)
    by (vm_compute; split; [discriminate | reflexivity]).
  assert (Hfar : 0 <= Event_BlockNumber sampleFarBlock < 2 ^ 64)
    by (vm_compute; split; [discriminate | reflexivity]).
  destruct (@cursor_resumes_from_last_event 1000 1102 1303 sampleOpened
              sampleStarted 0 sampleFailing TimerC Hstart Hnear)
    as [H1 [H2 _]].
  destruct (@cursor_resumes_from_last_event 1000 1102 1303 sampleOpened
              sampleStarted 0 sampleFarBlock TimerC Hstart Hfar)
    as [_ [_ H3]].
  split; [apply H1; vm_compute; reflexivity |].
  split; [apply H2; vm_compute; reflexivity |].
  destruct H3 as [_ [w2 [Hrun [Hrows _]]]]; [vm_compute; discriminate |].
  exists w2; split; [exact Hrun |].
  rewrite Hrows; vm_compute; reflexivity.
Defined.

Lemma replay_keeps_counters_in_range_witness :
  countersInRange (db sampleOpened)
  /\ countersInRange
       (db (replay 1000 1102 1303 sampleOpened
              [sampleEvent (OrderUpdatedData 10) 30;
               sampleEvent (OrderUpdatedData 10) 31])).
Proof.
  assert (Hrange : countersInRange (db sampleOpened)) by in_range.
  split; [exact Hrange |].
  exact (@replay_keeps_counters_in_range 1000 1102 1303
           [sampleEvent (OrderUpdatedData 10) 30;
            sampleEvent (OrderUpdatedData 10) 31] sampleOpened Hrange).
Defined.

Lemma worker_lifecycle_witness :
  exists w1 w2 w3,
    onWorkerAnnounced sampleOpened 1 5 = (w1, Ok tt)
    /\ getWorkers w1 allWorkers
       = Ok {| WorkersReply_Workers :=
                 [{| DWHWorker_MasterID := 1; DWHWorker_SlaveID := 5;
                     DWHWorker_Confirmed := false |}];
               WorkersReply_Count := 0 |}
    /\ onWorkerConfirmed w1 1 5 = (w2, Ok tt)
    /\ getWorkers w2 allWorkers
       = Ok {| WorkersReply_Workers :=
                 [{| DWHWorker_MasterID := 1; DWHWorker_SlaveID := 5;
                     DWHWorker_Confirmed := true |}];
               WorkersReply_Count := 0 |}
    /\ onWorkerRemoved w2 1 5 = (w3, Ok tt)
    /\ Workers (db w3) = [].
Proof.
  destruct (@worker_lifecycle sampleOpened 1 5)
    as [w1 [w2 [w3 [H1 [H2 [H3 [H4 [H5 H6]]]]]]]].
  - vm_compute; reflexivity.
  - intros x Hx; vm_compute in Hx; destruct Hx.
  - exists w1, w2, w3; repeat (split; [assumption |]); exact H6.
Defined.

Lemma getBlacklist_lists_addees_witness :
  getBlacklist (fst (onAddedToBlacklist sampleOpened 1 2)) (blacklistOf 1)
  = Ok {| BlacklistReply_OwnerID := Some 1;
          BlacklistReply_Addresses := [2];
          BlacklistReply_Count := 0 |}.
Proof.
  etransitivity; [apply getBlacklist_lists_addees |];
    vm_compute; reflexivity.
Defined.

Lemma blacklist_add_remove_witness :
  exists r1 w2 r2,
    getBlacklist (fst (onAddedToBlacklist sampleOpened 1 2)) (blacklistOf 1)
    = Ok r1
    /\ In 2 (BlacklistReply_Addresses r1)
    /\ onRemovedFromBlacklist (fst (onAddedToBlacklist sampleOpened 1 2)) 1 2
       = (w2, Ok tt)
    /\ getBlacklist w2 (blacklistOf 1) = Ok r2
    /\ ~ In 2 (BlacklistReply_Addresses r2).
Proof.
  destruct (@blacklist_add_remove sampleOpened
              (fst (onAddedToBlacklist sampleOpened 1 2)) 1 2)
    as [r1 [w2 [r2 [H1 [H2 [H3 [H4 H5]]]]]]].
  - discriminate.
  - vm_compute; reflexivity.
  - exists r1, w2, r2; repeat (split; [assumption |]).
    intro H; apply H5 in H; destruct H as [_ Hne]; apply Hne; reflexivity.
Defined.

Lemma onValidatorDeleted_keeps_row_witness :
  map Validator_Id (Validators (db sampleValidated)) = [7]
  /\ map Validator_Id
       (Validators (db (fst (onValidatorDeleted sampleValidated 7)))) = [7].
Proof.
  split; [vm_compute; reflexivity |].
  assert (Hfetch : GetValidator (blockchain sampleValidated) 7
                   = Ok sampleValidator)
    by (vm_compute; reflexivity).
  assert (Hrun : onValidatorDeleted sampleValidated 7
                 = (fst (onValidatorDeleted sampleValidated 7), Ok tt))
    by (vm_compute; reflexivity).
  destruct (@onValidatorDeleted_keeps_row sampleValidated _ 7 _ Hfetch Hrun)
    as [H _].
  rewrite H; vm_compute; reflexivity.
Defined.

Lemma getDealConditions_of_deal_witness :
  exists reply,
    getDealConditions sampleOpened (lastConditionsRequest 1) = Ok reply
    /\ (forall c, In c (DealConditionsReply_Conditions reply) ->
          DealCondition_DealID c = 1)
    /\ StronglySorted (fun a b => DealCondition_Id b <= DealCondition_Id a)
         (DealConditionsReply_Conditions reply).
Proof.
  assert (Hrun : exists reply,
            getDealConditions sampleOpened (lastConditionsRequest 1)
            = Ok reply)
    by (eexists; lazy; reflexivity).
  destruct Hrun as [reply Hrun].
  destruct (@getDealConditions_of_deal sampleOpened _ reply Hrun) as [H1 H2].
  exists reply; split; [exact Hrun |]. split.
  - intros c Hc; destruct (H1 c Hc) as [_ Hd]; exact Hd.
  - apply H2; reflexivity.
Defined.

Lemma onOrderPlaced_indexes_order_witness :
  exists row,
    getOrderDetails (fst (onOrderPlaced 1000 samplePlaced 12 13)) 13 = Ok row
    /\ DWHOrder_CreatedTS row = 12.
Proof.
  assert (Hfetch : GetOrderInfo (blockchain samplePlaced) 13
                   = Ok (sampleOrder 13 OrderType_ASK OrderStatus_ORDER_ACTIVE
                           3 0 80 1500 3))
    by (vm_compute; reflexivity).
  assert (Hrun : onOrderPlaced 1000 samplePlaced 12 13
                 = (fst (onOrderPlaced 1000 samplePlaced 12 13), Ok tt))
    by (vm_compute; reflexivity).
  destruct (@onOrderPlaced_indexes_order 1000 samplePlaced _ 12 13 _ Hfetch
              Hrun)
    as [[Hs _] | [row [_ [Hdet [_ [Hts _]]]]]]; [discriminate Hs |].
  exists row; split; [exact Hdet | exact Hts].
Defined.

Lemma onCertificateCreated_refreshes_profile_witness :
  exists profile,
    getProfileInfo (fst (onCertificateCreated 1102 1303 sampleLater 500)) 1
      false = Ok profile
    /\ Profile_Name profile = "Alice"
    /\ forall o,
         In o (Orders (db (fst (onCertificateCreated 1102 1303 sampleLater
                                  500)))) ->
         Order_AuthorID (DWHOrder_Order o) = 1 ->
         DWHOrder_CreatorName o = "Alice".
Proof.
  assert (Hfetch : GetCertificate (blockchain sampleLater) 500
                   = Ok sampleCertificate)
    by (vm_compute; reflexivity).
  assert (Hrun : onCertificateCreated 1102 1303 sampleLater 500
                 = (fst (onCertificateCreated 1102 1303 sampleLater 500),
                    Ok tt))
    by (vm_compute; reflexivity).
  destruct (@onCertificateCreated_refreshes_profile 1102 1303 sampleLater _
              500 _ Hfetch Hrun)
    as [_ [profile [Hp [_ [_ [_ [_ [Hname [_ [Horders _]]]]]]]]]].
  exists profile; split; [exact Hp |].
  split; [apply Hname; reflexivity |].
  intros o Ho Hu; destruct (Horders o Ho Hu) as [_ [Hn _]].
  rewrite Hn; apply Hname; reflexivity.
Defined.

Lemma getDeals_sound_witness :
  exists reply,
    getDeals sampleOpened sampleDeals = Ok reply
    /\ map (fun d => Deal_Id (DWHDeal_Deal d)) (DWHDealsReply_Deals reply)
       = [1]
    /\ forall d, In d (DWHDealsReply_Deals reply) ->
         Deal_Status (DWHDeal_Deal d) = DealStatus_DEAL_ACCEPTED
         /\ Deal_SupplierID (DWHDeal_Deal d) = 1
         /\ 500 <= Deal_Duration (DWHDeal_Deal d) <= 2000.
Proof.
  assert (Hrun : exists reply,
            getDeals sampleOpened sampleDeals = Ok reply
            /\ map (fun d => Deal_Id (DWHDeal_Deal d))
                 (DWHDealsReply_Deals reply) = [1])
    by (eexists; split; [lazy; reflexivity | reflexivity]).
  destruct Hrun as [reply [Hrun Hids]].
  exists reply; split; [exact Hrun |]. split; [exact Hids |].
  intros d Hd.
  destruct (@getDeals_sound sampleOpened sampleDeals reply d Hrun Hd)
    as [_ [Hs [Hsu [_ [_ [_ [_ [Hdu _]]]]]]]].
  destruct (Hdu _ eq_refl) as [Hmin Hmax].
  split; [apply Hs; discriminate |].
  split; [apply (Hsu 1); [reflexivity | discriminate] |].
  cbn in Hmin, Hmax; split; [lia | apply Hmax; reflexivity].
Defined.

Lemma getOrders_sound_witness :
  exists reply,
    getOrders sampleOpened sampleAsks = Ok reply
    /\ map commands.orderKey (DWHOrdersReply_Orders reply) = [13]
    /\ forall o, In o (DWHOrdersReply_Orders reply) ->
         Order_OrderType (DWHOrder_Order o) = OrderType_ASK
         /\ Order_AuthorID (DWHOrder_Order o) = 3
         /\ Order_Price (DWHOrder_Order o) <= 85.
Proof.
  assert (Hrun : exists reply,
            getOrders sampleOpened sampleAsks = Ok reply
            /\ map commands.orderKey (DWHOrdersReply_Orders reply) = [13])
    by (eexists; split; [lazy; reflexivity | reflexivity]).
  destruct Hrun as [reply [Hrun Hids]].
  exists reply; split; [exact Hrun |]. split; [exact Hids |].
  intros o Ho.
  destruct (@getOrders_sound sampleOpened sampleAsks reply o Hrun Ho)
    as [_ [_ [Ht [Ha [_ [_ [Hp _]]]]]]].
  destruct (Hp _ eq_refl) as [Hmax _].
  split; [apply Ht; discriminate |].
  split; [apply (Ha 3); [reflexivity | discriminate] |].
  apply (Hmax 85); reflexivity.
Defined.
